(** * Volume-profile mean-reversion trader: model and verified properties

    A shallow embedding of the numeric core of the repository:

    - [strategies/volume_profile_strategy.py]: profile estimation, the
      development score, the ATR gate, the lookback search and the entry rules;
    - [agents/position_manager.py]: the exit evaluation;
    - [agents/strategy_agent.py], [agents/trading_agent.py], [database.py]:
      the scan cycle, the confirmation and execution loop, and the trades table;
    - [hyperliquid_executor.py] and the rest of [agents/position_manager.py]
      and [database.py]: orders and closes on the exchange, the monitoring
      loop, the updates of the table and the conversion of a market snapshot.

    Python [float] and [numpy.float64] values are IEEE-754 binary64 numbers;
    they are modelled by Rocq's primitive [float], whose operations are the
    same binary64 operations (NaN, signed zeros and infinities included).
    Python [int] is [Z].  Bounds on rounded results are proved from the
    definitions of [SpecFloat], with the reals as the yardstick. *)

From Stdlib Require Import Reals Lra.
From Stdlib Require Import ZArith List String Bool Lia Floats Sorted.
Import ListNotations.

Set Warnings "-inexact-float".

Local Open Scope Z_scope.

(* ===================================================================== *)
(** * Python values                                                      *)
(* ===================================================================== *)

Module Py.

(** The exceptions the modelled code can meet. *)
Inductive exn : Type :=
| ValueError
| OverflowError
| IndexError.

(** A computation that returns or raises. *)
Inductive exc (A : Type) : Type :=
| Return (a : A)
| Raise (e : exn).

Arguments Return {A} a.
Arguments Raise {A} e.

Definition bind {A B : Type} (c : exc A) (k : A -> exc B) : exc B :=
  match c with
  | Return a => k a
  | Raise e => Raise e
  end.

(** [try: return c  except Exception: return d] *)
Definition try_except {A : Type} (c : exc A) (d : A) : A :=
  match c with
  | Return a => a
  | Raise _ => d
  end.

(** [bool(x)] for a float: every value but [0.0] and [-0.0]; NaN is truthy. *)
Definition truthy_float (x : float) : bool := negb (x =? 0)%float.

(** [bool(n)] for an int. *)
Definition truthy_int (n : Z) : bool := negb (n =? 0).

(** [bool(x)] for a value that may be [None]. *)
Definition truthy_opt {A : Type} (t : A -> bool) (x : option A) : bool :=
  match x with
  | Some a => t a
  | None => false
  end.

(** An int as a float (exact for the magnitudes used here, below [2^53]). *)
Definition float_of_Z (n : Z) : float :=
  if 0 <=? n then PrimFloat.of_uint63 (Uint63.of_Z n)
  else (- PrimFloat.of_uint63 (Uint63.of_Z (- n)))%float.

(** The integer part of [m * 2^e], for a positive mantissa. *)
Definition trunc_mag (m : positive) (e : Z) : Z :=
  if 0 <=? e then Zpos m * 2 ^ e else Zpos m / 2 ^ (- e).

(** [int(x)]: truncation toward zero; NaN raises [ValueError], an infinity
    raises [OverflowError]. *)
Definition int_of_float (x : float) : exc Z :=
  match Prim2SF x with
  | S754_nan => Raise ValueError
  | S754_infinity _ => Raise OverflowError
  | S754_zero _ => Return 0
  | S754_finite s m e =>
      Return (if s then - trunc_mag m e else trunc_mag m e)
  end.

(** The nearest integer to [m * 2^e], halves to the even neighbour. *)
Definition nearest_mag (m : positive) (e : Z) : Z :=
  if 0 <=? e then Zpos m * 2 ^ e
  else
    let d := 2 ^ (- e) in
    let q := Zpos m / d in
    let r := Zpos m mod d in
    if 2 * r <? d then q
    else if d <? 2 * r then q + 1
    else if Z.even q then q else q + 1.

(** [round(x)] with one argument: the nearest int, halves to even. *)
Definition round_float (x : float) : exc Z :=
  match Prim2SF x with
  | S754_nan => Raise ValueError
  | S754_infinity _ => Raise OverflowError
  | S754_zero _ => Return 0
  | S754_finite s m e =>
      Return (if s then - nearest_mag m e else nearest_mag m e)
  end.

(** The builtin [max(a, b)] on floats: [b] when [b > a], else [a]. *)
Definition max_float (a b : float) : float := if (a <? b)%float then b else a.

(** [range(start, stop, step)] for a positive step. *)
Fixpoint range_from (n : nat) (start step : Z) : list Z :=
  match n with
  | O => []
  | S n' => start :: range_from n' (start + step) step
  end.

Definition range (start stop step : Z) : list Z :=
  range_from (Z.to_nat ((stop - start + step - 1) / step)) start step.

(** [a / d] for an int [a] and a positive int [d]: the binary64 number nearest
    to the quotient, in one rounding, halves to even; [OverflowError] when it
    is beyond the range of a float. *)
Definition int_truediv (a : Z) (d : positive) : exc float :=
  let quotient (s : bool) (m : positive) : exc float :=
    match SFdiv prec emax (S754_finite s m 0) (S754_finite false d 0) with
    | S754_infinity _ => Raise OverflowError
    | q => Return (SF2Prim q)
    end in
  match a with
  | Z0 => Return 0%float
  | Zpos m => quotient false m
  | Zneg m => quotient true m
  end.

End Py.

Notation "x <- c ;; k" := (Py.bind c (fun x => k))
  (at level 61, c at next level, right associativity).

(* ===================================================================== *)
(** * The trades table (database.py)                                     *)
(* ===================================================================== *)

(** A row of the [trades] table, as [dict(row)] hands it to the agents: the
    columns they read and the entry columns [log_trade] fills.  Nullable
    columns are options; [leverage] is a REAL column, so an int written to it
    comes back as a float.  The columns that are only written after the entry
    ([exit_price], [pnl], [exit_strategy], [candles_held]) are kept by trade
    id in [TradesTable.Written]. *)
Record Position : Type := mkPosition {
  pos_id : nat;
  pos_symbol : string;
  pos_action : string;
  pos_size : float;
  pos_leverage : float;
  pos_entry_price : float;
  pos_stop_loss : option float;
  pos_take_profit : option float;
  pos_status : string;
  pos_exit_conditions : option string;
  pos_timeout_candles : option Z;
  pos_timeframe : string
}.

(* ===================================================================== *)
(** * Exit evaluation (agents/position_manager.py)                       *)
(* ===================================================================== *)

Module PositionManager.

Section ExitConditions.

(** The parsed form of the [exit_conditions] column and [json.loads], which
    raises on text that is not JSON. *)
Variable JSON : Type.
Variable json_loads : string -> Py.exc JSON.
Variable empty_object : JSON.

(** [json.loads(position['exit_conditions']) if position['exit_conditions']
    else {}] *)
Definition parse_exit_conditions (position : Position) : Py.exc JSON :=
  match pos_exit_conditions position with
  | None => Py.Return empty_object
  | Some s =>
      if (String.length s =? 0)%nat then Py.Return empty_object
      else json_loads s
  end.

(** The take-profit test of lines 94-99. *)
Definition take_profit_hit (position : Position) (current_price : float) : bool :=
  match pos_take_profit position with
  | Some take_profit =>
      Py.truthy_float take_profit &&
      ((String.eqb (pos_action position) "LONG" && (take_profit <=? current_price)%float)
       || (String.eqb (pos_action position) "SHORT" && (current_price <=? take_profit)%float))
  | None => false
  end.

(** The stop-loss test of lines 102-107. *)
Definition stop_loss_hit (position : Position) (current_price : float) : bool :=
  match pos_stop_loss position with
  | Some stop_loss =>
      Py.truthy_float stop_loss &&
      ((String.eqb (pos_action position) "LONG" && (current_price <=? stop_loss)%float)
       || (String.eqb (pos_action position) "SHORT" && (stop_loss <=? current_price)%float))
  | None => false
  end.

(** The timeout test of lines 110-112. *)
Definition timeout_hit (position : Position) (candles_held : Z) : bool :=
  match pos_timeout_candles position with
  | Some timeout_candles =>
      Py.truthy_int timeout_candles && (timeout_candles <=? candles_held)
  | None => false
  end.

(** [check_exit_conditions(position, current_price, candles_held)]:
    [(should_exit, exit_reason)]. Any exception gives [(False, None)]. *)
Definition check_exit_conditions (position : Position) (current_price : float)
    (candles_held : Z) : bool * option string :=
  Py.try_except
    (_ <- parse_exit_conditions position ;;
     Py.Return
       (if take_profit_hit position current_price then (true, Some "take_profit"%string)
        else if stop_loss_hit position current_price then (true, Some "stop_loss"%string)
        else if timeout_hit position candles_held then (true, Some "timeout"%string)
        else (false, None)))
    (false, None).

End ExitConditions.

End PositionManager.

(* ===================================================================== *)
(** * Candles and the pandas / numpy operations the strategy calls       *)
(* ===================================================================== *)

(** One OHLCV row of the data frame. *)
Record Candle : Type := mkCandle {
  c_open : float;
  c_high : float;
  c_low : float;
  c_close : float;
  c_volume : float
}.

Module Pandas.

Local Open Scope float_scope.

(** [len(df)] *)
Definition len {A : Type} (l : list A) : Z := Z.of_nat (List.length l).

(** [Series.max()] and [Series.min()] of a NaN-free column (NaN when empty). *)
Definition series_max (xs : list float) : float :=
  match xs with
  | [] => nan
  | x :: r => fold_left (fun acc y => if acc <? y then y else acc) r x
  end.

Definition series_min (xs : list float) : float :=
  match xs with
  | [] => nan
  | x :: r => fold_left (fun acc y => if y <? acc then y else acc) r x
  end.

(** The eight running sums of numpy's pairwise summation, one per position
    modulo 8. *)
Record Lanes : Type := mkLanes {
  lane0 : float; lane1 : float; lane2 : float; lane3 : float;
  lane4 : float; lane5 : float; lane6 : float; lane7 : float
}.

(** Every full group of eight values is added to the running sums; the
    values after the last full group are left over. *)
Fixpoint add_groups (r : Lanes) (xs : list float) : Lanes * list float :=
  match xs with
  | a0 :: a1 :: a2 :: a3 :: a4 :: a5 :: a6 :: a7 :: rest =>
      add_groups
        (mkLanes (lane0 r + a0) (lane1 r + a1) (lane2 r + a2) (lane3 r + a3)
           (lane4 r + a4) (lane5 r + a5) (lane6 r + a6) (lane7 r + a7))
        rest
  | _ => (r, xs)
  end.

(** A block of at most 128 values: fewer than eight are added one after the
    other from 0; otherwise the running sums start as the first eight values,
    take in the full groups, are added two by two, and the values left over
    are added one after the other. *)
Definition block_sum (xs : list float) : float :=
  match xs with
  | a0 :: a1 :: a2 :: a3 :: a4 :: a5 :: a6 :: a7 :: rest =>
      let (r, left_over) := add_groups (mkLanes a0 a1 a2 a3 a4 a5 a6 a7) rest in
      fold_left PrimFloat.add left_over
        (((lane0 r + lane1 r) + (lane2 r + lane3 r))
         + ((lane4 r + lane5 r) + (lane6 r + lane7 r)))
  | _ => fold_left PrimFloat.add xs 0
  end.

(** More than 128 values are the sum of two parts, the first of half the
    length less its remainder modulo 8.  [depth] bounds the number of
    splits; the length of the list is more than enough. *)
Fixpoint pairwise_sum (depth : nat) (xs : list float) : float :=
  match depth with
  | S depth' =>
      if (128 <? List.length xs)%nat then
        let half := (List.length xs / 2)%nat in
        let n2 := (half - half mod 8)%nat in
        pairwise_sum depth' (firstn n2 xs) + pairwise_sum depth' (skipn n2 xs)
      else block_sum xs
  | O => block_sum xs
  end.

(** [Series.sum()] of a float column: pandas puts 0 for the NaN entries
    ([skipna]) and [numpy.add.reduce] adds the values pairwise onto the
    identity of the sum.  The identity is taken as 0; the sign of a sum that
    is zero is the library version's own. *)
Definition series_sum (xs : list float) : float :=
  0 + pairwise_sum (List.length xs) (map (fun x => if is_nan x then 0 else x) xs).

(** [df.tail(n)]: the last [n] rows; all but the first [-n] for a negative [n]. *)
Definition tail {A : Type} (n : Z) (l : list A) : list A :=
  if (n <? 0)%Z then skipn (Z.to_nat (- n)) l
  else skipn (List.length l - Z.to_nat n) l.

(** [df.iloc[-k]] for [k >= 1]; [IndexError] when the frame is shorter. *)
Definition iloc_from_end {A : Type} (k : nat) (l : list A) : Py.exc A :=
  match nth_error (rev l) (k - 1) with
  | Some a => Py.Return a
  | None => Py.Raise Py.IndexError
  end.

(** [np.linspace(start, stop, num)] with the end point included:
    [arange(num) * step + start], the last entry set to [stop]. *)
Definition linspace (start stop : float) (num : Z) : list float :=
  let div := (num - 1)%Z in
  let delta := stop - start in
  let step := delta / Py.float_of_Z div in
  let point (i : nat) : float :=
    let y := Py.float_of_Z (Z.of_nat i) in
    (if (0 <? div)%Z then
       (if step =? 0 then (y / Py.float_of_Z div) * delta else y * step)
     else y * delta) + start in
  let n := Z.to_nat num in
  map (fun i => if (1 <? num)%Z && (i =? n - 1)%nat then stop else point i) (seq 0 n).

(** Two neighbouring bin edges that decrease, or that coincide. *)
Fixpoint has_descent (bins : list float) : bool :=
  match bins with
  | a :: ((b :: _) as r) => (b <? a) || has_descent r
  | _ => false
  end.

Fixpoint has_duplicate (bins : list float) : bool :=
  match bins with
  | a :: ((b :: _) as r) => (a =? b) || has_duplicate r
  | _ => false
  end.

(** [bins.searchsorted(x, side='left')]: how many edges lie below [x]. *)
Definition searchsorted_left (bins : list float) (x : float) : nat :=
  List.length (filter (fun b => b <? x) bins).

(** The bin of one value: right-closed intervals, the lowest edge included,
    [None] (NaN) outside the edges. *)
Definition cut_one (bins : list float) (x : float) : option nat :=
  let ids :=
    match bins with
    | b0 :: _ => if x =? b0 then 1%nat else searchsorted_left bins x
    | [] => searchsorted_left bins x
    end in
  if (ids =? List.length bins)%nat || (ids =? 0)%nat then None
  else Some (ids - 1)%nat.

(** [pd.cut(xs, bins=bins, labels=False, include_lowest=True)]: [ValueError]
    when the edges decrease somewhere, or repeat (unless there are just two). *)
Definition cut (xs : list float) (bins : list float) : Py.exc (list (option nat)) :=
  if has_descent bins then Py.Raise Py.ValueError
  else if has_duplicate bins && negb (List.length bins =? 2)%nat then Py.Raise Py.ValueError
  else Py.Return (map (cut_one bins) xs).

(** [data.groupby('price_bin')['volume'].sum()]: one summed volume per bin
    that holds a row, in ascending bin order.  The sum of a group is the
    compensated sum of pandas' [group_sum]: a NaN value is passed over, and a
    compensation that becomes NaN (after an infinite value) is reset. *)
Definition kahan_step (state : float * float) (val : float) : float * float :=
  let (sumx, compensation) := state in
  if is_nan val then state
  else
    let y := val - compensation in
    let t := sumx + y in
    let c := t - sumx - y in
    (t, if is_nan c then 0 else c).

Definition group_sum (vs : list float) : float :=
  fst (fold_left kahan_step vs (0, 0)).

Definition group_volumes (labels : list (option nat)) (volumes : list float)
    (k : nat) : list float :=
  map snd
    (filter (fun lv => match fst lv with
                       | Some j => (j =? k)%nat
                       | None => false
                       end)
            (combine labels volumes)).

Definition groupby_sum (labels : list (option nat)) (volumes : list float)
    (nbins : nat) : list (nat * float) :=
  flat_map (fun k => match group_volumes labels volumes k with
                     | [] => []
                     | vs => [(k, group_sum vs)]
                     end)
           (seq 0 nbins).

(** [Series.idxmax()]: the first label that carries the largest value, NaN
    entries skipped; [ValueError] when nothing is left. *)
Definition idxmax_step (best : option (nat * float)) (kv : nat * float)
    : option (nat * float) :=
  if is_nan (snd kv) then best
  else match best with
       | None => Some kv
       | Some (_, b) => if b <? snd kv then Some kv else best
       end.

Definition idxmax (groups : list (nat * float)) : Py.exc nat :=
  match fold_left idxmax_step groups None with
  | Some (k, _) => Py.Return k
  | None => Py.Raise Py.ValueError
  end.

End Pandas.

(* ===================================================================== *)
(** * The strategy (strategies/volume_profile_strategy.py)               *)
(* ===================================================================== *)

(** The dict [calculate_volume_profile] returns. *)
Record Profile : Type := mkProfile {
  poc : float;
  value_area_high : float;
  value_area_low : float;
  sigma_2_high : float;
  sigma_2_low : float;
  mean_price : float;
  std_price : float;
  developed : bool;
  development_score : float;
  lookback : Z;
  num_candles : Z
}.

Inductive Direction : Type := LONG | SHORT | NEUTRAL.

(** The [metadata] dict of a LONG or SHORT signal. *)
Record Metadata : Type := mkMetadata {
  entry_level : string;
  meta_poc : float;
  meta_value_area_high : float;
  meta_value_area_low : float;
  meta_lookback : Z;
  meta_timeout_candles : Z
}.

(** The [reasoning] text: a fixed sentence for NEUTRAL, and for a setup the
    f-string of lines 377 and 433, kept as the values it formats. *)
Inductive Reasoning : Type :=
| Reason (text : string)
| SetupReason (level : string) (wick close_price poc_price score atr : float).

(** The dict [generate_signals] returns. Keys a NEUTRAL signal lacks are
    [None]; its [metadata] is the empty dict. *)
Record Signal : Type := mkSignal {
  symbol : string;
  direction : Direction;
  confidence : float;
  entry_price : float;
  target_price : float;
  stop_loss : float;
  leverage : Z;
  timeframe : string;
  volume_profile : option Profile;
  atr_percent : option float;
  risk_reward : option float;
  reasoning : Reasoning;
  metadata : option Metadata
}.

(** The strategy object: its constructor arguments and [optimal_lookback]. *)
Record Strategy : Type := mkStrategy {
  self_symbol : string;
  self_timeframe : string;
  lookback_min : Z;
  lookback_max : Z;
  tp_fraction : float;
  atr_min : float;
  atr_max : float;
  timeout_candles : Z;
  optimal_lookback : Z
}.

Definition set_optimal_lookback (self : Strategy) (l : Z) : Strategy :=
  mkStrategy (self_symbol self) (self_timeframe self) (lookback_min self)
    (lookback_max self) (tp_fraction self) (atr_min self) (atr_max self)
    (timeout_candles self) l.

Module VolumeProfileStrategy.

Local Open Scope float_scope.

Section Strategy.

(** Library statistics the strategy calls and that are not arithmetic of its
    own: the POC of the last ten candles ([pd.cut] with twenty bins, then the
    midpoint of the fullest interval; it may raise), [scipy.stats.skew],
    [scipy.stats.kurtosis(fisher=False)], and the rolling mean behind
    [calculate_atr]. *)
Variable recent_poc_of : list Candle -> Py.exc float.
Variable skew_of : list float -> float.
Variable kurtosis_of : list float -> float.
Variable calculate_atr : list Candle -> float.

(** ** _check_development *)

Definition poc_drift_score (poc_drift : float) : float :=
  if poc_drift <? 0.3 then 100
  else Py.max_float 0 (100 - (poc_drift - 0.3) * 200).

Definition skewness_score (skewness : float) : float :=
  if abs skewness <=? 0.25 then 100
  else Py.max_float 0 (100 - (abs skewness - 0.25) * 200).

Definition kurtosis_score (kurtosis : float) : float :=
  if (2.5 <=? kurtosis) && (kurtosis <=? 3.5) then 100
  else Py.max_float 0 (100 - abs (kurtosis - 3.0) * 50).

Definition va_score (va_coverage : float) : float :=
  if 65 <=? va_coverage then 100 else va_coverage * (100 / 65).

(** [((data['close'] >= va_low) & (data['close'] <= va_high)).sum()] *)
Definition within_va (data : list Candle) (va_low va_high : float) : Z :=
  Pandas.len (filter (fun c => (va_low <=? c_close c) && (c_close c <=? va_high)) data).

(** [sum(scores) / len(scores)] for the four scores. *)
Definition quality_of (s1 s2 s3 s4 : float) : float :=
  ((((0 + s1) + s2) + s3) + s4) / 4.

(** The body of the [try] block. *)
Definition check_development_body (data : list Candle) (poc mean std : float)
    : Py.exc (bool * float) :=
  s1 <- (if (10 <=? Pandas.len data)%Z then
           recent_poc <- recent_poc_of (Pandas.tail 10 data) ;;
           let poc_drift := abs (recent_poc - poc) / poc * 100 in
           Py.Return (poc_drift_score poc_drift)
         else Py.Return 50) ;;
  let skewness := skew_of (map c_close data) in
  let s2 := skewness_score skewness in
  let kurtosis := kurtosis_of (map c_close data) in
  let s3 := kurtosis_score kurtosis in
  let va_high := mean + std in
  let va_low := mean - std in
  let va_coverage :=
    Py.float_of_Z (within_va data va_low va_high)
    / Py.float_of_Z (Pandas.len data) * 100 in
  let s4 := va_score va_coverage in
  let quality_score := quality_of s1 s2 s3 s4 in
  let is_developed := 70 <=? quality_score in
  Py.Return (is_developed, quality_score).

(** [_check_development(data, poc, mean, std)]; [(False, 0)] on an exception. *)
Definition _check_development (data : list Candle) (poc mean std : float)
    : bool * float :=
  Py.try_except (check_development_body data poc mean std) (false, 0).

(** ** calculate_volume_profile *)

(** The body of the [try] block; [Return None] is the early [return None].
    The [vwap] column of line 90 is written and never read; it cannot raise
    and is left out. *)
Definition calculate_volume_profile_body (df : list Candle) (lookback : Z)
    : Py.exc (option Profile) :=
  if (Pandas.len df <? lookback)%Z then Py.Return None
  else
    let data := Pandas.tail lookback df in
    let num_bins := Z.min 50 (Pandas.len data / 2) in
    let high_max := Pandas.series_max (map c_high data) in
    let low_min := Pandas.series_min (map c_low data) in
    let price_range := high_max - low_min in
    let bin_size := price_range / Py.float_of_Z num_bins in
    let bins := Pandas.linspace low_min high_max (num_bins + 1) in
    price_bin <- Pandas.cut (map c_close data) bins ;;
    let volume_profile :=
      Pandas.groupby_sum price_bin (map c_volume data) (Z.to_nat num_bins) in
    poc_bin <- Pandas.idxmax volume_profile ;;
    let poc_price := nth poc_bin bins nan + bin_size / 2 in
    let total_volume := Pandas.series_sum (map c_volume data) in
    let weighted_prices := map (fun c => c_close c * c_volume c) data in
    let mean_price := Pandas.series_sum weighted_prices / total_volume in
    let variance :=
      Pandas.series_sum
        (map (fun c => (c_close c - mean_price) * (c_close c - mean_price) * c_volume c)
             data)
      / total_volume in
    let std_price := sqrt variance in
    let value_area_high := mean_price + std_price in
    let value_area_low := mean_price - std_price in
    let sigma_2_high := mean_price + 2 * std_price in
    let sigma_2_low := mean_price - 2 * std_price in
    let '(developed, dev_score) :=
      _check_development data poc_price mean_price std_price in
    Py.Return
      (Some (mkProfile poc_price value_area_high value_area_low sigma_2_high
               sigma_2_low mean_price std_price developed dev_score lookback
               (Pandas.len data))).

Definition calculate_volume_profile (df : list Candle) (lookback : Z)
    : option Profile :=
  Py.try_except (calculate_volume_profile_body df lookback) None.

(** ** _neutral_signal *)

Definition _neutral_signal (self : Strategy) (reason : string) : Signal :=
  mkSignal (self_symbol self) NEUTRAL 0 0 0 0 1%Z (self_timeframe self)
    None None None (Reason reason) None.

(** ** _check_entry_conditions *)

(** [min(20, max(2, int(risk_reward * 3)))] *)
Definition leverage_of (risk_reward : float) : Py.exc Z :=
  n <- Py.int_of_float (risk_reward * 3) ;;
  Py.Return (Z.min 20 (Z.max 2 n)).

Definition long_setup (self : Strategy) (current_price current_low : float)
    (profile : Profile) (atr : float) : Py.exc Signal :=
  let va_low := value_area_low profile in
  let level_stop :=
    if current_low <=? sigma_2_low profile
    then ("2σ"%string, sigma_2_low profile - sigma_2_low profile * 0.0025)
    else ("1σ"%string, sigma_2_low profile - va_low * 0.0015) in
  let entry_level := fst level_stop in
  let stop_loss := snd level_stop in
  let distance_to_poc := abs (poc profile - current_price) in
  let target_price := current_price + distance_to_poc * tp_fraction self in
  let risk := current_price - stop_loss in
  let reward := target_price - current_price in
  let risk_reward := if 0 <? risk then reward / risk else 0 in
  leverage <- leverage_of risk_reward ;;
  Py.Return
    (mkSignal (self_symbol self) LONG (development_score profile) current_price
       target_price stop_loss leverage (self_timeframe self) (Some profile)
       (Some atr) (Some risk_reward)
       (SetupReason entry_level current_low current_price (poc profile)
          (development_score profile) atr)
       (Some (mkMetadata entry_level (poc profile) (value_area_high profile)
                va_low (lookback profile) (timeout_candles self)))).

Definition short_setup (self : Strategy) (current_price current_high : float)
    (profile : Profile) (atr : float) : Py.exc Signal :=
  let va_high := value_area_high profile in
  let level_stop :=
    if sigma_2_high profile <=? current_high
    then ("2σ"%string, sigma_2_high profile + sigma_2_high profile * 0.0025)
    else ("1σ"%string, sigma_2_high profile + va_high * 0.0015) in
  let entry_level := fst level_stop in
  let stop_loss := snd level_stop in
  let distance_to_poc := abs (current_price - poc profile) in
  let target_price := current_price - distance_to_poc * tp_fraction self in
  let risk := stop_loss - current_price in
  let reward := current_price - target_price in
  let risk_reward := if 0 <? risk then reward / risk else 0 in
  leverage <- leverage_of risk_reward ;;
  Py.Return
    (mkSignal (self_symbol self) SHORT (development_score profile) current_price
       target_price stop_loss leverage (self_timeframe self) (Some profile)
       (Some atr) (Some risk_reward)
       (SetupReason entry_level current_high current_price (poc profile)
          (development_score profile) atr)
       (Some (mkMetadata entry_level (poc profile) va_high
                (value_area_low profile) (lookback profile) (timeout_candles self)))).

(** [va_low <= current_price <= va_high] *)
Definition closed_inside (current_price : float) (profile : Profile) : bool :=
  (value_area_low profile <=? current_price)
  && (current_price <=? value_area_high profile).

Definition _check_entry_conditions (self : Strategy)
    (current_price current_low current_high prev_close : float)
    (profile : Profile) (atr : float) : Py.exc Signal :=
  if (current_low <=? value_area_low profile) && closed_inside current_price profile
  then long_setup self current_price current_low profile atr
  else if (value_area_high profile <=? current_high) && closed_inside current_price profile
  then short_setup self current_price current_high profile atr
  else Py.Return (_neutral_signal self "Waiting for mean reversion setup").

(** ** generate_signals *)

(** The loop variables of lines 272-281, with the list of lookbacks for which
    [calculate_volume_profile] has been called. *)
Record Search : Type := mkSearch {
  best_profile : option Profile;
  best_score : float;
  found_lookback : Z;
  evaluated : list Z
}.

(** One iteration of the [for lookback in range(...)] loop. *)
Definition search_step (df : list Candle) (st : Search) (lookback : Z) : Search :=
  match calculate_volume_profile df lookback with
  | Some profile =>
      if developed profile && (best_score st <? development_score profile)
      then mkSearch (Some profile) (development_score profile) lookback
             (evaluated st ++ [lookback])
      else mkSearch (best_profile st) (best_score st) (found_lookback st)
             (evaluated st ++ [lookback])
  | None =>
      mkSearch (best_profile st) (best_score st) (found_lookback st)
        (evaluated st ++ [lookback])
  end.

Definition search_lookbacks (self : Strategy) (df : list Candle) : Search :=
  fold_left (search_step df)
    (Py.range (lookback_min self) (lookback_max self + 1) 10)
    (mkSearch None 0 (optimal_lookback self) []).

(** [not (self.atr_min <= atr_percent <= self.atr_max)] negated. *)
Definition atr_in_band (self : Strategy) (atr : float) : bool :=
  (atr_min self <=? atr) && (atr <=? atr_max self).

(** What one call of [generate_signals] leaves behind: the returned value
    ([None] is Python's [None]), the strategy object, and the lookbacks for
    which a volume profile was computed, in order. *)
Record Outcome : Type := mkOutcome {
  returned : option Signal;
  self_after : Strategy;
  profiled : list Z
}.

(** [generate_signals], given what [hl.get_ohlcv_data] returned. *)
Definition generate_signals (self : Strategy) (fetched : option (list Candle))
    : Outcome :=
  match fetched with
  | None => mkOutcome None self []
  | Some df =>
      if (Pandas.len df <? lookback_max self)%Z then mkOutcome None self []
      else
        let atr := calculate_atr df in
        if negb (atr_in_band self atr)
        then mkOutcome (Some (_neutral_signal self "ATR outside optimal range")) self []
        else
          let st := search_lookbacks self df in
          let self' := set_optimal_lookback self (found_lookback st) in
          match best_profile st with
          | None =>
              mkOutcome (Some (_neutral_signal self' "Volume profile not developed"))
                self' (evaluated st)
          | Some best =>
              mkOutcome
                (Py.try_except
                   (current_candle <- Pandas.iloc_from_end 1 df ;;
                    prev_candle <- Pandas.iloc_from_end 2 df ;;
                    signal <- _check_entry_conditions self'
                                (c_close current_candle) (c_low current_candle)
                                (c_high current_candle) (c_close prev_candle)
                                best atr ;;
                    Py.Return (Some signal))
                   None)
                self' (evaluated st)
          end
  end.

End Strategy.

End VolumeProfileStrategy.

(* ===================================================================== *)
(** * Configuration (config.py)                                          *)
(* ===================================================================== *)

Module Config.

Definition HYPERLIQUID_MAX_LEVERAGE : Z := 20.
Definition HYPERLIQUID_MIN_LEVERAGE : Z := 2.
Definition usd_size : float := 50.
Definition ENABLE_STRATEGIES : bool := true.
Definition STRATEGY_TIMEFRAMES : list string := ["1m"; "5m"]%string.
Definition VP_LOOKBACK_MIN : Z := 50.
Definition VP_LOOKBACK_MAX : Z := 120.
Definition VP_TP_FRACTION : float := 0.9.
Definition VP_ATR_MIN : float := 0.15.
Definition VP_ATR_MAX : float := 0.55.
Definition VP_TIMEOUT_CANDLES : Z := 15.

(** The strategy [StrategyAgent.__init__] builds for a symbol and timeframe. *)
Definition strategy_for (symbol timeframe : string) : Strategy :=
  mkStrategy symbol timeframe VP_LOOKBACK_MIN VP_LOOKBACK_MAX VP_TP_FRACTION
    VP_ATR_MIN VP_ATR_MAX VP_TIMEOUT_CANDLES VP_LOOKBACK_MIN.

End Config.

(* ===================================================================== *)
(** * The trades table, continued (database.py)                          *)
(* ===================================================================== *)

Module TradingDatabase.

(** The table: its rows in the order of their insertion, oldest first.  The
    [timestamp] of a row is [datetime.now().isoformat()] at its insertion;
    with a clock that moves forward between two insertions this is also the
    ascending order of the timestamps. *)
Definition table : Type := list Position.

Definition is_open_for (symbol : string) (p : Position) : bool :=
  String.eqb (pos_symbol p) symbol && String.eqb (pos_status p) "open".

(** [SELECT * FROM trades WHERE symbol = ? AND status = 'open' LIMIT 1] *)
Definition get_position_by_symbol (db : table) (symbol : string) : option Position :=
  find (is_open_for symbol) db.

(** [SELECT * FROM trades WHERE status = 'open' ORDER BY timestamp DESC]:
    the open rows, newest first. *)
Definition get_open_positions (db : table) : list Position :=
  rev (filter (fun p => String.eqb (pos_status p) "open") db).

(** What SQLite makes of the values bound to an INSERT.  A float NaN is
    stored as NULL; an int must be a signed 64-bit integer ([OverflowError]
    otherwise); an int in a REAL column becomes the nearest float. *)
Definition sql_real (x : float) : option float :=
  if is_nan x then None else Some x.

Definition sql_int (n : Z) : bool :=
  (- 2 ^ 63 <=? n) && (n <? 2 ^ 63).

Definition sql_real_of_int (n : Z) : float :=
  SF2Prim (binary_normalize prec emax n 0 false).

(** [log_trade]: a new row with status ['open']; the fresh id stands for the
    uuid.  [size] and [entry_price] are NOT NULL columns, which refuse the
    NULL of a NaN ([IntegrityError]); [leverage] and [timeout_candles] are
    ints and must fit ([OverflowError]); [None] is either exception, and
    nothing is written then. *)
Definition log_trade (db : table) (symbol action : string) (size : float)
    (leverage : Z) (entry_price stop_loss take_profit : float)
    (timeframe : string) (timeout_candles : Z) (exit_conditions : option string)
    : option (table * nat) :=
  if is_nan size || is_nan entry_price then None
  else if sql_int leverage && sql_int timeout_candles then
    let trade_id := List.length db in
    Some (db ++ [mkPosition trade_id symbol action size (sql_real_of_int leverage)
                   entry_price (sql_real stop_loss) (sql_real take_profit) "open"
                   exit_conditions (Some timeout_candles) timeframe],
          trade_id)
  else None.

(** How many open rows the table holds for a symbol. *)
Definition open_count (db : table) (symbol : string) : nat :=
  List.length (filter (is_open_for symbol) db).

End TradingDatabase.

(* ===================================================================== *)
(** * The scan cycle (agents/strategy_agent.py)                          *)
(* ===================================================================== *)

Module StrategyAgent.

Section Scan.

Variable HYPERLIQUID_SYMBOLS : list string.
Variable STRATEGY_TIMEFRAMES : list string.

(** [self.strategies[symbol][timeframe].generate_signals()] on the market of
    the moment; [Raise] is an exception, which the loop catches. *)
Variable scan : string -> string -> Py.exc (option Signal).

Definition is_neutral (s : Signal) : bool :=
  match direction s with
  | NEUTRAL => true
  | _ => false
  end.

(** The inner loop over the timeframes: the signals that are not NEUTRAL. *)
Definition symbol_signals (symbol : string) : list Signal :=
  flat_map (fun timeframe =>
              match scan symbol timeframe with
              | Py.Return (Some signal) => if is_neutral signal then [] else [signal]
              | Py.Return None => []
              | Py.Raise _ => []
              end)
           STRATEGY_TIMEFRAMES.

(** [max(symbol_signals, key=lambda x: x['confidence'])]: the first signal of
    the largest confidence. *)
Definition max_by_confidence (first : Signal) (rest : list Signal) : Signal :=
  fold_left (fun best x => if (confidence best <? confidence x)%float then x else best)
    rest first.

(** The body of the loop over the symbols, from the signals gathered so far. *)
Definition scan_symbol (db : TradingDatabase.table) (all_signals : list Signal)
    (symbol : string) : list Signal :=
  match TradingDatabase.get_position_by_symbol db symbol with
  | Some _ => all_signals
  | None =>
      match symbol_signals symbol with
      | [] => all_signals
      | first :: rest =>
          let best_signal := max_by_confidence first rest in
          (all_signals ++ [best_signal]) ++ [best_signal]
      end
  end.

(** [StrategyAgent.run()]: [None] when strategies are disabled. *)
Definition run (enabled : bool) (db : TradingDatabase.table) : option (list Signal) :=
  if negb enabled then None
  else Some (fold_left (scan_symbol db) HYPERLIQUID_SYMBOLS []).

End Scan.

End StrategyAgent.

(* ===================================================================== *)
(** * Confirmation and execution (agents/trading_agent.py)               *)
(* ===================================================================== *)

Module TradingAgent.

(** The dict [analyze_and_confirm_trade] returns, without its texts. *)
Record Confirmation : Type := mkConfirmation {
  approved : bool;
  adjusted_leverage : Z;
  adjusted_size_pct : Z
}.

Definition direction_name (d : Direction) : string :=
  match d with
  | LONG => "LONG"
  | SHORT => "SHORT"
  | NEUTRAL => "NEUTRAL"
  end.

Section Trading.

(** The answer of the model, already parsed; the exchange's answer to a
    market order; and [json.dumps] of the exit conditions. *)
Variable ai_confirms : Signal -> Confirmation.
Variable market_order : string -> bool -> float -> Z -> bool.
Variable json_dumps : float -> float -> Z -> string.

(** [analyze_and_confirm_trade]: a signal without profile or metadata makes
    the prompt fail, which rejects. *)
Definition analyze_and_confirm_trade (signal : Signal) : Confirmation :=
  match volume_profile signal, metadata signal with
  | Some _, Some _ => ai_confirms signal
  | _, _ => mkConfirmation false (leverage signal) 100
  end.

(** [execute_trade]: the table afterwards and the ['success'] of the result.
    An exception anywhere (the size that overflows in [size_pct / 100], a
    [log_trade] that raises after the order was filled) is caught at line
    293 and gives a failure; nothing is written then. *)
Definition execute_trade (db : TradingDatabase.table) (signal : Signal)
    (confirmation : Confirmation) : TradingDatabase.table * bool :=
  let size_pct := adjusted_size_pct confirmation in
  match Py.int_truediv size_pct 100 with
  | Py.Raise _ => (db, false)
  | Py.Return fraction =>
      let adjusted_size := (Config.usd_size * fraction)%float in
      let is_buy := match direction signal with LONG => true | _ => false end in
      if market_order (symbol signal) is_buy adjusted_size
           (adjusted_leverage confirmation)
      then
        let timeout :=
          match metadata signal with
          | Some m => meta_timeout_candles m
          | None => 15
          end in
        match
          TradingDatabase.log_trade db (symbol signal)
            (direction_name (direction signal)) adjusted_size
            (adjusted_leverage confirmation) (entry_price signal)
            (stop_loss signal) (target_price signal) (timeframe signal) timeout
            (Some (json_dumps (target_price signal) (stop_loss signal) timeout))
        with
        | Some (db', _) => (db', true)
        | None => (db, false)
        end
      else (db, false)
  end.

(** One turn of the loop of [run]: the table afterwards. *)
Definition process_signal (db : TradingDatabase.table) (signal : Signal)
    : TradingDatabase.table :=
  let confirmation := analyze_and_confirm_trade signal in
  if approved confirmation then fst (execute_trade db signal confirmation)
  else db.

(** [TradingAgent.run(signals)], as its effect on the table. *)
Definition run (db : TradingDatabase.table) (signals : list Signal)
    : TradingDatabase.table :=
  fold_left process_signal signals db.

End Trading.

End TradingAgent.

(** One trading cycle of [main_v1.py], steps 3 and 4: scan, then confirm and
    execute what the scan returned. *)
Definition trading_cycle (symbols timeframes : list string)
    (scan : string -> string -> Py.exc (option Signal))
    (ai_confirms : Signal -> TradingAgent.Confirmation)
    (market_order : string -> bool -> float -> Z -> bool)
    (json_dumps : float -> float -> Z -> string)
    (db : TradingDatabase.table) : TradingDatabase.table :=
  match StrategyAgent.run symbols timeframes scan Config.ENABLE_STRATEGIES db with
  | Some signals => TradingAgent.run ai_confirms market_order json_dumps db signals
  | None => db
  end.


(* ===================================================================== *)
(** * The exchange (hyperliquid_executor.py)                             *)
(* ===================================================================== *)

Module HyperliquidExecutor.

Local Open Scope float_scope.

(** The dict [market_order] returns; its ['success'] is always [True]. *)
Record Order : Type := mkOrder {
  order_symbol : string;
  order_direction : string;
  order_size_usd : float;
  order_size_contracts : float;
  order_entry_price : float;
  order_leverage : Z
}.

(** The dict [get_open_position] returns, without the liquidation price. *)
Record Holding : Type := mkHolding {
  held_size : float;
  held_entry_price : float;
  held_unrealized_pnl : float;
  held_leverage : float
}.

(** The dict [close_position] returns; its ['success'] is always [True]. *)
Record Closed : Type := mkClosed {
  closed_symbol : string;
  closed_size : float;
  closed_entry_price : float;
  closed_exit_price : float;
  closed_pnl : float
}.

Section Executor.

(** [self.testnet], and the two queries that go to the exchange:
    [get_current_price] and [get_open_position], [None] when the request
    fails, raises, or does not list the symbol. *)
Variable testnet : bool.
Variable get_current_price : string -> option float.
Variable get_open_position : string -> option Holding.

(** [if not current_price]: [None] and [0.0] are falsy. *)
Definition usable_price (symbol : string) : option float :=
  match get_current_price symbol with
  | Some current_price =>
      if Py.truthy_float current_price then Some current_price else None
  | None => None
  end.

(** [market_order(symbol, is_buy, size_usd, leverage)]: simulated on the
    testnet, refused otherwise. *)
Definition market_order (symbol : string) (is_buy : bool) (size_usd : float)
    (leverage : Z) : option Order :=
  match usable_price symbol with
  | None => None
  | Some current_price =>
      let size_in_contracts := size_usd / current_price in
      if testnet
      then Some (mkOrder symbol (if is_buy then "LONG" else "SHORT") size_usd
                   size_in_contracts current_price leverage)
      else None
  end.

(** [close_position(symbol)] *)
Definition close_position (symbol : string) : option Closed :=
  match get_open_position symbol with
  | None => None
  | Some position =>
      match usable_price symbol with
      | None => None
      | Some exit_price =>
          if testnet
          then
            let size := abs (held_size position) in
            let pnl :=
              if 0 <? held_size position
              then (exit_price - held_entry_price position) * size
              else (held_entry_price position - exit_price) * size in
            Some (mkClosed symbol (held_size position) (held_entry_price position)
                    exit_price pnl)
          else None
      end
  end.

End Executor.

End HyperliquidExecutor.

(* ===================================================================== *)
(** * The trades table, its updates (database.py)                        *)
(* ===================================================================== *)

Module TradesTable.

(** The columns of a [trades] row that the code only writes, with the
    defaults of the schema: [exit_price] and [exit_strategy] NULL, [pnl] and
    [candles_held] 0. *)
Record Written : Type := mkWritten {
  w_exit_price : option float;
  w_pnl : option float;
  w_exit_strategy : option string;
  w_candles_held : Z
}.

Definition unwritten : Written := mkWritten None (Some 0%float) None 0.

(** A row of the [position_updates] table. *)
Record PositionUpdate : Type := mkPositionUpdate {
  u_trade_id : nat;
  u_current_price : float;
  u_unrealized_pnl : option float;
  u_candles_held : Z
}.

(** The database: the rows of [trades] as the agents read them, the
    write-only columns by trade id, and the [position_updates] table. *)
Record Store : Type := mkStore {
  trades : TradingDatabase.table;
  written : nat -> Written;
  position_updates : list PositionUpdate
}.

Definition has_id (trade_id : nat) (p : Position) : bool :=
  (pos_id p =? trade_id)%nat.

Definition set_status (p : Position) (status : string) : Position :=
  mkPosition (pos_id p) (pos_symbol p) (pos_action p) (pos_size p) (pos_leverage p)
    (pos_entry_price p) (pos_stop_loss p) (pos_take_profit p) status
    (pos_exit_conditions p) (pos_timeout_candles p) (pos_timeframe p).

(** [update_trade(trade_id, exit_price, pnl, exit_strategy, status)]:
    [UPDATE trades SET exit_price = ?, pnl = ?, exit_strategy = ?, status = ?
     WHERE id = ?]; no row of that id, no change. *)
Definition update_trade (db : Store) (trade_id : nat) (exit_price pnl : float)
    (exit_strategy status : string) : Store :=
  mkStore
    (map (fun p => if has_id trade_id p then set_status p status else p) (trades db))
    (fun i =>
       if (i =? trade_id)%nat && existsb (has_id trade_id) (trades db)
       then mkWritten (TradingDatabase.sql_real exit_price)
              (TradingDatabase.sql_real pnl) (Some exit_strategy)
              (w_candles_held (written db i))
       else written db i)
    (position_updates db).

(** [log_position_update(trade_id, current_price, unrealized_pnl,
    candles_held)]: a new row of [position_updates], and
    [UPDATE trades SET candles_held = ? WHERE id = ?].  The column
    [current_price REAL NOT NULL] refuses the NULL of a NaN price, and a
    candle count that is not a 64-bit integer cannot be bound: the INSERT
    raises and nothing is written ([None]). *)
Definition log_position_update (db : Store) (trade_id : nat)
    (current_price unrealized_pnl : float) (candles_held : Z) : option Store :=
  if is_nan current_price || negb (TradingDatabase.sql_int candles_held) then None
  else
    Some (mkStore
            (trades db)
            (fun i =>
               if (i =? trade_id)%nat && existsb (has_id trade_id) (trades db)
               then mkWritten (w_exit_price (written db i)) (w_pnl (written db i))
                      (w_exit_strategy (written db i)) candles_held
               else written db i)
            (position_updates db
             ++ [mkPositionUpdate trade_id current_price
                   (TradingDatabase.sql_real unrealized_pnl) candles_held])).

End TradesTable.

(* ===================================================================== *)
(** * The monitoring loop (agents/position_manager.py)                   *)
(* ===================================================================== *)

Module PositionMonitor.

Local Open Scope float_scope.

(** config.py, line 120. *)
Definition AI_CONFIRMATION_REQUIRED : bool := true.

(** A price is a Python [float] when the executor gave it and a
    [numpy.float64] when it comes from the candles: dividing a Python float
    by zero raises, dividing a numpy float does not. *)
Inductive Price : Type :=
| PyFloat (x : float)
| NpFloat (x : float).

Definition price_value (p : Price) : float :=
  match p with
  | PyFloat x | NpFloat x => x
  end.

(** The dict [monitor_position] returns; its ['action'] is always ['CLOSE']. *)
Record ExitAction : Type := mkExitAction {
  x_trade_id : nat;
  x_symbol : string;
  x_exit_price : float;
  x_pnl : float;
  x_exit_reason : string;
  x_candles_held : Z
}.

(** The dict [run] returns. *)
Record Summary : Type := mkSummary {
  positions_monitored : Z;
  exits_executed : Z
}.

Section Monitoring.

Variable JSON : Type.
Variable json_loads : string -> Py.exc JSON.
Variable empty_object : JSON.

(** What the outside answers for a row while it is monitored:
    [executor.get_current_price(symbol)]; [hl.get_ohlcv_data(symbol,
    timeframe, lookback=2)], [None] also when it raises; the seconds between
    the entry timestamp and now, an exception when the timestamp does not
    parse; whether the first line of the model's answer contains EXIT, an
    exception when the request fails; and whether [executor.close_position]
    returned a result with a true ['success'].  [model_available] is
    [self.model] not being [None]. *)
Variable executor_price : Position -> option float.
Variable ohlcv : Position -> option (list Candle).
Variable seconds_held : Position -> Py.exc float.
Variable model_available : bool.
Variable model_says_exit : Position -> float -> float -> Z -> Py.exc bool.
Variable close_position : ExitAction -> bool.

(** Lines 52-59: the price of the executor, else the last close. *)
Definition current_price_of (position : Position) : option Price :=
  match executor_price position with
  | Some p =>
      if Py.truthy_float p then Some (PyFloat p)
      else match ohlcv position with
           | Some (c :: df) => Some (NpFloat (c_close (last df c)))
           | _ => None
           end
  | None =>
      match ohlcv position with
      | Some (c :: df) => Some (NpFloat (c_close (last df c)))
      | _ => None
      end
  end.

(** Lines 67-74: the elapsed time in candles of the timeframe; any timeframe
    but 1m, 5m and 15m counts no candle. *)
Definition candles_of (timeframe : string) (seconds : float) : Py.exc Z :=
  if String.eqb timeframe "1m" then Py.int_of_float (seconds / 60)
  else if String.eqb timeframe "5m" then Py.int_of_float (seconds / 300)
  else if String.eqb timeframe "15m" then Py.int_of_float (seconds / 900)
  else Py.Return 0%Z.

(** [get_current_price_and_candles]: [None] stands for [(None, None)]. *)
Definition get_current_price_and_candles (position : Position)
    : option (Price * Z) :=
  match current_price_of position with
  | None => None
  | Some current_price =>
      Py.try_except
        (seconds <- seconds_held position ;;
         candles_held <- candles_of (pos_timeframe position) seconds ;;
         Py.Return (Some (current_price, candles_held)))
        None
  end.

(** Lines 226-235: the unrealized PnL; [None] is the ZeroDivisionError of a
    Python float divided by a zero entry price. *)
Definition unrealized_pnl (position : Position) (current_price : Price)
    : option float :=
  let entry_price := pos_entry_price position in
  let move :=
    if String.eqb (pos_action position) "LONG"
    then price_value current_price - entry_price
    else entry_price - price_value current_price in
  let pnl :=
    pos_size position * move / entry_price * pos_leverage position in
  match current_price with
  | PyFloat _ => if entry_price =? 0 then None else Some pnl
  | NpFloat _ => Some pnl
  end.

(** [ask_deepseek_to_exit], its ['should_exit']: without a model the answer
    is no; a NULL take_profit or stop_loss makes the prompt fail, which is a
    no; so is a failed request. *)
Definition ask_deepseek_to_exit (position : Position) (current_price : float)
    (pnl : float) (candles_held : Z) : bool :=
  if negb model_available then false
  else
    match pos_take_profit position, pos_stop_loss position with
    | Some _, Some _ =>
        Py.try_except (model_says_exit position current_price pnl candles_held) false
    | _, _ => false
    end.

(** [monitor_position(position)]: the database afterwards and the exit
    action, if any.  An exception of [log_position_update] ends the call like
    any other: it returns [None]. *)
Definition monitor_position (db : TradesTable.Store) (position : Position)
    : TradesTable.Store * option ExitAction :=
  match get_current_price_and_candles position with
  | None => (db, None)
  | Some (current_price, candles_held) =>
      match unrealized_pnl position current_price with
      | None => (db, None)
      | Some pnl =>
          let price := price_value current_price in
          match
            TradesTable.log_position_update db (pos_id position) price pnl
              candles_held
          with
          | None => (db, None)
          | Some db' =>
              match
                PositionManager.check_exit_conditions JSON json_loads empty_object
                  position price candles_held
              with
              | (true, Some exit_reason) =>
                  if AI_CONFIRMATION_REQUIRED then
                    if ask_deepseek_to_exit position price pnl candles_held
                    then (db', Some (mkExitAction (pos_id position)
                                       (pos_symbol position) price pnl
                                       (exit_reason ++ "_ai_confirmed")
                                       candles_held))
                    else (db', None)
                  else (db', Some (mkExitAction (pos_id position)
                                     (pos_symbol position) price pnl exit_reason
                                     candles_held))
              | _ => (db', None)
              end
          end
      end
  end.

(** [execute_exit(exit_action)]: the database afterwards and the result. *)
Definition execute_exit (db : TradesTable.Store) (exit_action : ExitAction)
    : TradesTable.Store * bool :=
  if close_position exit_action
  then (TradesTable.update_trade db (x_trade_id exit_action)
          (x_exit_price exit_action) (x_pnl exit_action)
          (x_exit_reason exit_action) "closed",
        true)
  else (db, false).

(** One turn of the loop of [run]. *)
Definition run_step (acc : TradesTable.Store * Z) (position : Position)
    : TradesTable.Store * Z :=
  match monitor_position (fst acc) position with
  | (db', Some exit_action) =>
      let (db'', success) := execute_exit db' exit_action in
      (db'', if success then (snd acc + 1)%Z else snd acc)
  | (db', None) => (db', snd acc)
  end.

(** [run()], given the rows [get_open_positions] returned. *)
Definition run (db : TradesTable.Store) (open_positions : list Position)
    : TradesTable.Store * Summary :=
  match open_positions with
  | [] => (db, mkSummary 0 0)
  | _ =>
      let (db', exits) := fold_left run_step open_positions (db, 0%Z) in
      (db', mkSummary (Pandas.len open_positions) exits)
  end.

End Monitoring.

End PositionMonitor.

(** The agents on the executor.  [result and result['success']]
    (trading_agent.py, line 251; position_manager.py, line 305) holds exactly
    when the executor returned a result, whose ['success'] is [True]. *)
Definition order_placed (testnet : bool) (get_current_price : string -> option float)
    (symbol : string) (is_buy : bool) (size_usd : float) (leverage : Z) : bool :=
  match
    HyperliquidExecutor.market_order testnet get_current_price symbol is_buy size_usd
      leverage
  with
  | Some _ => true
  | None => false
  end.

Definition position_closed (testnet : bool)
    (get_current_price : string -> option float)
    (get_open_position : string -> option HyperliquidExecutor.Holding)
    (exit_action : PositionMonitor.ExitAction) : bool :=
  match
    HyperliquidExecutor.close_position testnet get_current_price get_open_position
      (PositionMonitor.x_symbol exit_action)
  with
  | Some _ => true
  | None => false
  end.

(* ===================================================================== *)
(** * Queries for signals (agents/strategy_agent.py, get_signals)        *)
(* ===================================================================== *)

Module SignalQueries.

Section Queries.

Variable HYPERLIQUID_SYMBOLS : list string.
Variable STRATEGY_TIMEFRAMES : list string.
Variable scan : string -> string -> Py.exc (option Signal).

(** The loop of lines 156-161: unlike the loop of [run], an exception of one
    timeframe is not caught here. *)
Definition collect (symbol : string) : Py.exc (list Signal) :=
  fold_left
    (fun acc timeframe =>
       signals <- acc ;;
       signal <- scan symbol timeframe ;;
       Py.Return (match signal with
                  | Some s => if StrategyAgent.is_neutral s then signals
                              else signals ++ [s]
                  | None => signals
                  end))
    STRATEGY_TIMEFRAMES (Py.Return []).

(** [get_signals(symbol)]: [self.strategies] has the configured symbols when
    strategies are enabled and is empty otherwise; no symbol, or the empty
    string, asks for the full scan. *)
Definition get_signals (enabled : bool) (db : TradingDatabase.table)
    (symbol : option string) : option (list Signal) :=
  match symbol with
  | Some name =>
      if (String.length name =? 0)%nat
      then StrategyAgent.run HYPERLIQUID_SYMBOLS STRATEGY_TIMEFRAMES scan enabled db
      else if enabled && existsb (String.eqb name) HYPERLIQUID_SYMBOLS
      then Some (Py.try_except (collect name) [])
      else Some []
  | None => StrategyAgent.run HYPERLIQUID_SYMBOLS STRATEGY_TIMEFRAMES scan enabled db
  end.

End Queries.

End SignalQueries.

(** [self.strategies[symbol][timeframe].generate_signals()] for the strategy
    objects of the agent and the candles the exchange returns: the call
    catches its own exceptions, so it always answers. *)
Definition strategy_scan
    (recent_poc_of : list Candle -> Py.exc float)
    (skew_of kurtosis_of : list float -> float)
    (calculate_atr : list Candle -> float)
    (strategies : string -> string -> Strategy)
    (get_ohlcv_data : string -> string -> option (list Candle))
    (symbol timeframe : string) : Py.exc (option Signal) :=
  Py.Return
    (VolumeProfileStrategy.returned
       (VolumeProfileStrategy.generate_signals recent_poc_of skew_of kurtosis_of
          calculate_atr (strategies symbol timeframe)
          (get_ohlcv_data symbol timeframe))).

(* ===================================================================== *)
(** * Serializing a market snapshot (database.py, log_ai_decision)       *)
(* ===================================================================== *)

Module Snapshot.

Set Warnings "-register-all".

(** The values [convert_to_serializable] meets: JSON data, numpy scalars
    (the objects with an [item] method), and any other object, kept as the
    text [str] gives for it. *)
Inductive PyValue : Type :=
| VNone
| VBool (b : bool)
| VInt (n : Z)
| VFloat (x : float)
| VStr (s : string)
| VList (items : list PyValue)
| VDict (entries : list (string * PyValue))
| VNumpyBool (b : bool)
| VNumpyInt (n : Z)
| VNumpyFloat (x : float)
| VOther (text : string).

(** [convert_to_serializable(obj)], lines 153-168. *)
Fixpoint convert_to_serializable (obj : PyValue) : PyValue :=
  match obj with
  | VNumpyBool b => VBool b
  | VNumpyInt n => VInt n
  | VNumpyFloat x => VFloat x
  | VBool b => VBool b
  | VDict entries =>
      VDict (map (fun kv => (fst kv, convert_to_serializable (snd kv))) entries)
  | VList items => VList (map convert_to_serializable items)
  | VStr s => VStr s
  | VInt n => VInt n
  | VFloat x => VFloat x
  | VNone => VNone
  | VOther text => VStr text
  end.

End Snapshot.

(* ===================================================================== *)
(** * Auxiliary definitions for the proofs                               *)
(* ===================================================================== *)

(** ** The order of binary64 values

    A value that is not NaN is sent to a key, a triple of integers, such that
    the IEEE comparison of two values is the lexicographic comparison of
    their keys. *)

Definition sf_key (x : spec_float) : option (Z * Z * Z) :=
  match x with
  | S754_nan => None
  | S754_infinity true => Some (-2, 0, 0)
  | S754_infinity false => Some (2, 0, 0)
  | S754_zero _ => Some (0, 0, 0)
  | S754_finite true m e => Some (-1, - e, Zneg m)
  | S754_finite false m e => Some (1, e, Zpos m)
  end.

Definition lex3 (a b : Z * Z * Z) : comparison :=
  let '(a1, a2, a3) := a in
  let '(b1, b2, b3) := b in
  match a1 ?= b1 with
  | Eq => match a2 ?= b2 with
          | Eq => a3 ?= b3
          | c => c
          end
  | c => c
  end.

Definition fkey (x : float) : option (Z * Z * Z) := sf_key (Prim2SF x).

Definition c_le (c : comparison) : bool := match c with Gt => false | _ => true end.
Definition c_lt (c : comparison) : bool := match c with Lt => true | _ => false end.
Definition c_eq (c : comparison) : bool := match c with Eq => true | _ => false end.

Definition key_rel (r : comparison -> bool) (x y : float) : bool :=
  match fkey x, fkey y with
  | Some a, Some b => r (lex3 a b)
  | _, _ => false
  end.

Definition is_zero_sf (x : spec_float) : bool :=
  match x with
  | S754_zero _ => true
  | _ => false
  end.

Definition zero_or_nan (x : spec_float) : bool :=
  match x with
  | S754_zero _ | S754_nan => true
  | _ => false
  end.

(** The sign a value carries, NaN carrying any. *)
Definition signed_like (s : bool) (x : spec_float) : Prop :=
  match x with
  | S754_zero s' | S754_infinity s' | S754_finite s' _ _ => s' = s
  | S754_nan => True
  end.

(** A value that is zero, finite or infinite, of the given sign. *)
Definition signed_number (s : bool) (x : spec_float) : Prop :=
  match x with
  | S754_zero s' | S754_infinity s' | S754_finite s' _ _ => s' = s
  | S754_nan => False
  end.

(** ** Rounding to binary64

    [binary_round_aux] shifts a mantissa to the exponent of its binade and
    rounds it to nearest-even.  [rounded_to s m1 estar out] says what comes
    out once the rounded mantissa [m1] and that exponent are known: a zero,
    [m1 * 2^estar], or the next power of two when rounding carried; past the
    largest exponent, an infinity. *)
Definition rounded_to (s : bool) (m1 estar : Z) (out : spec_float) : Prop :=
  (m1 = 0 /\ out = S754_zero s)
  \/ (0 < m1 < 2 ^ 53
      /\ out = if estar <=? 971 then S754_finite s (Z.to_pos m1) estar
               else S754_infinity s)
  \/ (m1 = 2 ^ 53
      /\ out = if estar + 1 <=? 971 then S754_finite s (Z.to_pos (2 ^ 52)) (estar + 1)
               else S754_infinity s).

(** The real number a mantissa and an exponent stand for. *)
Definition bpow (e : Z) : R := powerRZ 2 e.

Definition F2R (m e : Z) : R := (IZR m * bpow e)%R.

(** A value between zero and the positive normal number [Mc * 2^Ec], read off
    the (exponent, mantissa) pair. *)
Definition in_range (Mc Ec : Z) (out : spec_float) : Prop :=
  match out with
  | S754_zero _ => True
  | S754_finite false m e => e < Ec \/ (e = Ec /\ Z.pos m <= Mc)
  | _ => False
  end.

(** [Mc * 2^Ec] is a normal binary64 number: a full 53-bit mantissa. *)
Definition normal_bound (Mc Ec : Z) : Prop :=
  2 ^ 52 <= Mc < 2 ^ 53 /\ -1074 <= Ec <= 971.

(** The real value of a number that is zero or positive and finite. *)
Definition val (x : spec_float) : R :=
  match x with
  | S754_finite false m e => F2R (Z.pos m) e
  | _ => 0%R
  end.

Definition nonneg_finite (x : spec_float) : Prop :=
  match x with
  | S754_zero _ | S754_finite false _ _ => True
  | _ => False
  end.

(** A score between 0 and 100; [100] is [7036874417766400 * 2^-46]. *)
Definition score_range (x : float) : Prop :=
  in_range 7036874417766400 (-46) (Prim2SF x).


(** ** Readings of the exit rules *)

(** The [exit_conditions] column holds nothing, or text that parses: what
    [log_trade] writes. *)
Definition exit_conditions_readable {JSON : Type} (json_loads : string -> Py.exc JSON)
    (empty_object : JSON) (position : Position) : Prop :=
  exists j, PositionManager.parse_exit_conditions JSON json_loads empty_object position
            = Py.Return j.

(** The price has reached the take-profit level of the position. *)
Definition reaches_take_profit (action : string) (price take_profit : float) : Prop :=
  (action = "LONG"%string /\ (take_profit <=? price)%float = true)
  \/ (action = "SHORT"%string /\ (price <=? take_profit)%float = true).

(** The price has reached the stop-loss level of the position. *)
Definition reaches_stop_loss (action : string) (price stop_loss : float) : Prop :=
  (action = "LONG"%string /\ (price <=? stop_loss)%float = true)
  \/ (action = "SHORT"%string /\ (stop_loss <=? price)%float = true).

(** The price lies strictly between the two levels: above the stop and below
    the target for a LONG, below the stop and above the target for a SHORT. *)
Definition strictly_between (action : string) (price stop_loss take_profit : float)
    : Prop :=
  (action = "LONG"%string
   /\ (stop_loss <? price)%float = true /\ (price <? take_profit)%float = true)
  \/ (action = "SHORT"%string
      /\ (take_profit <? price)%float = true /\ (price <? stop_loss)%float = true).


(** ** Readings of the entry rules *)

(** The call returns a value. *)
Definition returns {A : Type} (r : Py.exc A) : Prop := exists a, r = Py.Return a.

(** The call returns a signal of the given direction. *)
Definition produces (r : Py.exc Signal) (d : Direction) : Prop :=
  exists s, r = Py.Return s /\ direction s = d.

(** The two entry tests of [_check_entry_conditions]. *)
Definition long_condition (price low : float) (profile : Profile) : bool :=
  (low <=? value_area_low profile)%float
  && VolumeProfileStrategy.closed_inside price profile.

Definition short_condition (price high : float) (profile : Profile) : bool :=
  (value_area_high profile <=? high)%float
  && VolumeProfileStrategy.closed_inside price profile.

(** The leverage as the specification words it:
    clamp(round(risk_reward * 3), min_leverage, max_leverage). *)
Definition leverage_by_rounding (risk_reward : float) : Py.exc Z :=
  n <- Py.round_float (risk_reward * 3)%float ;;
  Py.Return (Z.min Config.HYPERLIQUID_MAX_LEVERAGE
               (Z.max Config.HYPERLIQUID_MIN_LEVERAGE n)).

(** The risk of a signal: entry minus stop for a LONG, stop minus entry for
    a SHORT. *)
Definition risk_of (s : Signal) : float :=
  match direction s with
  | SHORT => (stop_loss s - entry_price s)%float
  | _ => (entry_price s - stop_loss s)%float
  end.

(** ** Readings of the lookback search *)

(** A lookback whose profile exists and is developed. *)
Definition candidate (profile_at : Z -> option Profile) (l : Z) (p : Profile) : Prop :=
  profile_at l = Some p /\ developed p = true.

(** What the loop of [generate_signals] keeps true: after the lookbacks
    [done], either no candidate was met and the best score is still 0, or the
    best profile is the candidate of [found_lookback], every candidate met
    before it scores strictly less, and every one met after scores no more. *)
Definition search_inv (profile_at : Z -> option Profile) (done : list Z)
    (st : VolumeProfileStrategy.Search) : Prop :=
  match VolumeProfileStrategy.best_profile st with
  | None =>
      VolumeProfileStrategy.best_score st = 0%float
      /\ forall l p, In l done -> ~ candidate profile_at l p
  | Some p =>
      VolumeProfileStrategy.best_score st = development_score p
      /\ exists pre post,
          done = pre ++ VolumeProfileStrategy.found_lookback st :: post
          /\ candidate profile_at (VolumeProfileStrategy.found_lookback st) p
          /\ (forall l' p', In l' pre -> candidate profile_at l' p' ->
                (development_score p' <? development_score p)%float = true)
          /\ (forall l' p', In l' post -> candidate profile_at l' p' ->
                (development_score p' <=? development_score p)%float = true)
  end.

(** ** Sample inputs *)

(** A LONG row as [log_trade] stores it: target 45200, stop 44700, fifteen
    candles of patience, no exit-conditions text. *)
Definition sample_long : Position :=
  mkPosition 0 "BTC" "LONG" 50 5 45000 (Some 44700%float) (Some 45200%float)
    "open" None (Some 15) "1m".

(** A row whose take_profit is 0 and whose stop_loss is NULL. *)
Definition sample_unset : Position :=
  mkPosition 1 "ETH" "LONG" 50 5 3000 None (Some 0%float) "open" None (Some 15) "1m".

(** The profile and the LONG signal of the self-test of trading_agent.py,
    completed with the fields the test leaves out. *)
Definition sample_profile : Profile :=
  mkProfile 45100 45300 44900 45500 44700 45100 200 true 85.5 80 80.

Definition sample_signal : Signal :=
  mkSignal "BTC" LONG 85.5 45000 45200 44850 5 "1m" (Some sample_profile)
    (Some 0.35%float) (Some 2.5%float)
    (SetupReason "2σ" 44690 45000 45100 85.5 0.35)
    (Some (mkMetadata "2σ" 45100 45300 44900 80 15)).

(** A market in which every strategy returns [sample_signal], a model that
    approves every signal as it stands, an exchange that fills every order. *)
Definition sample_scan (symbol timeframe : string) : Py.exc (option Signal) :=
  Py.Return (Some sample_signal).

Definition approve_all (s : Signal) : TradingAgent.Confirmation :=
  TradingAgent.mkConfirmation true (leverage s) 100.

Definition fill_all (symbol : string) (is_buy : bool) (size : float) (lev : Z) : bool :=
  true.

Definition dumps_nothing (take_profit stop_loss : float) (timeout : Z) : string :=
  "{}"%string.


(** The profile of [sample_profile] with its point of control further up. *)
Definition wide_profile : Profile :=
  mkProfile 45250 45300 44900 45500 44700 45100 200 true 85.5 80 80.

(** A candle that does not move, and a frame of 120 of them. *)
Definition flat_candle : Candle := mkCandle 100 100 100 100 1.

Definition flat_frame : list Candle := repeat flat_candle 120.

(** A frame of 120 candles whose closes run 99, 100, 101, 99, ... with a
    range of one unit on either side and a volume of 1. *)
Definition wave_candle (i : nat) : Candle :=
  let c := Py.float_of_Z (99 + Z.of_nat (i mod 3)) in
  mkCandle c (c + 1)%float (c - 1)%float c 1.

Definition wave_frame : list Candle := map wave_candle (seq 0 120).

(** Library statistics of a well-shaped profile: the recent POC on the POC
    itself (a drift of 0), no skew, a kurtosis of 3. *)
Definition steady_poc (recent : list Candle) : Py.exc float := Py.Return 100.25%float.
Definition no_skew (closes : list float) : float := 0.
Definition normal_kurtosis (closes : list float) : float := 3.

(** An ATR inside the configured band and one below it. *)
Definition atr_inside (df : list Candle) : float := 0.3.
Definition atr_below (df : list Candle) : float := 0.05.

(** [wave_frame] on a market without trades: the same prices, no volume. *)
Definition silent (c : Candle) : Candle :=
  mkCandle (c_open c) (c_high c) (c_low c) (c_close c) 0.

Definition silent_frame : list Candle := map silent wave_frame.

(* ===================================================================== *)
(** * Auxiliary definitions, continued                                   *)
(* ===================================================================== *)

(** A value that is not below zero: a zero of either sign, a positive number,
    +infinity, or NaN. *)
Definition not_negative (x : spec_float) : Prop :=
  match x with
  | S754_zero _ | S754_nan => True
  | S754_infinity s | S754_finite s _ _ => s = false
  end.

(** A value at or above the positive normal number [Mc * 2^Ec], read off the
    (exponent, mantissa) pair. *)
Definition at_least (Mc Ec : Z) (out : spec_float) : Prop :=
  match out with
  | S754_infinity false => True
  | S754_finite false m e => Ec < e \/ (e = Ec /\ Mc <= Z.pos m)
  | _ => False
  end.

(** A positive normal binary64 number: finite, with a full 53-bit mantissa. *)
Definition positive_normal (x : float) : Prop :=
  exists m e, Prim2SF x = S754_finite false m e /\ normal_bound (Z.pos m) e.

(** [wave_frame] two candles later: its last candle closes at 100 after a
    low of 99, under the value area. *)
Definition dip_frame : list Candle := map wave_candle (seq 2 120).

(** ** Readings of the trading loop *)

(** The row [log_trade] stores for a signal and its confirmation when
    [execute_trade] succeeds (lines 253-271), under a given trade id. *)
Definition logged_row (json_dumps : float -> float -> Z -> string) (trade_id : nat)
    (signal : Signal) (confirmation : TradingAgent.Confirmation) : Position :=
  let timeout :=
    match metadata signal with
    | Some m => meta_timeout_candles m
    | None => 15
    end in
  mkPosition trade_id (symbol signal)
    (TradingAgent.direction_name (direction signal))
    (Config.usd_size
     * Py.try_except
         (Py.int_truediv (TradingAgent.adjusted_size_pct confirmation) 100) 0)%float
    (TradingDatabase.sql_real_of_int (TradingAgent.adjusted_leverage confirmation))
    (entry_price signal)
    (TradingDatabase.sql_real (stop_loss signal))
    (TradingDatabase.sql_real (target_price signal)) "open"
    (Some (json_dumps (target_price signal) (stop_loss signal) timeout))
    (Some timeout) (timeframe signal).

(** The prices of a signal are numbers.  SQLite stores a NaN as NULL, which
    the NOT NULL column [entry_price] refuses and which the other columns
    give back as [None]. *)
Definition storable (signal : Signal) : Prop :=
  is_nan (entry_price signal) = false
  /\ is_nan (stop_loss signal) = false
  /\ is_nan (target_price signal) = false.

(** A signal that the model approves and that [execute_trade] carries
    through: the order is filled and the row is logged.  The outcome of
    [execute_trade] does not depend on the rows of the table. *)
Definition executed (ai_confirms : Signal -> TradingAgent.Confirmation)
    (market_order : string -> bool -> float -> Z -> bool)
    (json_dumps : float -> float -> Z -> string) (signal : Signal) : bool :=
  let confirmation := TradingAgent.analyze_and_confirm_trade ai_confirms signal in
  TradingAgent.approved confirmation
  && snd (TradingAgent.execute_trade market_order json_dumps [] signal confirmation).

(** ** Readings of the written columns *)

(** The columns of a [trades] row that only [update_trade] sets. *)
Definition exit_columns (w : TradesTable.Written)
    : option float * option float * option string :=
  (TradesTable.w_exit_price w, TradesTable.w_pnl w, TradesTable.w_exit_strategy w).

(** The [candles_held] of the rows of an id after some position updates were
    filed: the count of the last update filed for the id if there is one and
    the table has a row of the id, else the count as it was. *)
Definition candles_after (rows : TradingDatabase.table)
    (updates : list TradesTable.PositionUpdate) (trade_id : nat) (before : Z) : Z :=
  match
    find (fun u => (TradesTable.u_trade_id u =? trade_id)%nat) (rev updates)
  with
  | Some u =>
      if existsb (TradesTable.has_id trade_id) rows
      then TradesTable.u_candles_held u
      else before
  | None => before
  end.

(** ** Readings of the snapshot conversion *)

(** JSON data: [None], booleans, ints, floats, strings, and lists and dicts
    of JSON data; what [json.dumps] accepts. *)
Fixpoint json_data (obj : Snapshot.PyValue) : bool :=
  match obj with
  | Snapshot.VNone | Snapshot.VBool _ | Snapshot.VInt _ | Snapshot.VFloat _
  | Snapshot.VStr _ => true
  | Snapshot.VList items => forallb json_data items
  | Snapshot.VDict entries => forallb (fun kv => json_data (snd kv)) entries
  | _ => false
  end.

(** ** More sample inputs *)

(** A database that holds [sample_long] and nothing else. *)
Definition sample_store : TradesTable.Store :=
  TradesTable.mkStore [sample_long] (fun _ => TradesTable.unwritten) [].

(** A market two minutes after the entry, quoted at 45250 by the executor;
    a model that answers EXIT; an exchange that closes what it is asked to. *)
Definition quote_45250 (p : Position) : option float := Some 45250%float.
Definition no_candles (p : Position) : option (list Candle) := None.
Definition two_minutes (p : Position) : Py.exc float := Py.Return 120%float.
Definition says_exit (p : Position) (price pnl : float) (held : Z) : Py.exc bool :=
  Py.Return true.
Definition closes_all (ea : PositionMonitor.ExitAction) : bool := true.
Definition loads_unit (s : string) : Py.exc unit := Py.Return tt.

(** [sample_long] on the one-hour timeframe. *)
Definition sample_hourly : Position :=
  mkPosition 0 "BTC" "LONG" 50 5 45000 (Some 44700%float) (Some 45200%float)
    "open" None (Some 15) "1h".

(** An exchange that quotes every symbol at 45250 and holds a long position
    of 0.001 contracts, entered at 45000, in each. *)
Definition quotes_45250 (symbol : string) : option float := Some 45250%float.
Definition holds_long (symbol : string) : option HyperliquidExecutor.Holding :=
  Some (HyperliquidExecutor.mkHolding 0.001 45000 0.25 5).

(** An exchange on which every symbol and timeframe shows [dip_frame]. *)
Definition dip_market (symbol timeframe : string) : option (list Candle) :=
  Some dip_frame.

(* ===================================================================== *)
(** * Facts about binary64 values                                        *)
(* ===================================================================== *)

Section FloatFacts.

Local Open Scope float_scope.

Lemma SFcompare_key (x y : spec_float) :
  SFcompare x y =
  match sf_key x, sf_key y with
  | Some a, Some b => Some (lex3 a b)
  | _, _ => None
  end.
Proof.
  destruct x as [sx|sx| |sx mx ex], y as [sy|sy| |sy my ey]; simpl;
    try reflexivity;
    try (destruct sx); try (destruct sy); simpl; try reflexivity.
  rewrite (Z.compare_opp ex ey), (Z.compare_antisym ex ey).
  destruct (ex ?= ey)%Z; reflexivity.
Qed.

Lemma lex3_refl (a : Z * Z * Z) : lex3 a a = Eq.
Proof. destruct a as [[a1 a2] a3]; simpl. now rewrite !Z.compare_refl. Qed.

Lemma lex3_antisym (a b : Z * Z * Z) : lex3 b a = CompOpp (lex3 a b).
Proof.
  destruct a as [[a1 a2] a3], b as [[b1 b2] b3]; simpl.
  rewrite (Z.compare_antisym a1 b1), (Z.compare_antisym a2 b2), (Z.compare_antisym a3 b3).
  destruct (a1 ?= b1)%Z, (a2 ?= b2)%Z, (a3 ?= b3)%Z; reflexivity.
Qed.

Lemma lex3_le_trans (a b c : Z * Z * Z) :
  lex3 a b <> Gt -> lex3 b c <> Gt -> lex3 a c <> Gt.
Proof.
  destruct a as [[a1 a2] a3], b as [[b1 b2] b3], c as [[c1 c2] c3]; simpl.
  destruct (Z.compare_spec a1 b1), (Z.compare_spec b1 c1), (Z.compare_spec a1 c1);
    try lia; try congruence;
  destruct (Z.compare_spec a2 b2), (Z.compare_spec b2 c2), (Z.compare_spec a2 c2);
    try lia; try congruence;
  destruct (Z.compare_spec a3 b3), (Z.compare_spec b3 c3), (Z.compare_spec a3 c3);
    try lia; try congruence.
Qed.

Lemma lex3_lt_le_trans (a b c : Z * Z * Z) :
  lex3 a b = Lt -> lex3 b c <> Gt -> lex3 a c = Lt.
Proof.
  destruct a as [[a1 a2] a3], b as [[b1 b2] b3], c as [[c1 c2] c3]; simpl.
  destruct (Z.compare_spec a1 b1), (Z.compare_spec b1 c1), (Z.compare_spec a1 c1);
    try lia; try congruence;
  destruct (Z.compare_spec a2 b2), (Z.compare_spec b2 c2), (Z.compare_spec a2 c2);
    try lia; try congruence;
  destruct (Z.compare_spec a3 b3), (Z.compare_spec b3 c3), (Z.compare_spec a3 c3);
    try lia; try congruence.
Qed.

Lemma c_le_iff (c : comparison) : c_le c = true <-> c <> Gt.
Proof. destruct c; simpl; split; congruence. Qed.

Lemma leb_key (x y : float) : (x <=? y) = key_rel c_le x y.
Proof.
  rewrite leb_spec. unfold SFleb, key_rel, fkey. rewrite SFcompare_key.
  destruct (sf_key (Prim2SF x)), (sf_key (Prim2SF y)); reflexivity.
Qed.

Lemma ltb_key (x y : float) : (x <? y) = key_rel c_lt x y.
Proof.
  rewrite ltb_spec. unfold SFltb, key_rel, fkey. rewrite SFcompare_key.
  destruct (sf_key (Prim2SF x)), (sf_key (Prim2SF y)); reflexivity.
Qed.

Lemma eqb_key (x y : float) : (x =? y) = key_rel c_eq x y.
Proof.
  rewrite eqb_spec. unfold SFeqb, key_rel, fkey. rewrite SFcompare_key.
  destruct (sf_key (Prim2SF x)), (sf_key (Prim2SF y)); reflexivity.
Qed.

Lemma is_nan_key (x : float) :
  is_nan x = match fkey x with None => true | Some _ => false end.
Proof.
  unfold is_nan. rewrite eqb_key. unfold key_rel.
  destruct (fkey x) as [a|]; [|reflexivity].
  now rewrite lex3_refl.
Qed.

End FloatFacts.

(** Rewrites every float comparison into a comparison of keys. *)
Ltac float_keys :=
  rewrite ?leb_key, ?ltb_key, ?eqb_key, ?is_nan_key in *; unfold key_rel in *.

Section FloatOrder.

Local Open Scope float_scope.

Lemma ltb_not_leb (x y : float) : (x <? y) = true -> (y <=? x) = false.
Proof.
  float_keys. destruct (fkey x) as [a|], (fkey y) as [b|]; try discriminate.
  rewrite (lex3_antisym a b). destruct (lex3 a b); simpl; congruence.
Qed.

Lemma leb_total (x y : float) :
  is_nan x = false -> is_nan y = false -> (x <? y) = false -> (y <=? x) = true.
Proof.
  float_keys. destruct (fkey x) as [a|], (fkey y) as [b|]; try discriminate.
  rewrite (lex3_antisym a b). destruct (lex3 a b); simpl; congruence.
Qed.

Lemma leb_refl (x : float) : is_nan x = false -> (x <=? x) = true.
Proof.
  float_keys. destruct (fkey x) as [a|]; try discriminate. now rewrite lex3_refl.
Qed.

Lemma leb_not_nan (x y : float) :
  (x <=? y) = true -> is_nan x = false /\ is_nan y = false.
Proof.
  float_keys. destruct (fkey x) as [a|], (fkey y) as [b|]; try discriminate. auto.
Qed.

Lemma ltb_not_nan (x y : float) :
  (x <? y) = true -> is_nan x = false /\ is_nan y = false.
Proof.
  float_keys. destruct (fkey x) as [a|], (fkey y) as [b|]; try discriminate. auto.
Qed.

Lemma leb_trans (x y z : float) :
  (x <=? y) = true -> (y <=? z) = true -> (x <=? z) = true.
Proof.
  float_keys.
  destruct (fkey x) as [a|], (fkey y) as [b|], (fkey z) as [c|]; try discriminate.
  rewrite !c_le_iff. apply lex3_le_trans.
Qed.

Lemma ltb_leb (x y : float) : (x <? y) = true -> (x <=? y) = true.
Proof.
  float_keys. destruct (fkey x) as [a|], (fkey y) as [b|]; try discriminate.
  destruct (lex3 a b); simpl; congruence.
Qed.

Lemma ltb_leb_trans (x y z : float) :
  (x <? y) = true -> (y <=? z) = true -> (x <? z) = true.
Proof.
  float_keys.
  destruct (fkey x) as [a|], (fkey y) as [b|], (fkey z) as [c|]; try discriminate.
  intros H1 H2. apply c_le_iff in H2.
  assert (lex3 a b = Lt) as H by (destruct (lex3 a b); simpl in *; congruence).
  now rewrite (lex3_lt_le_trans a b c H H2).
Qed.

Lemma leb_antisym_eqb (x y : float) :
  (x <=? y) = true -> (y <=? x) = true -> (x =? y) = true.
Proof.
  float_keys. destruct (fkey x) as [a|], (fkey y) as [b|]; try discriminate.
  rewrite (lex3_antisym a b). destruct (lex3 a b); simpl; congruence.
Qed.

Lemma leb_ltb_or_eqb (x y : float) :
  (x <=? y) = (x <? y) || (x =? y).
Proof.
  float_keys. destruct (fkey x) as [a|], (fkey y) as [b|]; try reflexivity.
  destruct (lex3 a b); reflexivity.
Qed.

End FloatOrder.

Section FloatArith.

Local Open Scope float_scope.

Lemma is_nan_Prim2SF (x : float) : is_nan x = true <-> Prim2SF x = S754_nan.
Proof.
  rewrite is_nan_key. unfold fkey.
  destruct (Prim2SF x) as [s|s| |s m e]; simpl; try destruct s; split; congruence.
Qed.

Lemma is_nan_eq (x : float) : is_nan x = true <-> x = nan.
Proof.
  rewrite is_nan_Prim2SF. split.
  - intros H. apply Prim2SF_inj. rewrite H. reflexivity.
  - intros ->. reflexivity.
Qed.

Lemma add_nan_l (y : float) : nan + y = nan.
Proof. apply Prim2SF_inj. rewrite add_spec. reflexivity. Qed.

Lemma add_nan_r (x : float) : x + nan = nan.
Proof.
  apply Prim2SF_inj. rewrite add_spec. change (Prim2SF nan) with S754_nan.
  destruct (Prim2SF x); reflexivity.
Qed.

Lemma sub_nan_l (y : float) : nan - y = nan.
Proof. apply Prim2SF_inj. rewrite sub_spec. reflexivity. Qed.

Lemma sub_nan_r (x : float) : x - nan = nan.
Proof.
  apply Prim2SF_inj. rewrite sub_spec. change (Prim2SF nan) with S754_nan.
  destruct (Prim2SF x); reflexivity.
Qed.

Lemma mul_nan_l (y : float) : nan * y = nan.
Proof. apply Prim2SF_inj. rewrite mul_spec. reflexivity. Qed.

Lemma mul_nan_r (x : float) : x * nan = nan.
Proof.
  apply Prim2SF_inj. rewrite mul_spec. change (Prim2SF nan) with S754_nan.
  destruct (Prim2SF x); reflexivity.
Qed.

Lemma div_nan_l (y : float) : nan / y = nan.
Proof. apply Prim2SF_inj. rewrite div_spec. reflexivity. Qed.

Lemma mul_comm (x y : float) : x * y = y * x.
Proof.
  apply Prim2SF_inj. rewrite !mul_spec.
  destruct (Prim2SF x) as [sx|sx| |sx mx ex], (Prim2SF y) as [sy|sy| |sy my ey];
    simpl; try reflexivity; try (now rewrite xorb_comm).
  unfold SF64mul, SFmul. now rewrite xorb_comm, Pos.mul_comm, Z.add_comm.
Qed.

Lemma SFmul_zero_r (x z : spec_float) :
  is_zero_sf z = true -> zero_or_nan (SF64mul x z) = true.
Proof. destruct z; try discriminate. destruct x; reflexivity. Qed.

Lemma SFadd_zero_or_nan (x y : spec_float) :
  zero_or_nan x = true -> zero_or_nan y = true -> zero_or_nan (SF64add x y) = true.
Proof.
  destruct x as [sx| | |]; try discriminate; destruct y as [sy| | |]; try discriminate;
    try reflexivity.
  destruct sx, sy; reflexivity.
Qed.

Lemma SFadd_zero (x y : spec_float) :
  is_zero_sf x = true -> is_zero_sf y = true -> is_zero_sf (SF64add x y) = true.
Proof.
  destruct x as [sx| | |]; try discriminate; destruct y as [sy| | |]; try discriminate.
  destruct sx, sy; reflexivity.
Qed.

Lemma SFdiv_nan (x y : spec_float) :
  zero_or_nan x = true -> is_zero_sf y = true -> SF64div x y = S754_nan.
Proof.
  destruct x as [sx| | |]; try discriminate; destruct y as [sy| | |]; try discriminate;
    reflexivity.
Qed.

Lemma binary_round_aux_sign (s : bool) (m e : Z) (l : location) :
  signed_like s (binary_round_aux prec emax s m e l).
Proof.
  unfold binary_round_aux.
  destruct (shr_fexp prec emax m e l) as [mrs' e'].
  destruct (shr_fexp prec emax _ e' loc_Exact) as [mrs'' e''].
  destruct (shr_m mrs''); [ | destruct (Z.leb _ _) | ]; simpl; auto.
Qed.

End FloatArith.
(* ===================================================================== *)
(** * Rounding to binary64                                               *)
(* ===================================================================== *)

(** What [binary_round_aux] returns, from its definition in [SpecFloat]: the
    digit count, the right shift with its location, the round to nearest
    even, the carry. *)

Section Rounding.

(* ---------- digits ---------- *)
Lemma digits2_pos_bounds (m : positive) :
  2 ^ (Zpos (digits2_pos m) - 1) <= Zpos m < 2 ^ (Zpos (digits2_pos m)).
Proof.
  induction m as [m IH|m IH|]; simpl digits2_pos.
  - rewrite Pos2Z.inj_succ.
    replace (Z.succ (Z.pos (digits2_pos m)) - 1) with (Z.succ (Z.pos (digits2_pos m) - 1)) by lia.
    rewrite !Z.pow_succ_r by lia. lia.
  - rewrite Pos2Z.inj_succ.
    replace (Z.succ (Z.pos (digits2_pos m)) - 1) with (Z.succ (Z.pos (digits2_pos m) - 1)) by lia.
    rewrite !Z.pow_succ_r by lia. lia.
  - simpl. lia.
Qed.

Lemma digits_unique (m d : Z) :
  0 < d -> 2 ^ (d - 1) <= m < 2 ^ d -> Zdigits2 m = d.
Proof.
  intros Hd [Hlo Hhi]. destruct m as [|p|p]; try lia.
  simpl. pose proof (digits2_pos_bounds p) as [Plo Phi].
  set (k := Z.pos (digits2_pos p)) in *.
  destruct (Z.lt_trichotomy k d) as [Hlt|[Heq|Hgt]]; auto; exfalso.
  - assert (2 ^ k <= 2 ^ (d - 1)) by (apply Z.pow_le_mono_r; lia). lia.
  - assert (2 ^ d <= 2 ^ (k - 1)) by (apply Z.pow_le_mono_r; lia). lia.
Qed.

(* ---------- iterated shifts ---------- *)
Lemma iter_pos_nat {A : Type} (f : A -> A) (p : positive) (x : A) :
  SpecFloat.iter_pos f p x = Nat.iter (Pos.to_nat p) f x.
Proof.
  revert x. induction p as [p IH|p IH|]; intros x; simpl SpecFloat.iter_pos.
  - rewrite !IH. rewrite Pos2Nat.inj_xI.
    replace (S (2 * Pos.to_nat p))%nat with (Pos.to_nat p + S (Pos.to_nat p))%nat by lia.
    rewrite Nat.iter_add. f_equal. now rewrite Nat.iter_succ_r.
  - rewrite !IH. rewrite Pos2Nat.inj_xO.
    replace (2 * Pos.to_nat p)%nat with (Pos.to_nat p + Pos.to_nat p)%nat by lia.
    now rewrite Nat.iter_add.
  - reflexivity.
Qed.

Lemma shr_1_m (mrs : shr_record) :
  0 <= shr_m mrs -> shr_m (shr_1 mrs) = shr_m mrs / 2.
Proof.
  destruct mrs as [m r s]. simpl. intros Hm.
  destruct m as [|p|p]; try lia; [reflexivity|].
  destruct p as [p|p|]; simpl shr_m.
  - rewrite Pos2Z.inj_xI. apply Z.div_unique with 1; lia.
  - rewrite Pos2Z.inj_xO. apply Z.div_unique with 0; lia.
  - reflexivity.
Qed.

Lemma shr_iter_m (k : nat) (mrs : shr_record) :
  0 <= shr_m mrs ->
  shr_m (Nat.iter k shr_1 mrs) = shr_m mrs / 2 ^ Z.of_nat k.
Proof.
  revert mrs. induction k as [|k IH]; intros mrs Hm.
  - simpl. now rewrite Z.div_1_r.
  - rewrite Nat.iter_succ_r, IH.
    + rewrite shr_1_m by assumption. rewrite Nat2Z.inj_succ, Z.pow_succ_r by lia.
      rewrite Z.div_div by (try apply Z.pow_pos_nonneg; lia). reflexivity.
    + rewrite shr_1_m by assumption. apply Z.div_pos; lia.
Qed.

Lemma shr_1_exact (m : Z) :
  0 <= m -> m mod 2 = 0 ->
  shr_1 (Build_shr_record m false false) = Build_shr_record (m / 2) false false.
Proof.
  intros Hm Hev. destruct m as [|p|p]; try lia; [reflexivity|].
  destruct p as [p|p|]; simpl.
  - rewrite Pos2Z.inj_xI in Hev. exfalso.
    replace (2 * Z.pos p + 1) with (1 + Z.pos p * 2) in Hev by lia.
    rewrite Z.mod_add in Hev by lia. discriminate.
  - f_equal. rewrite Pos2Z.inj_xO. apply Z.div_unique with 0; lia.
  - discriminate.
Qed.

Lemma shr_iter_exact (k : nat) (m : Z) :
  0 <= m -> m mod 2 ^ Z.of_nat k = 0 ->
  Nat.iter k shr_1 (Build_shr_record m false false)
  = Build_shr_record (m / 2 ^ Z.of_nat k) false false.
Proof.
  revert m. induction k as [|k IH]; intros m Hm Hmod.
  - simpl. now rewrite Z.div_1_r.
  - rewrite Nat2Z.inj_succ, Z.pow_succ_r in * by lia.
    assert (Hp : 0 < 2 ^ Z.of_nat k) by (apply Z.pow_pos_nonneg; lia).
    assert (Hev : m mod 2 = 0).
    { apply Z.mod_divide; [lia|]. apply Z.mod_divide in Hmod; [|lia].
      destruct Hmod as [c Hc]. exists (c * 2 ^ Z.of_nat k). lia. }
    rewrite Nat.iter_succ_r, shr_1_exact by assumption.
    rewrite IH.
    + rewrite Z.div_div by lia. reflexivity.
    + apply Z.div_pos; lia.
    + apply Z.mod_divide in Hmod; [|lia]. destruct Hmod as [c Hc].
      apply Z.mod_divide; [lia|]. exists c.
      subst m. replace (c * (2 * 2 ^ Z.of_nat k)) with ((c * 2 ^ Z.of_nat k) * 2) by lia.
      rewrite Z.div_mul by lia. reflexivity.
Qed.

(* ---------- the exponent function ---------- *)
Lemma fexp_eq (e : Z) : fexp prec emax e = Z.max (e - 53) (-1074).
Proof. reflexivity. Qed.

Lemma shr_record_of_loc_m (m : Z) (l : location) : shr_m (shr_record_of_loc m l) = m.
Proof. destruct l as [|[]]; reflexivity. Qed.

Lemma loc_of_shr_record_of_loc (m : Z) (l : location) :
  loc_of_shr_record (shr_record_of_loc m l) = l.
Proof. destruct l as [|[]]; reflexivity. Qed.

Lemma round_nearest_even_bounds (m : Z) (l : location) :
  m <= round_nearest_even m l <= m + 1.
Proof. destruct l as [|[]]; simpl; try lia. destruct (Z.even m); lia. Qed.

(** [shr] by [n >= 0] positions. *)
Lemma shr_spec (m e n : Z) (l : location) :
  0 <= m -> 0 <= n ->
  shr_m (fst (shr (shr_record_of_loc m l) e n)) = m / 2 ^ n
  /\ snd (shr (shr_record_of_loc m l) e n) = e + n
  /\ (l = loc_Exact -> m mod 2 ^ n = 0 ->
      loc_of_shr_record (fst (shr (shr_record_of_loc m l) e n)) = loc_Exact).
Proof.
  intros Hm Hn. destruct n as [|p|p]; try lia.
  - simpl. rewrite shr_record_of_loc_m, Z.div_1_r, Z.add_0_r.
    repeat split. intros -> _. reflexivity.
  - unfold shr. cbn [fst snd]. rewrite iter_pos_nat.
    split; [|split; [reflexivity|]].
    + rewrite shr_iter_m by (rewrite shr_record_of_loc_m; lia).
      now rewrite shr_record_of_loc_m, positive_nat_Z.
    + intros -> Hmod. simpl shr_record_of_loc.
      rewrite shr_iter_exact; [reflexivity | lia | now rewrite positive_nat_Z].
Qed.

Lemma Zdigits2_nonneg (m : Z) : 0 <= Zdigits2 m.
Proof. destruct m; simpl; lia. Qed.

Lemma Zdigits2_pos (m : Z) : 0 < m -> 1 <= Zdigits2 m.
Proof. destruct m; simpl; lia. Qed.

Lemma Zdigits2_bounds (m : Z) :
  0 < m -> 2 ^ (Zdigits2 m - 1) <= m < 2 ^ Zdigits2 m.
Proof. destruct m as [|p|p]; try lia. intros _. apply digits2_pos_bounds. Qed.

Lemma Zdigits2_le (m d : Z) : 0 <= d -> 0 <= m < 2 ^ d -> Zdigits2 m <= d.
Proof.
  intros Hd [H0 H]. destruct (Z.eq_dec m 0) as [->|Hne]; [simpl; lia|].
  pose proof (Zdigits2_bounds m ltac:(lia)) as [Hlo _].
  destruct (Z_le_gt_dec (Zdigits2 m) d) as [|Hgt]; auto. exfalso.
  assert (2 ^ d <= 2 ^ (Zdigits2 m - 1)) by (apply Z.pow_le_mono_r; lia). lia.
Qed.

Lemma binary_round_aux_shape (s : bool) (m e : Z) (l : location) :
  0 <= m ->
  e <= fexp prec emax (Zdigits2 m + e) ->
  exists m1,
    m / 2 ^ (fexp prec emax (Zdigits2 m + e) - e) <= m1
      <= m / 2 ^ (fexp prec emax (Zdigits2 m + e) - e) + 1
    /\ (l = loc_Exact -> m mod 2 ^ (fexp prec emax (Zdigits2 m + e) - e) = 0 ->
        m1 = m / 2 ^ (fexp prec emax (Zdigits2 m + e) - e))
    /\ rounded_to s m1 (fexp prec emax (Zdigits2 m + e))
         (binary_round_aux prec emax s m e l).
Proof.
  intros Hm Hn.
  set (estar := fexp prec emax (Zdigits2 m + e)) in *.
  set (n := estar - e).
  assert (Hn0 : 0 <= n) by (unfold n; lia).
  pose proof (shr_spec m e n l Hm Hn0) as (Hs1 & Hs2 & Hs3).
  unfold binary_round_aux, shr_fexp. fold estar. fold n.
  destruct (shr (shr_record_of_loc m l) e n) as [mrs' e'] eqn:Hshr.
  cbn [fst snd] in Hs1, Hs2, Hs3. subst e'.
  replace (e + n) with estar by (unfold n; lia).
  set (m' := m / 2 ^ n) in *.
  set (m1 := round_nearest_even (shr_m mrs') (loc_of_shr_record mrs')).
  assert (Hm1 : m' <= m1 <= m' + 1).
  { unfold m1. rewrite Hs1. apply round_nearest_even_bounds. }
  assert (Hm'0 : 0 <= m') by (apply Z.div_pos; [lia | apply Z.pow_pos_nonneg; lia]).
  assert (Hestar : -1074 <= estar /\ Zdigits2 m + e - 53 <= estar).
  { unfold estar. rewrite fexp_eq. lia. }
  assert (Hm'53 : m' < 2 ^ 53).
  { destruct (Z.eq_dec m 0) as [->|Hne].
    - unfold m'. rewrite Z.div_0_l; [lia | apply Z.pow_nonzero; lia].
    - pose proof (Zdigits2_bounds m ltac:(lia)) as [_ Hhi].
      apply Z.div_lt_upper_bound; [apply Z.pow_pos_nonneg; lia|].
      rewrite <- Z.pow_add_r by lia.
      eapply Z.lt_le_trans; [exact Hhi|]. apply Z.pow_le_mono_r; lia. }
  exists m1. split; [exact Hm1|]. split.
  { intros Hl Hmod. unfold m1. rewrite Hs3, Hs1 by assumption. reflexivity. }
  (* second shift *)
  destruct (Z.eq_dec m1 (2 ^ 53)) as [Hc|Hnc].
  - right. right. split; [exact Hc|].
    rewrite Hc. change (Zdigits2 (2 ^ 53)) with 54.
    rewrite fexp_eq. replace (Z.max (54 + estar - 53) (-1074) - estar) with 1 by lia.
    simpl shr. cbn [shr_m]. replace (estar + 1 - 0) with (estar + 1) by lia.
    reflexivity.
  - assert (Hlt : m1 < 2 ^ 53) by lia.
    assert (Hd1 : Zdigits2 m1 <= 53) by (apply Zdigits2_le; lia).
    assert (Hn2 : fexp prec emax (Zdigits2 m1 + estar) - estar <= 0)
      by (rewrite fexp_eq; lia).
    assert (Hshr2 : shr (shr_record_of_loc m1 loc_Exact) estar
                      (fexp prec emax (Zdigits2 m1 + estar) - estar)
                    = (shr_record_of_loc m1 loc_Exact, estar)).
    { destruct (fexp prec emax (Zdigits2 m1 + estar) - estar); try reflexivity. lia. }
    rewrite Hshr2. cbn [shr_record_of_loc shr_m].
    destruct (Z.eq_dec m1 0) as [H0|H0].
    + left. split; [exact H0|]. now rewrite H0.
    + right. left. split; [lia|].
      destruct m1 as [|p|p]; try lia. reflexivity.
Qed.

End Rounding.

(* ===================================================================== *)
(** * Bounds on the results of the operations                            *)
(* ===================================================================== *)

(** The operations of [SpecFloat] against real bounds: a sum, a difference, a
    product or a quotient whose exact value does not exceed a normal number
    rounds to a value that does not exceed it either. *)

Section Bounds.

Local Open Scope R_scope.

Lemma bpow_pos (e : Z) : 0 < bpow e.
Proof. apply powerRZ_lt. lra. Qed.

Lemma bpow_add (a b : Z) : bpow (a + b) = bpow a * bpow b.
Proof. apply powerRZ_add. lra. Qed.

Lemma bpow_Z (n : Z) : (0 <= n)%Z -> bpow n = IZR (2 ^ n).
Proof.
  intros Hn. destruct n as [|p|p]; try lia.
  - reflexivity.
  - unfold bpow. now rewrite <- Zpower_pos_powerRZ.
Qed.

Lemma bpow_le (a b : Z) : (a <= b)%Z -> bpow a <= bpow b.
Proof.
  intros H. replace b with (a + (b - a))%Z by lia. rewrite bpow_add.
  rewrite (bpow_Z (b - a)) by lia.
  assert (1 <= IZR (2 ^ (b - a))).
  { apply IZR_le. assert (0 < 2 ^ (b - a))%Z by (apply Z.pow_pos_nonneg; lia). lia. }
  pose proof (bpow_pos a). nra.
Qed.

Lemma bpow_lt (a b : Z) : (a < b)%Z -> bpow a < bpow b.
Proof.
  intros H. replace b with (a + (b - a))%Z by lia. rewrite bpow_add.
  rewrite (bpow_Z (b - a)) by lia.
  assert (2 <= IZR (2 ^ (b - a))).
  { apply IZR_le. replace (b - a)%Z with (Z.succ (b - a - 1)) by lia.
    rewrite Z.pow_succ_r by lia.
    assert (0 < 2 ^ (b - a - 1))%Z by (apply Z.pow_pos_nonneg; lia). lia. }
  pose proof (bpow_pos a). nra.
Qed.

Lemma F2R_shift (m e k : Z) : (0 <= k)%Z -> F2R (m * 2 ^ k) e = F2R m (e + k).
Proof.
  intros Hk. unfold F2R. rewrite mult_IZR, <- bpow_Z by lia.
  rewrite (Z.add_comm e k), bpow_add. ring.
Qed.

Lemma rounded_below (m e : Z) (l : location) (Mc Ec : Z) :
  (0 < m)%Z ->
  (e <= fexp prec emax (Zdigits2 m + e))%Z ->
  normal_bound Mc Ec ->
  F2R m e < F2R Mc Ec \/ (F2R m e = F2R Mc Ec /\ l = loc_Exact) ->
  in_range Mc Ec (binary_round_aux prec emax false m e l).
Proof.
  intros Hm Hn [HMc HEc] Hval.
  destruct (binary_round_aux_shape false m e l ltac:(lia) Hn)
    as (m1 & Hm1 & Hex & Hshape).
  set (estar := fexp prec emax (Zdigits2 m + e)) in *.
  assert (Hestar : estar = Z.max (Zdigits2 m + e - 53) (-1074))
    by (unfold estar; rewrite fexp_eq; reflexivity).
  assert (Hle : F2R m e <= F2R Mc Ec) by (destruct Hval as [H|[H _]]; lra).
  pose proof (Zdigits2_bounds m Hm) as [Hdlo Hdhi].
  (* the canonical exponent does not exceed that of the bound *)
  assert (Hee : (estar <= Ec)%Z).
  { destruct (Z_le_gt_dec estar Ec) as [|Hgt]; auto. exfalso.
    assert (Hd : (53 + Ec <= Zdigits2 m - 1 + e)%Z) by lia.
    assert (bpow (Zdigits2 m - 1 + e) <= F2R m e).
    { unfold F2R. rewrite bpow_add. pose proof (bpow_pos e).
      rewrite bpow_Z by (pose proof (Zdigits2_pos m Hm); lia).
      apply IZR_le in Hdlo. nra. }
    assert (F2R Mc Ec < bpow (53 + Ec)).
    { unfold F2R. rewrite bpow_add, (bpow_Z 53) by lia. pose proof (bpow_pos Ec).
      assert (IZR Mc < IZR (2 ^ 53)) by (apply IZR_lt; lia). nra. }
    pose proof (bpow_le _ _ Hd). lra. }
  destruct (Z.eq_dec estar Ec) as [Heq|Hne].
  - (* same exponent: compare the mantissas *)
    set (n := (estar - e)%Z) in *.
    assert (Hn0 : (0 <= n)%Z) by (unfold n; lia).
    assert (HZ : (m <= Mc * 2 ^ n)%Z).
    { apply le_IZR. rewrite mult_IZR, <- bpow_Z by lia.
      unfold F2R in Hle. replace Ec with (e + n)%Z in Hle by (unfold n; lia).
      rewrite bpow_add in Hle. pose proof (bpow_pos e). pose proof (bpow_pos n). nra. }
    assert (Hp : (0 < 2 ^ n)%Z) by (apply Z.pow_pos_nonneg; lia).
    assert (Hm1le : (m1 <= Mc)%Z).
    { destruct (Z.eq_dec m (Mc * 2 ^ n)) as [Heqm|Hnem].
      - rewrite Hex.
        + rewrite Heqm, Z.div_mul by lia. lia.
        + destruct Hval as [Hlt|[_ Hl]]; [|exact Hl]. exfalso.
          unfold F2R in Hlt. replace Ec with (e + n)%Z in Hlt by (unfold n; lia).
          rewrite bpow_add, Heqm, mult_IZR, <- bpow_Z in Hlt by lia. lra.
        + rewrite Heqm. apply Z.mod_mul. lia.
      - assert (m / 2 ^ n < Mc)%Z by (apply Z.div_lt_upper_bound; lia). lia. }
    destruct Hshape as [(H0 & ->)|[(Hr & ->)|(Hc & ->)]]; simpl; auto.
    + replace (estar <=? 971)%Z with true by (symmetry; apply Z.leb_le; lia).
      simpl. right. split; [exact Heq|]. rewrite Z2Pos.id; lia.
    + lia.
  - (* smaller exponent *)
    destruct Hshape as [(H0 & ->)|[(Hr & ->)|(Hc & ->)]]; simpl; auto.
    + replace (estar <=? 971)%Z with true by (symmetry; apply Z.leb_le; lia).
      simpl. left. lia.
    + replace (estar + 1 <=? 971)%Z with true by (symmetry; apply Z.leb_le; lia).
      simpl. destruct (Z.eq_dec (estar + 1) Ec) as [H1|H1].
      * right. split; [exact H1|]. change (Z.pos (Z.to_pos (2 ^ 52))) with (2 ^ 52)%Z. lia.
      * left. lia.
Qed.

(* ---------- valid numbers and their order ---------- *)
Lemma bounded_inv (m : positive) (e : Z) :
  SpecFloat.bounded prec emax m e = true ->
  (e = Z.max (Z.pos (digits2_pos m) + e - 53) (-1074) /\ e <= 971)%Z.
Proof.
  unfold SpecFloat.bounded, canonical_mantissa. rewrite andb_true_iff, Z.eqb_eq, Z.leb_le, fexp_eq.
  change (emax - prec)%Z with 971%Z. lia.
Qed.

Lemma bounded_mantissa (m : positive) (e : Z) :
  SpecFloat.bounded prec emax m e = true -> (Z.pos m < 2 ^ 53)%Z.
Proof.
  intros H. apply bounded_inv in H. destruct H as [H _].
  pose proof (digits2_pos_bounds m) as [_ Hhi].
  eapply Z.lt_le_trans; [exact Hhi|]. apply Z.pow_le_mono_r; lia.
Qed.

Lemma bounded_normal (m : positive) (e : Z) :
  SpecFloat.bounded prec emax m e = true -> (-1074 < e)%Z -> (2 ^ 52 <= Z.pos m)%Z.
Proof.
  intros H He. apply bounded_inv in H. destruct H as [H _].
  pose proof (digits2_pos_bounds m) as [Hlo _].
  replace (Z.pos (digits2_pos m)) with 53%Z in Hlo by lia. exact Hlo.
Qed.

(** Among valid positive numbers, the order of (exponent, mantissa) pairs is
    the order of the values. *)
Lemma lex_lt_value (m1 : positive) (e1 : Z) (m2 : positive) (e2 : Z) :
  SpecFloat.bounded prec emax m1 e1 = true -> SpecFloat.bounded prec emax m2 e2 = true ->
  (e1 < e2 \/ (e1 = e2 /\ Z.pos m1 < Z.pos m2))%Z ->
  F2R (Z.pos m1) e1 < F2R (Z.pos m2) e2.
Proof.
  intros H1 H2 [Hlt|[-> Hlt]].
  - pose proof (bounded_mantissa _ _ H1) as Hm1.
    pose proof (bounded_inv _ _ H1) as [He1 _].
    pose proof (bounded_normal _ _ H2 ltac:(lia)) as Hm2.
    unfold F2R.
    assert (IZR (Z.pos m1) * bpow e1 < bpow (53 + e1)).
    { rewrite bpow_add, (bpow_Z 53) by lia. pose proof (bpow_pos e1).
      apply IZR_lt in Hm1. nra. }
    assert (bpow (52 + e2) <= IZR (Z.pos m2) * bpow e2).
    { rewrite bpow_add, (bpow_Z 52) by lia. pose proof (bpow_pos e2).
      apply IZR_le in Hm2. nra. }
    assert (bpow (53 + e1) <= bpow (52 + e2)) by (apply bpow_le; lia).
    lra.
  - unfold F2R. pose proof (bpow_pos e2). apply IZR_lt in Hlt. nra.
Qed.

Lemma lex_le_value (m1 : positive) (e1 : Z) (m2 : positive) (e2 : Z) :
  SpecFloat.bounded prec emax m1 e1 = true -> SpecFloat.bounded prec emax m2 e2 = true ->
  (e1 < e2 \/ (e1 = e2 /\ Z.pos m1 <= Z.pos m2))%Z ->
  F2R (Z.pos m1) e1 <= F2R (Z.pos m2) e2.
Proof.
  intros H1 H2 [Hlt|[-> Hle]].
  - apply Rlt_le. apply lex_lt_value; auto.
  - destruct (Z.eq_dec (Z.pos m1) (Z.pos m2)) as [->|Hne]; [lra|].
    apply Rlt_le. apply lex_lt_value; auto. right. split; lia.
Qed.

(* ---------- alignment ---------- *)
Lemma nat_iter_xO (k : nat) (m : positive) :
  Z.pos (Nat.iter k xO m) = (Z.pos m * 2 ^ Z.of_nat k)%Z.
Proof.
  induction k as [|k IH].
  - simpl. lia.
  - rewrite Nat2Z.inj_succ, Z.pow_succ_r by lia.
    change (Nat.iter (S k) xO m) with (xO (Nat.iter k xO m)).
    rewrite Pos2Z.inj_xO, IH. lia.
Qed.

Lemma pos_iter_xO (m d : positive) : Z.pos (Pos.iter xO m d) = (Z.pos m * 2 ^ Z.pos d)%Z.
Proof.
  rewrite Pos2Nat.inj_iter.
  change (nat_rect (fun _ : nat => positive) m (fun _ : nat => xO) (Pos.to_nat d))
    with (Nat.iter (Pos.to_nat d) xO m).
  now rewrite nat_iter_xO, positive_nat_Z.
Qed.

Lemma shl_align_spec (m : positive) (e e' : Z) :
  (e' <= e)%Z ->
  Z.pos (fst (shl_align m e e')) = (Z.pos m * 2 ^ (e - e'))%Z
  /\ snd (shl_align m e e') = e'.
Proof.
  intros H. unfold shl_align.
  destruct (e' - e)%Z as [|p|p] eqn:E; try lia.
  - replace (e - e')%Z with 0%Z by lia. simpl. split; lia.
  - cbn [fst snd]. rewrite pos_iter_xO. replace (e - e')%Z with (Z.pos p) by lia. auto.
Qed.

Lemma shl_align_id (m : positive) (e e' : Z) :
  (e <= e')%Z -> shl_align m e e' = (m, e).
Proof.
  intros H. unfold shl_align. destruct (e' - e)%Z eqn:E; try reflexivity. lia.
Qed.

Lemma Zdigits2_shift (m : positive) (k : Z) :
  (0 <= k)%Z -> Zdigits2 (Z.pos m * 2 ^ k) = (Z.pos (digits2_pos m) + k)%Z.
Proof.
  intros Hk. apply digits_unique; [lia|].
  pose proof (digits2_pos_bounds m) as [Hlo Hhi].
  assert (0 < 2 ^ k)%Z by (apply Z.pow_pos_nonneg; lia).
  replace (Z.pos (digits2_pos m) + k - 1)%Z with ((Z.pos (digits2_pos m) - 1) + k)%Z by lia.
  rewrite !Z.pow_add_r by lia. nia.
Qed.

(** [binary_round] of a positive mantissa, bounded above. *)
Lemma binary_round_below (m : positive) (e Mc Ec : Z) :
  normal_bound Mc Ec ->
  F2R (Z.pos m) e <= F2R Mc Ec ->
  in_range Mc Ec (binary_round prec emax false m e).
Proof.
  intros HC Hle. unfold binary_round.
  set (estar := fexp prec emax (Z.pos (digits2_pos m) + e)).
  destruct (Z_le_gt_dec e estar) as [Hge|Hlt].
  - rewrite shl_align_id by assumption.
    apply rounded_below; auto; [lia|].
    destruct (Rle_lt_or_eq_dec _ _ Hle); auto.
  - destruct (shl_align_spec m e estar ltac:(lia)) as [Hm He].
    destruct (shl_align m e estar) as [mz ez]. cbn [fst snd] in Hm, He. subst ez.
    assert (Hd : Zdigits2 (Z.pos mz) = (Z.pos (digits2_pos m) + (e - estar))%Z).
    { rewrite Hm. apply Zdigits2_shift. lia. }
    assert (Hv : F2R (Z.pos mz) estar = F2R (Z.pos m) e).
    { rewrite Hm, F2R_shift by lia. f_equal. lia. }
    apply rounded_below; auto; [lia| |].
    + rewrite Hd. replace (Z.pos (digits2_pos m) + (e - estar) + estar)%Z
        with (Z.pos (digits2_pos m) + e)%Z by lia. fold estar. lia.
    + rewrite Hv. destruct (Rle_lt_or_eq_dec _ _ Hle); auto.
Qed.

(* ---------- rounding never gives NaN ---------- *)
Lemma shr_nonneg (mrs : shr_record) (e n : Z) :
  (0 <= shr_m mrs)%Z -> (0 <= shr_m (fst (shr mrs e n)))%Z.
Proof.
  intros Hm. destruct n as [|p|p]; simpl; auto.
  rewrite iter_pos_nat, shr_iter_m by assumption.
  apply Z.div_pos; [lia | apply Z.pow_pos_nonneg; lia].
Qed.

Lemma binary_round_aux_number (s : bool) (m e : Z) (l : location) :
  (0 <= m)%Z -> signed_number s (binary_round_aux prec emax s m e l).
Proof.
  intros Hm. unfold binary_round_aux, shr_fexp.
  pose proof (shr_nonneg (shr_record_of_loc m l) e
                (fexp prec emax (Zdigits2 m + e) - e)
                ltac:(rewrite shr_record_of_loc_m; lia)) as H1.
  destruct (shr (shr_record_of_loc m l) e _) as [mrs' e']. cbn [fst] in H1.
  set (m1 := round_nearest_even (shr_m mrs') (loc_of_shr_record mrs')).
  assert (Hm1 : (0 <= m1)%Z).
  { pose proof (round_nearest_even_bounds (shr_m mrs') (loc_of_shr_record mrs')).
    unfold m1. lia. }
  pose proof (shr_nonneg (shr_record_of_loc m1 loc_Exact) e'
                (fexp prec emax (Zdigits2 m1 + e') - e')
                ltac:(rewrite shr_record_of_loc_m; lia)) as H2.
  destruct (shr (shr_record_of_loc m1 loc_Exact) e' _) as [mrs'' e'']. cbn [fst] in H2.
  destruct (shr_m mrs'') as [|p|p]; try lia; simpl; auto.
  destruct (e'' <=? 971)%Z; simpl; auto.
Qed.

Lemma binary_round_number (s : bool) (m : positive) (e : Z) :
  signed_number s (binary_round prec emax s m e).
Proof.
  unfold binary_round. destruct (shl_align m e _) as [mz ez].
  apply binary_round_aux_number. lia.
Qed.

Lemma in_range_nonneg_finite (Mc Ec : Z) (x : spec_float) :
  in_range Mc Ec x -> nonneg_finite x.
Proof. destruct x as [s|s| |[] m e]; simpl; auto. Qed.

Lemma normal_bound_bounded (Mc Ec : Z) :
  normal_bound Mc Ec -> SpecFloat.bounded prec emax (Z.to_pos Mc) Ec = true.
Proof.
  intros [HM HE]. unfold SpecFloat.bounded, canonical_mantissa.
  apply andb_true_iff. split; [apply Z.eqb_eq | apply Z.leb_le; change (emax - prec)%Z with 971%Z; lia].
  assert (Hd : Zdigits2 Mc = 53%Z) by (apply digits_unique; [lia | simpl; lia]).
  destruct Mc as [|p|p]; try lia. simpl in Hd. simpl Z.to_pos.
  rewrite Hd, fexp_eq. lia.
Qed.

Lemma F2R_pos (m : positive) (e : Z) : 0 < F2R (Z.pos m) e.
Proof.
  unfold F2R. pose proof (bpow_pos e).
  assert (0 < IZR (Z.pos m)) by (apply IZR_lt; lia). nra.
Qed.

Lemma val_nonneg (x : spec_float) : 0 <= val x.
Proof.
  destruct x as [s|s| |[] m e]; simpl; try lra. apply Rlt_le, F2R_pos.
Qed.

Lemma in_range_val (Mc Ec : Z) (x : spec_float) :
  normal_bound Mc Ec -> valid_binary x = true -> in_range Mc Ec x ->
  val x <= F2R Mc Ec.
Proof.
  intros HC Hv Hr. pose proof (normal_bound_bounded _ _ HC) as HB.
  assert (HMc : Z.pos (Z.to_pos Mc) = Mc) by (destruct HC as [[? ?] _]; rewrite Z2Pos.id; lia).
  destruct x as [s|s| |[] m e]; simpl in *; try contradiction.
  - rewrite <- HMc. apply Rlt_le, F2R_pos.
  - rewrite <- HMc. apply lex_le_value; auto. rewrite HMc. exact Hr.
Qed.

Lemma val_in_range (Mc Ec : Z) (x : spec_float) :
  normal_bound Mc Ec -> valid_binary x = true -> nonneg_finite x ->
  val x <= F2R Mc Ec -> in_range Mc Ec x.
Proof.
  intros HC Hv Hn Hle. pose proof (normal_bound_bounded _ _ HC) as HB.
  assert (HMc : Z.pos (Z.to_pos Mc) = Mc) by (destruct HC as [[? ?] _]; rewrite Z2Pos.id; lia).
  destruct x as [s|s| |[] m e]; simpl in *; try contradiction; auto.
  destruct (Z_lt_ge_dec e Ec) as [|Hge]; auto.
  destruct (Z.eq_dec e Ec) as [->|Hne].
  - right. split; auto.
    destruct (Z_le_gt_dec (Z.pos m) Mc) as [|Hgt]; auto. exfalso.
    assert (F2R (Z.pos (Z.to_pos Mc)) Ec < F2R (Z.pos m) Ec).
    { apply lex_lt_value; auto. right. split; auto. lia. }
    rewrite HMc in H. lra.
  - exfalso.
    assert (F2R (Z.pos (Z.to_pos Mc)) Ec < F2R (Z.pos m) e).
    { apply lex_lt_value; auto. left. lia. }
    rewrite HMc in H. lra.
Qed.

(* ---------- addition ---------- *)
Lemma SFadd_in_range (x y : spec_float) (Mc Ec : Z) :
  normal_bound Mc Ec ->
  valid_binary x = true -> valid_binary y = true ->
  nonneg_finite x -> nonneg_finite y ->
  val x + val y <= F2R Mc Ec ->
  in_range Mc Ec (SF64add x y).
Proof.
  intros HC Hvx Hvy Hx Hy Hle.
  destruct x as [sx|sx| |[] mx ex]; simpl in Hx; try contradiction;
    destruct y as [sy|sy| |[] my ey]; simpl in Hy; try contradiction.
  - destruct sx, sy; exact I.
  - apply val_in_range; auto. simpl in *. lra.
  - apply val_in_range; auto. simpl in *. lra.
  - unfold SF64add, SFadd. cbn [cond_Zopp].
    set (ez := Z.min ex ey).
    destruct (shl_align_spec mx ex ez ltac:(unfold ez; lia)) as [Hmx _].
    destruct (shl_align_spec my ey ez ltac:(unfold ez; lia)) as [Hmy _].
    set (ax := fst (shl_align mx ex ez)) in *.
    set (ay := fst (shl_align my ey ez)) in *.
    change (Z.pos ax + Z.pos ay)%Z with (Z.pos (ax + ay)).
    cbn [binary_normalize].
    apply binary_round_below; auto.
    rewrite Pos2Z.inj_add. unfold F2R. rewrite plus_IZR.
    assert (F2R (Z.pos ax) ez = F2R (Z.pos mx) ex).
    { rewrite Hmx, F2R_shift by (unfold ez; lia). f_equal. lia. }
    assert (F2R (Z.pos ay) ez = F2R (Z.pos my) ey).
    { rewrite Hmy, F2R_shift by (unfold ez; lia). f_equal. lia. }
    unfold F2R in *. simpl val in Hle. unfold F2R in Hle. lra.
Qed.

Lemma SFltb_zero_negative (z : spec_float) :
  signed_number true z -> SFltb (S754_zero false) z = false.
Proof. destruct z as [s|s| |s m e]; simpl; try tauto; intros ->; reflexivity. Qed.

Lemma SFsub_from_bound (Mc : positive) (Ec : Z) (t : spec_float) :
  normal_bound (Z.pos Mc) Ec ->
  signed_like false t ->
  SFltb (S754_zero false) (SF64sub (S754_finite false Mc Ec) t) = true ->
  in_range (Z.pos Mc) Ec (SF64sub (S754_finite false Mc Ec) t).
Proof.
  intros HC Ht.
  destruct t as [s|s| |s mt et]; simpl in Ht; try subst s.
  - intros _. simpl. right. split; lia.
  - discriminate.
  - discriminate.
  - unfold SF64sub, SFsub. cbn [cond_Zopp].
    set (ez := Z.min Ec et).
    destruct (shl_align_spec Mc Ec ez ltac:(unfold ez; lia)) as [Hmc _].
    destruct (shl_align_spec mt et ez ltac:(unfold ez; lia)) as [Hmt _].
    set (ac := fst (shl_align Mc Ec ez)) in *.
    set (at' := fst (shl_align mt et ez)) in *.
    destruct (Z.pos ac - Z.pos at')%Z as [|p|p] eqn:E; cbn [binary_normalize].
    + intros _. exact I.
    + intros _. apply binary_round_below; auto.
      assert (F2R (Z.pos ac) ez = F2R (Z.pos Mc) Ec).
      { rewrite Hmc, F2R_shift by (unfold ez; lia). f_equal. lia. }
      rewrite <- H. unfold F2R. pose proof (bpow_pos ez).
      assert (IZR (Z.pos p) <= IZR (Z.pos ac)) by (apply IZR_le; lia). nra.
    + intros H. rewrite SFltb_zero_negative in H; [discriminate|].
      apply binary_round_number.
Qed.

Lemma signed_number_like (s : bool) (x : spec_float) :
  signed_number s x -> signed_like s x.
Proof. destruct x; simpl; auto. Qed.

Lemma SFmul_nonneg (a : spec_float) (m : positive) (e : Z) :
  signed_like false a -> signed_like false (SF64mul a (S754_finite false m e)).
Proof.
  destruct a as [s|s| |s ma ea]; simpl; auto; intros ->; auto.
  apply binary_round_aux_sign.
Qed.

(** Subtracting a positive number from one that is not below it. *)
Lemma SFsub_nonneg (x : spec_float) (mc : positive) (ec : Z) :
  valid_binary x = true -> SpecFloat.bounded prec emax mc ec = true ->
  SFltb x (S754_finite false mc ec) = false ->
  signed_like false (SF64sub x (S754_finite false mc ec)).
Proof.
  intros Hvx Hvc.
  destruct x as [s|s| |s mx ex].
  - discriminate.
  - destruct s; [discriminate | reflexivity].
  - intros _. exact I.
  - destruct s; [discriminate|].
    intros Hlt. simpl in Hvx.
    assert (Hlex : (ec < ex \/ (ec = ex /\ Z.pos mc <= Z.pos mx))%Z).
    { unfold SFltb, SFcompare in Hlt.
      destruct (Z.compare_spec ex ec) as [->|H|H]; try discriminate; auto.
      right. split; auto.
      destruct (Pos.compare_spec mx mc) as [E|H|H];
        change (Pos.compare_cont Eq mx mc) with (Pos.compare mx mc) in Hlt; try lia.
      rewrite (proj2 (Pos.compare_lt_iff mx mc) H) in Hlt. discriminate. }
    pose proof (lex_le_value mc ec mx ex Hvc Hvx Hlex) as Hval.
    unfold SF64sub, SFsub. cbn [cond_Zopp].
    set (ez := Z.min ex ec).
    destruct (shl_align_spec mx ex ez ltac:(unfold ez; lia)) as [Hmx _].
    destruct (shl_align_spec mc ec ez ltac:(unfold ez; lia)) as [Hmc _].
    set (ax := fst (shl_align mx ex ez)) in *.
    set (ac := fst (shl_align mc ec ez)) in *.
    assert (Hge : (Z.pos ac <= Z.pos ax)%Z).
    { apply le_IZR.
      assert (F2R (Z.pos ax) ez = F2R (Z.pos mx) ex).
      { rewrite Hmx, F2R_shift by (unfold ez; lia). f_equal. lia. }
      assert (F2R (Z.pos ac) ez = F2R (Z.pos mc) ec).
      { rewrite Hmc, F2R_shift by (unfold ez; lia). f_equal. lia. }
      unfold F2R in *. pose proof (bpow_pos ez). nra. }
    destruct (Z.pos ax - Z.pos ac)%Z as [|p|p] eqn:E; cbn [binary_normalize]; try lia.
    + reflexivity.
    + apply signed_number_like, binary_round_number.
Qed.

(* ---------- digits of products and quotients ---------- *)
Lemma Zdigits2_lower (q k : Z) : (0 <= k)%Z -> (2 ^ k <= q)%Z -> (k + 1 <= Zdigits2 q)%Z.
Proof.
  intros Hk Hq.
  assert (0 < q)%Z by (assert (0 < 2 ^ k)%Z by (apply Z.pow_pos_nonneg; lia); lia).
  pose proof (Zdigits2_bounds q H) as [_ Hhi].
  destruct (Z_le_gt_dec (k + 1) (Zdigits2 q)) as [|Hgt]; auto. exfalso.
  assert (2 ^ Zdigits2 q <= 2 ^ k)%Z
    by (apply Z.pow_le_mono_r; pose proof (Zdigits2_nonneg q); lia).
  lia.
Qed.

Lemma Zdigits2_mul (a b : positive) :
  (Z.pos (digits2_pos a) + Z.pos (digits2_pos b) - 1 <= Zdigits2 (Z.pos (a * b)))%Z.
Proof.
  pose proof (digits2_pos_bounds a) as [Ha _].
  pose proof (digits2_pos_bounds b) as [Hb _].
  replace (Z.pos (digits2_pos a) + Z.pos (digits2_pos b) - 1)%Z
    with ((Z.pos (digits2_pos a) - 1 + (Z.pos (digits2_pos b) - 1)) + 1)%Z by lia.
  apply Zdigits2_lower; [lia|].
  rewrite Z.pow_add_r by lia. rewrite Pos2Z.inj_mul. nia.
Qed.

(* ---------- multiplication below a bound ---------- *)
Lemma SFmul_in_range (x : spec_float) (mc : positive) (ec : Z) (Mb Eb : Z) :
  normal_bound Mb Eb ->
  valid_binary x = true -> SpecFloat.bounded prec emax mc ec = true ->
  nonneg_finite x ->
  val x * F2R (Z.pos mc) ec <= F2R Mb Eb ->
  in_range Mb Eb (SF64mul x (S754_finite false mc ec)).
Proof.
  intros HB Hvx Hvc Hx Hle.
  destruct x as [s|s| |[] m e]; simpl in Hx; try contradiction.
  - exact I.
  - unfold SF64mul, SFmul. cbn [xorb]. simpl in Hvx, Hle.
    pose proof (bounded_inv _ _ Hvx) as [He _].
    pose proof (bounded_inv _ _ Hvc) as [Hec _].
    pose proof (Zdigits2_mul m mc) as Hd.
    apply rounded_below; auto; [lia| |].
    + rewrite fexp_eq. lia.
    + assert (F2R (Z.pos (m * mc)) (e + ec) = F2R (Z.pos m) e * F2R (Z.pos mc) ec).
      { unfold F2R. rewrite Pos2Z.inj_mul, mult_IZR, bpow_add. ring. }
      rewrite H. destruct (Rle_lt_or_eq_dec _ _ Hle); auto.
Qed.

(* ---------- rounding a non-negative mantissa below a bound ---------- *)
Lemma rounded_below_0 (m e : Z) (l : location) (Mc Ec : Z) :
  (0 <= m)%Z ->
  (e <= fexp prec emax (Zdigits2 m + e))%Z ->
  normal_bound Mc Ec ->
  F2R m e < F2R Mc Ec \/ (F2R m e = F2R Mc Ec /\ l = loc_Exact) ->
  in_range Mc Ec (binary_round_aux prec emax false m e l).
Proof.
  intros Hm Hn HC Hval.
  destruct (Z.eq_dec m 0) as [->|Hne]; [|apply rounded_below; auto; lia].
  destruct (binary_round_aux_shape false 0 e l ltac:(lia) Hn)
    as (m1 & Hm1 & _ & Hshape).
  change (Zdigits2 0) with 0%Z in *. rewrite fexp_eq in *.
  rewrite Z.div_0_l in Hm1 by (apply Z.pow_nonzero; lia).
  assert (Hest : Z.max (0 + e - 53) (-1074) = (-1074)%Z) by lia.
  rewrite Hest in Hshape. destruct HC as [HM HE].
  destruct Hshape as [[_ ->]|[[Hr ->]|[Hr _]]].
  - exact I.
  - assert (m1 = 1%Z) by lia. subst m1. simpl. lia.
  - exfalso. assert (2 ^ 53 <= 1)%Z by lia. simpl in H. lia.
Qed.

(* ---------- division ---------- *)
Lemma new_location_0 (n : Z) : new_location n 0 = loc_Exact.
Proof. unfold new_location. destruct (Z.even n); reflexivity. Qed.

Lemma SFdiv_core_spec (mx : positive) (ex : Z) (my : positive) (ey : Z) :
  SpecFloat.bounded prec emax mx ex = true ->
  SpecFloat.bounded prec emax my ey = true ->
  exists q r e' s,
    SFdiv_core_binary prec emax (Z.pos mx) ex (Z.pos my) ey
      = (q, e', new_location (Z.pos my) r)
    /\ (0 <= s)%Z /\ (ex - ey = e' + s)%Z
    /\ (Z.pos mx * 2 ^ s = Z.pos my * q + r)%Z /\ (0 <= r < Z.pos my)%Z
    /\ (0 <= q)%Z
    /\ (e' <= fexp prec emax (Zdigits2 q + e'))%Z.
Proof.
  intros Hbx Hby. unfold SFdiv_core_binary.
  set (d1 := Zdigits2 (Z.pos mx)). set (d2 := Zdigits2 (Z.pos my)).
  set (e' := Z.min (fexp prec emax (d1 + ex - (d2 + ey))) (ex - ey)).
  set (s := (ex - ey - e')%Z).
  assert (Hs : (0 <= s)%Z) by (unfold s, e'; lia).
  set (m' := match s with Z.pos _ => Z.shiftl (Z.pos mx) s | 0%Z => Z.pos mx | Z.neg _ => 0%Z end).
  assert (Hm' : m' = (Z.pos mx * 2 ^ s)%Z).
  { unfold m'. destruct s as [|p|p] eqn:E; try lia.
    rewrite Z.shiftl_mul_pow2 by lia. reflexivity. }
  pose proof (Z_div_mod m' (Z.pos my) ltac:(lia)) as Hdm.
  destruct (Z.div_eucl m' (Z.pos my)) as [q r] eqn:Hqr.
  destruct Hdm as [Hdm Hr].
  assert (Hq : (0 <= q)%Z).
  { assert (0 < 2 ^ s)%Z by (apply Z.pow_pos_nonneg; lia). nia. }
  exists q, r, e', s. split; [reflexivity|].
  split; [exact Hs|]. split; [unfold s; lia|]. split; [lia|]. split; [exact Hr|].
  split; [exact Hq|].
  rewrite fexp_eq.
  destruct (Z_le_gt_dec e' (-1074)) as [|Hgt]; [lia|].
  assert (He' : (e' <= d1 + ex - (d2 + ey) - 53)%Z).
  { unfold e' in *. rewrite fexp_eq in *. lia. }
  pose proof (digits2_pos_bounds mx) as [Hx1 _].
  pose proof (digits2_pos_bounds my) as [_ Hy2].
  change (Z.pos (digits2_pos mx)) with d1 in Hx1.
  change (Z.pos (digits2_pos my)) with d2 in Hy2.
  assert (Hd1 : (1 <= d1)%Z) by (unfold d1; simpl; lia).
  assert (Hd2 : (1 <= d2)%Z) by (unfold d2; simpl; lia).
  set (k := (d1 - 1 + s - d2)%Z).
  assert (Hk : (52 <= k)%Z) by (unfold k, s; lia).
  assert (H2k : (2 ^ k <= q)%Z).
  { assert (Hp : (2 ^ k * 2 ^ d2 = 2 ^ (d1 - 1) * 2 ^ s)%Z).
    { rewrite <- !Z.pow_add_r by lia. f_equal. unfold k. lia. }
    assert (0 < 2 ^ k)%Z by (apply Z.pow_pos_nonneg; lia).
    assert (0 < 2 ^ s)%Z by (apply Z.pow_pos_nonneg; lia).
    destruct (Z_le_gt_dec (2 ^ k) q) as [|Hlt]; auto. exfalso.
    assert (Z.pos my * q + r < Z.pos my * 2 ^ k)%Z by nia.
    assert (Z.pos my * 2 ^ k < 2 ^ k * 2 ^ d2)%Z by nia.
    assert (2 ^ (d1 - 1) * 2 ^ s <= Z.pos mx * 2 ^ s)%Z by nia.
    lia. }
  pose proof (Zdigits2_lower q k ltac:(lia) H2k). lia.
Qed.

Lemma SFdiv_in_range (x : spec_float) (my : positive) (ey : Z) (Mb Eb : Z) :
  normal_bound Mb Eb ->
  valid_binary x = true -> SpecFloat.bounded prec emax my ey = true ->
  nonneg_finite x ->
  val x <= F2R Mb Eb * F2R (Z.pos my) ey ->
  in_range Mb Eb (SF64div x (S754_finite false my ey)).
Proof.
  intros HB Hvx Hvy Hx Hle.
  destruct x as [s|s| |[] mx ex]; simpl in Hx; try contradiction.
  - exact I.
  - simpl in Hvx, Hle. unfold SF64div, SFdiv. cbn [xorb].
    destruct (SFdiv_core_spec mx ex my ey Hvx Hvy)
      as (q & r & e' & s & -> & Hs & He & Hdm & Hr & Hq & Hfexp).
    apply rounded_below_0; auto.
    assert (Hy : 0 < F2R (Z.pos my) ey) by apply F2R_pos.
    assert (Hx2 : F2R (Z.pos mx) ex = F2R (Z.pos my * q + r) (e' + ey)).
    { rewrite <- Hdm, F2R_shift by lia. f_equal. lia. }
    assert (Hsum : F2R (Z.pos my * q + r) (e' + ey)
                   = F2R q e' * F2R (Z.pos my) ey + F2R r (e' + ey)).
    { unfold F2R. rewrite plus_IZR, mult_IZR, bpow_add. ring. }
    destruct (Z.eq_dec r 0) as [->|Hr0].
    + rewrite new_location_0.
      assert (F2R 0 (e' + ey) = 0) by (unfold F2R; simpl; ring).
      assert (Hq' : F2R q e' <= F2R Mb Eb) by nra.
      destruct (Rle_lt_or_eq_dec _ _ Hq'); auto.
    + left.
      assert (0 < F2R r (e' + ey)).
      { unfold F2R. pose proof (bpow_pos (e' + ey)).
        assert (0 < IZR r) by (apply IZR_lt; lia). nra. }
      nra.
Qed.

(* ---------- numbers stay numbers ---------- *)
Lemma SFdiv_number (a : spec_float) (m : positive) (e : Z) :
  signed_number false a -> signed_number false (SF64div a (S754_finite false m e)).
Proof.
  destruct a as [s|s| |s ma ea]; simpl; auto; intros ->; auto.
  unfold SFdiv_core_binary.
  set (m' := match (ea - e - _)%Z with Z.pos _ => _ | 0%Z => _ | Z.neg _ => _ end).
  assert (Hm' : (0 <= m')%Z).
  { unfold m'. destruct (ea - e - _)%Z; try lia. apply Z.shiftl_nonneg. lia. }
  pose proof (Z_div_mod m' (Z.pos m) ltac:(lia)) as Hdm.
  destruct (Z.div_eucl m' (Z.pos m)) as [q r]. destruct Hdm as [Hdm Hr].
  apply binary_round_aux_number. nia.
Qed.

Lemma SFmul_number (a : spec_float) (m : positive) (e : Z) :
  signed_number false a -> signed_number false (SF64mul a (S754_finite false m e)).
Proof.
  destruct a as [s|s| |s ma ea]; simpl; auto; intros ->; auto.
  apply binary_round_aux_number. lia.
Qed.

End Bounds.

(* ===================================================================== *)
(** * The exit evaluation                                                *)
(* ===================================================================== *)

Section ExitFacts.

Variable JSON : Type.
Variable json_loads : string -> Py.exc JSON.
Variable empty_object : JSON.

Lemma check_readable (position : Position) (price : float) (held : Z) :
  exit_conditions_readable json_loads empty_object position ->
  PositionManager.check_exit_conditions JSON json_loads empty_object position price held =
  if PositionManager.take_profit_hit position price then (true, Some "take_profit"%string)
  else if PositionManager.stop_loss_hit position price then (true, Some "stop_loss"%string)
  else if PositionManager.timeout_hit position held then (true, Some "timeout"%string)
  else (false, None).
Proof.
  intros [j Hj]. unfold PositionManager.check_exit_conditions.
  rewrite Hj. reflexivity.
Qed.

Lemma take_profit_hit_iff (position : Position) (price tp : float) :
  pos_take_profit position = Some tp -> Py.truthy_float tp = true ->
  PositionManager.take_profit_hit position price = true
  <-> reaches_take_profit (pos_action position) price tp.
Proof.
  intros Htp Ht. unfold PositionManager.take_profit_hit, reaches_take_profit.
  rewrite Htp, Ht. cbn [andb].
  rewrite orb_true_iff, !andb_true_iff, !String.eqb_eq. reflexivity.
Qed.

Lemma stop_loss_hit_iff (position : Position) (price sl : float) :
  pos_stop_loss position = Some sl -> Py.truthy_float sl = true ->
  PositionManager.stop_loss_hit position price = true
  <-> reaches_stop_loss (pos_action position) price sl.
Proof.
  intros Hsl Ht. unfold PositionManager.stop_loss_hit, reaches_stop_loss.
  rewrite Hsl, Ht. cbn [andb].
  rewrite orb_true_iff, !andb_true_iff, !String.eqb_eq. reflexivity.
Qed.

Lemma timeout_hit_iff (position : Position) (held tc : Z) :
  pos_timeout_candles position = Some tc -> Py.truthy_int tc = true ->
  PositionManager.timeout_hit position held = true <-> tc <= held.
Proof.
  intros Htc Ht. unfold PositionManager.timeout_hit. rewrite Htc, Ht. cbn [andb].
  apply Z.leb_le.
Qed.

Lemma between_misses_take_profit (action : string) (price sl tp : float) :
  strictly_between action price sl tp -> ~ reaches_take_profit action price tp.
Proof.
  intros [(Ha & H1 & H2)|(Ha & H1 & H2)] [(Hb & H3)|(Hb & H3)]; subst;
    try discriminate.
  - apply ltb_not_leb in H2. congruence.
  - apply ltb_not_leb in H1. congruence.
Qed.

Lemma between_misses_stop_loss (action : string) (price sl tp : float) :
  strictly_between action price sl tp -> ~ reaches_stop_loss action price sl.
Proof.
  intros [(Ha & H1 & H2)|(Ha & H1 & H2)] [(Hb & H3)|(Hb & H3)]; subst;
    try discriminate.
  - apply ltb_not_leb in H1. congruence.
  - apply ltb_not_leb in H2. congruence.
Qed.

Lemma not_true_false (b : bool) (P : Prop) : (b = true <-> P) -> ~ P -> b = false.
Proof. destruct b; intuition. Qed.

(** C2. For an open position whose take_profit, stop_loss and
    timeout_candles are all truthy (and whose exit_conditions column can be
    read), [check_exit_conditions] tries take-profit, then stop-loss, then
    timeout, and returns the first reason that matches: a price at the
    take-profit level exits with "take_profit" whatever else holds; failing
    that, a price at the stop-loss level exits with "stop_loss"; failing both,
    [candles_held >= timeout_candles] exits with "timeout"; otherwise there is
    no exit. In particular take-profit together with timeout reports
    "take_profit", and a price strictly between the stop and the target with
    the timeout reached reports "timeout". *)
Theorem check_exit_conditions_priority (position : Position) (price : float)
    (held : Z) (tp sl : float) (tc : Z) :
  exit_conditions_readable json_loads empty_object position ->
  pos_take_profit position = Some tp -> Py.truthy_float tp = true ->
  pos_stop_loss position = Some sl -> Py.truthy_float sl = true ->
  pos_timeout_candles position = Some tc -> Py.truthy_int tc = true ->
  (reaches_take_profit (pos_action position) price tp ->
   PositionManager.check_exit_conditions JSON json_loads empty_object position price held
   = (true, Some "take_profit"%string))
  /\ (~ reaches_take_profit (pos_action position) price tp ->
      reaches_stop_loss (pos_action position) price sl ->
      PositionManager.check_exit_conditions JSON json_loads empty_object position price held
      = (true, Some "stop_loss"%string))
  /\ (~ reaches_take_profit (pos_action position) price tp ->
      ~ reaches_stop_loss (pos_action position) price sl ->
      tc <= held ->
      PositionManager.check_exit_conditions JSON json_loads empty_object position price held
      = (true, Some "timeout"%string))
  /\ (~ reaches_take_profit (pos_action position) price tp ->
      ~ reaches_stop_loss (pos_action position) price sl ->
      held < tc ->
      PositionManager.check_exit_conditions JSON json_loads empty_object position price held
      = (false, None))
  /\ (reaches_take_profit (pos_action position) price tp -> tc <= held ->
      PositionManager.check_exit_conditions JSON json_loads empty_object position price held
      = (true, Some "take_profit"%string))
  /\ (strictly_between (pos_action position) price sl tp -> tc <= held ->
      PositionManager.check_exit_conditions JSON json_loads empty_object position price held
      = (true, Some "timeout"%string)).
Proof.
  intros Hr Htp Htpt Hsl Hslt Htc Htct.
  pose proof (take_profit_hit_iff position price tp Htp Htpt) as Ptp.
  pose proof (stop_loss_hit_iff position price sl Hsl Hslt) as Psl.
  pose proof (timeout_hit_iff position held tc Htc Htct) as Pto.
  rewrite (check_readable position price held Hr).
  assert (A1 : reaches_take_profit (pos_action position) price tp ->
               PositionManager.take_profit_hit position price = true)
    by apply Ptp.
  assert (A2 : ~ reaches_take_profit (pos_action position) price tp ->
               PositionManager.take_profit_hit position price = false)
    by apply (not_true_false _ _ Ptp).
  assert (A3 : ~ reaches_stop_loss (pos_action position) price sl ->
               PositionManager.stop_loss_hit position price = false)
    by apply (not_true_false _ _ Psl).
  repeat split.
  - intros H. now rewrite (A1 H).
  - intros H1 H2. rewrite (A2 H1). apply Psl in H2. now rewrite H2.
  - intros H1 H2 H3. rewrite (A2 H1), (A3 H2). apply Pto in H3. now rewrite H3.
  - intros H1 H2 H3. rewrite (A2 H1), (A3 H2).
    assert (PositionManager.timeout_hit position held = false) as ->; [|reflexivity].
    apply (not_true_false _ _ Pto). lia.
  - intros H _. now rewrite (A1 H).
  - intros H Hh.
    rewrite (A2 (between_misses_take_profit _ _ _ _ H)).
    rewrite (A3 (between_misses_stop_loss _ _ _ _ H)).
    apply Pto in Hh. now rewrite Hh.
Qed.

(** C10. A stored take_profit of 0 or None never yields the exit reason
    "take_profit", whatever the price; a stop_loss of 0 or None likewise
    never yields "stop_loss"; with both falsy the evaluation can only exit
    with "timeout" or not exit at all. *)
Theorem falsy_levels_disable_checks (position : Position) (price : float) (held : Z) :
  (Py.truthy_opt Py.truthy_float (pos_take_profit position) = false ->
   snd (PositionManager.check_exit_conditions JSON json_loads empty_object position price held)
   <> Some "take_profit"%string)
  /\ (Py.truthy_opt Py.truthy_float (pos_stop_loss position) = false ->
      snd (PositionManager.check_exit_conditions JSON json_loads empty_object position price held)
      <> Some "stop_loss"%string)
  /\ (Py.truthy_opt Py.truthy_float (pos_take_profit position) = false ->
      Py.truthy_opt Py.truthy_float (pos_stop_loss position) = false ->
      PositionManager.check_exit_conditions JSON json_loads empty_object position price held
      = (true, Some "timeout"%string)
      \/ PositionManager.check_exit_conditions JSON json_loads empty_object position price held
         = (false, None)).
Proof.
  assert (Htp : Py.truthy_opt Py.truthy_float (pos_take_profit position) = false ->
                PositionManager.take_profit_hit position price = false).
  { unfold PositionManager.take_profit_hit.
    destruct (pos_take_profit position) as [t|]; simpl; [|reflexivity].
    now intros ->. }
  assert (Hsl : Py.truthy_opt Py.truthy_float (pos_stop_loss position) = false ->
                PositionManager.stop_loss_hit position price = false).
  { unfold PositionManager.stop_loss_hit.
    destruct (pos_stop_loss position) as [t|]; simpl; [|reflexivity].
    now intros ->. }
  unfold PositionManager.check_exit_conditions.
  destruct (PositionManager.parse_exit_conditions JSON json_loads empty_object position)
    as [j|e]; simpl.
  - repeat split.
    + intros H. rewrite (Htp H).
      destruct (PositionManager.stop_loss_hit position price);
        [|destruct (PositionManager.timeout_hit position held)]; simpl; discriminate.
    + intros H. rewrite (Hsl H).
      destruct (PositionManager.take_profit_hit position price);
        [|destruct (PositionManager.timeout_hit position held)]; simpl; discriminate.
    + intros H1 H2. rewrite (Htp H1), (Hsl H2).
      destruct (PositionManager.timeout_hit position held); auto.
  - repeat split; try discriminate. auto.
Qed.

End ExitFacts.

(** C2 at [sample_long]: with the timeout reached, a price above the target
    reports "take_profit" and a price between stop and target reports
    "timeout". *)
Lemma check_exit_conditions_priority_witness :
  PositionManager.check_exit_conditions unit (fun _ => Py.Return tt) tt
    sample_long 45210 15 = (true, Some "take_profit"%string)
  /\ PositionManager.check_exit_conditions unit (fun _ => Py.Return tt) tt
       sample_long 45000 15 = (true, Some "timeout"%string).
Proof.
  split.
  - destruct (check_exit_conditions_priority unit (fun _ => Py.Return tt) tt
                sample_long 45210 15 45200 44700 15
                (ex_intro _ tt eq_refl) eq_refl eq_refl eq_refl eq_refl eq_refl eq_refl)
      as (_ & _ & _ & _ & H & _).
    apply H; [left; split; reflexivity | lia].
  - destruct (check_exit_conditions_priority unit (fun _ => Py.Return tt) tt
                sample_long 45000 15 45200 44700 15
                (ex_intro _ tt eq_refl) eq_refl eq_refl eq_refl eq_refl eq_refl eq_refl)
      as (_ & _ & _ & _ & _ & H).
    apply H; [left; repeat split; reflexivity | lia].
Defined.

(** C10 at [sample_unset]: whatever the price, the outcome is "timeout" or
    no exit. *)
Lemma falsy_levels_disable_checks_witness :
  PositionManager.check_exit_conditions unit (fun _ => Py.Return tt) tt
    sample_unset 999999 3 = (true, Some "timeout"%string)
  \/ PositionManager.check_exit_conditions unit (fun _ => Py.Return tt) tt
       sample_unset 999999 3 = (false, None).
Proof.
  apply (falsy_levels_disable_checks unit (fun _ => Py.Return tt) tt
           sample_unset 999999 3); reflexivity.
Defined.

(* ===================================================================== *)
(** * The scan cycle and the one-position-per-symbol rule                *)
(* ===================================================================== *)

Section ScanFacts.

Variable symbols timeframes : list string.
Variable scan : string -> string -> Py.exc (option Signal).

(** The guard of lines 79-83: a symbol that has an open position adds no
    signal. *)
Lemma scan_symbol_skips_open (db : TradingDatabase.table) (acc : list Signal)
    (symbol : string) (p : Position) :
  TradingDatabase.get_position_by_symbol db symbol = Some p ->
  StrategyAgent.scan_symbol timeframes scan db acc symbol = acc.
Proof.
  intros H. unfold StrategyAgent.scan_symbol. now rewrite H.
Qed.

(** Lines 106 and 115: a symbol without open position and with a setup adds
    its best signal twice. *)
Lemma scan_symbol_appends_twice (db : TradingDatabase.table) (acc : list Signal)
    (symbol : string) (first : Signal) (rest : list Signal) :
  TradingDatabase.get_position_by_symbol db symbol = None ->
  StrategyAgent.symbol_signals timeframes scan symbol = first :: rest ->
  StrategyAgent.scan_symbol timeframes scan db acc symbol
  = acc ++ [StrategyAgent.max_by_confidence first rest;
            StrategyAgent.max_by_confidence first rest].
Proof.
  intros H1 H2. unfold StrategyAgent.scan_symbol. rewrite H1, H2.
  now rewrite <- app_assoc.
Qed.

End ScanFacts.

(** C3 (the code departs from it). With no open position, one symbol and one
    timeframe that shows a LONG setup, one scan returns that entry signal
    twice; when the model approves and the exchange fills, the same cycle
    leaves two open positions for the symbol. *)
Theorem scan_cycle_opens_two_positions :
  StrategyAgent.run ["BTC"%string] ["1m"%string] sample_scan true []
  = Some [sample_signal; sample_signal]
  /\ TradingDatabase.open_count
       (trading_cycle ["BTC"%string] ["1m"%string] sample_scan approve_all fill_all
          dumps_nothing [])
       "BTC" = 2%nat.
Proof. split; reflexivity. Qed.

(* ===================================================================== *)
(** * The entry rules                                                    *)
(* ===================================================================== *)

Section EntryFacts.

Local Open Scope float_scope.

Lemma trunc_mag_nonneg (m : positive) (e : Z) : (0 <= Py.trunc_mag m e)%Z.
Proof.
  unfold Py.trunc_mag. destruct (Z.leb_spec 0 e).
  - apply Z.mul_nonneg_nonneg; [lia | apply Z.pow_nonneg; lia].
  - apply Z.div_pos; [lia | apply Z.pow_pos_nonneg; lia].
Qed.

Lemma Prim2SF_3 : Prim2SF 3 = S754_finite false 6755399441055744 (-51).
Proof. reflexivity. Qed.

(** [int(x * 3)] of a value that is not positive is not positive. *)
Lemma int_of_nonpositive_times_3 (x : float) (n : Z) :
  (x <=? 0) = true -> Py.int_of_float (x * 3) = Py.Return n -> (n <= 0)%Z.
Proof.
  intros Hx. unfold Py.int_of_float. rewrite mul_spec, Prim2SF_3.
  rewrite leb_key in Hx. unfold key_rel, fkey in Hx.
  change (Prim2SF 0) with (S754_zero false) in Hx.
  destruct (Prim2SF x) as [s|s| |s m e]; simpl in Hx; try discriminate.
  - simpl. intros H. injection H as <-. lia.
  - destruct s; simpl in Hx; try discriminate.
    unfold SF64mul, SFmul. cbn [xorb].
    pose proof (binary_round_aux_sign true (Z.pos (m * 6755399441055744)) (e + -51)
                  loc_Exact) as Hs.
    destruct (binary_round_aux prec emax true _ _ loc_Exact) as [s'|s'| |s' m' e'];
      simpl in Hs; try discriminate.
    + intros H. injection H as <-. lia.
    + subst s'. intros H. injection H as <-.
      pose proof (trunc_mag_nonneg m' e'). lia.
Qed.

Lemma leverage_of_clamped (rr : float) (n : Z) :
  VolumeProfileStrategy.leverage_of rr = Py.Return n ->
  exists k, Py.int_of_float (rr * 3) = Py.Return k /\ n = Z.min 20 (Z.max 2 k).
Proof.
  unfold VolumeProfileStrategy.leverage_of.
  destruct (Py.int_of_float (rr * 3)) as [k|e]; simpl; [|discriminate].
  intros H. injection H as <-. now exists k.
Qed.

Lemma long_setup_inv (self : Strategy) (price low : float) (profile : Profile)
    (atr : float) (s : Signal) :
  VolumeProfileStrategy.long_setup self price low profile atr = Py.Return s ->
  direction s = LONG
  /\ entry_price s = price
  /\ target_price s = price + abs (poc profile - price) * tp_fraction self
  /\ (exists m, metadata s = Some m
                /\ entry_level m = if low <=? sigma_2_low profile
                                   then "2σ"%string else "1σ"%string)
  /\ exists rr, risk_reward s = Some rr
                /\ VolumeProfileStrategy.leverage_of rr = Py.Return (leverage s)
                /\ rr = (if 0 <? entry_price s - stop_loss s
                         then (target_price s - entry_price s)
                              / (entry_price s - stop_loss s)
                         else 0).
Proof.
  unfold VolumeProfileStrategy.long_setup.
  destruct (VolumeProfileStrategy.leverage_of _) as [n|e] eqn:Hl; simpl; [|discriminate].
  intros H. injection H as <-. simpl.
  repeat split.
  - eexists. split; [reflexivity|]. simpl. now destruct (low <=? sigma_2_low profile).
  - eexists. split; [reflexivity|]. split; [exact Hl | reflexivity].
Qed.

Lemma short_setup_inv (self : Strategy) (price high : float) (profile : Profile)
    (atr : float) (s : Signal) :
  VolumeProfileStrategy.short_setup self price high profile atr = Py.Return s ->
  direction s = SHORT
  /\ entry_price s = price
  /\ target_price s = price - abs (price - poc profile) * tp_fraction self
  /\ exists rr, risk_reward s = Some rr
                /\ VolumeProfileStrategy.leverage_of rr = Py.Return (leverage s)
                /\ rr = (if 0 <? stop_loss s - entry_price s
                         then (entry_price s - target_price s)
                              / (stop_loss s - entry_price s)
                         else 0).
Proof.
  unfold VolumeProfileStrategy.short_setup.
  destruct (VolumeProfileStrategy.leverage_of _) as [n|e] eqn:Hl; simpl; [|discriminate].
  intros H. injection H as <-. simpl.
  repeat split.
  eexists. split; [reflexivity|]. split; [exact Hl | reflexivity].
Qed.

Lemma entry_conditions_inv (self : Strategy) (price low high prev : float)
    (profile : Profile) (atr : float) (s : Signal) :
  VolumeProfileStrategy._check_entry_conditions self price low high prev profile atr
  = Py.Return s ->
  (long_condition price low profile = true
   /\ VolumeProfileStrategy.long_setup self price low profile atr = Py.Return s)
  \/ (long_condition price low profile = false
      /\ short_condition price high profile = true
      /\ VolumeProfileStrategy.short_setup self price high profile atr = Py.Return s)
  \/ (long_condition price low profile = false
      /\ short_condition price high profile = false
      /\ s = VolumeProfileStrategy._neutral_signal self "Waiting for mean reversion setup").
Proof.
  unfold VolumeProfileStrategy._check_entry_conditions, long_condition, short_condition.
  destruct ((low <=? value_area_low profile) && _); [auto|].
  destruct ((value_area_high profile <=? high) && _); [auto|].
  intros H. injection H as <-. auto.
Qed.

(** What every LONG or SHORT signal carries. *)
Lemma setup_signal_inv (self : Strategy) (price low high prev : float)
    (profile : Profile) (atr : float) (s : Signal) :
  VolumeProfileStrategy._check_entry_conditions self price low high prev profile atr
  = Py.Return s ->
  direction s <> NEUTRAL ->
  exists rr, risk_reward s = Some rr
             /\ VolumeProfileStrategy.leverage_of rr = Py.Return (leverage s)
             /\ rr = (if 0 <? risk_of s
                      then match direction s with
                           | SHORT => entry_price s - target_price s
                           | _ => target_price s - entry_price s
                           end / risk_of s
                      else 0).
Proof.
  intros H Hd.
  destruct (entry_conditions_inv _ _ _ _ _ _ _ _ H) as [(_ & Hl)|[(_ & _ & Hs)|(_ & _ & ->)]].
  - apply long_setup_inv in Hl. destruct Hl as (Hdir & _ & _ & _ & rr & H1 & H2 & H3).
    exists rr. unfold risk_of. rewrite Hdir. auto.
  - apply short_setup_inv in Hs. destruct Hs as (Hdir & _ & _ & rr & H1 & H2 & H3).
    exists rr. unfold risk_of. rewrite Hdir. auto.
  - now elim Hd.
Qed.

(** C4, as the code has it. For every LONG or SHORT signal the entry rules
    return, leverage = clamp(int(risk_reward * 3), min_leverage, max_leverage)
    with the bounds 2 and 20, where [int] truncates toward zero; so the
    leverage lies in [2, 20]; whenever risk_reward <= 0 the leverage is the
    minimum; and a risk that is not positive sets risk_reward to 0, hence the
    minimum leverage again. *)
Theorem leverage_is_clamped_truncation (self : Strategy)
    (price low high prev : float) (profile : Profile) (atr : float) (s : Signal) :
  VolumeProfileStrategy._check_entry_conditions self price low high prev profile atr
  = Py.Return s ->
  direction s <> NEUTRAL ->
  exists rr n,
    risk_reward s = Some rr
    /\ Py.int_of_float (rr * 3) = Py.Return n
    /\ leverage s = Z.min Config.HYPERLIQUID_MAX_LEVERAGE
                      (Z.max Config.HYPERLIQUID_MIN_LEVERAGE n)
    /\ (Config.HYPERLIQUID_MIN_LEVERAGE <= leverage s <= Config.HYPERLIQUID_MAX_LEVERAGE)%Z
    /\ ((rr <=? 0) = true -> leverage s = Config.HYPERLIQUID_MIN_LEVERAGE)
    /\ ((0 <? risk_of s) = false ->
        rr = 0 /\ leverage s = Config.HYPERLIQUID_MIN_LEVERAGE).
Proof.
  intros H Hd.
  destruct (setup_signal_inv _ _ _ _ _ _ _ _ H Hd) as (rr & Hrr & Hlev & Hdef).
  destruct (leverage_of_clamped _ _ Hlev) as (n & Hn & Hclamp).
  exists rr, n. unfold Config.HYPERLIQUID_MAX_LEVERAGE, Config.HYPERLIQUID_MIN_LEVERAGE.
  assert (Hle : (rr <=? 0) = true -> leverage s = 2%Z).
  { intros Hneg. pose proof (int_of_nonpositive_times_3 rr n Hneg Hn). lia. }
  split; [exact Hrr|]. split; [exact Hn|]. split; [exact Hclamp|].
  split; [lia|]. split; [exact Hle|].
  intros Hrisk. rewrite Hrisk in Hdef. split; [exact Hdef|].
  apply Hle. now rewrite Hdef.
Qed.

(** C4 at the LONG setup of [wide_profile]. *)
Lemma leverage_is_clamped_truncation_witness :
  exists s rr n,
    VolumeProfileStrategy._check_entry_conditions (Config.strategy_for "BTC" "1m")
      44950 44890 44960 44940 wide_profile 0.3 = Py.Return s
    /\ risk_reward s = Some rr
    /\ Py.int_of_float (rr * 3) = Py.Return n
    /\ leverage s = Z.min 20 (Z.max 2 n).
Proof.
  destruct (VolumeProfileStrategy._check_entry_conditions (Config.strategy_for "BTC" "1m")
              44950 44890 44960 44940 wide_profile 0.3) as [s|e] eqn:E;
    [|vm_compute in E; discriminate E].
  assert (Hd : direction s <> NEUTRAL).
  { vm_compute in E. injection E as <-. discriminate. }
  destruct (leverage_is_clamped_truncation _ _ _ _ _ _ _ s E Hd)
    as (rr & n & H1 & H2 & H3 & _).
  exists s, rr, n. auto.
Defined.

(** C4 as the specification words it fails: at the LONG setup of
    [wide_profile], risk_reward * 3 is about 2.55; rounding gives leverage 3,
    the code gives 2. *)
Lemma leverage_is_not_rounded :
  exists s rr,
    VolumeProfileStrategy._check_entry_conditions (Config.strategy_for "BTC" "1m")
      44950 44890 44960 44940 wide_profile 0.3 = Py.Return s
    /\ direction s = LONG
    /\ risk_reward s = Some rr
    /\ leverage_by_rounding rr = Py.Return 3%Z
    /\ leverage s = 2%Z.
Proof.
  eexists. eexists. split; [vm_compute; reflexivity|].
  repeat split; vm_compute; reflexivity.
Qed.

(** C6. When the entry rules return, they return a LONG signal if and only
    if the low of the candle is at or below value_area_low and the close lies
    inside [value_area_low, value_area_high]; the entry_level of a LONG signal
    is "2σ" exactly when the low is at or below sigma_2_low and "1σ" otherwise;
    and its target is entry + tp_fraction * |poc - entry|. *)
Theorem long_entry_rule (self : Strategy) (price low high prev : float)
    (profile : Profile) (atr : float) :
  returns (VolumeProfileStrategy._check_entry_conditions self price low high prev
             profile atr) ->
  (produces (VolumeProfileStrategy._check_entry_conditions self price low high prev
               profile atr) LONG
   <-> ((low <=? value_area_low profile) = true
        /\ (value_area_low profile <=? price) = true
        /\ (price <=? value_area_high profile) = true))
  /\ (forall s,
        VolumeProfileStrategy._check_entry_conditions self price low high prev
          profile atr = Py.Return s ->
        direction s = LONG ->
        entry_price s = price
        /\ target_price s
           = entry_price s + tp_fraction self * abs (poc profile - entry_price s)
        /\ exists m, metadata s = Some m
                     /\ entry_level m = (if low <=? sigma_2_low profile
                                         then "2σ"%string else "1σ"%string)).
Proof.
  intros [s0 Hs0].
  assert (Hcond : long_condition price low profile = true
                  <-> ((low <=? value_area_low profile) = true
                       /\ (value_area_low profile <=? price) = true
                       /\ (price <=? value_area_high profile) = true)).
  { unfold long_condition, VolumeProfileStrategy.closed_inside.
    rewrite !andb_true_iff. reflexivity. }
  split.
  - rewrite <- Hcond. split.
    + intros (s & Hs & Hd).
      destruct (entry_conditions_inv _ _ _ _ _ _ _ _ Hs)
        as [(Hc & _)|[(_ & _ & Hsh)|(_ & _ & ->)]]; auto.
      * apply short_setup_inv in Hsh. destruct Hsh as (Hdir & _). congruence.
      * discriminate Hd.
    + intros Hc. exists s0. split; [exact Hs0|].
      destruct (entry_conditions_inv _ _ _ _ _ _ _ _ Hs0)
        as [(_ & Hl)|[(Hc' & _)|(Hc' & _)]]; try congruence.
      now apply long_setup_inv in Hl.
  - intros s Hs Hd.
    destruct (entry_conditions_inv _ _ _ _ _ _ _ _ Hs)
      as [(_ & Hl)|[(_ & _ & Hsh)|(_ & _ & ->)]].
    + apply long_setup_inv in Hl.
      destruct Hl as (_ & He & Ht & Hm & _).
      rewrite He, Ht, (mul_comm (tp_fraction self)). auto.
    + apply short_setup_inv in Hsh. destruct Hsh as (Hdir & _). congruence.
    + discriminate Hd.
Qed.

(** C6 at the scenario of the specification: poc 45100, value area
    [44900, 45300], sigma_2_low 44700, a candle with low 44900 that closes at
    44950, tp_fraction 0.9: a LONG signal, target 45085, entry level "1σ". *)
Lemma long_entry_rule_witness :
  exists s m,
    VolumeProfileStrategy._check_entry_conditions (Config.strategy_for "BTC" "1m")
      44950 44900 44960 44940 sample_profile 0.3 = Py.Return s
    /\ direction s = LONG
    /\ target_price s = 45085
    /\ metadata s = Some m
    /\ entry_level m = "1σ"%string.
Proof.
  assert (R : returns (VolumeProfileStrategy._check_entry_conditions
                         (Config.strategy_for "BTC" "1m")
                         44950 44900 44960 44940 sample_profile 0.3)).
  { eexists. vm_compute. reflexivity. }
  destruct (long_entry_rule (Config.strategy_for "BTC" "1m")
              44950 44900 44960 44940 sample_profile 0.3 R) as [Hiff Hshape].
  destruct (proj2 Hiff) as (s & Hs & Hd).
  { repeat split; reflexivity. }
  destruct (Hshape s Hs Hd) as (He & Ht & m & Hm & Hl).
  exists s, m. repeat split; auto.
  rewrite Ht, He. reflexivity.
Defined.

End EntryFacts.

(* ===================================================================== *)
(** * The lookback search                                                *)
(* ===================================================================== *)

Section RangeFacts.

Lemma range_from_in (n : nat) (start step l : Z) :
  In l (Py.range_from n start step)
  <-> exists k, 0 <= k < Z.of_nat n /\ l = start + step * k.
Proof.
  revert start. induction n as [|n IH]; intros start; simpl.
  - split; [tauto | intros (k & Hk & _); lia].
  - rewrite IH. split.
    + intros [<-|(k & Hk & ->)].
      * exists 0. lia.
      * exists (k + 1). lia.
    + intros (k & Hk & ->).
      destruct (Z.eq_dec k 0) as [->|Hne].
      * left. lia.
      * right. exists (k - 1). lia.
Qed.

Lemma range_from_sorted (n : nat) (start step : Z) :
  0 < step -> StronglySorted Z.lt (Py.range_from n start step).
Proof.
  intros Hs. revert start. induction n as [|n IH]; intros start; simpl; constructor.
  - apply IH.
  - apply Forall_forall. intros l Hl. apply range_from_in in Hl.
    destruct Hl as (k & Hk & ->). nia.
Qed.

(** [range(start, stop, 10)] holds exactly [start], [start + 10], ... below
    [stop]. *)
Lemma range_10_in (start stop l : Z) :
  In l (Py.range start stop 10)
  <-> exists k, 0 <= k /\ l = start + 10 * k /\ l < stop.
Proof.
  unfold Py.range. rewrite range_from_in.
  set (q := (stop - start + 10 - 1) / 10).
  assert (Hq : 10 * q <= stop - start + 9 < 10 * q + 10).
  { unfold q. pose proof (Z.div_mod (stop - start + 10 - 1) 10 ltac:(lia)).
    pose proof (Z.mod_pos_bound (stop - start + 10 - 1) 10 ltac:(lia)). lia. }
  split; intros (k & Hk & Hl).
  - exists k. rewrite Z2Nat.id in Hk; lia.
  - exists k. destruct Hl as [-> Hl]. split; [|reflexivity].
    rewrite Z2Nat.id; lia.
Qed.

Lemma range_10_sorted (start stop : Z) : StronglySorted Z.lt (Py.range start stop 10).
Proof. apply range_from_sorted. lia. Qed.

Lemma sorted_split_lt (pre post : list Z) (x l : Z) :
  StronglySorted Z.lt (pre ++ x :: post) -> In l (pre ++ x :: post) -> l < x -> In l pre.
Proof.
  induction pre as [|a pre IH]; simpl; intros Hs Hin Hlt.
  - inversion Hs as [|? ? _ Hall]; subst. destruct Hin as [->|Hin]; [lia|].
    rewrite Forall_forall in Hall. specialize (Hall _ Hin). lia.
  - inversion Hs as [|? ? Hs' Hall]; subst. destruct Hin as [->|Hin]; auto.
Qed.

(** The lookbacks of the configured strategy. *)
Lemma configured_lookbacks :
  Py.range Config.VP_LOOKBACK_MIN (Config.VP_LOOKBACK_MAX + 1) 10
  = [50; 60; 70; 80; 90; 100; 110; 120].
Proof. reflexivity. Qed.

End RangeFacts.

Section SearchFacts.

Local Open Scope float_scope.

Variable recent_poc_of : list Candle -> Py.exc float.
Variable skew_of : list float -> float.
Variable kurtosis_of : list float -> float.
Variable df : list Candle.

Local Notation "'profile_at'" :=
  (VolumeProfileStrategy.calculate_volume_profile recent_poc_of skew_of kurtosis_of df).
Local Notation "'step'" :=
  (VolumeProfileStrategy.search_step recent_poc_of skew_of kurtosis_of df).

Lemma leb_ltb_trans (x y z : float) :
  (x <=? y) = true -> (y <? z) = true -> (x <? z) = true.
Proof.
  float_keys.
  destruct (fkey x) as [a|], (fkey y) as [b|], (fkey z) as [c|]; try discriminate.
  intros H1 H2.
  assert (lex3 c b = Gt) as Hcb.
  { rewrite (lex3_antisym b c). destruct (lex3 b c); simpl in *; congruence. }
  apply c_le_iff in H1.
  destruct (lex3 a c) eqn:Hac; auto; exfalso.
  - assert (lex3 c a <> Gt) by (rewrite (lex3_antisym a c), Hac; discriminate).
    pose proof (lex3_le_trans c a b H H1). congruence.
  - assert (lex3 c a <> Gt) by (rewrite (lex3_antisym a c), Hac; discriminate).
    pose proof (lex3_le_trans c a b H H1). congruence.
Qed.

(** Line 192: the flag is the comparison of the score with 70, also on the
    exception path, which returns [(False, 0)]. *)
Lemma check_development_flag (data : list Candle) (poc mean std : float) :
  fst (VolumeProfileStrategy._check_development recent_poc_of skew_of kurtosis_of
         data poc mean std)
  = (70 <=? snd (VolumeProfileStrategy._check_development recent_poc_of skew_of
                   kurtosis_of data poc mean std)).
Proof.
  unfold VolumeProfileStrategy._check_development,
    VolumeProfileStrategy.check_development_body.
  destruct (10 <=? Pandas.len data)%Z; [destruct (recent_poc_of _)|]; reflexivity.
Qed.

Lemma profile_fields (l : Z) (p : Profile) :
  profile_at l = Some p ->
  lookback p = l /\ developed p = (70 <=? development_score p).
Proof.
  unfold VolumeProfileStrategy.calculate_volume_profile,
    VolumeProfileStrategy.calculate_volume_profile_body.
  destruct (Pandas.len df <? l)%Z; [discriminate|].
  destruct (Pandas.cut _ _) as [bins|e]; simpl; [|discriminate].
  destruct (Pandas.idxmax _) as [k|e]; simpl; [|discriminate].
  match goal with
  | |- context [VolumeProfileStrategy._check_development ?a ?b ?c ?d ?e ?f ?g] =>
      pose proof (check_development_flag d e f g) as Hflag;
      destruct (VolumeProfileStrategy._check_development a b c d e f g) as [dv q]
  end.
  simpl in Hflag. intros H. injection H as <-. simpl. auto.
Qed.

Lemma candidate_score (l : Z) (p : Profile) :
  candidate profile_at l p -> (70 <=? development_score p) = true.
Proof.
  intros [H1 H2]. apply profile_fields in H1. destruct H1 as [_ H1]. congruence.
Qed.

Lemma candidate_positive (l : Z) (p : Profile) :
  candidate profile_at l p -> (0 <? development_score p) = true.
Proof.
  intros H. apply candidate_score in H.
  apply (ltb_leb_trans 0 70); [reflexivity | exact H].
Qed.

Lemma search_step_inv (done : list Z) (st : VolumeProfileStrategy.Search) (l : Z) :
  search_inv profile_at done st -> search_inv profile_at (done ++ [l]) (step st l).
Proof.
  intros Hinv.
  assert (Keep : (forall p, profile_at l = Some p -> developed p = true ->
                    match VolumeProfileStrategy.best_profile st with
                    | Some b => (development_score p <=? development_score b) = true
                    | None => False
                    end) ->
                 search_inv profile_at (done ++ [l])
                   (VolumeProfileStrategy.mkSearch (VolumeProfileStrategy.best_profile st)
                      (VolumeProfileStrategy.best_score st)
                      (VolumeProfileStrategy.found_lookback st)
                      (VolumeProfileStrategy.evaluated st ++ [l]))).
  { intros Hl. unfold search_inv in *.
    cbn [VolumeProfileStrategy.best_profile VolumeProfileStrategy.best_score
           VolumeProfileStrategy.found_lookback].
    destruct (VolumeProfileStrategy.best_profile st) as [b|].
    - destruct Hinv as (Hbs & pre & post & Hdone & Hcp & Hpre & Hpost).
      split; [exact Hbs|].
      exists pre, (post ++ [l]).
      split; [rewrite Hdone, <- app_assoc; reflexivity|].
      split; [exact Hcp|]. split; [exact Hpre|].
      intros l' p' Hin [Hc Hd]. apply in_app_or in Hin.
      destruct Hin as [Hin|[<-|[]]].
      + apply (Hpost l' p' Hin). now split.
      + now apply Hl.
    - destruct Hinv as (Hbs & Hnone). split; [exact Hbs|].
      intros l' p' Hin [Hc Hd]. apply in_app_or in Hin.
      destruct Hin as [Hin|[<-|[]]].
      + apply (Hnone l' p' Hin). now split.
      + exact (Hl p' Hc Hd). }
  unfold VolumeProfileStrategy.search_step.
  destruct (profile_at l) as [q|] eqn:Hq; [|apply Keep; discriminate].
  destruct (developed q) eqn:Hdev; cbn [andb];
    [|apply Keep; intros p Hp Hd; congruence].
  assert (Hcq : candidate profile_at l q) by (split; assumption).
  destruct (VolumeProfileStrategy.best_score st <? development_score q) eqn:Hbetter.
  - unfold search_inv in *.
    cbn [VolumeProfileStrategy.best_profile VolumeProfileStrategy.best_score
           VolumeProfileStrategy.found_lookback].
    split; [reflexivity|].
    exists done, []. split; [reflexivity|]. split; [exact Hcq|].
    split; [|intros l' p' []].
    intros l' p' Hin Hc.
    destruct (VolumeProfileStrategy.best_profile st) as [b|].
    + destruct Hinv as (Hbs & pre & post & Hdone & Hcp & Hpre & Hpost).
      rewrite Hbs in Hbetter.
      apply (leb_ltb_trans _ (development_score b)); [|exact Hbetter].
      rewrite Hdone in Hin. apply in_app_or in Hin.
      destruct Hin as [Hin|[<-|Hin]].
      * apply ltb_leb. eauto.
      * destruct Hc as [Hc _], Hcp as [Hcp' _]. rewrite Hc in Hcp'.
        injection Hcp' as ->. apply leb_refl.
        apply ltb_not_nan in Hbetter. tauto.
      * eauto.
    + destruct Hinv as (_ & Hnone). now elim (Hnone l' p').
  - apply Keep. intros p Hp Hd. injection Hp as <-.
    unfold search_inv in Hinv.
    destruct (VolumeProfileStrategy.best_profile st) as [b|].
    + destruct Hinv as (Hbs & pre & post & Hdone & Hcp & _).
      rewrite Hbs in Hbetter. apply leb_total; auto.
      * apply candidate_score, leb_not_nan in Hcp. tauto.
      * apply candidate_score, leb_not_nan in Hcq. tauto.
    + destruct Hinv as (Hbs & _). rewrite Hbs in Hbetter.
      apply candidate_positive in Hcq. congruence.
Qed.

Lemma search_fold_inv (ls done : list Z) (st : VolumeProfileStrategy.Search) :
  search_inv profile_at done st ->
  search_inv profile_at (done ++ ls) (fold_left step ls st).
Proof.
  revert done st. induction ls as [|l ls IH]; intros done st H; simpl.
  - now rewrite app_nil_r.
  - replace (done ++ l :: ls) with ((done ++ [l]) ++ ls) by now rewrite <- app_assoc.
    apply IH. now apply search_step_inv.
Qed.

Lemma search_fold_evaluated (ls : list Z) (st : VolumeProfileStrategy.Search) :
  VolumeProfileStrategy.evaluated (fold_left step ls st)
  = VolumeProfileStrategy.evaluated st ++ ls.
Proof.
  revert st. induction ls as [|l ls IH]; intros st; simpl.
  - now rewrite app_nil_r.
  - rewrite IH. unfold VolumeProfileStrategy.search_step.
    destruct (profile_at l) as [q|];
      [destruct (developed q && _)|]; simpl; now rewrite <- app_assoc.
Qed.

End SearchFacts.

(* ===================================================================== *)
(** * Signal generation                                                  *)
(* ===================================================================== *)

Section GenerateFacts.

Local Open Scope float_scope.

Variable recent_poc_of : list Candle -> Py.exc float.
Variable skew_of : list float -> float.
Variable kurtosis_of : list float -> float.
Variable calculate_atr : list Candle -> float.

Local Notation "'profile_at'" :=
  (VolumeProfileStrategy.calculate_volume_profile recent_poc_of skew_of kurtosis_of).
Local Notation "'search'" :=
  (VolumeProfileStrategy.search_lookbacks recent_poc_of skew_of kurtosis_of).
Local Notation "'generate'" :=
  (VolumeProfileStrategy.generate_signals recent_poc_of skew_of kurtosis_of calculate_atr).

Lemma search_result (self : Strategy) (df : list Candle) :
  search_inv (profile_at df)
    (Py.range (lookback_min self) (lookback_max self + 1) 10) (search self df)
  /\ VolumeProfileStrategy.evaluated (search self df)
     = Py.range (lookback_min self) (lookback_max self + 1) 10.
Proof.
  unfold VolumeProfileStrategy.search_lookbacks. split.
  - apply (search_fold_inv recent_poc_of skew_of kurtosis_of df _ []).
    split; [reflexivity | intros l p []].
  - apply (search_fold_evaluated recent_poc_of skew_of kurtosis_of df).
Qed.

(** [generate_signals] on a frame that is long enough and passes the ATR
    gate. *)
Lemma generate_in_band (self : Strategy) (df : list Candle) :
  (Pandas.len df <? lookback_max self)%Z = false ->
  VolumeProfileStrategy.atr_in_band self (calculate_atr df) = true ->
  generate self (Some df)
  = match VolumeProfileStrategy.best_profile (search self df) with
    | None =>
        VolumeProfileStrategy.mkOutcome
          (Some (VolumeProfileStrategy._neutral_signal
                   (set_optimal_lookback self
                      (VolumeProfileStrategy.found_lookback (search self df)))
                   "Volume profile not developed"))
          (set_optimal_lookback self
             (VolumeProfileStrategy.found_lookback (search self df)))
          (VolumeProfileStrategy.evaluated (search self df))
    | Some best =>
        VolumeProfileStrategy.mkOutcome
          (Py.try_except
             (current_candle <- Pandas.iloc_from_end 1 df ;;
              prev_candle <- Pandas.iloc_from_end 2 df ;;
              signal <- VolumeProfileStrategy._check_entry_conditions
                          (set_optimal_lookback self
                             (VolumeProfileStrategy.found_lookback (search self df)))
                          (c_close current_candle) (c_low current_candle)
                          (c_high current_candle) (c_close prev_candle)
                          best (calculate_atr df) ;;
              Py.Return (Some signal))
             None)
          (set_optimal_lookback self
             (VolumeProfileStrategy.found_lookback (search self df)))
          (VolumeProfileStrategy.evaluated (search self df))
    end.
Proof.
  intros Hlen Hband. unfold VolumeProfileStrategy.generate_signals.
  rewrite Hlen, Hband. reflexivity.
Qed.

(** A signal of the entry rules is NEUTRAL with the text of line 446, or a
    setup with its f-string. *)
Lemma entry_signal_reasoning (self : Strategy) (price low high prev : float)
    (profile : Profile) (atr : float) (s : Signal) :
  VolumeProfileStrategy._check_entry_conditions self price low high prev profile atr
  = Py.Return s ->
  (direction s = NEUTRAL /\ leverage s = 1%Z
   /\ reasoning s = Reason "Waiting for mean reversion setup")
  \/ (direction s <> NEUTRAL /\ exists a b c d e f, reasoning s = SetupReason a b c d e f).
Proof.
  intros H.
  destruct (entry_conditions_inv _ _ _ _ _ _ _ _ H) as [(_ & Hl)|[(_ & _ & Hs)|(_ & _ & ->)]].
  - right. unfold VolumeProfileStrategy.long_setup in Hl.
    destruct (VolumeProfileStrategy.leverage_of _); simpl in Hl; [|discriminate].
    injection Hl as <-. simpl. split; [discriminate|]. repeat eexists.
  - right. unfold VolumeProfileStrategy.short_setup in Hs.
    destruct (VolumeProfileStrategy.leverage_of _); simpl in Hs; [|discriminate].
    injection Hs as <-. simpl. split; [discriminate|]. repeat eexists.
  - left. repeat split.
Qed.

(** What the [try] around the entry rules returns. *)
Lemma entry_attempt_inv (self : Strategy) (df : list Candle) (best : Profile)
    (atr : float) (s : Signal) :
  Py.try_except
    (current_candle <- Pandas.iloc_from_end 1 df ;;
     prev_candle <- Pandas.iloc_from_end 2 df ;;
     signal <- VolumeProfileStrategy._check_entry_conditions self
                 (c_close current_candle) (c_low current_candle)
                 (c_high current_candle) (c_close prev_candle) best atr ;;
     Py.Return (Some signal))
    None = Some s ->
  exists price low high prev,
    VolumeProfileStrategy._check_entry_conditions self price low high prev best atr
    = Py.Return s.
Proof.
  destruct (Pandas.iloc_from_end 1 df) as [c|e]; simpl; [|discriminate].
  destruct (Pandas.iloc_from_end 2 df) as [c'|e]; simpl; [|discriminate].
  destruct (VolumeProfileStrategy._check_entry_conditions _ _ _ _ _ _ _) as [s'|e] eqn:E;
    simpl; [|discriminate].
  intros H. injection H as <-. eauto.
Qed.

(** C5. The lookback search evaluates exactly the lookbacks lookback_min,
    lookback_min + 10, ... up to lookback_max, in ascending order. When it
    keeps a profile, that profile is developed, was computed at one of those
    lookbacks, has the highest development_score among the developed
    profiles, and every developed profile of a smaller lookback scores
    strictly less (the strict comparison keeps the earliest maximum). It keeps
    none exactly when no lookback gives a developed profile, and then signal
    generation returns a NEUTRAL signal instead of a profile. *)
Theorem lookback_search_selects_best (self : Strategy) (df : list Candle) :
  VolumeProfileStrategy.evaluated (search self df)
  = Py.range (lookback_min self) (lookback_max self + 1) 10
  /\ (forall l, In l (Py.range (lookback_min self) (lookback_max self + 1) 10)
                <-> exists k, (0 <= k /\ l = lookback_min self + 10 * k
                               /\ l <= lookback_max self)%Z)
  /\ StronglySorted Z.lt (Py.range (lookback_min self) (lookback_max self + 1) 10)
  /\ (forall p,
        VolumeProfileStrategy.best_profile (search self df) = Some p ->
        developed p = true
        /\ In (lookback p) (Py.range (lookback_min self) (lookback_max self + 1) 10)
        /\ profile_at df (lookback p) = Some p
        /\ VolumeProfileStrategy.found_lookback (search self df) = lookback p
        /\ forall l' p',
             In l' (Py.range (lookback_min self) (lookback_max self + 1) 10) ->
             profile_at df l' = Some p' ->
             developed p' = true ->
             (development_score p' <=? development_score p) = true
             /\ ((l' < lookback p)%Z ->
                 (development_score p' <? development_score p) = true))
  /\ (VolumeProfileStrategy.best_profile (search self df) = None
      <-> forall l p,
            In l (Py.range (lookback_min self) (lookback_max self + 1) 10) ->
            profile_at df l = Some p -> developed p = false)
  /\ (VolumeProfileStrategy.best_profile (search self df) = None ->
      (Pandas.len df <? lookback_max self)%Z = false ->
      VolumeProfileStrategy.atr_in_band self (calculate_atr df) = true ->
      exists s, VolumeProfileStrategy.returned (generate self (Some df)) = Some s
                /\ direction s = NEUTRAL
                /\ volume_profile s = None
                /\ reasoning s = Reason "Volume profile not developed").
Proof.
  destruct (search_result self df) as [Hinv Hev].
  pose proof (range_10_sorted (lookback_min self) (lookback_max self + 1)) as Hsorted.
  split; [exact Hev|].
  split.
  { intros l. rewrite range_10_in. split; intros (k & H); exists k; lia. }
  split; [exact Hsorted|].
  assert (Hgen : VolumeProfileStrategy.best_profile (search self df) = None ->
      (Pandas.len df <? lookback_max self)%Z = false ->
      VolumeProfileStrategy.atr_in_band self (calculate_atr df) = true ->
      exists s, VolumeProfileStrategy.returned (generate self (Some df)) = Some s
                /\ direction s = NEUTRAL
                /\ volume_profile s = None
                /\ reasoning s = Reason "Volume profile not developed").
  { intros Hnone Hlen Hband. rewrite (generate_in_band self df Hlen Hband), Hnone.
    eexists. simpl. repeat split. }
  unfold search_inv in Hinv.
  destruct (VolumeProfileStrategy.best_profile (search self df)) as [b|].
  - destruct Hinv as (Hbs & pre & post & Hdone & [Hcb Hdb] & Hpre & Hpost).
    destruct (profile_fields _ _ _ _ _ _ Hcb) as [Hlb _].
    assert (Hnan : is_nan (development_score b) = false).
    { pose proof (candidate_score _ _ _ _ _ _ (conj Hcb Hdb)) as H.
      apply leb_not_nan in H. tauto. }
    split.
    + intros p Hp. injection Hp as <-. rewrite Hlb.
      split; [exact Hdb|].
      split; [rewrite Hdone; apply in_or_app; right; now left|].
      split; [exact Hcb|]. split; [reflexivity|].
      intros l' p' Hin Hc Hd.
      assert (Hcand : candidate (profile_at df) l' p') by now split.
      split.
      * rewrite Hdone in Hin. apply in_app_or in Hin.
        destruct Hin as [Hin|[<-|Hin]].
        -- apply ltb_leb. eauto.
        -- rewrite Hc in Hcb. injection Hcb as ->. now apply leb_refl.
        -- eauto.
      * intros Hlt. apply (Hpre l' p'); [|exact Hcand].
        rewrite Hdone in Hsorted, Hin.
        exact (sorted_split_lt _ _ _ _ Hsorted Hin Hlt).
    + split; [|exact Hgen]. split; [discriminate|].
      intros Hnone. exfalso.
      assert (In (VolumeProfileStrategy.found_lookback (search self df))
                (Py.range (lookback_min self) (lookback_max self + 1) 10))
        as Hin by (rewrite Hdone; apply in_or_app; right; now left).
      specialize (Hnone _ _ Hin Hcb). congruence.
  - destruct Hinv as (_ & Hnone). split; [discriminate|].
    split; [|exact Hgen].
    split; [|reflexivity]. intros _ l p Hin Hc.
    destruct (developed p) eqn:Hd; [|reflexivity].
    elim (Hnone l p Hin). now split.
Qed.

(** C8. On a frame that is long enough, the volatility gate lets the symbol
    through exactly when atr_min <= ATR% <= atr_max, both ends included. A
    rejected symbol gets the NEUTRAL signal "ATR outside optimal range" at
    once: no volume profile is computed and the strategy object is left as it
    was. An accepted symbol goes through the whole lookback search, and its
    result is never that rejection. *)
Theorem atr_gate_short_circuits (self : Strategy) (df : list Candle) :
  (Pandas.len df <? lookback_max self)%Z = false ->
  (VolumeProfileStrategy.atr_in_band self (calculate_atr df) = true
   <-> ((atr_min self <=? calculate_atr df) = true
        /\ (calculate_atr df <=? atr_max self) = true))
  /\ (VolumeProfileStrategy.atr_in_band self (calculate_atr df) = false ->
      generate self (Some df)
      = VolumeProfileStrategy.mkOutcome
          (Some (VolumeProfileStrategy._neutral_signal self "ATR outside optimal range"))
          self [])
  /\ (VolumeProfileStrategy.atr_in_band self (calculate_atr df) = true ->
      VolumeProfileStrategy.profiled (generate self (Some df))
      = Py.range (lookback_min self) (lookback_max self + 1) 10
      /\ forall s, VolumeProfileStrategy.returned (generate self (Some df)) = Some s ->
                   reasoning s <> Reason "ATR outside optimal range")
  /\ ((atr_min self <=? atr_max self) = true ->
      calculate_atr df = atr_min self \/ calculate_atr df = atr_max self ->
      VolumeProfileStrategy.atr_in_band self (calculate_atr df) = true).
Proof.
  intros Hlen.
  split; [unfold VolumeProfileStrategy.atr_in_band; apply andb_true_iff|].
  split.
  { intros Hout. unfold VolumeProfileStrategy.generate_signals.
    rewrite Hlen, Hout. reflexivity. }
  split.
  { intros Hband. rewrite (generate_in_band self df Hlen Hband).
    destruct (search_result self df) as [_ Hev].
    destruct (VolumeProfileStrategy.best_profile (search self df)) as [b|];
      cbn [VolumeProfileStrategy.profiled VolumeProfileStrategy.returned];
      (split; [exact Hev|]).
    - intros s Hs. apply entry_attempt_inv in Hs.
      destruct Hs as (price & low & high & prev & Hs).
      destruct (entry_signal_reasoning _ _ _ _ _ _ _ _ Hs)
        as [(_ & _ & ->)|(_ & a & b' & c & d & e & f & ->)]; discriminate.
    - intros s Hs. injection Hs as <-. discriminate. }
  intros Hord [->| ->]; unfold VolumeProfileStrategy.atr_in_band;
    apply andb_true_iff; split; auto; apply leb_refl;
    apply leb_not_nan in Hord; tauto.
Qed.

(** C9, as the code has it. Every signal [generate_signals] returns has an
    integer leverage between 1 and 20: a LONG or SHORT signal lies within
    [min_leverage, max_leverage] = [2, 20]; a NEUTRAL signal carries the
    leverage 1, below min_leverage. *)
Theorem signal_leverage_range (self : Strategy) (fetched : option (list Candle))
    (s : Signal) :
  VolumeProfileStrategy.returned (generate self fetched) = Some s ->
  (direction s = NEUTRAL /\ leverage s = 1%Z)
  \/ (direction s <> NEUTRAL
      /\ (Config.HYPERLIQUID_MIN_LEVERAGE <= leverage s
          <= Config.HYPERLIQUID_MAX_LEVERAGE)%Z).
Proof.
  unfold VolumeProfileStrategy.generate_signals.
  destruct fetched as [df|]; [|discriminate].
  destruct (Pandas.len df <? lookback_max self)%Z; [discriminate|].
  destruct (negb _).
  { simpl. intros H. injection H as <-. left. split; reflexivity. }
  destruct (VolumeProfileStrategy.best_profile _) as [b|].
  - cbn [VolumeProfileStrategy.returned]. intros Hs.
    apply entry_attempt_inv in Hs.
    destruct Hs as (price & low & high & prev & Hs).
    destruct (entry_signal_reasoning _ _ _ _ _ _ _ _ Hs) as [(Hd & Hl & _)|(Hd & _)].
    + left. split; assumption.
    + right. split; [exact Hd|].
      destruct (setup_signal_inv _ _ _ _ _ _ _ _ Hs Hd) as (rr & _ & Hlev & _).
      destruct (leverage_of_clamped _ _ Hlev) as (n & _ & ->).
      unfold Config.HYPERLIQUID_MIN_LEVERAGE, Config.HYPERLIQUID_MAX_LEVERAGE. lia.
  - simpl. intros H. injection H as <-. left. split; reflexivity.
Qed.

End GenerateFacts.

(** C5 on [wave_frame]: the lookbacks 50, 80 and 110 give developed profiles
    (scores about 88.08, 87.97 and 87.94); the search keeps the one of 50. *)
Example lookback_search_on_wave_frame :
  map (fun l =>
         match VolumeProfileStrategy.calculate_volume_profile steady_poc no_skew
                 normal_kurtosis wave_frame l with
         | Some p => developed p
         | None => false
         end)
      [50; 60; 70; 80; 90; 100; 110; 120]
  = [true; false; false; true; false; false; true; false]
  /\ exists p,
       VolumeProfileStrategy.best_profile
         (VolumeProfileStrategy.search_lookbacks steady_poc no_skew normal_kurtosis
            (Config.strategy_for "BTC" "1m") wave_frame) = Some p
       /\ lookback p = 50
       /\ development_score p = 88.07692307692308%float.
Proof.
  split; [vm_compute; reflexivity|].
  eexists. split; [vm_compute; reflexivity|]. split; reflexivity.
Qed.

(** C8 on [wave_frame]: an ATR of 0.3 passes the gate and all eight lookbacks
    are profiled; an ATR of 0.05 is rejected before any profile is computed. *)
Lemma atr_gate_short_circuits_witness :
  VolumeProfileStrategy.profiled
    (VolumeProfileStrategy.generate_signals steady_poc no_skew normal_kurtosis
       atr_inside (Config.strategy_for "BTC" "1m") (Some wave_frame))
  = [50; 60; 70; 80; 90; 100; 110; 120]
  /\ VolumeProfileStrategy.generate_signals steady_poc no_skew normal_kurtosis
       atr_below (Config.strategy_for "BTC" "1m") (Some wave_frame)
     = VolumeProfileStrategy.mkOutcome
         (Some (VolumeProfileStrategy._neutral_signal (Config.strategy_for "BTC" "1m")
                  "ATR outside optimal range"))
         (Config.strategy_for "BTC" "1m") [].
Proof.
  split.
  - destruct (atr_gate_short_circuits steady_poc no_skew normal_kurtosis atr_inside
                (Config.strategy_for "BTC" "1m") wave_frame eq_refl)
      as (_ & _ & H & _).
    destruct (H eq_refl) as [-> _]. reflexivity.
  - destruct (atr_gate_short_circuits steady_poc no_skew normal_kurtosis atr_below
                (Config.strategy_for "BTC" "1m") wave_frame eq_refl)
      as (_ & H & _).
    exact (H eq_refl).
Defined.

(** C9 as the specification words it fails: the NEUTRAL signal returned for an
    ATR below the band carries the leverage 1, outside [2, 20]. *)
Lemma neutral_leverage_below_minimum :
  exists s,
    VolumeProfileStrategy.returned
      (VolumeProfileStrategy.generate_signals steady_poc no_skew normal_kurtosis
         atr_below (Config.strategy_for "BTC" "1m") (Some wave_frame)) = Some s
    /\ direction s = NEUTRAL
    /\ ~ (Config.HYPERLIQUID_MIN_LEVERAGE <= leverage s
          <= Config.HYPERLIQUID_MAX_LEVERAGE)%Z.
Proof.
  eexists. split; [vm_compute; reflexivity|]. split; [reflexivity|].
  simpl. unfold Config.HYPERLIQUID_MIN_LEVERAGE. lia.
Qed.

(** C9 on [wave_frame] with an ATR below the band. *)
Lemma signal_leverage_range_witness :
  exists s,
    VolumeProfileStrategy.returned
      (VolumeProfileStrategy.generate_signals steady_poc no_skew normal_kurtosis
         atr_below (Config.strategy_for "BTC" "1m") (Some wave_frame)) = Some s
    /\ ((direction s = NEUTRAL /\ leverage s = 1%Z)
        \/ (direction s <> NEUTRAL
            /\ (Config.HYPERLIQUID_MIN_LEVERAGE <= leverage s
                <= Config.HYPERLIQUID_MAX_LEVERAGE)%Z)).
Proof.
  eexists. split; [vm_compute; reflexivity|].
  apply (signal_leverage_range steady_poc no_skew normal_kurtosis atr_below
           (Config.strategy_for "BTC" "1m") (Some wave_frame)).
  vm_compute. reflexivity.
Defined.

(* ===================================================================== *)
(** * Profile estimation on a slice without volume                       *)
(* ===================================================================== *)

Section ZeroVolume.

Local Open Scope float_scope.

Variable recent_poc_of : list Candle -> Py.exc float.
Variable skew_of : list float -> float.
Variable kurtosis_of : list float -> float.

Lemma eqb_zero_iff (x : float) : (x =? 0) = true <-> is_zero_sf (Prim2SF x) = true.
Proof.
  rewrite eqb_spec. change (Prim2SF 0) with (S754_zero false).
  destruct (Prim2SF x) as [s|s| |s m e]; try (destruct s); cbv;
    split; congruence.
Qed.

Lemma sum_zero (xs : list float) (acc : float) :
  is_zero_sf (Prim2SF acc) = true ->
  Forall (fun x => is_zero_sf (Prim2SF x) = true) xs ->
  is_zero_sf (Prim2SF (fold_left PrimFloat.add xs acc)) = true.
Proof.
  revert acc. induction xs as [|x xs IH]; intros acc Hacc Hxs; simpl; [exact Hacc|].
  inversion Hxs as [|y ys Hx Hrest]; subst.
  apply IH; [|exact Hrest]. rewrite add_spec. now apply SFadd_zero.
Qed.

Lemma add_zero (x y : float) :
  is_zero_sf (Prim2SF x) = true -> is_zero_sf (Prim2SF y) = true ->
  is_zero_sf (Prim2SF (x + y)) = true.
Proof. intros Hx Hy. rewrite add_spec. now apply SFadd_zero. Qed.

(** The running sums of zeros are zeros. *)
Lemma add_groups_zero (n : nat) (xs : list float) (r : Pandas.Lanes) :
  (List.length xs <= n)%nat ->
  Forall (fun x => is_zero_sf (Prim2SF x) = true) xs ->
  Forall (fun x => is_zero_sf (Prim2SF x) = true)
    [Pandas.lane0 r; Pandas.lane1 r; Pandas.lane2 r; Pandas.lane3 r;
     Pandas.lane4 r; Pandas.lane5 r; Pandas.lane6 r; Pandas.lane7 r] ->
  let (r', left_over) := Pandas.add_groups r xs in
  Forall (fun x => is_zero_sf (Prim2SF x) = true)
    [Pandas.lane0 r'; Pandas.lane1 r'; Pandas.lane2 r'; Pandas.lane3 r';
     Pandas.lane4 r'; Pandas.lane5 r'; Pandas.lane6 r'; Pandas.lane7 r']
  /\ Forall (fun x => is_zero_sf (Prim2SF x) = true) left_over.
Proof.
  revert xs r. induction n as [|n IH]; intros xs r Hlen Hxs Hr.
  - destruct xs; [simpl; auto | simpl in Hlen; lia].
  - destruct xs as [|a0 [|a1 [|a2 [|a3 [|a4 [|a5 [|a6 [|a7 rest]]]]]]]];
      try (simpl; split; assumption).
    cbn [Pandas.add_groups]. apply IH.
    + simpl in Hlen. lia.
    + repeat (apply Forall_inv_tail in Hxs). exact Hxs.
    + repeat match goal with
             | H : Forall _ (_ :: _) |- _ => inversion H; clear H; subst
             end.
      cbn [Pandas.lane0 Pandas.lane1 Pandas.lane2 Pandas.lane3 Pandas.lane4
             Pandas.lane5 Pandas.lane6 Pandas.lane7].
      repeat constructor; now apply add_zero.
Qed.

Lemma block_sum_zero (xs : list float) :
  Forall (fun x => is_zero_sf (Prim2SF x) = true) xs ->
  is_zero_sf (Prim2SF (Pandas.block_sum xs)) = true.
Proof.
  intros Hxs. unfold Pandas.block_sum.
  destruct xs as [|a0 [|a1 [|a2 [|a3 [|a4 [|a5 [|a6 [|a7 rest]]]]]]]];
    try (apply sum_zero; [reflexivity | exact Hxs]).
  pose proof (add_groups_zero (List.length rest) rest
                (Pandas.mkLanes a0 a1 a2 a3 a4 a5 a6 a7) (le_n _)) as H.
  destruct (Pandas.add_groups _ rest) as [r left_over].
  destruct H as [Hr Hleft].
  - repeat (apply Forall_inv_tail in Hxs). exact Hxs.
  - cbn [Pandas.lane0 Pandas.lane1 Pandas.lane2 Pandas.lane3 Pandas.lane4
           Pandas.lane5 Pandas.lane6 Pandas.lane7].
    repeat match goal with
           | H : Forall _ (_ :: _) |- _ => inversion H; clear H; subst
           end.
    repeat constructor; assumption.
  - apply sum_zero; [|exact Hleft].
    repeat match goal with
           | H : Forall _ (_ :: _) |- _ => inversion H; clear H; subst
           end.
    repeat apply add_zero; assumption.
Qed.

Lemma pairwise_sum_zero (depth : nat) (xs : list float) :
  Forall (fun x => is_zero_sf (Prim2SF x) = true) xs ->
  is_zero_sf (Prim2SF (Pandas.pairwise_sum depth xs)) = true.
Proof.
  revert xs. induction depth as [|depth IH]; intros xs Hxs;
    cbn [Pandas.pairwise_sum]; [now apply block_sum_zero|].
  destruct (128 <? List.length xs)%nat; [|now apply block_sum_zero].
  set (n2 := (List.length xs / 2 - (List.length xs / 2) mod 8)%nat).
  rewrite <- (firstn_skipn n2 xs) in Hxs. apply Forall_app in Hxs.
  destruct Hxs as [H1 H2]. apply add_zero; now apply IH.
Qed.

(** The sum of a column of zeros and NaNs is zero. *)
Lemma series_sum_zero (xs : list float) :
  (forall x, In x xs -> zero_or_nan (Prim2SF x) = true) ->
  is_zero_sf (Prim2SF (Pandas.series_sum xs)) = true.
Proof.
  intros Hxs. unfold Pandas.series_sum. apply add_zero; [reflexivity|].
  apply pairwise_sum_zero. apply Forall_forall. intros y Hy.
  apply in_map_iff in Hy. destruct Hy as (x & <- & Hx).
  specialize (Hxs x Hx). destruct (is_nan x) eqn:E; [reflexivity|].
  destruct (Prim2SF x) eqn:Ex; try discriminate Hxs; [reflexivity|].
  apply is_nan_Prim2SF in Ex. congruence.
Qed.

(** The number of splits allowed does not matter once it is the length of
    the list. *)
Lemma pairwise_sum_depth (d1 d2 : nat) (xs : list float) :
  (List.length xs <= d1)%nat -> (List.length xs <= d2)%nat ->
  Pandas.pairwise_sum d1 xs = Pandas.pairwise_sum d2 xs.
Proof.
  revert d2 xs. induction d1 as [|d1 IH]; intros d2 xs H1 H2.
  - destruct xs; [|simpl in H1; lia]. destruct d2; reflexivity.
  - cbn [Pandas.pairwise_sum]. destruct (128 <? List.length xs)%nat eqn:E.
    + apply Nat.ltb_lt in E. destruct d2 as [|d2]; [lia|].
      cbn [Pandas.pairwise_sum].
      apply Nat.ltb_lt in E. rewrite E. apply Nat.ltb_lt in E.
      set (half := (List.length xs / 2)%nat).
      assert (Hhalf : (64 <= half /\ 2 * half <= List.length xs)%nat).
      { unfold half. split.
        - apply (Nat.div_le_lower_bound (List.length xs) 2 64); lia.
        - apply Nat.Div0.mul_div_le. }
      assert (Hmod : (half mod 8 < 8)%nat) by (apply Nat.mod_upper_bound; lia).
      f_equal; apply IH; rewrite ?length_firstn, ?length_skipn; lia.
    + destruct d2 as [|d2]; cbn [Pandas.pairwise_sum]; [reflexivity | now rewrite E].
Qed.

(** A volume-weighted sum over a slice without volume, divided by its total
    volume, is 0 / 0. *)
Lemma weighted_mean_nan (data : list Candle) (f : Candle -> float) :
  (forall c, In c data -> (c_volume c =? 0) = true) ->
  Pandas.series_sum (map (fun c => f c * c_volume c) data)
  / Pandas.series_sum (map c_volume data) = nan.
Proof.
  intros Hz. apply Prim2SF_inj. rewrite div_spec.
  change (Prim2SF nan) with S754_nan. apply SFdiv_nan.
  - assert (H : is_zero_sf
                  (Prim2SF (Pandas.series_sum (map (fun c => f c * c_volume c) data)))
                = true).
    { apply series_sum_zero.
      intros x Hx. apply in_map_iff in Hx. destruct Hx as (c & <- & Hc).
      rewrite mul_spec. apply SFmul_zero_r. apply eqb_zero_iff. now apply Hz. }
    destruct (Prim2SF _); try discriminate H; reflexivity.
  - apply series_sum_zero.
    intros x Hx. apply in_map_iff in Hx. destruct Hx as (c & <- & Hc).
    assert (H : is_zero_sf (Prim2SF (c_volume c)) = true)
      by (apply eqb_zero_iff; now apply Hz).
    destruct (Prim2SF _); try discriminate H; reflexivity.
Qed.

(** When the estimation rejects: too few candles, or the binning raises. *)
Lemma profile_rejected_iff (df : list Candle) (lookback : Z) :
  VolumeProfileStrategy.calculate_volume_profile recent_poc_of skew_of kurtosis_of
    df lookback = None
  <-> ((Pandas.len df <? lookback)%Z = true
       \/ exists e, (price_bin <- Pandas.cut
                                    (map c_close (Pandas.tail lookback df))
                                    (Pandas.linspace
                                       (Pandas.series_min
                                          (map c_low (Pandas.tail lookback df)))
                                       (Pandas.series_max
                                          (map c_high (Pandas.tail lookback df)))
                                       (Z.min 50 (Pandas.len (Pandas.tail lookback df) / 2)
                                        + 1)) ;;
                     Pandas.idxmax
                       (Pandas.groupby_sum price_bin
                          (map c_volume (Pandas.tail lookback df))
                          (Z.to_nat (Z.min 50
                                       (Pandas.len (Pandas.tail lookback df) / 2)))))
                    = Py.Raise e).
Proof.
  unfold VolumeProfileStrategy.calculate_volume_profile,
    VolumeProfileStrategy.calculate_volume_profile_body.
  destruct (Pandas.len df <? lookback)%Z; [simpl; tauto|].
  destruct (Pandas.cut _ _) as [bins|e]; simpl.
  - destruct (Pandas.idxmax _) as [k|e]; simpl.
    + destruct (VolumeProfileStrategy._check_development _ _ _ _ _ _ _) as [dv q].
      simpl. split; [discriminate | intros [H|[e H]]; discriminate].
    + split; eauto.
  - split; eauto.
Qed.

(** C1, as the code has it. A slice whose candles all have volume zero is not
    rejected for that: the estimation rejects if and only if there are fewer
    candles than the lookback, or the binning of the closes or the choice of
    the bin of largest volume raises.  In every other case it returns a
    profile, and the division by the zero total volume makes its mean_price,
    its std_price and its four band bounds NaN. *)
Theorem zero_volume_profile_is_nan (df : list Candle) (lookback : Z) :
  (forall c, In c (Pandas.tail lookback df) -> (c_volume c =? 0) = true) ->
  (VolumeProfileStrategy.calculate_volume_profile recent_poc_of skew_of kurtosis_of
     df lookback = None
   <-> ((Pandas.len df <? lookback)%Z = true
        \/ exists e, (price_bin <- Pandas.cut
                                     (map c_close (Pandas.tail lookback df))
                                     (Pandas.linspace
                                        (Pandas.series_min
                                           (map c_low (Pandas.tail lookback df)))
                                        (Pandas.series_max
                                           (map c_high (Pandas.tail lookback df)))
                                        (Z.min 50
                                           (Pandas.len (Pandas.tail lookback df) / 2)
                                         + 1)) ;;
                      Pandas.idxmax
                        (Pandas.groupby_sum price_bin
                           (map c_volume (Pandas.tail lookback df))
                           (Z.to_nat (Z.min 50
                                        (Pandas.len (Pandas.tail lookback df) / 2)))))
                     = Py.Raise e))
  /\ (VolumeProfileStrategy.calculate_volume_profile recent_poc_of skew_of kurtosis_of
        df lookback = None
      \/ exists p,
           VolumeProfileStrategy.calculate_volume_profile recent_poc_of skew_of
             kurtosis_of df lookback = Some p
           /\ is_nan (mean_price p) = true /\ is_nan (std_price p) = true
           /\ is_nan (value_area_high p) = true /\ is_nan (value_area_low p) = true
           /\ is_nan (sigma_2_high p) = true /\ is_nan (sigma_2_low p) = true).
Proof.
  intros Hz. split; [apply profile_rejected_iff|].
  unfold VolumeProfileStrategy.calculate_volume_profile,
    VolumeProfileStrategy.calculate_volume_profile_body.
  destruct (Pandas.len df <? lookback)%Z; [now left|].
  destruct (Pandas.cut _ _) as [bins|e]; simpl; [|now left].
  destruct (Pandas.idxmax _) as [k|e]; simpl; [|now left].
  rewrite (weighted_mean_nan _ c_close Hz).
  rewrite (weighted_mean_nan _ (fun c => (c_close c - nan) * (c_close c - nan)) Hz).
  destruct (VolumeProfileStrategy._check_development _ _ _ _ _ _ _) as [dv q].
  right. eexists. split; [reflexivity|]. simpl. repeat split.
Qed.

End ZeroVolume.

Lemma in_skipn_in {A : Type} (n : nat) (l : list A) (x : A) :
  In x (skipn n l) -> In x l.
Proof.
  revert l. induction n as [|n IH]; intros l; simpl; [tauto|].
  destruct l as [|a l]; simpl; [tauto|]. intros H. right. now apply IH.
Qed.

(** C1 as the specification words it fails: the fifty last candles of
    [silent_frame] have no volume, and the estimation returns a profile whose
    mean price is NaN instead of rejecting the slice. *)
Lemma zero_volume_is_not_rejected :
  (forall c, In c (Pandas.tail 50 silent_frame) -> c_volume c = 0%float)
  /\ exists p,
       VolumeProfileStrategy.calculate_volume_profile steady_poc no_skew normal_kurtosis
         silent_frame 50 = Some p
       /\ is_nan (mean_price p) = true
       /\ is_nan (std_price p) = true
       /\ is_nan (value_area_low p) = true
       /\ is_nan (value_area_high p) = true.
Proof.
  split.
  - intros c Hc. unfold silent_frame, Pandas.tail in Hc. simpl Z.ltb in Hc. cbv iota in Hc.
    apply in_skipn_in in Hc. apply in_map_iff in Hc.
    destruct Hc as (c' & <- & _). reflexivity.
  - eexists. split; [vm_compute; reflexivity|]. repeat split.
Qed.

(** C1 on [silent_frame]. *)
Lemma zero_volume_profile_is_nan_witness :
  exists p,
    VolumeProfileStrategy.calculate_volume_profile steady_poc no_skew normal_kurtosis
      silent_frame 50 = Some p
    /\ is_nan (mean_price p) = true.
Proof.
  destruct (zero_volume_profile_is_nan steady_poc no_skew normal_kurtosis
              silent_frame 50) as [_ [H|(p & Hp & Hm & _)]].
  - intros c Hc. unfold silent_frame, Pandas.tail in Hc. simpl Z.ltb in Hc. cbv iota in Hc.
    apply in_skipn_in in Hc. apply in_map_iff in Hc.
    destruct Hc as (c' & <- & _). reflexivity.
  - vm_compute in H. discriminate H.
  - exists p. split; assumption.
Defined.
(* ===================================================================== *)
(** * The development score (lines 144-198)                              *)
(* ===================================================================== *)

(** The four sub-scores and their average, in binary64 as the code computes
    them.  [100] is [7036874417766400 * 2^-46]; the partial sums of the
    average are bounded by 100, 200, 300 and 400. *)

Section Scores.

Lemma SFleb_lex (m : positive) (e : Z) (M : positive) (E : Z) :
  e < E \/ (e = E /\ Z.pos m <= Z.pos M) ->
  SFleb (S754_finite false m e) (S754_finite false M E) = true.
Proof.
  unfold SFleb, SFcompare. intros [H|[-> H]].
  - rewrite (proj2 (Z.compare_lt_iff _ _) H). reflexivity.
  - rewrite Z.compare_refl. fold (Pos.compare m M).
    destruct (Pos.compare_spec m M); auto. lia.
Qed.

Lemma SFleb_false_lex (m : positive) (e : Z) (M : positive) (E : Z) :
  SFleb (S754_finite false M E) (S754_finite false m e) = false ->
  e < E \/ (e = E /\ Z.pos m < Z.pos M).
Proof.
  unfold SFleb, SFcompare.
  destruct (Z.compare_spec E e) as [->|H|H]; try discriminate; [|lia].
  fold (Pos.compare M m).
  destruct (Pos.compare_spec M m); try discriminate. lia.
Qed.

Lemma SFleb_false_ltb (x y : spec_float) : SFleb x y = false -> SFltb x y = false.
Proof. unfold SFleb, SFltb. destruct (SFcompare x y) as [[]|]; auto. Qed.

Lemma normal_100 : normal_bound 7036874417766400 (-46).
Proof. unfold normal_bound. lia. Qed.

Lemma score_range_bounds (x : float) :
  score_range x -> (0 <=? x)%float = true /\ (x <=? 100)%float = true.
Proof.
  unfold score_range. rewrite !FloatAxioms.leb_spec.
  change (Prim2SF 0) with (S754_zero false).
  change (Prim2SF 100) with (S754_finite false 7036874417766400 (-46)).
  destruct (Prim2SF x) as [s|s| |[] m e]; cbn [in_range]; try contradiction.
  - intros _. split; reflexivity.
  - intros H. split; [reflexivity|]. apply SFleb_lex. exact H.
Qed.


Lemma score_range_100 : score_range 100.
Proof. unfold score_range. change (Prim2SF 100) with (S754_finite false 7036874417766400 (-46)).
  cbn [in_range]. right. split; [reflexivity|apply Z.le_refl]. Qed.

Lemma score_range_50 : score_range 50.
Proof. unfold score_range. change (Prim2SF 50) with (S754_finite false 7036874417766400 (-47)).
  cbn [in_range]. left. reflexivity. Qed.

Lemma score_range_0 : score_range 0.
Proof. exact I. Qed.

(** [max(0, 100 - t)] for a [t] that is not negative. *)
Lemma clamp_range (t : float) :
  signed_like false (Prim2SF t) -> score_range (Py.max_float 0 (100 - t)).
Proof.
  intros Ht. unfold Py.max_float.
  destruct (0 <? 100 - t)%float eqn:E; [|exact I].
  unfold score_range. rewrite FloatAxioms.ltb_spec in E. rewrite sub_spec in E |- *.
  change (Prim2SF 0) with (S754_zero false) in E.
  change (Prim2SF 100) with (S754_finite false 7036874417766400 (-46)) in E |- *.
  apply SFsub_from_bound; [exact normal_100 | exact Ht | exact E].
Qed.

Lemma poc_drift_score_range (poc_drift : float) :
  score_range (VolumeProfileStrategy.poc_drift_score poc_drift).
Proof.
  unfold VolumeProfileStrategy.poc_drift_score.
  destruct (poc_drift <? 0.3)%float eqn:E; [exact score_range_100|].
  apply clamp_range. rewrite mul_spec, sub_spec.
  rewrite FloatAxioms.ltb_spec in E.
  change (Prim2SF 200) with (S754_finite false 7036874417766400 (-45)).
  change (Prim2SF 0.3) with (S754_finite false 5404319552844595 (-54)) in E |- *.
  apply SFmul_nonneg, SFsub_nonneg; [apply Prim2SF_valid | reflexivity | exact E].
Qed.

Lemma skewness_score_range (skewness : float) :
  score_range (VolumeProfileStrategy.skewness_score skewness).
Proof.
  unfold VolumeProfileStrategy.skewness_score.
  destruct (abs skewness <=? 0.25)%float eqn:E; [exact score_range_100|].
  apply clamp_range. rewrite mul_spec, sub_spec.
  rewrite FloatAxioms.leb_spec in E. apply SFleb_false_ltb in E.
  change (Prim2SF 200) with (S754_finite false 7036874417766400 (-45)).
  change (Prim2SF 0.25) with (S754_finite false 4503599627370496 (-54)) in E |- *.
  apply SFmul_nonneg, SFsub_nonneg; [apply Prim2SF_valid | reflexivity | exact E].
Qed.

Lemma SFabs_nonneg (x : spec_float) : signed_like false (SFabs x).
Proof. destruct x; reflexivity. Qed.

Lemma kurtosis_score_range (kurtosis : float) :
  score_range (VolumeProfileStrategy.kurtosis_score kurtosis).
Proof.
  unfold VolumeProfileStrategy.kurtosis_score.
  destruct ((2.5 <=? kurtosis) && (kurtosis <=? 3.5))%float; [exact score_range_100|].
  apply clamp_range. rewrite mul_spec, abs_spec.
  change (Prim2SF 50) with (S754_finite false 7036874417766400 (-47)).
  apply SFmul_nonneg, SFabs_nonneg.
Qed.


Section ScaledValues.
Local Open Scope R_scope.

Lemma F2R_mul (a e1 b e2 : Z) : F2R a e1 * F2R b e2 = F2R (a * b) (e1 + e2).
Proof. unfold F2R. rewrite mult_IZR, bpow_add. ring. Qed.

Lemma F2R_le (a b e : Z) : (a <= b)%Z -> F2R a e <= F2R b e.
Proof.
  intros H. unfold F2R. pose proof (bpow_pos e). apply IZR_le in H. nra.
Qed.

Lemma F2R_scale (k m e : Z) : F2R (k * m) e = IZR k * F2R m e.
Proof. unfold F2R. rewrite mult_IZR. ring. Qed.

Lemma F2R_nonneg (m e : Z) : (0 <= m)%Z -> 0 <= F2R m e.
Proof.
  intros H. unfold F2R. pose proof (bpow_pos e). apply IZR_le in H. nra.
Qed.

End ScaledValues.

(** [va_coverage * (100/65)] below 65 stays below 100: the largest value below
    65 times the rounded quotient is still under [100]. *)
Lemma va_score_range (va_coverage : float) :
  signed_number false (Prim2SF va_coverage) ->
  score_range (VolumeProfileStrategy.va_score va_coverage).
Proof.
  intros Hn. unfold VolumeProfileStrategy.va_score.
  destruct (65 <=? va_coverage)%float eqn:E; [exact score_range_100|].
  unfold score_range. rewrite mul_spec. rewrite FloatAxioms.leb_spec in E.
  change (Prim2SF 65) with (S754_finite false 4573968371548160 (-46)) in E.
  change (Prim2SF (100 / 65)) with (S754_finite false 6928614811339225 (-52)).
  pose proof (Prim2SF_valid va_coverage) as Hv.
  assert (HB : normal_bound 4573968371548159 (-46)) by (unfold normal_bound; lia).
  assert (Hr : in_range 4573968371548159 (-46) (Prim2SF va_coverage)).
  { destruct (Prim2SF va_coverage) as [s|s| |s m e]; simpl in Hn; try contradiction.
    - exact I.
    - subst s. discriminate.
    - subst s. cbn [in_range]. apply SFleb_false_lex in E. lia. }
  apply SFmul_in_range; [exact normal_100 | exact Hv | reflexivity
                        | eapply in_range_nonneg_finite; exact Hr |].
  pose proof (in_range_val _ _ _ HB Hv Hr) as Hval.
  pose proof (val_nonneg (Prim2SF va_coverage)) as H0.
  assert (Hc : (0 <= F2R 6928614811339225 (-52))%R) by (apply F2R_nonneg; lia).
  assert (Hp : (F2R 4573968371548159 (-46) * F2R 6928614811339225 (-52)
                <= F2R 7036874417766400 (-46))%R).
  { rewrite F2R_mul.
    replace (F2R 7036874417766400 (-46)) with (F2R (7036874417766400 * 2 ^ 52) (-46 + -52)).
    - apply F2R_le. vm_compute. discriminate.
    - rewrite F2R_shift by lia. reflexivity. }
  nra.
Qed.


(** The average of four scores is a score: the partial sums stay under 100,
    200, 300 and 400, and a quarter of at most 400 rounds to at most 100. *)
Lemma quality_of_range (s1 s2 s3 s4 : float) :
  score_range s1 -> score_range s2 -> score_range s3 -> score_range s4 ->
  score_range (VolumeProfileStrategy.quality_of s1 s2 s3 s4).
Proof.
  unfold score_range. intros H1 H2 H3 H4.
  pose proof normal_100 as HB.
  pose proof (in_range_val _ _ _ HB (Prim2SF_valid s1) H1) as V1.
  pose proof (in_range_val _ _ _ HB (Prim2SF_valid s2) H2) as V2.
  pose proof (in_range_val _ _ _ HB (Prim2SF_valid s3) H3) as V3.
  pose proof (in_range_val _ _ _ HB (Prim2SF_valid s4) H4) as V4.
  set (B := F2R 7036874417766400 (-46)) in *.
  assert (E2 : F2R 7036874417766400 (-45) = (2 * B)%R).
  { unfold B. rewrite <- (F2R_scale 2), Z.mul_comm.
    rewrite <- (F2R_shift _ (-46) 1) by lia. reflexivity. }
  assert (E3 : F2R 5277655813324800 (-44) = (3 * B)%R).
  { unfold B. rewrite <- (F2R_scale 3).
    rewrite <- (F2R_shift _ (-46) 2) by lia. reflexivity. }
  assert (E4 : F2R 7036874417766400 (-44) = (4 * B)%R).
  { unfold B. rewrite <- (F2R_scale 4), Z.mul_comm.
    rewrite <- (F2R_shift _ (-46) 2) by lia. reflexivity. }
  assert (E5 : F2R 4503599627370496 (-50) = 4%R).
  { change 4503599627370496%Z with (1 * 2 ^ 52)%Z. rewrite F2R_shift by lia.
    change (-50 + 52)%Z with 2%Z. unfold F2R. rewrite (bpow_Z 2) by lia.
    simpl. lra. }
  assert (A1 : in_range 7036874417766400 (-46) (Prim2SF (0 + s1))).
  { rewrite add_spec. apply SFadd_in_range; auto using Prim2SF_valid.
    - exact I.
    - eapply in_range_nonneg_finite; eassumption.
    - change (Prim2SF 0) with (S754_zero false). simpl val. fold B. lra. }
  pose proof (in_range_val _ _ _ HB (Prim2SF_valid _) A1) as W1. fold B in W1.
  assert (HB2 : normal_bound 7036874417766400 (-45)) by (unfold normal_bound; lia).
  assert (A2 : in_range 7036874417766400 (-45) (Prim2SF (0 + s1 + s2))).
  { rewrite add_spec. apply SFadd_in_range; auto using Prim2SF_valid.
    - eapply in_range_nonneg_finite; eassumption.
    - eapply in_range_nonneg_finite; eassumption.
    - rewrite E2. lra. }
  pose proof (in_range_val _ _ _ HB2 (Prim2SF_valid _) A2) as W2. rewrite E2 in W2.
  assert (HB3 : normal_bound 5277655813324800 (-44)) by (unfold normal_bound; lia).
  assert (A3 : in_range 5277655813324800 (-44) (Prim2SF (0 + s1 + s2 + s3))).
  { rewrite add_spec. apply SFadd_in_range; auto using Prim2SF_valid.
    - eapply in_range_nonneg_finite; eassumption.
    - eapply in_range_nonneg_finite; eassumption.
    - rewrite E3. lra. }
  pose proof (in_range_val _ _ _ HB3 (Prim2SF_valid _) A3) as W3. rewrite E3 in W3.
  assert (HB4 : normal_bound 7036874417766400 (-44)) by (unfold normal_bound; lia).
  assert (A4 : in_range 7036874417766400 (-44) (Prim2SF (0 + s1 + s2 + s3 + s4))).
  { rewrite add_spec. apply SFadd_in_range; auto using Prim2SF_valid.
    - eapply in_range_nonneg_finite; eassumption.
    - eapply in_range_nonneg_finite; eassumption.
    - rewrite E4. lra. }
  pose proof (in_range_val _ _ _ HB4 (Prim2SF_valid _) A4) as W4. rewrite E4 in W4.
  unfold VolumeProfileStrategy.quality_of. rewrite div_spec.
  change (Prim2SF 4) with (S754_finite false 4503599627370496 (-50)).
  apply SFdiv_in_range; auto using Prim2SF_valid.
  - eapply in_range_nonneg_finite; eassumption.
  - fold B. rewrite E5. lra.
Qed.


(** Rounding a positive mantissa at an exponent that is not below the
    smallest one never gives a zero. *)
Lemma binary_round_nonzero (s : bool) (m : positive) (e : Z) (s' : bool) :
  -1074 <= e -> binary_round prec emax s m e <> S754_zero s'.
Proof.
  intros He. unfold binary_round.
  set (estar := fexp prec emax (Z.pos (digits2_pos m) + e)).
  assert (Hestar : estar = Z.max (Z.pos (digits2_pos m) + e - 53) (-1074))
    by (unfold estar; apply fexp_eq).
  pose proof (digits2_pos_bounds m) as [Hlo Hhi].
  assert (Hshape : forall mz ez,
            0 < mz -> ez <= fexp prec emax (Zdigits2 mz + ez) ->
            0 < mz / 2 ^ (fexp prec emax (Zdigits2 mz + ez) - ez) ->
            binary_round_aux prec emax s mz ez loc_Exact <> S754_zero s').
  { intros mz ez Hmz Hf Hq.
    destruct (binary_round_aux_shape s mz ez loc_Exact ltac:(lia) Hf)
      as (m1 & Hm1 & _ & [[H0 _]|[[_ ->]|[_ ->]]]).
    - lia.
    - destruct (_ <=? 971); discriminate.
    - destruct (_ <=? 971); discriminate. }
  destruct (Z_le_gt_dec e estar) as [Hle|Hgt].
  - rewrite shl_align_id by assumption.
    apply Hshape; [lia | exact Hle |].
    change (Zdigits2 (Z.pos m)) with (Z.pos (digits2_pos m)). fold estar.
    destruct (Z.eq_dec estar e) as [Heq|Hne].
    + replace (estar - e) with 0 by lia. rewrite Z.pow_0_r, Z.div_1_r. lia.
    + assert (Hn : estar - e = Z.pos (digits2_pos m) - 53) by lia.
      rewrite Hn. apply Z.div_str_pos. split; [apply Z.pow_pos_nonneg; lia|].
      eapply Z.le_trans; [|exact Hlo]. apply Z.pow_le_mono_r; lia.
  - destruct (shl_align_spec m e estar ltac:(lia)) as [Hm Hez].
    destruct (shl_align m e estar) as [mz ez]. cbn [fst snd] in Hm, Hez. subst ez.
    assert (Hd : Zdigits2 (Z.pos mz) = Z.pos (digits2_pos m) + (e - estar)).
    { rewrite Hm. apply Zdigits2_shift. lia. }
    assert (Hf : fexp prec emax (Zdigits2 (Z.pos mz) + estar) = estar).
    { rewrite Hd. replace (Z.pos (digits2_pos m) + (e - estar) + estar)
        with (Z.pos (digits2_pos m) + e) by lia. reflexivity. }
    apply Hshape; [lia | rewrite Hf; lia |].
    rewrite Hf, Z.sub_diag. rewrite Z.pow_0_r, Z.div_1_r. lia.
Qed.

(** [float(n)] for an int that is not negative is not negative and not NaN. *)
Lemma float_of_Z_number (n : Z) :
  0 <= n -> signed_number false (Prim2SF (Py.float_of_Z n)).
Proof.
  intros Hn. unfold Py.float_of_Z. rewrite (proj2 (Z.leb_le 0 n) Hn).
  rewrite of_uint63_spec.
  pose proof (Uint63.to_Z_bounded (Uint63.of_Z n)) as [H0 _].
  destruct (Uint63.to_Z (Uint63.of_Z n)) as [|p|p]; try lia.
  - reflexivity.
  - apply binary_round_number.
Qed.

(** [float(n)] for a positive int below [2^63] is positive and finite. *)
Lemma float_of_Z_positive (n : Z) :
  0 < n < 2 ^ 63 ->
  exists m e, Prim2SF (Py.float_of_Z n) = S754_finite false m e.
Proof.
  intros Hn. unfold Py.float_of_Z. rewrite (proj2 (Z.leb_le 0 n)) by lia.
  rewrite of_uint63_spec, Uint63.of_Z_spec.
  change Uint63.wB with (2 ^ 63). rewrite Z.mod_small by lia.
  destruct n as [|p|p]; try lia. cbn [binary_normalize].
  pose proof (binary_round_nonzero false p 0) as Hnz.
  assert (HB : normal_bound 4503599627370496 11) by (unfold normal_bound; lia).
  pose proof (binary_round_below p 0 _ _ HB) as Hr.
  assert (Hv : (F2R (Z.pos p) 0 <= F2R 4503599627370496 11)%R).
  { change 11 with (0 + 11). rewrite <- F2R_shift by lia. apply F2R_le. lia. }
  specialize (Hr Hv).
  destruct (binary_round prec emax false p 0) as [s|s| |[] m e];
    simpl in Hr; try contradiction.
  - exfalso. apply (Hnz s); [lia | reflexivity].
  - eauto.
Qed.

(** [within_va / len(data) * 100] is not negative and not NaN. *)
Lemma va_coverage_number (w n : Z) :
  0 <= w -> 0 < n < 2 ^ 63 ->
  signed_number false
    (Prim2SF (Py.float_of_Z w / Py.float_of_Z n * 100)%float).
Proof.
  intros Hw Hn. rewrite mul_spec, div_spec.
  destruct (float_of_Z_positive n Hn) as (m & e & ->).
  change (Prim2SF 100) with (S754_finite false 7036874417766400 (-46)).
  apply SFmul_number, SFdiv_number, float_of_Z_number. exact Hw.
Qed.

End Scores.

Section DevelopmentFacts.

Local Open Scope float_scope.

Variable recent_poc_of : list Candle -> Py.exc float.
Variable skew_of : list float -> float.
Variable kurtosis_of : list float -> float.

Local Notation "'check'" :=
  (VolumeProfileStrategy._check_development recent_poc_of skew_of kurtosis_of).
Local Notation "'profile_at'" :=
  (VolumeProfileStrategy.calculate_volume_profile recent_poc_of skew_of kurtosis_of).

Lemma within_va_nonneg (data : list Candle) (lo hi : float) :
  (0 <= VolumeProfileStrategy.within_va data lo hi)%Z.
Proof. unfold VolumeProfileStrategy.within_va, Pandas.len. lia. Qed.

(** Lines 155-198: what [_check_development] returns is the average of four
    scores between 0 and 100, or [(False, 0)] from the handler. *)
Lemma check_development_cases (data : list Candle) (poc mean std : float) :
  (0 < Pandas.len data < 2 ^ 63)%Z ->
  (exists s1 s2 s3 s4,
     score_range s1 /\ score_range s2 /\ score_range s3 /\ score_range s4
     /\ snd (check data poc mean std) = VolumeProfileStrategy.quality_of s1 s2 s3 s4)
  \/ check data poc mean std = (false, 0).
Proof.
  intros Hn.
  unfold VolumeProfileStrategy._check_development,
    VolumeProfileStrategy.check_development_body.
  assert (Hva : forall lo hi,
             score_range
               (VolumeProfileStrategy.va_score
                  (Py.float_of_Z (VolumeProfileStrategy.within_va data lo hi)
                   / Py.float_of_Z (Pandas.len data) * 100))).
  { intros lo hi. apply va_score_range, va_coverage_number;
      [apply within_va_nonneg | exact Hn]. }
  destruct (10 <=? Pandas.len data)%Z.
  - destruct (recent_poc_of _) as [rp|e]; simpl; [left | right; reflexivity].
    do 4 eexists.
    split; [apply poc_drift_score_range|].
    split; [apply skewness_score_range|].
    split; [apply kurtosis_score_range|].
    split; [apply Hva | reflexivity].
  - simpl. left. do 4 eexists.
    split; [apply score_range_50|].
    split; [apply skewness_score_range|].
    split; [apply kurtosis_score_range|].
    split; [apply Hva | reflexivity].
Qed.

Lemma check_development_range (data : list Candle) (poc mean std : float) :
  (0 < Pandas.len data < 2 ^ 63)%Z ->
  score_range (snd (check data poc mean std)).
Proof.
  intros Hn.
  destruct (check_development_cases data poc mean std Hn)
    as [(s1 & s2 & s3 & s4 & H1 & H2 & H3 & H4 & ->)| ->].
  - apply quality_of_range; assumption.
  - exact score_range_0.
Qed.

(** No volume column, no groups. *)
Lemma groupby_sum_nil (labels : list (option nat)) (nbins : nat) :
  Pandas.groupby_sum labels [] nbins = [].
Proof.
  unfold Pandas.groupby_sum, Pandas.group_volumes.
  rewrite combine_nil. simpl.
  induction (seq 0 nbins) as [|k ks IH]; simpl; auto.
Qed.

Lemma len_tail_le {A : Type} (n : Z) (l : list A) :
  (Pandas.len (Pandas.tail n l) <= Pandas.len l)%Z.
Proof.
  unfold Pandas.tail, Pandas.len.
  destruct (n <? 0)%Z; rewrite length_skipn; lia.
Qed.

(** Lines 80-138: a returned profile carries the result of
    [_check_development] on a slice that is not empty. *)
Lemma profile_development (df : list Candle) (l : Z) (p : Profile) :
  profile_at df l = Some p ->
  exists poc mean std,
    (0 < Pandas.len (Pandas.tail l df))%Z
    /\ (developed p, development_score p) = check (Pandas.tail l df) poc mean std.
Proof.
  unfold VolumeProfileStrategy.calculate_volume_profile,
    VolumeProfileStrategy.calculate_volume_profile_body.
  destruct (Pandas.len df <? l)%Z; [discriminate|].
  destruct (Pandas.cut _ _) as [bins|e]; simpl; [|discriminate].
  destruct (Pandas.idxmax _) as [k|e] eqn:Hk; simpl; [|discriminate].
  assert (Hlen : (0 < Pandas.len (Pandas.tail l df))%Z).
  { destruct (Pandas.tail l df) as [|c cs] eqn:Hd.
    - simpl in Hk. rewrite groupby_sum_nil in Hk. discriminate.
    - unfold Pandas.len. simpl. lia. }
  intros Hret.
  match goal with
  | H : context [VolumeProfileStrategy._check_development ?a ?b ?c ?d ?e ?f ?g] |- _ =>
      exists e, f, g; split; [exact Hlen|];
      destruct (VolumeProfileStrategy._check_development a b c d e f g) as [dv q]
  end.
  injection Hret as <-. reflexivity.
Qed.

(** C7. For every slice for which [calculate_volume_profile] returns a profile
    (a frame of fewer than 2^63 candles), the development_score of the profile
    lies between 0 and 100: it is the average of four sub-scores that each lie
    between 0 and 100, or the 0 of the exception handler.  The developed flag
    is the comparison [score >= 70].  The result is a function of the slice:
    two profiles of the same slice carry the same score and the same flag. *)
Theorem development_score_in_range (df : list Candle) (lookback : Z) (p : Profile) :
  (Pandas.len df < 2 ^ 63)%Z ->
  profile_at df lookback = Some p ->
  (0 <=? development_score p) = true
  /\ (development_score p <=? 100) = true
  /\ developed p = (70 <=? development_score p)
  /\ ((exists s1 s2 s3 s4,
         ((0 <=? s1) = true /\ (s1 <=? 100) = true)
         /\ ((0 <=? s2) = true /\ (s2 <=? 100) = true)
         /\ ((0 <=? s3) = true /\ (s3 <=? 100) = true)
         /\ ((0 <=? s4) = true /\ (s4 <=? 100) = true)
         /\ development_score p = VolumeProfileStrategy.quality_of s1 s2 s3 s4)
      \/ (development_score p = 0 /\ developed p = false))
  /\ (forall q, profile_at df lookback = Some q ->
                development_score q = development_score p
                /\ developed q = developed p).
Proof.
  intros Hdf Hp.
  destruct (profile_development df lookback p Hp) as (poc & mean & std & Hlen & Hc).
  pose proof (len_tail_le lookback df) as Hle.
  assert (Hn : (0 < Pandas.len (Pandas.tail lookback df) < 2 ^ 63)%Z) by lia.
  pose proof (check_development_range _ poc mean std Hn) as Hr.
  pose proof (check_development_flag recent_poc_of skew_of kurtosis_of
                (Pandas.tail lookback df) poc mean std) as Hf.
  pose proof (check_development_cases _ poc mean std Hn) as Hcases.
  rewrite <- Hc in Hr, Hf, Hcases. cbn [fst snd] in Hr, Hf, Hcases.
  apply score_range_bounds in Hr. destruct Hr as [Hlo Hhi].
  split; [exact Hlo|]. split; [exact Hhi|]. split; [exact Hf|]. split.
  - destruct Hcases as [(s1 & s2 & s3 & s4 & H1 & H2 & H3 & H4 & E)|E].
    + left. exists s1, s2, s3, s4.
      split; [apply score_range_bounds; exact H1|].
      split; [apply score_range_bounds; exact H2|].
      split; [apply score_range_bounds; exact H3|].
      split; [apply score_range_bounds; exact H4 | exact E].
    + right. injection E as E1 E2. split; assumption.
  - intros q Hq. rewrite Hp in Hq. injection Hq as <-. split; reflexivity.
Qed.

End DevelopmentFacts.

(** C7 on [wave_frame]: the profile of the last 50 candles scores about 88.08
    and is developed. *)
Lemma development_score_in_range_witness :
  exists p,
    VolumeProfileStrategy.calculate_volume_profile steady_poc no_skew normal_kurtosis
      wave_frame 50 = Some p
    /\ (0 <=? development_score p)%float = true
    /\ (development_score p <=? 100)%float = true
    /\ developed p = (70 <=? development_score p)%float.
Proof.
  eexists. split; [vm_compute; reflexivity|].
  match goal with
  | |- (0 <=? development_score ?p)%float = true /\ _ =>
      destruct (development_score_in_range steady_poc no_skew normal_kurtosis
                  wave_frame 50 p) as (H1 & H2 & H3 & _)
  end.
  - vm_compute. reflexivity.
  - vm_compute. reflexivity.
  - split; [exact H1|]. split; [exact H2 | exact H3].
Defined.

(* ===================================================================== *)
(** * More on the strategy                                               *)
(* ===================================================================== *)

Section OrderOfSums.

Local Open Scope R_scope.

Lemma bpow_lt_inv (a b : Z) : bpow a < bpow b -> (a < b)%Z.
Proof.
  intros H. destruct (Z_lt_ge_dec a b) as [|Hge]; auto. exfalso.
  pose proof (bpow_le b a ltac:(lia)). lra.
Qed.

Lemma F2R_le_inv (a b e : Z) : F2R a e <= F2R b e -> (a <= b)%Z.
Proof.
  unfold F2R. intros H. pose proof (bpow_pos e). apply le_IZR. nra.
Qed.

(** Rounding a mantissa whose value is at least a normal number gives at
    least that number. *)
Lemma rounded_above (m e : Z) (l : location) (Mc Ec : Z) :
  (0 < m)%Z ->
  (e <= fexp prec emax (Zdigits2 m + e))%Z ->
  normal_bound Mc Ec ->
  F2R Mc Ec <= F2R m e ->
  at_least Mc Ec (binary_round_aux prec emax false m e l).
Proof.
  intros Hm Hn [HMc HEc] Hval.
  destruct (binary_round_aux_shape false m e l ltac:(lia) Hn)
    as (m1 & Hm1 & _ & Hshape).
  pose proof (Zdigits2_bounds m Hm) as [Hdlo Hdhi].
  pose proof (Zdigits2_pos m Hm) as Hd1.
  set (d := Zdigits2 m) in *.
  rewrite fexp_eq in *.
  assert (Hde : (53 + Ec <= d + e)%Z).
  { assert (bpow (52 + Ec) < bpow (d + e)).
    { assert (bpow (52 + Ec) <= F2R Mc Ec).
      { unfold F2R. rewrite bpow_add, (bpow_Z 52) by lia.
        pose proof (bpow_pos Ec). assert (IZR (2 ^ 52) <= IZR Mc) by (apply IZR_le; lia). nra. }
      assert (F2R m e < bpow (d + e)).
      { unfold F2R. rewrite bpow_add, (bpow_Z d) by lia.
        pose proof (bpow_pos e). assert (IZR m < IZR (2 ^ d)) by (apply IZR_lt; lia). nra. }
      lra. }
    apply bpow_lt_inv in H. lia. }
  assert (Hestar : Z.max (d + e - 53) (-1074) = (d + e - 53)%Z) by lia.
  rewrite Hestar in *.
  set (n := (d + e - 53 - e)%Z) in *.
  assert (Hn0 : (0 <= n)%Z) by (unfold n; lia).
  assert (Hpow : (0 < 2 ^ n)%Z) by (apply Z.pow_pos_nonneg; lia).
  assert (Hq : (2 ^ 52 <= m / 2 ^ n)%Z).
  { apply Z.div_le_lower_bound; [lia|].
    replace (2 ^ n * 2 ^ 52)%Z with (2 ^ (d - 1))%Z; [lia|].
    rewrite <- Z.pow_add_r by lia. f_equal. unfold n. lia. }
  assert (Hm1pos : (0 < m1)%Z) by lia.
  assert (Hcase : (Ec < d + e - 53)%Z \/ (d + e - 53 = Ec /\ Mc <= m1)%Z).
  { destruct (Z.eq_dec (d + e - 53) Ec) as [Heq|Hne]; [right | left; lia].
    split; [exact Heq|].
    assert (Mc * 2 ^ n <= m)%Z.
    { apply (F2R_le_inv _ _ e). rewrite F2R_shift by lia.
      replace (e + n)%Z with Ec by (unfold n; lia). exact Hval. }
    assert (Mc <= m / 2 ^ n)%Z by (apply Z.div_le_lower_bound; lia).
    lia. }
  destruct Hshape as [[H0 _]|[[Hr ->]|[Hr ->]]].
  - lia.
  - destruct (_ <=? 971)%Z; [|exact I].
    cbn [at_least]. rewrite Z2Pos.id by lia. exact Hcase.
  - destruct (_ <=? 971)%Z; [|exact I].
    cbn [at_least]. left. lia.
Qed.

Lemma binary_round_above (m : positive) (e Mc Ec : Z) :
  normal_bound Mc Ec ->
  F2R Mc Ec <= F2R (Z.pos m) e ->
  at_least Mc Ec (binary_round prec emax false m e).
Proof.
  intros HC Hle. unfold binary_round.
  set (estar := fexp prec emax (Z.pos (digits2_pos m) + e)).
  destruct (Z_le_gt_dec e estar) as [Hge|Hlt].
  - rewrite shl_align_id by assumption.
    apply rounded_above; auto. lia.
  - destruct (shl_align_spec m e estar ltac:(lia)) as [Hm He].
    destruct (shl_align m e estar) as [mz ez]. cbn [fst snd] in Hm, He. subst ez.
    assert (Hd : Zdigits2 (Z.pos mz) = (Z.pos (digits2_pos m) + (e - estar))%Z).
    { rewrite Hm. apply Zdigits2_shift. lia. }
    assert (Hv : F2R (Z.pos mz) estar = F2R (Z.pos m) e).
    { rewrite Hm, F2R_shift by lia. f_equal. lia. }
    apply rounded_above; auto; [lia| |].
    + rewrite Hd. replace (Z.pos (digits2_pos m) + (e - estar) + estar)%Z
        with (Z.pos (digits2_pos m) + e)%Z by lia. fold estar. lia.
    + rewrite Hv. exact Hle.
Qed.

(** [x + t] for a positive normal [x] and a [t] that is not negative. *)
Lemma SFadd_at_least (mx : positive) (ex : Z) (t : spec_float) :
  normal_bound (Z.pos mx) ex ->
  not_negative t -> t <> S754_nan ->
  at_least (Z.pos mx) ex (SF64add (S754_finite false mx ex) t).
Proof.
  intros HC Ht Hnan.
  destruct t as [s|s| |s mt et]; simpl in Ht; try subst s.
  - simpl. right. split; lia.
  - exact I.
  - now elim Hnan.
  - unfold SF64add, SFadd. cbn [cond_Zopp].
    set (ez := Z.min ex et).
    destruct (shl_align_spec mx ex ez ltac:(unfold ez; lia)) as [Hmx _].
    destruct (shl_align_spec mt et ez ltac:(unfold ez; lia)) as [Hmt _].
    set (ax := fst (shl_align mx ex ez)) in *.
    set (at' := fst (shl_align mt et ez)) in *.
    change (Z.pos ax + Z.pos at')%Z with (Z.pos (ax + at')).
    cbn [binary_normalize].
    apply binary_round_above; auto.
    assert (F2R (Z.pos ax) ez = F2R (Z.pos mx) ex).
    { rewrite Hmx, F2R_shift by (unfold ez; lia). f_equal. lia. }
    rewrite <- H. apply F2R_le. lia.
Qed.

(** [x - t] for a positive normal [x] and a [t] that is not negative: a
    number that does not exceed [x]. *)
Lemma SFsub_at_most (mx : positive) (ex : Z) (t : spec_float) :
  normal_bound (Z.pos mx) ex ->
  not_negative t -> t <> S754_nan ->
  in_range (Z.pos mx) ex (SF64sub (S754_finite false mx ex) t)
  \/ signed_number true (SF64sub (S754_finite false mx ex) t).
Proof.
  intros HC Ht Hnan.
  destruct t as [s|s| |s mt et]; simpl in Ht; try subst s.
  - left. simpl. right. split; lia.
  - right. reflexivity.
  - now elim Hnan.
  - unfold SF64sub, SFsub. cbn [cond_Zopp].
    set (ez := Z.min ex et).
    destruct (shl_align_spec mx ex ez ltac:(unfold ez; lia)) as [Hmx _].
    set (ax := fst (shl_align mx ex ez)) in *.
    set (at' := fst (shl_align mt et ez)) in *.
    assert (Hv : F2R (Z.pos ax) ez = F2R (Z.pos mx) ex).
    { rewrite Hmx, F2R_shift by (unfold ez; lia). f_equal. lia. }
    destruct (Z.pos ax - Z.pos at')%Z as [|p|p] eqn:E; cbn [binary_normalize].
    + left. exact I.
    + left. apply binary_round_below; auto.
      rewrite <- Hv. apply F2R_le. lia.
    + right. apply binary_round_number.
Qed.

End OrderOfSums.

Section OrderOfSumsFloat.

Local Open Scope float_scope.

Lemma at_least_not_ltb (M : positive) (E : Z) (r : spec_float) :
  at_least (Z.pos M) E r -> SFltb r (S754_finite false M E) = false.
Proof.
  destruct r as [s|[]| |[] m e]; simpl; try contradiction; auto.
  intros H. unfold SFltb, SFcompare.
  destruct (Z.compare_spec e E) as [->|Hlt|Hgt]; auto; [|lia].
  fold (Pos.compare m M).
  destruct (Pos.compare_spec m M); auto. lia.
Qed.

Lemma at_least_leb (M : positive) (E : Z) (r : spec_float) :
  at_least (Z.pos M) E r -> SFleb (S754_finite false M E) r = true.
Proof.
  destruct r as [s|[]| |[] m e]; simpl; try contradiction; auto.
  intros H. apply SFleb_lex. lia.
Qed.

Lemma in_range_leb (M : positive) (E : Z) (r : spec_float) :
  in_range (Z.pos M) E r -> SFleb r (S754_finite false M E) = true.
Proof.
  destruct r as [s|s| |[] m e]; simpl; try contradiction; auto.
  intros H. apply SFleb_lex. exact H.
Qed.

Lemma negative_leb (M : positive) (E : Z) (r : spec_float) :
  signed_number true r -> SFleb r (S754_finite false M E) = true.
Proof.
  destruct r as [s|s| |s m e]; simpl; try contradiction; intros ->; reflexivity.
Qed.

Lemma SFleb_not_ltb (x y : spec_float) : SFleb x y = true -> SFltb y x = false.
Proof.
  unfold SFleb, SFltb.
  destruct x as [sx|sx| |sx mx ex], y as [sy|sy| |sy my ey]; simpl;
    try discriminate; auto;
    try (destruct sx; try destruct sy; simpl; auto; discriminate).
  destruct sx, sy; simpl; auto; try discriminate.
  - rewrite (Z.compare_antisym ey ex).
    destruct (ey ?= ex)%Z eqn:E; simpl; auto; try discriminate.
    fold (Pos.compare mx my). fold (Pos.compare my mx).
    rewrite (Pos.compare_antisym mx my).
    destruct (mx ?= my)%positive; simpl; auto; discriminate.
  - rewrite (Z.compare_antisym ey ex).
    destruct (ey ?= ex)%Z eqn:E; simpl; auto; try discriminate.
    fold (Pos.compare mx my). fold (Pos.compare my mx).
    rewrite (Pos.compare_antisym mx my).
    destruct (mx ?= my)%positive; simpl; auto; discriminate.
Qed.

(** For a positive normal [x] and a [t] that is not negative and not NaN:
    [x - t <= x <= x + t]. *)
Lemma add_not_negative_ge (x t : float) :
  positive_normal x -> not_negative (Prim2SF t) -> is_nan t = false ->
  (x <=? x + t) = true.
Proof.
  intros (m & e & Hx & HC) Ht Hn.
  rewrite FloatAxioms.leb_spec, add_spec, Hx.
  apply at_least_leb, SFadd_at_least; auto.
  intros E. apply is_nan_Prim2SF in E. congruence.
Qed.

Lemma sub_not_negative_le (x t : float) :
  positive_normal x -> not_negative (Prim2SF t) -> is_nan t = false ->
  (x - t <=? x) = true.
Proof.
  intros (m & e & Hx & HC) Ht Hn.
  rewrite FloatAxioms.leb_spec, sub_spec, Hx.
  destruct (SFsub_at_most m e (Prim2SF t) HC Ht) as [H|H].
  - intros E. apply is_nan_Prim2SF in E. congruence.
  - now apply in_range_leb.
  - now apply negative_leb.
Qed.

End OrderOfSumsFloat.

Section SignsOfResults.

Local Open Scope float_scope.

Lemma signed_like_not_negative (x : spec_float) : signed_like false x -> not_negative x.
Proof. destruct x; simpl; auto. Qed.

Lemma leb_zero_not_negative (b : float) :
  (0 <=? b) = true -> not_negative (Prim2SF b) /\ is_nan b = false.
Proof.
  intros H. split.
  - rewrite FloatAxioms.leb_spec in H. change (Prim2SF 0) with (S754_zero false) in H.
    destruct (Prim2SF b) as [s|[]| |[] m e]; simpl in *; auto; discriminate.
  - apply leb_not_nan in H. tauto.
Qed.

Lemma SFmul_not_negative (a b : spec_float) :
  not_negative a -> not_negative b -> not_negative (SF64mul a b).
Proof.
  destruct a as [sa|sa| |sa ma ea], b as [sb|sb| |sb mb eb]; simpl; auto;
    intros Ha Hb; subst; simpl; auto.
  apply signed_like_not_negative, binary_round_aux_sign.
Qed.

Lemma mul_not_negative (a b : float) :
  not_negative (Prim2SF a) -> not_negative (Prim2SF b) ->
  not_negative (Prim2SF (a * b)).
Proof. rewrite mul_spec. apply SFmul_not_negative. Qed.

Lemma abs_not_negative (a : float) : not_negative (Prim2SF (abs a)).
Proof. rewrite abs_spec. destruct (Prim2SF a); simpl; auto. Qed.

Lemma sqrt_not_negative (v : float) : not_negative (Prim2SF (sqrt v)).
Proof.
  rewrite sqrt_spec. unfold SF64sqrt, SFsqrt.
  destruct (Prim2SF v) as [s|[]| |[] m e]; simpl; auto.
  destruct (SFsqrt_core_binary prec emax (Z.pos m) e) as [[mz ez] lz].
  apply signed_like_not_negative, binary_round_aux_sign.
Qed.

(** A product with a finite factor is NaN only when the other factor is. *)
Lemma mul_finite_not_nan (a c : float) (s : bool) (m : positive) (e : Z) :
  Prim2SF c = S754_finite s m e -> is_nan a = false -> is_nan (a * c) = false.
Proof.
  intros Hc Ha.
  destruct (is_nan (a * c)) eqn:E; [|reflexivity]. exfalso.
  apply is_nan_Prim2SF in E. rewrite mul_spec, Hc in E.
  assert (Hna : Prim2SF a <> S754_nan).
  { intros F. apply is_nan_Prim2SF in F. congruence. }
  destruct (Prim2SF a) as [sa|sa| |sa ma ea]; simpl in E; try discriminate.
  - now elim Hna.
  - pose proof (binary_round_aux_number (xorb sa s) (Z.pos (ma * m)) (ea + e) loc_Exact
                  ltac:(lia)) as H.
    rewrite E in H. exact H.
Qed.

Lemma positive_normal_not_nan (x : float) : positive_normal x -> is_nan x = false.
Proof.
  intros (m & e & Hx & _). destruct (is_nan x) eqn:E; [|reflexivity].
  apply is_nan_Prim2SF in E. congruence.
Qed.

Lemma positive_normal_not_negative (x : float) :
  positive_normal x -> not_negative (Prim2SF x).
Proof. intros (m & e & -> & _). reflexivity. Qed.

(** The forms that also hold when [t] is NaN. *)
Lemma add_not_below (x t : float) :
  positive_normal x -> not_negative (Prim2SF t) -> (x + t <? x) = false.
Proof.
  intros Hx Ht. destruct (is_nan t) eqn:E.
  - apply is_nan_eq in E. subst t. rewrite add_nan_r.
    rewrite FloatAxioms.ltb_spec. reflexivity.
  - pose proof (add_not_negative_ge x t Hx Ht E) as H.
    destruct (x + t <? x) eqn:F; [|reflexivity].
    apply ltb_not_leb in F. congruence.
Qed.

Lemma sub_not_above (x t : float) :
  positive_normal x -> not_negative (Prim2SF t) -> (x <? x - t) = false.
Proof.
  intros Hx Ht. destruct (is_nan t) eqn:E.
  - apply is_nan_eq in E. subst t. rewrite sub_nan_r.
    rewrite FloatAxioms.ltb_spec.
    destruct (Prim2SF x) as [s|s| |s m e]; reflexivity.
  - pose proof (sub_not_negative_le x t Hx Ht E) as H.
    destruct (x <? x - t) eqn:F; [|reflexivity].
    apply ltb_not_leb in F. congruence.
Qed.

End SignsOfResults.

Section ProfileFacts.

Local Open Scope float_scope.

Variable recent_poc_of : list Candle -> Py.exc float.
Variable skew_of : list float -> float.
Variable kurtosis_of : list float -> float.

Local Notation "'profile_at'" :=
  (VolumeProfileStrategy.calculate_volume_profile recent_poc_of skew_of kurtosis_of).

(** Lines 83-138: how the fields of a returned profile are computed. *)
Lemma profile_bands (df : list Candle) (l : Z) (p : Profile) :
  profile_at df l = Some p ->
  (Pandas.len df <? l)%Z = false
  /\ lookback p = l
  /\ num_candles p = Pandas.len (Pandas.tail l df)
  /\ (0 < Z.min 50 (Pandas.len (Pandas.tail l df) / 2))%Z
  /\ mean_price p
     = Pandas.series_sum (map (fun c => c_close c * c_volume c) (Pandas.tail l df))
       / Pandas.series_sum (map c_volume (Pandas.tail l df))
  /\ (exists variance, std_price p = sqrt variance)
  /\ value_area_high p = mean_price p + std_price p
  /\ value_area_low p = mean_price p - std_price p
  /\ sigma_2_high p = mean_price p + 2 * std_price p
  /\ sigma_2_low p = mean_price p - 2 * std_price p.
Proof.
  unfold VolumeProfileStrategy.calculate_volume_profile,
    VolumeProfileStrategy.calculate_volume_profile_body.
  destruct (Pandas.len df <? l)%Z; [discriminate|].
  destruct (Pandas.cut _ _) as [bins|e]; simpl; [|discriminate].
  destruct (Pandas.idxmax _) as [k|e] eqn:Hk; simpl; [|discriminate].
  assert (Hbins : (0 < Z.min 50 (Pandas.len (Pandas.tail l df) / 2))%Z).
  { destruct (Z_lt_ge_dec 0 (Z.min 50 (Pandas.len (Pandas.tail l df) / 2)))
      as [|Hle]; auto. exfalso.
    replace (Z.to_nat (Z.min 50 (Pandas.len (Pandas.tail l df) / 2))) with 0%nat in Hk
      by lia.
    discriminate Hk. }
  destruct (VolumeProfileStrategy._check_development _ _ _ _ _ _ _) as [dv q].
  intros H. injection H as <-. simpl.
  split; [reflexivity|]. split; [reflexivity|]. split; [reflexivity|].
  split; [exact Hbins|]. split; [reflexivity|].
  split; [eexists; reflexivity|]. repeat split.
Qed.

Lemma len_tail {A : Type} (n : Z) (l : list A) :
  Pandas.len (Pandas.tail n l)
  = (if (n <? 0)%Z then Z.max 0 (Pandas.len l + n) else Z.min n (Pandas.len l)).
Proof.
  unfold Pandas.tail, Pandas.len.
  destruct (Z.ltb_spec n 0); rewrite length_skipn; lia.
Qed.

(** X1. a returned profile is built from at least two candles: exactly
    [lookback] of them for a lookback that is not negative, which is then at
    most the length of the frame; all but the first [-lookback] for a
    negative one. *)
Theorem profile_needs_two_candles (df : list Candle) (l : Z) (p : Profile) :
  profile_at df l = Some p ->
  lookback p = l
  /\ (2 <= num_candles p)%Z
  /\ ((0 <= l)%Z -> num_candles p = l /\ (l <= Pandas.len df)%Z)
  /\ ((l < 0)%Z -> num_candles p = (Pandas.len df + l)%Z).
Proof.
  intros H. apply profile_bands in H.
  destruct H as (Hlen & Hl & Hn & Hb & _).
  rewrite Hn, len_tail in *. apply Z.ltb_ge in Hlen.
  split; [exact Hl|].
  assert (H2 : (2 <= (if (l <? 0)%Z then Z.max 0 (Pandas.len df + l)
                      else Z.min l (Pandas.len df)))%Z).
  { destruct (Z_lt_ge_dec (if (l <? 0)%Z then Z.max 0 (Pandas.len df + l)
                           else Z.min l (Pandas.len df)) 2) as [Hlt|]; [|lia].
    exfalso.
    assert (Pandas.len df >= 0)%Z by (unfold Pandas.len; lia).
    assert ((if (l <? 0)%Z then Z.max 0 (Pandas.len df + l)
             else Z.min l (Pandas.len df)) / 2 <= 0)%Z.
    { apply Z.lt_succ_r. apply Z.div_lt_upper_bound; lia. }
    lia. }
  split; [exact H2|].
  destruct (Z.ltb_spec l 0); split; intros; lia.
Qed.

(** X2. for a returned profile whose mean is a positive normal number and
    whose deviation is not NaN, the bands bracket the mean:
    sigma_2_low <= mean, value_area_low <= mean <= value_area_high,
    mean <= sigma_2_high; and the deviation is never below zero. *)
Theorem value_area_brackets_mean (df : list Candle) (l : Z) (p : Profile) :
  profile_at df l = Some p ->
  positive_normal (mean_price p) ->
  is_nan (std_price p) = false ->
  (sigma_2_low p <=? mean_price p) = true
  /\ (value_area_low p <=? mean_price p) = true
  /\ (mean_price p <=? value_area_high p) = true
  /\ (mean_price p <=? sigma_2_high p) = true
  /\ (std_price p <? 0) = false.
Proof.
  intros H Hm Hs. apply profile_bands in H.
  destruct H as (_ & _ & _ & _ & _ & (v & Hv) & -> & -> & -> & ->).
  assert (Hstd : not_negative (Prim2SF (std_price p))).
  { rewrite Hv. apply sqrt_not_negative. }
  assert (H2 : not_negative (Prim2SF (2 * std_price p))).
  { apply mul_not_negative; [reflexivity | exact Hstd]. }
  assert (H2n : is_nan (2 * std_price p) = false).
  { rewrite mul_comm. apply (mul_finite_not_nan _ 2 false 4503599627370496 (-51));
      [reflexivity | exact Hs]. }
  split; [now apply sub_not_negative_le|].
  split; [now apply sub_not_negative_le|].
  split; [now apply add_not_negative_ge|].
  split; [now apply add_not_negative_ge|].
  rewrite FloatAxioms.ltb_spec. change (Prim2SF 0) with (S754_zero false).
  destruct (Prim2SF (std_price p)) as [s|s| |s m e]; simpl in Hstd; subst; reflexivity.
Qed.

End ProfileFacts.

(** X1 on [wave_frame]: the profile of the last 50 candles has 50 candles. *)
Lemma profile_needs_two_candles_witness :
  exists p,
    VolumeProfileStrategy.calculate_volume_profile steady_poc no_skew normal_kurtosis
      wave_frame 50 = Some p
    /\ num_candles p = 50%Z.
Proof.
  eexists. split; [vm_compute; reflexivity|].
  match goal with
  | |- num_candles ?p = _ =>
      destruct (profile_needs_two_candles steady_poc no_skew normal_kurtosis
                  wave_frame 50 p) as (_ & _ & H & _)
  end.
  - vm_compute. reflexivity.
  - destruct H as [H _]; [lia | exact H].
Defined.

(** X2 on [wave_frame]: its bands at lookback 50 bracket the mean. *)
Lemma value_area_brackets_mean_witness :
  exists p,
    VolumeProfileStrategy.calculate_volume_profile steady_poc no_skew normal_kurtosis
      wave_frame 50 = Some p
    /\ (value_area_low p <=? mean_price p)%float = true
    /\ (mean_price p <=? value_area_high p)%float = true.
Proof.
  eexists. split; [vm_compute; reflexivity|].
  match goal with
  | |- (value_area_low ?p <=? _)%float = true /\ _ =>
      destruct (value_area_brackets_mean steady_poc no_skew normal_kurtosis
                  wave_frame 50 p) as (_ & H1 & H2 & _)
  end.
  - vm_compute. reflexivity.
  - eexists. eexists. split; [vm_compute; reflexivity | unfold normal_bound; lia].
  - vm_compute. reflexivity.
  - split; assumption.
Defined.

Section EntryLevels.

Local Open Scope float_scope.

(** Lines 336-386: every field of a LONG signal. *)
Lemma long_setup_levels (self : Strategy) (price low : float) (profile : Profile)
    (atr : float) (s : Signal) :
  VolumeProfileStrategy.long_setup self price low profile atr = Py.Return s ->
  direction s = LONG
  /\ symbol s = self_symbol self /\ timeframe s = self_timeframe self
  /\ confidence s = development_score profile
  /\ volume_profile s = Some profile
  /\ entry_price s = price
  /\ target_price s = price + abs (poc profile - price) * tp_fraction self
  /\ stop_loss s = (if low <=? sigma_2_low profile
                    then sigma_2_low profile - sigma_2_low profile * 0.0025
                    else sigma_2_low profile - value_area_low profile * 0.0015)
  /\ exists m, metadata s = Some m
               /\ entry_level m = (if low <=? sigma_2_low profile
                                   then "2σ"%string else "1σ"%string)
               /\ meta_lookback m = lookback profile
               /\ meta_timeout_candles m = timeout_candles self.
Proof.
  unfold VolumeProfileStrategy.long_setup.
  destruct (VolumeProfileStrategy.leverage_of _) as [n|e]; simpl; [|discriminate].
  intros H. injection H as <-. simpl.
  repeat (split; [reflexivity|]).
  split; [now destruct (low <=? sigma_2_low profile)|].
  eexists. split; [reflexivity|]. simpl.
  split; [now destruct (low <=? sigma_2_low profile)|]. split; reflexivity.
Qed.

(** Lines 392-442: every field of a SHORT signal. *)
Lemma short_setup_levels (self : Strategy) (price high : float) (profile : Profile)
    (atr : float) (s : Signal) :
  VolumeProfileStrategy.short_setup self price high profile atr = Py.Return s ->
  direction s = SHORT
  /\ symbol s = self_symbol self /\ timeframe s = self_timeframe self
  /\ confidence s = development_score profile
  /\ volume_profile s = Some profile
  /\ entry_price s = price
  /\ target_price s = price - abs (price - poc profile) * tp_fraction self
  /\ stop_loss s = (if sigma_2_high profile <=? high
                    then sigma_2_high profile + sigma_2_high profile * 0.0025
                    else sigma_2_high profile + value_area_high profile * 0.0015)
  /\ exists m, metadata s = Some m
               /\ entry_level m = (if sigma_2_high profile <=? high
                                   then "2σ"%string else "1σ"%string)
               /\ meta_lookback m = lookback profile
               /\ meta_timeout_candles m = timeout_candles self.
Proof.
  unfold VolumeProfileStrategy.short_setup.
  destruct (VolumeProfileStrategy.leverage_of _) as [n|e]; simpl; [|discriminate].
  intros H. injection H as <-. simpl.
  repeat (split; [reflexivity|]).
  split; [now destruct (sigma_2_high profile <=? high)|].
  eexists. split; [reflexivity|]. simpl.
  split; [now destruct (sigma_2_high profile <=? high)|]. split; reflexivity.
Qed.

(** X3. when the entry rules return, they return a SHORT signal if and only if
    the low did not reach value_area_low (a LONG setup comes first), the high
    reached value_area_high, and the close lies inside the value area.  A
    SHORT signal enters at the close, targets
    entry - |entry - poc| * tp_fraction, stops 0.25% of sigma_2_high above
    sigma_2_high when the high reached it ("2σ"), else 0.15% of
    value_area_high above sigma_2_high ("1σ"), and carries the timeout of the
    strategy. *)
Theorem short_entry_rule (self : Strategy) (price low high prev : float)
    (profile : Profile) (atr : float) :
  returns (VolumeProfileStrategy._check_entry_conditions self price low high prev
             profile atr) ->
  (produces (VolumeProfileStrategy._check_entry_conditions self price low high prev
               profile atr) SHORT
   <-> ((low <=? value_area_low profile) = false
        /\ (value_area_high profile <=? high) = true
        /\ (value_area_low profile <=? price) = true
        /\ (price <=? value_area_high profile) = true))
  /\ (forall s,
        VolumeProfileStrategy._check_entry_conditions self price low high prev
          profile atr = Py.Return s ->
        direction s = SHORT ->
        entry_price s = price
        /\ target_price s
           = entry_price s - abs (entry_price s - poc profile) * tp_fraction self
        /\ stop_loss s
           = (if sigma_2_high profile <=? high
              then sigma_2_high profile + sigma_2_high profile * 0.0025
              else sigma_2_high profile + value_area_high profile * 0.0015)
        /\ exists m, metadata s = Some m
                     /\ entry_level m = (if sigma_2_high profile <=? high
                                         then "2σ"%string else "1σ"%string)
                     /\ meta_timeout_candles m = timeout_candles self).
Proof.
  intros [s0 Hs0].
  assert (Hcond : (long_condition price low profile = false
                   /\ short_condition price high profile = true)
                  <-> ((low <=? value_area_low profile) = false
                       /\ (value_area_high profile <=? high) = true
                       /\ (value_area_low profile <=? price) = true
                       /\ (price <=? value_area_high profile) = true)).
  { unfold long_condition, short_condition, VolumeProfileStrategy.closed_inside.
    destruct (low <=? value_area_low profile), (value_area_high profile <=? high),
      (value_area_low profile <=? price), (price <=? value_area_high profile);
      simpl; intuition congruence. }
  split.
  - rewrite <- Hcond. split.
    + intros (s & Hs & Hd).
      destruct (entry_conditions_inv _ _ _ _ _ _ _ _ Hs)
        as [(_ & Hl)|[(Hc1 & Hc2 & _)|(_ & _ & ->)]]; auto.
      * apply long_setup_levels in Hl. destruct Hl as (Hdir & _). congruence.
      * discriminate Hd.
    + intros [Hc1 Hc2]. exists s0. split; [exact Hs0|].
      destruct (entry_conditions_inv _ _ _ _ _ _ _ _ Hs0)
        as [(Hc & _)|[(_ & _ & Hsh)|(_ & Hc & _)]]; try congruence.
      now apply short_setup_levels in Hsh.
  - intros s Hs Hd.
    destruct (entry_conditions_inv _ _ _ _ _ _ _ _ Hs)
      as [(_ & Hl)|[(_ & _ & Hsh)|(_ & _ & ->)]].
    + apply long_setup_levels in Hl. destruct Hl as (Hdir & _). congruence.
    + apply short_setup_levels in Hsh.
      destruct Hsh as (_ & _ & _ & _ & _ & He & Ht & Hst & m & Hm & Hl & _ & Hto).
      rewrite He. split; [reflexivity|]. split; [exact Ht|]. split; [exact Hst|].
      exists m. auto.
    + discriminate Hd.
Qed.

(** X4. for an entry at a positive normal price with a take-profit fraction
    that is not negative, the target of a LONG signal is never below the entry
    and the target of a SHORT signal never above it.  Over a positive
    sigma_2_low and a value_area_low that is not negative, the stop of a LONG
    signal is at or below sigma_2_low; over a positive sigma_2_high and a
    value_area_high that is not negative, the stop of a SHORT signal is at or
    above sigma_2_high. *)
Theorem exit_levels_on_their_sides (self : Strategy) (price low high prev : float)
    (profile : Profile) (atr : float) (s : Signal) :
  VolumeProfileStrategy._check_entry_conditions self price low high prev profile atr
  = Py.Return s ->
  positive_normal price ->
  (0 <=? tp_fraction self) = true ->
  (direction s = LONG -> (target_price s <? entry_price s) = false)
  /\ (direction s = SHORT -> (entry_price s <? target_price s) = false)
  /\ (direction s = LONG -> positive_normal (sigma_2_low profile) ->
      (0 <=? value_area_low profile) = true ->
      (stop_loss s <=? sigma_2_low profile) = true)
  /\ (direction s = SHORT -> positive_normal (sigma_2_high profile) ->
      (0 <=? value_area_high profile) = true ->
      (sigma_2_high profile <=? stop_loss s) = true).
Proof.
  intros Hs Hp Htp.
  apply leb_zero_not_negative in Htp. destruct Htp as [Htp _].
  assert (Hbuf : forall band c, (0 <=? band) = true ->
                   not_negative (Prim2SF c) ->
                   (exists sc mc ec, Prim2SF c = S754_finite sc mc ec) ->
                   not_negative (Prim2SF (band * c)) /\ is_nan (band * c) = false).
  { intros band c Hb Hc (sc & mc & ec & Hfin).
    apply leb_zero_not_negative in Hb. destruct Hb as [Hb Hbn].
    split; [now apply mul_not_negative|]. now apply (mul_finite_not_nan _ c sc mc ec). }
  assert (H25 : forall band, (0 <=? band) = true ->
                  not_negative (Prim2SF (band * 0.0025))
                  /\ is_nan (band * 0.0025) = false).
  { intros band Hb. apply Hbuf; [exact Hb | reflexivity|].
    do 3 eexists. vm_compute. reflexivity. }
  assert (H15 : forall band, (0 <=? band) = true ->
                  not_negative (Prim2SF (band * 0.0015))
                  /\ is_nan (band * 0.0015) = false).
  { intros band Hb. apply Hbuf; [exact Hb | reflexivity|].
    do 3 eexists. vm_compute. reflexivity. }
  assert (Hpos : forall x, positive_normal x -> (0 <=? x) = true).
  { intros x (m & e & Hx & _). rewrite FloatAxioms.leb_spec, Hx. reflexivity. }
  destruct (entry_conditions_inv _ _ _ _ _ _ _ _ Hs)
    as [(_ & Hl)|[(_ & _ & Hsh)|(_ & _ & ->)]].
  - apply long_setup_levels in Hl.
    destruct Hl as (Hd & _ & _ & _ & _ & -> & -> & -> & _).
    split.
    { intros _. apply add_not_below; [exact Hp|].
      apply mul_not_negative; [apply abs_not_negative | exact Htp]. }
    split; [congruence|]. split; [|congruence].
    intros _ H2 Hva.
    destruct (low <=? sigma_2_low profile).
    + destruct (H25 _ (Hpos _ H2)). now apply sub_not_negative_le.
    + destruct (H15 _ Hva). now apply sub_not_negative_le.
  - apply short_setup_levels in Hsh.
    destruct Hsh as (Hd & _ & _ & _ & _ & -> & -> & -> & _).
    split; [congruence|].
    split.
    { intros _. apply sub_not_above; [exact Hp|].
      apply mul_not_negative; [apply abs_not_negative | exact Htp]. }
    split; [congruence|].
    intros _ H2 Hva.
    destruct (sigma_2_high profile <=? high).
    + destruct (H25 _ (Hpos _ H2)). now apply add_not_negative_ge.
    + destruct (H15 _ Hva). now apply add_not_negative_ge.
  - simpl. repeat split; discriminate.
Qed.

End EntryLevels.

Section GenerateMore.

Local Open Scope float_scope.

Variable recent_poc_of : list Candle -> Py.exc float.
Variable skew_of : list float -> float.
Variable kurtosis_of : list float -> float.
Variable calculate_atr : list Candle -> float.

Local Notation "'profile_at'" :=
  (VolumeProfileStrategy.calculate_volume_profile recent_poc_of skew_of kurtosis_of).
Local Notation "'search'" :=
  (VolumeProfileStrategy.search_lookbacks recent_poc_of skew_of kurtosis_of).
Local Notation "'generate'" :=
  (VolumeProfileStrategy.generate_signals recent_poc_of skew_of kurtosis_of calculate_atr).

(** The three ways [generate_signals] returns a signal: the ATR rejection,
    the missing developed profile, or the entry rules on the last candle with
    the profile the search kept. *)
Lemma generate_returns_inv (self : Strategy) (df : list Candle) (s : Signal) :
  VolumeProfileStrategy.returned (generate self (Some df)) = Some s ->
  (direction s = NEUTRAL)
  \/ exists best last prev,
       VolumeProfileStrategy.best_profile (search self df) = Some best
       /\ VolumeProfileStrategy.self_after (generate self (Some df))
          = set_optimal_lookback self
              (VolumeProfileStrategy.found_lookback (search self df))
       /\ Pandas.iloc_from_end 1 df = Py.Return last
       /\ Pandas.iloc_from_end 2 df = Py.Return prev
       /\ VolumeProfileStrategy._check_entry_conditions
            (set_optimal_lookback self
               (VolumeProfileStrategy.found_lookback (search self df)))
            (c_close last) (c_low last) (c_high last) (c_close prev)
            best (calculate_atr df) = Py.Return s.
Proof.
  unfold VolumeProfileStrategy.generate_signals.
  destruct (Pandas.len df <? lookback_max self)%Z; [discriminate|].
  destruct (negb _).
  { simpl. intros H. injection H as <-. now left. }
  destruct (VolumeProfileStrategy.best_profile _) as [b|].
  - cbn [VolumeProfileStrategy.returned VolumeProfileStrategy.self_after].
    destruct (Pandas.iloc_from_end 1 df) as [c|e]; simpl; [|discriminate].
    destruct (Pandas.iloc_from_end 2 df) as [c'|e]; simpl; [|discriminate].
    destruct (VolumeProfileStrategy._check_entry_conditions _ _ _ _ _ _ _)
      as [s'|e] eqn:E; simpl; [|discriminate].
    intros H. injection H as <-. right. exists b, c, c'. auto.
  - simpl. intros H. injection H as <-. now left.
Qed.

(** X5. every LONG or SHORT signal [generate_signals] returns (on a frame of
    fewer than 2^63 candles) carries the profile the lookback search kept: a
    developed profile computed at one of the searched lookbacks.  Its
    confidence is the development score of that profile, between 70 and 100;
    it enters at the close of the last candle, for the symbol and timeframe of
    the strategy, with the strategy's timeout; and the strategy remembers the
    lookback as optimal_lookback. *)
Theorem entry_signal_carries_developed_profile (self : Strategy) (df : list Candle)
    (s : Signal) :
  (Pandas.len df < 2 ^ 63)%Z ->
  VolumeProfileStrategy.returned (generate self (Some df)) = Some s ->
  direction s <> NEUTRAL ->
  exists p last m,
    volume_profile s = Some p
    /\ profile_at df (lookback p) = Some p
    /\ developed p = true
    /\ In (lookback p) (Py.range (lookback_min self) (lookback_max self + 1) 10)
    /\ confidence s = development_score p
    /\ (70 <=? confidence s) = true /\ (confidence s <=? 100) = true
    /\ Pandas.iloc_from_end 1 df = Py.Return last
    /\ entry_price s = c_close last
    /\ symbol s = self_symbol self /\ timeframe s = self_timeframe self
    /\ metadata s = Some m
    /\ meta_timeout_candles m = timeout_candles self
    /\ meta_lookback m = lookback p
    /\ optimal_lookback (VolumeProfileStrategy.self_after (generate self (Some df)))
       = lookback p.
Proof.
  intros Hdf Hs Hd.
  destruct (generate_returns_inv self df s Hs)
    as [Hn|(best & last & prev & Hbest & Hself & Hlast & Hprev & He)]; [contradiction|].
  destruct (search_result recent_poc_of skew_of kurtosis_of self df) as [Hinv Hev].
  unfold search_inv in Hinv. rewrite Hbest in Hinv.
  destruct Hinv as (_ & pre & post & Hdone & [Hcb Hdb] & _).
  destruct (profile_fields _ _ _ _ _ _ Hcb) as [Hlb _].
  assert (Hscore : (70 <=? development_score best) = true)
    by (apply (candidate_score recent_poc_of skew_of kurtosis_of df _ _ (conj Hcb Hdb))).
  assert (Hrange : (development_score best <=? 100) = true).
  { destruct (profile_development recent_poc_of skew_of kurtosis_of _ _ _ Hcb)
      as (poc & mean & std & Hlen & Hc).
    pose proof (len_tail_le (VolumeProfileStrategy.found_lookback (search self df)) df).
    pose proof (check_development_range recent_poc_of skew_of kurtosis_of
                  (Pandas.tail (VolumeProfileStrategy.found_lookback (search self df)) df)
                  poc mean std ltac:(lia)) as Hr.
    rewrite <- Hc in Hr. cbn [snd] in Hr.
    apply score_range_bounds in Hr. tauto. }
  assert (Hin : In (lookback best)
                  (Py.range (lookback_min self) (lookback_max self + 1) 10)).
  { rewrite Hlb, Hdone. apply in_or_app. right. now left. }
  assert (Hfields :
            symbol s = self_symbol self /\ timeframe s = self_timeframe self
            /\ confidence s = development_score best
            /\ volume_profile s = Some best
            /\ entry_price s = c_close last
            /\ exists m, metadata s = Some m
                         /\ meta_lookback m = lookback best
                         /\ meta_timeout_candles m = timeout_candles self).
  { destruct (entry_conditions_inv _ _ _ _ _ _ _ _ He)
      as [(_ & Hl)|[(_ & _ & Hsh)|(_ & _ & ->)]].
    - apply long_setup_levels in Hl.
      destruct Hl as (_ & H1 & H2 & H3 & H4 & H5 & _ & _ & m & Hm & _ & H6 & H7).
      repeat (split; [assumption|]). exists m. auto.
    - apply short_setup_levels in Hsh.
      destruct Hsh as (_ & H1 & H2 & H3 & H4 & H5 & _ & _ & m & Hm & _ & H6 & H7).
      repeat (split; [assumption|]). exists m. auto.
    - now elim Hd. }
  destruct Hfields as (H1 & H2 & H3 & H4 & H5 & m & Hm & H6 & H7).
  exists best, last, m.
  split; [exact H4|]. split; [rewrite Hlb; exact Hcb|]. split; [exact Hdb|].
  split; [exact Hin|]. split; [exact H3|].
  rewrite H3. split; [exact Hscore|]. split; [exact Hrange|].
  split; [exact Hlast|]. split; [exact H5|]. split; [exact H1|]. split; [exact H2|].
  split; [exact Hm|]. split; [exact H7|]. split; [exact H6|].
  rewrite Hself, Hlb. reflexivity.
Qed.

(** A profile over a slice without volume has NaN bands (0 / 0). *)
Lemma zero_volume_bands (df : list Candle) (l : Z) (p : Profile) :
  (forall c, In c (Pandas.tail l df) -> (c_volume c =? 0) = true) ->
  profile_at df l = Some p ->
  value_area_low p = nan.
Proof.
  intros Hz H. apply profile_bands in H.
  destruct H as (_ & _ & _ & _ & Hm & _ & _ & -> & _).
  rewrite Hm, (weighted_mean_nan _ c_close Hz). apply sub_nan_l.
Qed.

Lemma in_tail {A : Type} (n : Z) (l : list A) (x : A) :
  In x (Pandas.tail n l) -> In x l.
Proof. unfold Pandas.tail. destruct (n <? 0)%Z; apply in_skipn_in. Qed.

(** X6. a frame whose candles all have volume zero never yields an entry:
    whatever [generate_signals] returns for it is NEUTRAL (the bands of every
    profile are NaN, and no close lies inside a NaN value area). *)
Theorem zero_volume_never_enters (self : Strategy) (df : list Candle) (s : Signal) :
  (forall c, In c df -> (c_volume c =? 0) = true) ->
  VolumeProfileStrategy.returned (generate self (Some df)) = Some s ->
  direction s = NEUTRAL.
Proof.
  intros Hz Hs.
  destruct (generate_returns_inv self df s Hs)
    as [Hn|(best & last & prev & Hbest & _ & _ & _ & He)]; [exact Hn|].
  destruct (search_result recent_poc_of skew_of kurtosis_of self df) as [Hinv _].
  unfold search_inv in Hinv. rewrite Hbest in Hinv.
  destruct Hinv as (_ & pre & post & _ & [Hcb _] & _).
  assert (Hnan : value_area_low best = nan).
  { apply (zero_volume_bands df (VolumeProfileStrategy.found_lookback (search self df))
             best); [|exact Hcb].
    intros c Hc. apply Hz. now apply in_tail in Hc. }
  destruct (entry_conditions_inv _ _ _ _ _ _ _ _ He)
    as [(Hc & _)|[(_ & Hc & _)|(_ & _ & ->)]]; [| |reflexivity]; exfalso;
    unfold long_condition, short_condition, VolumeProfileStrategy.closed_inside in Hc;
    rewrite Hnan in Hc;
    apply andb_true_iff in Hc; destruct Hc as [_ Hc];
    apply andb_true_iff in Hc; destruct Hc as [Hc _];
    rewrite FloatAxioms.leb_spec in Hc; discriminate Hc.
Qed.

End GenerateMore.

Section FlatMarket.

Local Open Scope float_scope.

Lemma sub_self (v : float) : positive_normal v -> v - v = 0.
Proof.
  intros (m & e & Hv & _). apply Prim2SF_inj. rewrite sub_spec, Hv.
  change (Prim2SF 0) with (S754_zero false).
  unfold SF64sub, SFsub. cbn [cond_Zopp]. rewrite Z.min_id.
  rewrite shl_align_id by lia. cbn [fst]. rewrite Z.sub_diag. reflexivity.
Qed.

Lemma add_zero_l (v : float) : positive_normal v -> 0 + v = v.
Proof.
  intros (m & e & Hv & _). apply Prim2SF_inj. rewrite add_spec, Hv. reflexivity.
Qed.

Lemma positive_normal_eqb (v : float) : positive_normal v -> (v =? v) = true.
Proof.
  intros (m & e & Hv & _). rewrite eqb_spec, Hv. unfold SFeqb, SFcompare.
  rewrite Z.compare_refl. fold (Pos.compare m m). now rewrite Pos.compare_refl.
Qed.

Lemma positive_normal_ltb (v : float) : positive_normal v -> (v <? v) = false.
Proof.
  intros (m & e & Hv & _). rewrite FloatAxioms.ltb_spec, Hv. unfold SFltb, SFcompare.
  rewrite Z.compare_refl. fold (Pos.compare m m). now rewrite Pos.compare_refl.
Qed.

(** With at most fifty bins, the grid points [i / div] are small quotients;
    times a zero span they vanish. *)
Lemma grid_point_of_zero_span (i d : nat) :
  (i <= 50)%nat -> (1 <= d <= 50)%nat ->
  0 / Py.float_of_Z (Z.of_nat d) = 0
  /\ Py.float_of_Z (Z.of_nat i) / Py.float_of_Z (Z.of_nat d) * 0 = 0.
Proof.
  intros Hi Hd.
  assert (Hall : forallb (fun d' =>
                    Leibniz.eqb (0 / Py.float_of_Z (Z.of_nat d')) 0
                    && forallb (fun i' =>
                         Leibniz.eqb (Py.float_of_Z (Z.of_nat i')
                                      / Py.float_of_Z (Z.of_nat d') * 0) 0)
                         (seq 0 51))
                   (seq 1 50) = true) by (vm_compute; reflexivity).
  rewrite forallb_forall in Hall.
  specialize (Hall d ltac:(apply in_seq; lia)).
  apply andb_true_iff in Hall. destruct Hall as [H1 H2].
  rewrite forallb_forall in H2. specialize (H2 i ltac:(apply in_seq; lia)).
  apply Leibniz.eqb_spec in H1, H2. auto.
Qed.

Lemma map_all_same {A B : Type} (f : A -> B) (v : B) (l : list A) :
  (forall x, In x l -> f x = v) -> map f l = repeat v (List.length l).
Proof.
  induction l as [|a l IH]; simpl; intros H; [reflexivity|].
  rewrite (H a) by now left. f_equal. apply IH. intros x Hx. apply H. now right.
Qed.

(** [np.linspace(v, v, num)]: the same edge [num] times. *)
Lemma linspace_flat (v : float) (num : Z) :
  positive_normal v -> (2 <= num <= 51)%Z ->
  Pandas.linspace v v num = repeat v (Z.to_nat num).
Proof.
  intros Hv Hnum. unfold Pandas.linspace. cbv zeta.
  transitivity (repeat v (List.length (seq 0 (Z.to_nat num))));
    [|now rewrite length_seq].
  apply map_all_same. intros i Hi. apply in_seq in Hi.
  destruct ((1 <? num)%Z && (i =? Z.to_nat num - 1)%nat); [reflexivity|].
  rewrite (sub_self v Hv).
  assert (Hd : (num - 1)%Z = Z.of_nat (Z.to_nat (num - 1))) by lia.
  rewrite Hd.
  destruct (grid_point_of_zero_span i (Z.to_nat (num - 1)) ltac:(lia) ltac:(lia))
    as [Hstep Hpoint].
  rewrite Hstep, Hpoint.
  assert (Hlt : (0 <? Z.of_nat (Z.to_nat (num - 1)))%Z = true) by (apply Z.ltb_lt; lia).
  rewrite Hlt. change (0 =? 0) with true. cbv iota.
  now apply add_zero_l.
Qed.

Lemma has_descent_flat (v : float) (n : nat) :
  positive_normal v -> Pandas.has_descent (repeat v n) = false.
Proof.
  intros Hv. induction n as [|[|n] IH]; try reflexivity.
  change (Pandas.has_descent (repeat v (S (S n))))
    with ((v <? v) || Pandas.has_descent (repeat v (S n))).
  now rewrite positive_normal_ltb, IH.
Qed.

Lemma has_duplicate_flat (v : float) (n : nat) :
  positive_normal v -> (2 <= n)%nat -> Pandas.has_duplicate (repeat v n) = true.
Proof.
  intros Hv Hn. destruct n as [|[|n]]; try lia.
  change (Pandas.has_duplicate (repeat v (S (S n))))
    with ((v =? v) || Pandas.has_duplicate (repeat v (S n))).
  now rewrite positive_normal_eqb.
Qed.

Lemma series_max_flat (v : float) (xs : list float) :
  positive_normal v -> xs <> [] -> (forall x, In x xs -> x = v) ->
  Pandas.series_max xs = v.
Proof.
  intros Hv Hne Hall. destruct xs as [|x r]; [now elim Hne|].
  simpl. rewrite (Hall x) by now left.
  assert (Hr : forall y, In y r -> y = v) by (intros y Hy; apply Hall; now right).
  clear Hall Hne. induction r as [|y r IH]; simpl; [reflexivity|].
  rewrite (Hr y) by now left. rewrite (positive_normal_ltb v Hv).
  apply IH. intros z Hz. apply Hr. now right.
Qed.

Lemma series_min_flat (v : float) (xs : list float) :
  positive_normal v -> xs <> [] -> (forall x, In x xs -> x = v) ->
  Pandas.series_min xs = v.
Proof.
  intros Hv Hne Hall. destruct xs as [|x r]; [now elim Hne|].
  simpl. rewrite (Hall x) by now left.
  assert (Hr : forall y, In y r -> y = v) by (intros y Hy; apply Hall; now right).
  clear Hall Hne. induction r as [|y r IH]; simpl; [reflexivity|].
  rewrite (Hr y) by now left. rewrite (positive_normal_ltb v Hv).
  apply IH. intros z Hz. apply Hr. now right.
Qed.

Variable recent_poc_of : list Candle -> Py.exc float.
Variable skew_of : list float -> float.
Variable kurtosis_of : list float -> float.

(** X7. a flat market has no profile.  When every candle of the slice has its
    high and its low at one price and the slice has at least four candles
    (two bins or more), the bin edges of [np.linspace] coincide, [pd.cut]
    refuses them, and the estimation returns None. *)
Theorem flat_market_has_no_profile (df : list Candle) (l : Z) (v : float) :
  (4 <= l <= Pandas.len df)%Z ->
  positive_normal v ->
  (forall c, In c (Pandas.tail l df) -> c_high c = v /\ c_low c = v) ->
  VolumeProfileStrategy.calculate_volume_profile recent_poc_of skew_of kurtosis_of
    df l = None.
Proof.
  intros Hl Hv Hflat.
  unfold VolumeProfileStrategy.calculate_volume_profile,
    VolumeProfileStrategy.calculate_volume_profile_body.
  rewrite (proj2 (Z.ltb_ge (Pandas.len df) l)) by lia.
  assert (Hlen : Pandas.len (Pandas.tail l df) = l).
  { rewrite len_tail. rewrite (proj2 (Z.ltb_ge l 0)) by lia. lia. }
  assert (Hne : Pandas.tail l df <> []).
  { intros E. rewrite E in Hlen. unfold Pandas.len in Hlen. simpl in Hlen. lia. }
  rewrite (series_max_flat v), (series_min_flat v); auto.
  2, 4: (intros E; apply map_eq_nil in E; contradiction).
  2: { intros x Hx. apply in_map_iff in Hx. destruct Hx as (c & <- & Hc).
       now apply Hflat. }
  2: { intros x Hx. apply in_map_iff in Hx. destruct Hx as (c & <- & Hc).
       now apply Hflat. }
  rewrite Hlen.
  assert (Hbins : (2 <= Z.min 50 (l / 2) <= 50)%Z).
  { assert (2 <= l / 2)%Z by (apply Z.div_le_lower_bound; lia). lia. }
  rewrite linspace_flat by (auto; lia).
  unfold Pandas.cut.
  rewrite has_descent_flat by exact Hv.
  rewrite has_duplicate_flat by (auto; lia).
  rewrite repeat_length.
  replace (Z.to_nat (Z.min 50 (l / 2) + 1) =? 2)%nat with false
    by (symmetry; apply Nat.eqb_neq; lia).
  reflexivity.
Qed.

End FlatMarket.

(** X7 on [flat_frame], 120 candles at the price 100: no profile at lookback 50. *)
Lemma flat_market_has_no_profile_witness :
  VolumeProfileStrategy.calculate_volume_profile steady_poc no_skew normal_kurtosis
    flat_frame 50 = None.
Proof.
  apply (flat_market_has_no_profile steady_poc no_skew normal_kurtosis flat_frame 50 100).
  - vm_compute. split; discriminate.
  - eexists. eexists. split; [vm_compute; reflexivity | unfold normal_bound; lia].
  - intros c Hc. apply in_tail in Hc. unfold flat_frame in Hc.
    apply repeat_spec in Hc. subst c. split; reflexivity.
Defined.

(** X3 over [sample_profile] (value area [44900, 45300], sigma_2_high 45500):
    a candle with low 45200 and high 45300 that closes at 45250 gives a SHORT
    signal at level "1σ" with target 45115. *)
Lemma short_entry_rule_witness :
  exists s m,
    VolumeProfileStrategy._check_entry_conditions (Config.strategy_for "BTC" "1m")
      45250 45200 45300 45240 sample_profile 0.3 = Py.Return s
    /\ direction s = SHORT
    /\ target_price s = 45115%float
    /\ metadata s = Some m
    /\ entry_level m = "1σ"%string.
Proof.
  assert (R : returns (VolumeProfileStrategy._check_entry_conditions
                         (Config.strategy_for "BTC" "1m")
                         45250 45200 45300 45240 sample_profile 0.3)).
  { eexists. vm_compute. reflexivity. }
  destruct (short_entry_rule (Config.strategy_for "BTC" "1m")
              45250 45200 45300 45240 sample_profile 0.3 R) as [Hiff Hshape].
  destruct (proj2 Hiff) as (s & Hs & Hd).
  { repeat split; reflexivity. }
  destruct (Hshape s Hs Hd) as (He & Ht & _ & m & Hm & Hl & _).
  exists s, m. repeat split; auto.
  rewrite Ht, He. reflexivity.
Defined.

(** X4 on the LONG scenario over [sample_profile]: entry 44950, target 45085
    above it, stop under sigma_2_low 44700. *)
Lemma exit_levels_on_their_sides_witness :
  exists s,
    VolumeProfileStrategy._check_entry_conditions (Config.strategy_for "BTC" "1m")
      44950 44900 44960 44940 sample_profile 0.3 = Py.Return s
    /\ (target_price s <? entry_price s)%float = false
    /\ (stop_loss s <=? sigma_2_low sample_profile)%float = true.
Proof.
  eexists. split; [vm_compute; reflexivity|].
  match goal with
  | |- (target_price ?s <? _)%float = false /\ _ =>
      destruct (exit_levels_on_their_sides (Config.strategy_for "BTC" "1m")
                  44950 44900 44960 44940 sample_profile 0.3 s)
        as (H1 & _ & H3 & _)
  end.
  - vm_compute. reflexivity.
  - eexists. eexists. split; [vm_compute; reflexivity | unfold normal_bound; lia].
  - vm_compute. reflexivity.
  - split.
    + apply H1. reflexivity.
    + apply H3; [reflexivity | | vm_compute; reflexivity].
      eexists. eexists. split; [vm_compute; reflexivity | unfold normal_bound; lia].
Defined.

(** X5 on [dip_frame]: a LONG signal on the profile of lookback 70, with a
    confidence of about 88.19. *)
Lemma entry_signal_carries_developed_profile_witness :
  exists s p,
    VolumeProfileStrategy.returned
      (VolumeProfileStrategy.generate_signals steady_poc no_skew normal_kurtosis
         atr_inside (Config.strategy_for "BTC" "1m") (Some dip_frame)) = Some s
    /\ direction s = LONG
    /\ volume_profile s = Some p
    /\ developed p = true
    /\ (70 <=? confidence s)%float = true /\ (confidence s <=? 100)%float = true.
Proof.
  eexists.
  match goal with
  | |- exists p, ?g = Some ?s /\ _ =>
      assert (Hs : g = Some s) by (vm_compute; reflexivity);
      destruct (entry_signal_carries_developed_profile steady_poc no_skew
                  normal_kurtosis atr_inside (Config.strategy_for "BTC" "1m")
                  dip_frame s)
        as (p & last & m & H1 & _ & H3 & _ & _ & H6 & H7 & _)
  end.
  - vm_compute. reflexivity.
  - exact Hs.
  - discriminate.
  - exists p. split; [exact Hs|]. split; [reflexivity|]. auto.
Defined.

(** X6 on [silent_frame]: with an ATR inside the band the answer is NEUTRAL. *)
Lemma zero_volume_never_enters_witness :
  exists s,
    VolumeProfileStrategy.returned
      (VolumeProfileStrategy.generate_signals steady_poc no_skew normal_kurtosis
         atr_inside (Config.strategy_for "BTC" "1m") (Some silent_frame)) = Some s
    /\ direction s = NEUTRAL.
Proof.
  eexists.
  match goal with
  | |- ?g = Some ?s /\ _ =>
      assert (Hs : g = Some s) by (vm_compute; reflexivity)
  end.
  split; [exact Hs|].
  apply (zero_volume_never_enters steady_poc no_skew normal_kurtosis atr_inside
           (Config.strategy_for "BTC" "1m") silent_frame); [|exact Hs].
  intros c Hc. unfold silent_frame in Hc. apply in_map_iff in Hc.
  destruct Hc as (c' & <- & _). reflexivity.
Defined.


(* ===================================================================== *)
(** * More on the agents, the table and the exchange                     *)
(* ===================================================================== *)

Section ScanMore.

Local Open Scope float_scope.

Variable symbols timeframes : list string.
Variable scan : string -> string -> Py.exc (option Signal).

Local Notation "'signals_of'" := (StrategyAgent.symbol_signals timeframes scan).

Lemma ltb_irrefl (x : float) : (x <? x) = false.
Proof.
  destruct (x <? x) eqn:E; [|reflexivity].
  pose proof (ltb_not_leb _ _ E) as H. apply ltb_leb in E. congruence.
Qed.

Lemma ltb_trans (x y z : float) :
  (x <? y) = true -> (y <? z) = true -> (x <? z) = true.
Proof. intros H1 H2. apply (ltb_leb_trans x y z H1). now apply ltb_leb. Qed.

(** [max(..., key=confidence)]: one of the signals, and none of them has a
    greater confidence. *)
Lemma max_by_confidence_spec (first : Signal) (rest : list Signal) :
  In (StrategyAgent.max_by_confidence first rest) (first :: rest)
  /\ forall x, In x (first :: rest) ->
       (confidence (StrategyAgent.max_by_confidence first rest) <? confidence x) = false.
Proof.
  unfold StrategyAgent.max_by_confidence.
  assert (G : forall rest seen best,
             In best seen ->
             (forall y, In y seen -> (confidence best <? confidence y) = false) ->
             let b := fold_left
                        (fun best x => if confidence best <? confidence x then x else best)
                        rest best in
             In b (seen ++ rest)
             /\ forall y, In y (seen ++ rest) -> (confidence b <? confidence y) = false).
  { clear. induction rest as [|x rest IH]; intros seen best Hin Hmax; simpl.
    - rewrite app_nil_r. auto.
    - replace (seen ++ x :: rest) with ((seen ++ [x]) ++ rest)
        by (rewrite <- app_assoc; reflexivity).
      destruct (confidence best <? confidence x) eqn:E; apply IH.
      + apply in_or_app. right. now left.
      + intros y Hy. apply in_app_or in Hy. destruct Hy as [Hy|[<-|[]]].
        * destruct (confidence x <? confidence y) eqn:F; [|reflexivity].
          pose proof (ltb_trans _ _ _ E F) as H. rewrite (Hmax y Hy) in H. discriminate.
        * apply ltb_irrefl.
      + apply in_or_app. now left.
      + intros y Hy. apply in_app_or in Hy. destruct Hy as [Hy|[<-|[]]]; auto. }
  specialize (G rest [first] first ltac:(now left)).
  apply G. intros y [<-|[]]. apply ltb_irrefl.
Qed.

(** Lines 88-100: the signals gathered for a symbol are the signals of its
    timeframes that are not NEUTRAL. *)
Lemma symbol_signals_spec (symbol : string) (s : Signal) :
  In s (signals_of symbol)
  <-> exists timeframe,
        In timeframe timeframes
        /\ scan symbol timeframe = Py.Return (Some s)
        /\ direction s <> NEUTRAL.
Proof.
  unfold StrategyAgent.symbol_signals. rewrite in_flat_map. split.
  - intros (tf & Htf & Hs). exists tf. split; [exact Htf|].
    destruct (scan symbol tf) as [[s'|]|e]; try contradiction.
    unfold StrategyAgent.is_neutral in Hs.
    destruct (direction s') eqn:Hd; simpl in Hs; try contradiction;
      destruct Hs as [<-|[]]; split; auto; congruence.
  - intros (tf & Htf & Hs & Hd). exists tf. split; [exact Htf|].
    rewrite Hs. unfold StrategyAgent.is_neutral.
    destruct (direction s); try (now left). now elim Hd.
Qed.

(** What one symbol adds to the result. *)
Lemma scan_fold (db : TradingDatabase.table) (syms : list string) (acc : list Signal) :
  fold_left (StrategyAgent.scan_symbol timeframes scan db) syms acc
  = acc ++ flat_map
             (fun symbol =>
                match TradingDatabase.get_position_by_symbol db symbol with
                | Some _ => []
                | None =>
                    match signals_of symbol with
                    | [] => []
                    | first :: rest =>
                        [StrategyAgent.max_by_confidence first rest;
                         StrategyAgent.max_by_confidence first rest]
                    end
                end)
             syms.
Proof.
  revert acc. induction syms as [|symbol syms IH]; intros acc; simpl.
  - now rewrite app_nil_r.
  - rewrite IH. unfold StrategyAgent.scan_symbol.
    destruct (TradingDatabase.get_position_by_symbol db symbol); [reflexivity|].
    destruct (signals_of symbol) as [|first rest]; [reflexivity|].
    rewrite <- !app_assoc. reflexivity.
Qed.

(** X8. open positions only take symbols out of a scan.  The result of
    [StrategyAgent.run] over a table is its result over an empty table for the
    symbols that have no open position in the table, in the same order. *)
Theorem open_positions_block_scans (enabled : bool) (db : TradingDatabase.table) :
  StrategyAgent.run symbols timeframes scan enabled db
  = StrategyAgent.run
      (filter (fun symbol =>
                 match TradingDatabase.get_position_by_symbol db symbol with
                 | Some _ => false
                 | None => true
                 end)
              symbols)
      timeframes scan enabled [].
Proof.
  unfold StrategyAgent.run. destruct (negb enabled); [reflexivity|]. f_equal.
  rewrite !scan_fold. simpl. clear.
  induction symbols as [|symbol syms IH]; simpl; [reflexivity|].
  destruct (TradingDatabase.get_position_by_symbol db symbol); simpl.
  - exact IH.
  - now rewrite IH.
Qed.

(** Where a signal of the result comes from. *)
Lemma scanned_signal_origin (db : TradingDatabase.table) (syms : list string)
    (s : Signal) :
  In s (fold_left (StrategyAgent.scan_symbol timeframes scan db) syms []) ->
  exists symbol first rest,
    In symbol syms
    /\ TradingDatabase.get_position_by_symbol db symbol = None
    /\ signals_of symbol = first :: rest
    /\ s = StrategyAgent.max_by_confidence first rest.
Proof.
  rewrite scan_fold. simpl. intros Hs.
  apply in_flat_map in Hs. destruct Hs as (symbol & Hsym & Hs).
  destruct (TradingDatabase.get_position_by_symbol db symbol) eqn:Hpos; [contradiction|].
  destruct (signals_of symbol) as [|first rest] eqn:Hsig; [contradiction|].
  exists symbol, first, rest. repeat (split; [auto|]).
  destruct Hs as [<-|[<-|[]]]; reflexivity.
Qed.

(** X9. every signal [StrategyAgent.run] returns is a LONG or SHORT signal
    that one timeframe of a configured symbol without open position gave, and
    no signal of that symbol from any timeframe has a greater confidence. *)
Theorem scan_keeps_best_signal (enabled : bool) (db : TradingDatabase.table)
    (signals : list Signal) (s : Signal) :
  StrategyAgent.run symbols timeframes scan enabled db = Some signals ->
  In s signals ->
  exists symbol timeframe,
    In symbol symbols /\ In timeframe timeframes
    /\ TradingDatabase.get_position_by_symbol db symbol = None
    /\ scan symbol timeframe = Py.Return (Some s)
    /\ direction s <> NEUTRAL
    /\ forall timeframe' s',
         In timeframe' timeframes ->
         scan symbol timeframe' = Py.Return (Some s') ->
         direction s' <> NEUTRAL ->
         (confidence s <? confidence s') = false.
Proof.
  unfold StrategyAgent.run. destruct (negb enabled); [discriminate|].
  intros H Hs. injection H as <-.
  apply scanned_signal_origin in Hs.
  destruct Hs as (symbol & first & rest & Hsym & Hpos & Hsig & Hbest).
  destruct (max_by_confidence_spec first rest) as [Hin Hmax].
  rewrite <- Hbest in Hin, Hmax. rewrite <- Hsig in Hin.
  apply symbol_signals_spec in Hin. destruct Hin as (tf & Htf & Hscan & Hd).
  exists symbol, tf. repeat (split; [assumption|]).
  intros tf' s' Htf' Hscan' Hd'. apply Hmax. rewrite <- Hsig.
  apply symbol_signals_spec. eauto.
Qed.

End ScanMore.

Section QueryFacts.

Variable symbols timeframes : list string.
Variable scan : string -> string -> Py.exc (option Signal).

Lemma collect_fold (symbol : string) (tfs : list string) (acc : list Signal) :
  (forall tf, In tf tfs -> exists r, scan symbol tf = Py.Return r) ->
  fold_left
    (fun acc timeframe =>
       signals <- acc ;;
       signal <- scan symbol timeframe ;;
       Py.Return (match signal with
                  | Some s => if StrategyAgent.is_neutral s then signals
                              else signals ++ [s]
                  | None => signals
                  end))
    tfs (Py.Return acc)
  = Py.Return (acc ++ StrategyAgent.symbol_signals tfs scan symbol).
Proof.
  revert acc. induction tfs as [|tf tfs IH]; intros acc Hall; simpl.
  - now rewrite app_nil_r.
  - destruct (Hall tf ltac:(now left)) as [r Hr].
    unfold StrategyAgent.symbol_signals in *. simpl. rewrite Hr. simpl.
    destruct r as [s|]; [destruct (StrategyAgent.is_neutral s)|];
      rewrite IH by (intros; apply Hall; now right); simpl;
      rewrite <- ?app_assoc; reflexivity.
Qed.

Lemma collect_raises (symbol : string) (tfs : list string) (e : Py.exn) :
  fold_left
    (fun acc timeframe =>
       signals <- acc ;;
       signal <- scan symbol timeframe ;;
       Py.Return (match signal with
                  | Some s => if StrategyAgent.is_neutral s then signals
                              else signals ++ [s]
                  | None => signals
                  end))
    tfs (Py.Raise e)
  = Py.Raise e.
Proof. induction tfs as [|tf tfs IH]; simpl; auto. Qed.

Lemma collect_failure (symbol : string) (tfs : list string) (acc : list Signal) :
  (exists tf e, In tf tfs /\ scan symbol tf = Py.Raise e) ->
  exists e,
    fold_left
      (fun acc timeframe =>
         signals <- acc ;;
         signal <- scan symbol timeframe ;;
         Py.Return (match signal with
                    | Some s => if StrategyAgent.is_neutral s then signals
                                else signals ++ [s]
                    | None => signals
                    end))
      tfs (Py.Return acc)
    = Py.Raise e.
Proof.
  revert acc. induction tfs as [|tf tfs IH]; intros acc (tf' & e & Hin & He).
  - destruct Hin.
  - simpl. destruct (scan symbol tf) as [r|e'] eqn:Hr; simpl.
    + destruct Hin as [->|Hin]; [congruence|].
      apply IH. eauto.
    + exists e'. apply collect_raises.
Qed.

(** X10. [get_signals] for one symbol.  A symbol that is not configured (or
    any symbol while strategies are disabled) gives the empty list.  For a
    configured symbol whose timeframes all answer, the result is every signal
    of its timeframes that is not NEUTRAL, in the order of the timeframes:
    neither the open-position guard of [run] nor its choice of the best
    signal applies.  And when one timeframe raises, all the signals of the
    symbol are lost: the result is the empty list. *)
Theorem get_signals_of_one_symbol (enabled : bool) (db : TradingDatabase.table)
    (name : string) :
  name <> ""%string ->
  (enabled && existsb (String.eqb name) symbols = false ->
   SignalQueries.get_signals symbols timeframes scan enabled db (Some name) = Some [])
  /\ (enabled = true -> In name symbols ->
      (forall tf, In tf timeframes -> exists r, scan name tf = Py.Return r) ->
      SignalQueries.get_signals symbols timeframes scan enabled db (Some name)
      = Some (StrategyAgent.symbol_signals timeframes scan name))
  /\ (enabled = true -> In name symbols ->
      (exists tf e, In tf timeframes /\ scan name tf = Py.Raise e) ->
      SignalQueries.get_signals symbols timeframes scan enabled db (Some name)
      = Some []).
Proof.
  intros Hname. unfold SignalQueries.get_signals.
  assert (Hlen : (String.length name =? 0)%nat = false).
  { destruct name; [now elim Hname | reflexivity]. }
  rewrite Hlen.
  assert (Hex : In name symbols -> existsb (String.eqb name) symbols = true).
  { intros Hin. apply existsb_exists. exists name. split; [exact Hin|].
    apply String.eqb_refl. }
  split; [intros ->; reflexivity|]. split.
  - intros -> Hin Hall. rewrite (Hex Hin). simpl.
    unfold SignalQueries.collect. now rewrite (collect_fold name timeframes [] Hall).
  - intros -> Hin Hfail. rewrite (Hex Hin). simpl.
    unfold SignalQueries.collect.
    destruct (collect_failure name timeframes [] Hfail) as [e ->]. reflexivity.
Qed.

End QueryFacts.

Section Handoff.

Local Open Scope float_scope.

Variable recent_poc_of : list Candle -> Py.exc float.
Variable skew_of : list float -> float.
Variable kurtosis_of : list float -> float.
Variable calculate_atr : list Candle -> float.
Variable strategies : string -> string -> Strategy.
Variable get_ohlcv_data : string -> string -> option (list Candle).

Local Notation "'profile_at'" :=
  (VolumeProfileStrategy.calculate_volume_profile recent_poc_of skew_of kurtosis_of).
Local Notation "'search'" :=
  (VolumeProfileStrategy.search_lookbacks recent_poc_of skew_of kurtosis_of).
Local Notation "'generate'" :=
  (VolumeProfileStrategy.generate_signals recent_poc_of skew_of kurtosis_of calculate_atr).
Local Notation "'market_scan'" :=
  (strategy_scan recent_poc_of skew_of kurtosis_of calculate_atr strategies
     get_ohlcv_data).

(** The profile the search keeps scores between 70 and 100. *)
Lemma kept_profile_score (self : Strategy) (df : list Candle) (best : Profile) :
  (Pandas.len df < 2 ^ 63)%Z ->
  VolumeProfileStrategy.best_profile (search self df) = Some best ->
  developed best = true
  /\ (70 <=? development_score best) = true
  /\ (development_score best <=? 100) = true.
Proof.
  intros Hdf Hbest.
  destruct (search_result recent_poc_of skew_of kurtosis_of self df) as [Hinv _].
  unfold search_inv in Hinv. rewrite Hbest in Hinv.
  destruct Hinv as (_ & pre & post & _ & [Hcb Hdb] & _).
  split; [exact Hdb|]. split.
  - apply (candidate_score recent_poc_of skew_of kurtosis_of df _ _ (conj Hcb Hdb)).
  - destruct (profile_development recent_poc_of skew_of kurtosis_of _ _ _ Hcb)
      as (poc & mean & std & Hlen & Hc).
    pose proof (len_tail_le (VolumeProfileStrategy.found_lookback (search self df)) df).
    pose proof (check_development_range recent_poc_of skew_of kurtosis_of
                  (Pandas.tail (VolumeProfileStrategy.found_lookback (search self df)) df)
                  poc mean std ltac:(lia)) as Hr.
    rewrite <- Hc in Hr. cbn [snd] in Hr.
    apply score_range_bounds in Hr. tauto.
Qed.

(** X11. what the scan hands to the trading agent.  With every strategy run on
    the candles of the exchange (frames of fewer than 2^63 candles), each
    signal [StrategyAgent.run] returns is a LONG or SHORT signal with a
    leverage between 2 and 20, a confidence between 70 and 100 and an entry
    price that is a number; it carries a developed profile and its metadata,
    so the confirmation step puts it to the model instead of rejecting it
    unseen. *)
Theorem scanned_signals_are_tradeable (symbols timeframes : list string)
    (db : TradingDatabase.table) (signals : list Signal) (s : Signal)
    (ai_confirms : Signal -> TradingAgent.Confirmation) :
  (forall symbol timeframe df,
     get_ohlcv_data symbol timeframe = Some df -> (Pandas.len df < 2 ^ 63)%Z) ->
  StrategyAgent.run symbols timeframes market_scan true db = Some signals ->
  In s signals ->
  direction s <> NEUTRAL
  /\ (Config.HYPERLIQUID_MIN_LEVERAGE <= leverage s <= Config.HYPERLIQUID_MAX_LEVERAGE)%Z
  /\ (70 <=? confidence s) = true /\ (confidence s <=? 100) = true
  /\ is_nan (entry_price s) = false
  /\ (exists p m, volume_profile s = Some p /\ developed p = true
                  /\ metadata s = Some m)
  /\ TradingAgent.analyze_and_confirm_trade ai_confirms s = ai_confirms s.
Proof.
  intros Hframes Hrun Hs.
  unfold StrategyAgent.run in Hrun. simpl in Hrun. injection Hrun as <-.
  apply scanned_signal_origin in Hs.
  destruct Hs as (symbol & first & rest & _ & _ & Hsig & Hbest).
  destruct (max_by_confidence_spec first rest) as [Hin _].
  rewrite <- Hbest, <- Hsig in Hin.
  apply symbol_signals_spec in Hin. destruct Hin as (tf & _ & Hscan & Hd).
  unfold strategy_scan in Hscan. injection Hscan as Hret.
  destruct (get_ohlcv_data symbol tf) as [df|] eqn:Hdf; [|discriminate Hret].
  pose proof (Hframes symbol tf df Hdf) as Hlen.
  destruct (generate_returns_inv _ _ _ _ _ _ _ Hret)
    as [Hn|(best & last & prev & Hb & _ & _ & _ & He)]; [contradiction|].
  destruct (kept_profile_score _ df best Hlen Hb) as (Hdev & H70 & H100).
  assert (Hfields : confidence s = development_score best
                    /\ volume_profile s = Some best
                    /\ is_nan (entry_price s) = false
                    /\ exists m, metadata s = Some m).
  { destruct (entry_conditions_inv _ _ _ _ _ _ _ _ He)
      as [(Hin & Hl)|[(_ & Hin & Hsh)|(_ & _ & ->)]].
    - apply long_setup_levels in Hl.
      destruct Hl as (_ & _ & _ & H3 & H4 & H5 & _ & _ & m & Hm & _).
      unfold long_condition, VolumeProfileStrategy.closed_inside in Hin.
      apply andb_true_iff in Hin. destruct Hin as [_ Hin].
      apply andb_true_iff in Hin. destruct Hin as [Hin _].
      apply leb_not_nan in Hin. rewrite H5. split; [auto|]. split; [auto|].
      split; [tauto | eauto].
    - apply short_setup_levels in Hsh.
      destruct Hsh as (_ & _ & _ & H3 & H4 & H5 & _ & _ & m & Hm & _).
      unfold short_condition, VolumeProfileStrategy.closed_inside in Hin.
      apply andb_true_iff in Hin. destruct Hin as [_ Hin].
      apply andb_true_iff in Hin. destruct Hin as [Hin _].
      apply leb_not_nan in Hin. rewrite H5. split; [auto|]. split; [auto|].
      split; [tauto | eauto].
    - now elim Hd. }
  destruct Hfields as (Hc & Hp & Hnum & m & Hm).
  split; [exact Hd|]. split.
  { destruct (setup_signal_inv _ _ _ _ _ _ _ _ He Hd) as (rr & _ & Hlev & _).
    destruct (leverage_of_clamped _ _ Hlev) as (n & _ & ->).
    unfold Config.HYPERLIQUID_MIN_LEVERAGE, Config.HYPERLIQUID_MAX_LEVERAGE. lia. }
  rewrite Hc. split; [exact H70|]. split; [exact H100|].
  split; [exact Hnum|].
  split; [exists best, m; auto|].
  unfold TradingAgent.analyze_and_confirm_trade. now rewrite Hp, Hm.
Qed.

End Handoff.

Section TableFacts.

Lemma find_app {A : Type} (f : A -> bool) (l1 l2 : list A) :
  find f (l1 ++ l2) = match find f l1 with
                      | Some a => Some a
                      | None => find f l2
                      end.
Proof.
  induction l1 as [|a l1 IH]; simpl; [reflexivity|].
  destruct (f a); [reflexivity | exact IH].
Qed.

(** X12. what [log_trade] changes.  It raises, and writes nothing, exactly
    when the size or the entry price is NaN (SQLite stores a NaN as NULL,
    which these columns refuse) or the leverage or the timeout is not a 64-bit
    integer.  Otherwise one row with status 'open' is appended, with the
    leverage as the nearest float and a NaN stop or target as NULL: it comes
    first among the open rows, newest first; its symbol has one more open row
    and is found by [get_position_by_symbol], as the new row itself when it
    had no open row; every other symbol is looked up and counted as before. *)
Theorem logged_trade_is_found (db : TradingDatabase.table) (symbol action : string)
    (size : float) (leverage : Z) (entry_price stop_loss take_profit : float)
    (timeframe : string) (timeout_candles : Z) (exit_conditions : option string) :
  let result :=
    TradingDatabase.log_trade db symbol action size leverage entry_price
      stop_loss take_profit timeframe timeout_candles exit_conditions in
  let row :=
    mkPosition (List.length db) symbol action size
      (TradingDatabase.sql_real_of_int leverage) entry_price
      (TradingDatabase.sql_real stop_loss) (TradingDatabase.sql_real take_profit)
      "open" exit_conditions (Some timeout_candles) timeframe in
  (result = None
   <-> (is_nan size = true \/ is_nan entry_price = true
        \/ TradingDatabase.sql_int leverage = false
        \/ TradingDatabase.sql_int timeout_candles = false))
  /\ forall db' trade_id,
       result = Some (db', trade_id) ->
       db' = db ++ [row]
       /\ TradingDatabase.get_open_positions db'
          = row :: TradingDatabase.get_open_positions db
       /\ TradingDatabase.open_count db' symbol
          = S (TradingDatabase.open_count db symbol)
       /\ (exists p, TradingDatabase.get_position_by_symbol db' symbol = Some p)
       /\ (TradingDatabase.get_position_by_symbol db symbol = None ->
           TradingDatabase.get_position_by_symbol db' symbol = Some row)
       /\ forall other,
            other <> symbol ->
            (TradingDatabase.get_position_by_symbol db' other = None
             <-> TradingDatabase.get_position_by_symbol db other = None)
            /\ TradingDatabase.open_count db' other
               = TradingDatabase.open_count db other.
Proof.
  intros result row. subst result. unfold TradingDatabase.log_trade. fold row.
  split.
  { destruct (is_nan size); [simpl; tauto|].
    destruct (is_nan entry_price); [simpl; tauto|]. simpl.
    destruct (TradingDatabase.sql_int leverage); [|simpl; tauto].
    destruct (TradingDatabase.sql_int timeout_candles); simpl; [|tauto].
    split; [discriminate|]. intros [H|[H|[H|H]]]; discriminate. }
  intros db' trade_id H.
  destruct (is_nan size || is_nan entry_price); [discriminate H|].
  destruct (TradingDatabase.sql_int leverage && TradingDatabase.sql_int timeout_candles);
    [|discriminate H].
  injection H as <- _.
  assert (Hopen : TradingDatabase.is_open_for symbol row = true).
  { unfold TradingDatabase.is_open_for, row. simpl. now rewrite String.eqb_refl. }
  split; [reflexivity|].
  split.
  { unfold TradingDatabase.get_open_positions. rewrite filter_app, rev_app_distr.
    reflexivity. }
  split.
  { unfold TradingDatabase.open_count. rewrite filter_app, length_app. simpl.
    rewrite Hopen. simpl. lia. }
  split.
  { unfold TradingDatabase.get_position_by_symbol. rewrite find_app. simpl.
    rewrite Hopen. destruct (find _ db); eauto. }
  split.
  { unfold TradingDatabase.get_position_by_symbol. rewrite find_app. simpl.
    intros ->. now rewrite Hopen. }
  intros other Hne.
  assert (Hno : TradingDatabase.is_open_for other row = false).
  { unfold TradingDatabase.is_open_for, row. simpl.
    destruct (String.eqb_spec symbol other); [congruence | reflexivity]. }
  split.
  - unfold TradingDatabase.get_position_by_symbol. rewrite find_app. simpl.
    rewrite Hno. destruct (find _ db); split; auto; discriminate.
  - unfold TradingDatabase.open_count. rewrite filter_app, length_app. simpl.
    rewrite Hno. simpl. lia.
Qed.

End TableFacts.

Section TradingMore.

Local Open Scope float_scope.

Variable ai_confirms : Signal -> TradingAgent.Confirmation.
Variable market_order : string -> bool -> float -> Z -> bool.
Variable json_dumps : float -> float -> Z -> string.

Local Notation "'confirm'" := (TradingAgent.analyze_and_confirm_trade ai_confirms).
Local Notation "'execute'" := (TradingAgent.execute_trade market_order json_dumps).
Local Notation "'process'" :=
  (TradingAgent.process_signal ai_confirms market_order json_dumps).
Local Notation "'run_trades'" := (TradingAgent.run ai_confirms market_order json_dumps).
Local Notation "'was_executed'" := (executed ai_confirms market_order json_dumps).
Local Notation "'timeout_of' s" :=
  (match metadata s with
   | Some m => meta_timeout_candles m
   | None => 15%Z
   end) (at level 10, s at level 9).

(** [execute_trade] succeeds or fails alike on every table, and on success
    appends the row of the signal. *)
Lemma execute_trade_row (db : TradingDatabase.table) (s : Signal)
    (c : TradingAgent.Confirmation) :
  execute db s c
  = if snd (execute [] s c)
    then (db ++ [logged_row json_dumps (List.length db) s c], true)
    else (db, false).
Proof.
  unfold TradingAgent.execute_trade, TradingDatabase.log_trade, logged_row.
  destruct (Py.int_truediv _ _) as [fraction|e]; simpl; [|reflexivity].
  destruct (market_order _ _ _ _); [|reflexivity].
  destruct (is_nan _ || is_nan _); [reflexivity|].
  destruct (TradingDatabase.sql_int _ && TradingDatabase.sql_int _); reflexivity.
Qed.

(** When [execute_trade] succeeds: the size is computed, the order is filled
    and the table accepts the row. *)
Lemma execute_trade_success (db : TradingDatabase.table) (s : Signal)
    (c : TradingAgent.Confirmation) :
  snd (execute db s c) = true
  <-> exists fraction,
        Py.int_truediv (TradingAgent.adjusted_size_pct c) 100 = Py.Return fraction
        /\ market_order (symbol s)
             (match direction s with LONG => true | _ => false end)
             (Config.usd_size * fraction) (TradingAgent.adjusted_leverage c) = true
        /\ is_nan (Config.usd_size * fraction) = false
        /\ is_nan (entry_price s) = false
        /\ TradingDatabase.sql_int (TradingAgent.adjusted_leverage c) = true
        /\ TradingDatabase.sql_int (timeout_of s) = true.
Proof.
  unfold TradingAgent.execute_trade, TradingDatabase.log_trade.
  destruct (Py.int_truediv _ _) as [fraction|e]; simpl.
  2:{ split; [discriminate|]. intros (f & H & _). discriminate H. }
  split.
  - intros H. exists fraction.
    destruct (market_order _ _ _ _); [|discriminate H].
    destruct (is_nan (Config.usd_size * fraction)); [discriminate H|].
    destruct (is_nan (entry_price s)); [discriminate H|]. simpl in H.
    destruct (TradingDatabase.sql_int (TradingAgent.adjusted_leverage c));
      [|discriminate H].
    destruct (TradingDatabase.sql_int _); [|discriminate H].
    repeat split.
  - intros (f & Hf & Hm & Hs & He & Hl & Ht). injection Hf as <-.
    rewrite Hm, Hs, He, Hl, Ht. reflexivity.
Qed.

(** One turn of the loop: the row of an executed signal is appended, any
    other signal leaves the table alone. *)
Lemma process_signal_row (db : TradingDatabase.table) (s : Signal) :
  process db s
  = if was_executed s
    then db ++ [logged_row json_dumps (List.length db) s (confirm s)]
    else db.
Proof.
  unfold TradingAgent.process_signal, executed.
  destruct (TradingAgent.approved (confirm s)); simpl; [|reflexivity].
  rewrite execute_trade_row. now destruct (snd _).
Qed.

(** The rows a list of signals adds, from the length of the table on. *)
Lemma run_rows (signals : list Signal) (db : TradingDatabase.table) :
  exists rows,
    run_trades db signals = db ++ rows
    /\ List.length rows = List.length (filter was_executed signals)
    /\ (forall s, In s signals -> was_executed s = true ->
          exists id, In (logged_row json_dumps id s (confirm s)) rows)
    /\ (forall p, In p rows ->
          exists s id, In s signals /\ was_executed s = true
                       /\ p = logged_row json_dumps id s (confirm s)).
Proof.
  unfold TradingAgent.run. revert db.
  induction signals as [|s signals IH]; intros db; simpl.
  - exists []. rewrite app_nil_r. repeat split; try tauto. intros p [].
  - destruct (IH (process db s)) as (rows & Hrun & Hlen & Hin & Hout).
    rewrite Hrun, process_signal_row.
    destruct (was_executed s) eqn:E.
    + exists (logged_row json_dumps (List.length db) s (confirm s) :: rows).
      split; [now rewrite <- app_assoc|]. split; [simpl; now rewrite Hlen|].
      split.
      * intros s' [<-|Hs'] He; [eexists; now left|].
        destruct (Hin s' Hs' He) as [id Hid]. exists id. now right.
      * intros p [<-|Hp]; [exists s, (List.length db); auto|].
        destruct (Hout p Hp) as (s' & id & H1 & H2 & H3). exists s', id. auto.
    + exists rows. split; [reflexivity|]. split; [exact Hlen|]. split.
      * intros s' [<-|Hs'] He; [congruence|]. now apply Hin.
      * intros p Hp. destruct (Hout p Hp) as (s' & id & H1 & H2 & H3).
        exists s', id. auto.
Qed.

(** X13. [TradingAgent.run] only appends.  The table afterwards is the table
    before followed by one open row per signal that was carried through: the
    model approved it, the size [50 * (size_pct / 100)] did not overflow, the
    exchange filled the order and the table accepted the row (a size and an
    entry price that are not NaN, a leverage and a timeout that are 64-bit
    integers).  Every new row carries the symbol, direction and entry of such
    a signal, its stop and target (NULL for a NaN) and the leverage the model
    settled on, as a float; any other signal leaves no row, even when its
    order was filled. *)
Theorem trading_run_only_appends (db : TradingDatabase.table) (signals : list Signal) :
  exists rows,
    run_trades db signals = db ++ rows
    /\ List.length rows = List.length (filter was_executed signals)
    /\ (forall s,
          was_executed s = true
          <-> TradingAgent.approved (confirm s) = true
              /\ exists fraction,
                   Py.int_truediv (TradingAgent.adjusted_size_pct (confirm s)) 100
                   = Py.Return fraction
                   /\ market_order (symbol s)
                        (match direction s with LONG => true | _ => false end)
                        (Config.usd_size * fraction)
                        (TradingAgent.adjusted_leverage (confirm s)) = true
                   /\ is_nan (Config.usd_size * fraction) = false
                   /\ is_nan (entry_price s) = false
                   /\ TradingDatabase.sql_int
                        (TradingAgent.adjusted_leverage (confirm s)) = true
                   /\ TradingDatabase.sql_int (timeout_of s) = true)
    /\ forall p, In p rows ->
         pos_status p = "open"%string
         /\ exists s,
              In s signals
              /\ was_executed s = true
              /\ pos_symbol p = symbol s
              /\ pos_action p = TradingAgent.direction_name (direction s)
              /\ pos_entry_price p = entry_price s
              /\ pos_stop_loss p = TradingDatabase.sql_real (stop_loss s)
              /\ pos_take_profit p = TradingDatabase.sql_real (target_price s)
              /\ pos_leverage p
                 = TradingDatabase.sql_real_of_int
                     (TradingAgent.adjusted_leverage (confirm s)).
Proof.
  destruct (run_rows signals db) as (rows & Hrun & Hlen & _ & Hout).
  exists rows. split; [exact Hrun|]. split; [exact Hlen|]. split.
  - intros s. unfold executed. rewrite andb_true_iff.
    rewrite (execute_trade_success [] s (confirm s)). reflexivity.
  - intros p Hp. destruct (Hout p Hp) as (s & id & Hs & He & ->).
    split; [reflexivity|]. exists s. split; [exact Hs|]. split; [exact He|].
    repeat split.
Qed.

Lemma find_open_row (db : TradingDatabase.table) (name : string) (p : Position) :
  In p db -> TradingDatabase.is_open_for name p = true ->
  exists q, TradingDatabase.get_position_by_symbol db name = Some q.
Proof.
  intros Hin Hp. unfold TradingDatabase.get_position_by_symbol.
  destruct (find (TradingDatabase.is_open_for name) db) as [q|] eqn:E; [eauto|].
  pose proof (find_none _ _ E p Hin). congruence.
Qed.

(** X14. a symbol that was just traded is left out of the next scan.  After
    [TradingAgent.run], every signal that was carried through (approved by the
    model, filled by the exchange and accepted by the table, so that
    [execute_trade] reports success, which it does or does not on every table
    alike) has an open row for its symbol, so [scan_symbol] adds nothing for
    that symbol, whatever its strategies answer. *)
Theorem executed_symbol_is_skipped (db : TradingDatabase.table)
    (signals : list Signal) (s : Signal) :
  In s signals ->
  TradingAgent.approved (confirm s) = true ->
  snd (execute db s (confirm s)) = true ->
  (exists p,
     TradingDatabase.get_position_by_symbol (run_trades db signals) (symbol s) = Some p)
  /\ forall timeframes scan all_signals,
       StrategyAgent.scan_symbol timeframes scan (run_trades db signals) all_signals
         (symbol s)
       = all_signals.
Proof.
  intros Hs Ha Hsucc.
  assert (He : was_executed s = true).
  { unfold executed. rewrite Ha. simpl.
    apply execute_trade_success. now apply (execute_trade_success db). }
  destruct (run_rows signals db) as (rows & Hrun & _ & Hin & _).
  destruct (Hin s Hs He) as [id Hid].
  assert (Hq : exists q,
             TradingDatabase.get_position_by_symbol (run_trades db signals) (symbol s)
             = Some q).
  { apply (find_open_row _ _ (logged_row json_dumps id s (confirm s))).
    - rewrite Hrun. apply in_or_app. now right.
    - unfold TradingDatabase.is_open_for. simpl. now rewrite String.eqb_refl. }
  split; [exact Hq|]. intros tfs scan acc.
  unfold StrategyAgent.scan_symbol. destruct Hq as [q ->]. reflexivity.
Qed.

End TradingMore.

Section LoggedLevels.

Local Open Scope float_scope.

Variable JSON : Type.
Variable json_loads : string -> Py.exc JSON.
Variable empty_object : JSON.
Variable market_order : string -> bool -> float -> Z -> bool.
Variable json_dumps : float -> float -> Z -> string.

(** X15. the levels of the signal are the levels of the exit.  The row that
    [execute_trade] logs for a filled LONG or SHORT signal whose prices are
    numbers is judged by [check_exit_conditions] on the target, the stop and
    the timeout of that signal: target first, then stop, then timeout (the
    text [json.dumps] wrote being readable by [json.loads]). *)
Theorem logged_levels_drive_exit (db : TradingDatabase.table) (s : Signal)
    (c : TradingAgent.Confirmation) (price : float) (held : Z) :
  storable s ->
  direction s <> NEUTRAL ->
  (forall tp sl t, exists j, json_loads (json_dumps tp sl t) = Py.Return j) ->
  snd (TradingAgent.execute_trade market_order json_dumps db s c) = true ->
  exists p,
    fst (TradingAgent.execute_trade market_order json_dumps db s c) = db ++ [p]
    /\ PositionManager.check_exit_conditions JSON json_loads empty_object p price held
       = let timeout :=
           match metadata s with
           | Some m => meta_timeout_candles m
           | None => 15%Z
           end in
         if Py.truthy_float (target_price s)
            && match direction s with
               | LONG => target_price s <=? price
               | _ => price <=? target_price s
               end
         then (true, Some "take_profit"%string)
         else if Py.truthy_float (stop_loss s)
                 && match direction s with
                    | LONG => price <=? stop_loss s
                    | _ => stop_loss s <=? price
                    end
         then (true, Some "stop_loss"%string)
         else if Py.truthy_int timeout && (timeout <=? held)%Z
         then (true, Some "timeout"%string)
         else (false, None).
Proof.
  intros (_ & Hsl & Htp) Hd Hjson Hfill.
  rewrite execute_trade_row in *.
  destruct (snd (TradingAgent.execute_trade market_order json_dumps [] s c));
    [|discriminate Hfill].
  cbn [fst]. eexists. split; [reflexivity|].
  unfold PositionManager.check_exit_conditions, PositionManager.parse_exit_conditions,
    logged_row.
  cbn [pos_exit_conditions].
  destruct (Hjson (target_price s) (stop_loss s)
              match metadata s with
              | Some m => meta_timeout_candles m
              | None => 15%Z
              end) as [j Hj].
  rewrite Hj. unfold TradingDatabase.sql_real. rewrite Hsl, Htp.
  destruct (_ =? 0)%nat; simpl;
    unfold PositionManager.take_profit_hit, PositionManager.stop_loss_hit,
      PositionManager.timeout_hit; simpl;
    destruct (direction s); simpl; try (now elim Hd);
    rewrite ?orb_false_r; reflexivity.
Qed.

End LoggedLevels.

Section TableUpdates.

Local Notation "'is_open'" := (fun p : Position => String.eqb (pos_status p) "open").
Local Notation "'close_row' id" :=
  (fun p : Position =>
     if TradesTable.has_id id p then TradesTable.set_status p "closed" else p)
  (at level 10, id at level 9).

Lemma closed_rows_ids (id : nat) (l : list Position) :
  map pos_id (map (close_row id) l) = map pos_id l.
Proof.
  rewrite map_map. apply map_ext. intros p.
  destruct (TradesTable.has_id id p); reflexivity.
Qed.

Lemma closed_rows_open (id : nat) (l : list Position) :
  filter is_open (map (close_row id) l)
  = filter (fun p => negb (TradesTable.has_id id p)) (filter is_open l).
Proof.
  induction l as [|a l IH]; simpl; [reflexivity|].
  destruct (TradesTable.has_id id a) eqn:E; simpl.
  - destruct (String.eqb (pos_status a) "open"); simpl; rewrite ?E; simpl; exact IH.
  - destruct (String.eqb (pos_status a) "open"); simpl; rewrite ?E; simpl;
      now rewrite IH.
Qed.

Lemma closed_rows_find (id : nat) (name : string) (l : list Position) :
  find (TradingDatabase.is_open_for name) (map (close_row id) l)
  = find (fun p => TradingDatabase.is_open_for name p && negb (TradesTable.has_id id p)) l.
Proof.
  induction l as [|a l IH]; simpl; [reflexivity|].
  destruct (TradesTable.has_id id a) eqn:E; simpl.
  - unfold TradingDatabase.is_open_for at 1. simpl.
    rewrite !andb_false_r. exact IH.
  - rewrite andb_true_r.
    destruct (TradingDatabase.is_open_for name a); [reflexivity | exact IH].
Qed.

Lemma closed_rows_absent (id : nat) (l : list Position) :
  existsb (TradesTable.has_id id) l = false -> map (close_row id) l = l.
Proof.
  induction l as [|a l IH]; simpl; [reflexivity|].
  intros H. apply orb_false_iff in H. destruct H as [Ha Hl].
  rewrite Ha, (IH Hl). reflexivity.
Qed.

Lemma absent_id (id : nat) (l : list Position) :
  ~ In id (map pos_id l) -> existsb (TradesTable.has_id id) l = false.
Proof.
  induction l as [|a l IH]; simpl; [reflexivity|].
  intros H. apply orb_false_iff. split.
  - unfold TradesTable.has_id. apply Nat.eqb_neq. tauto.
  - apply IH. tauto.
Qed.

(** Closing the one open row of an id takes one row out of the open ones. *)
Lemma close_row_count (l : list Position) (p : Position) :
  NoDup (map pos_id l) -> In p l -> pos_status p = "open"%string ->
  S (List.length (filter is_open (map (close_row (pos_id p)) l)))
  = List.length (filter is_open l).
Proof.
  induction l as [|a l IH]; simpl; [tauto|].
  intros Hnd Hin Hopen. inversion Hnd as [|x xs Hnot Hnd']; subst.
  destruct Hin as [->|Hin].
  - unfold TradesTable.has_id at 1. rewrite Nat.eqb_refl. simpl.
    rewrite Hopen. simpl.
    now rewrite (closed_rows_absent _ _ (absent_id _ _ Hnot)).
  - assert (Hne : TradesTable.has_id (pos_id p) a = false).
    { unfold TradesTable.has_id. apply Nat.eqb_neq. intros E. apply Hnot.
      rewrite E. now apply in_map. }
    rewrite Hne. destruct (String.eqb (pos_status a) "open"); simpl;
      now rewrite <- (IH Hnd' Hin Hopen).
Qed.

(** X16. what [update_trade] changes when it closes a trade.  No row appears
    or disappears; the open rows afterwards are the open rows before without
    those of the id; a symbol has no open row afterwards exactly when all its
    open rows were those of the id, which frees it for scanning; and for an id
    that no row has, nothing changes at all. *)
Theorem update_trade_closes_only_that_id (db : TradesTable.Store) (trade_id : nat)
    (exit_price pnl : float) (exit_strategy : string) :
  let db' :=
    TradesTable.update_trade db trade_id exit_price pnl exit_strategy "closed" in
  map pos_id (TradesTable.trades db') = map pos_id (TradesTable.trades db)
  /\ TradingDatabase.get_open_positions (TradesTable.trades db')
     = filter (fun p => negb (TradesTable.has_id trade_id p))
         (TradingDatabase.get_open_positions (TradesTable.trades db))
  /\ (forall name,
        TradingDatabase.get_position_by_symbol (TradesTable.trades db') name = None
        <-> forall p, In p (TradesTable.trades db) ->
                      TradingDatabase.is_open_for name p = true ->
                      pos_id p = trade_id)
  /\ (forall i, i <> trade_id -> TradesTable.written db' i = TradesTable.written db i)
  /\ (existsb (TradesTable.has_id trade_id) (TradesTable.trades db) = false ->
      TradesTable.trades db' = TradesTable.trades db
      /\ forall i, TradesTable.written db' i = TradesTable.written db i)
  /\ TradesTable.position_updates db' = TradesTable.position_updates db.
Proof.
  intros db'. subst db'. unfold TradesTable.update_trade. simpl.
  split; [apply closed_rows_ids|].
  split.
  { unfold TradingDatabase.get_open_positions.
    now rewrite closed_rows_open, filter_rev. }
  split.
  { intros name. unfold TradingDatabase.get_position_by_symbol.
    rewrite closed_rows_find. split.
    - intros Hnone p Hp Ho.
      pose proof (find_none _ _ Hnone p Hp) as Hb. cbv beta in Hb.
      rewrite Ho in Hb. simpl in Hb. apply negb_false_iff in Hb.
      unfold TradesTable.has_id in Hb. now apply Nat.eqb_eq in Hb.
    - intros Hall.
      destruct (find _ (TradesTable.trades db)) as [q|] eqn:E; [|reflexivity].
      apply find_some in E. destruct E as [Hq Hb].
      apply andb_true_iff in Hb. destruct Hb as [Ho Hn].
      pose proof (Hall q Hq Ho) as Hid.
      unfold TradesTable.has_id in Hn. rewrite Hid, Nat.eqb_refl in Hn.
      discriminate. }
  split.
  { intros i Hi. apply Nat.eqb_neq in Hi. now rewrite Hi. }
  split; [|reflexivity].
  intros Hno. split; [now apply closed_rows_absent|].
  intros i. now rewrite Hno, andb_false_r.
Qed.

End TableUpdates.

Section MonitorFacts.

Local Open Scope float_scope.

Variable JSON : Type.
Variable json_loads : string -> Py.exc JSON.
Variable empty_object : JSON.
Variable executor_price : Position -> option float.
Variable ohlcv : Position -> option (list Candle).
Variable seconds_held : Position -> Py.exc float.
Variable model_available : bool.
Variable model_says_exit : Position -> float -> float -> Z -> Py.exc bool.
Variable close_position : PositionMonitor.ExitAction -> bool.

Local Notation "'monitor'" :=
  (PositionMonitor.monitor_position JSON json_loads empty_object executor_price ohlcv
     seconds_held model_available model_says_exit).
Local Notation "'step'" :=
  (PositionMonitor.run_step JSON json_loads empty_object executor_price ohlcv
     seconds_held model_available model_says_exit close_position).
Local Notation "'run_monitor'" :=
  (PositionMonitor.run JSON json_loads empty_object executor_price ohlcv
     seconds_held model_available model_says_exit close_position).
Local Notation "'check'" :=
  (PositionManager.check_exit_conditions JSON json_loads empty_object).
Local Notation "'price_and_candles'" :=
  (PositionMonitor.get_current_price_and_candles executor_price ohlcv seconds_held).
Local Notation "'ask'" :=
  (PositionMonitor.ask_deepseek_to_exit model_available model_says_exit).
Local Notation "'is_open'" := (fun p : Position => String.eqb (pos_status p) "open").
Local Notation "'close_row' id" :=
  (fun p : Position =>
     if TradesTable.has_id id p then TradesTable.set_status p "closed" else p)
  (at level 10, id at level 9).

(** What a position update that is accepted writes. *)
Lemma log_position_update_shape (db db' : TradesTable.Store) (id : nat)
    (price pnl : float) (held : Z) :
  TradesTable.log_position_update db id price pnl held = Some db' ->
  is_nan price = false
  /\ TradesTable.trades db' = TradesTable.trades db
  /\ List.length (TradesTable.position_updates db')
     = S (List.length (TradesTable.position_updates db)).
Proof.
  unfold TradesTable.log_position_update.
  destruct (is_nan price); [discriminate|].
  destruct (negb (TradingDatabase.sql_int held)); [discriminate|].
  intros H. injection H as <-. simpl. rewrite length_app. simpl.
  repeat split. lia.
Qed.

(** What it writes: one position update, and the candle count of the rows
    of the id; the exit columns stay. *)
Lemma log_position_update_written (db db' : TradesTable.Store) (id : nat)
    (price pnl : float) (held : Z) :
  TradesTable.log_position_update db id price pnl held = Some db' ->
  exists u,
    TradesTable.u_trade_id u = id
    /\ TradesTable.position_updates db' = TradesTable.position_updates db ++ [u]
    /\ forall i,
         exit_columns (TradesTable.written db' i)
         = exit_columns (TradesTable.written db i)
         /\ TradesTable.w_candles_held (TradesTable.written db' i)
            = candles_after (TradesTable.trades db) [u] i
                (TradesTable.w_candles_held (TradesTable.written db i))
         /\ (i <> id -> TradesTable.written db' i = TradesTable.written db i).
Proof.
  unfold TradesTable.log_position_update.
  destruct (is_nan price || negb (TradingDatabase.sql_int held)); [discriminate|].
  intros H. injection H as <-. eexists. split; [|split; [reflexivity|]].
  { reflexivity. }
  intros i. unfold candles_after. cbn.
  rewrite (Nat.eqb_sym id i).
  destruct (Nat.eqb_spec i id) as [->|Hne]; simpl.
  - destruct (existsb (TradesTable.has_id id) (TradesTable.trades db)); simpl;
      repeat split; tauto.
  - repeat split.
Qed.

Lemma candles_after_nil (rows : TradingDatabase.table) (i : nat) (before : Z) :
  candles_after rows [] i before = before.
Proof. reflexivity. Qed.

(** Updates filed one batch after the other. *)
Lemma candles_after_app (rows : TradingDatabase.table)
    (first second : list TradesTable.PositionUpdate) (i : nat) (before : Z) :
  candles_after rows (first ++ second) i before
  = candles_after rows second i (candles_after rows first i before).
Proof.
  unfold candles_after. rewrite rev_app_distr, find_app.
  destruct (find _ (rev second)); [|reflexivity].
  destruct (existsb _ rows); [reflexivity|].
  destruct (find _ (rev first)); reflexivity.
Qed.

Lemma closed_rows_has_id (id i : nat) (l : list Position) :
  existsb (TradesTable.has_id i) (map (close_row id) l)
  = existsb (TradesTable.has_id i) l.
Proof.
  induction l as [|a l IH]; simpl; [reflexivity|].
  rewrite IH. now destruct (TradesTable.has_id id a).
Qed.

Lemma candles_after_closed (id : nat) (rows : TradingDatabase.table)
    (updates : list TradesTable.PositionUpdate) (i : nat) (before : Z) :
  candles_after (map (close_row id) rows) updates i before
  = candles_after rows updates i before.
Proof. unfold candles_after. now rewrite closed_rows_has_id. Qed.

(** The three reasons [check_exit_conditions] can give. *)
Lemma check_reasons (p : Position) (price : float) (held : Z) (reason : string) :
  check p price held = (true, Some reason) ->
  (reason = "take_profit"%string /\ PositionManager.take_profit_hit p price = true)
  \/ (reason = "stop_loss"%string /\ PositionManager.stop_loss_hit p price = true)
  \/ (reason = "timeout"%string /\ PositionManager.timeout_hit p held = true).
Proof.
  unfold PositionManager.check_exit_conditions.
  destruct (PositionManager.parse_exit_conditions _ _ _ p); simpl; [|discriminate].
  destruct (PositionManager.take_profit_hit p price);
    [intros H; injection H as <-; auto|].
  destruct (PositionManager.stop_loss_hit p price);
    [intros H; injection H as <-; auto|].
  destruct (PositionManager.timeout_hit p held);
    [intros H; injection H as <-; auto | discriminate].
Qed.

(** When the model is asked and says yes. *)
Lemma ask_yes (p : Position) (price pnl : float) (held : Z) :
  ask p price pnl held = true ->
  model_available = true
  /\ model_says_exit p price pnl held = Py.Return true
  /\ exists tp sl, pos_take_profit p = Some tp /\ pos_stop_loss p = Some sl.
Proof.
  unfold PositionMonitor.ask_deepseek_to_exit.
  destruct model_available; simpl; [|discriminate].
  destruct (pos_take_profit p) as [tp|]; [|discriminate].
  destruct (pos_stop_loss p) as [sl|]; [|discriminate].
  destruct (model_says_exit p price pnl held) as [[]|e]; simpl; try discriminate.
  intros _. split; [reflexivity|]. split; [reflexivity|]. eauto.
Qed.

(** X17. an exit needs a rule and the model.  [monitor_position] returns an
    exit action only when a price that is a number and the candle count were
    obtained, one of the three mechanical rules fired, a model is loaded, both levels of the
    row are set and the model answered EXIT; the action then carries the id
    and symbol of the row, the price seen, and the reason of the rule followed
    by _ai_confirmed. *)
Theorem exit_needs_rule_and_model (db db' : TradesTable.Store) (p : Position)
    (ea : PositionMonitor.ExitAction) :
  monitor db p = (db', Some ea) ->
  exists price held pnl reason,
    price_and_candles p = Some (price, held)
    /\ PositionMonitor.unrealized_pnl p price = Some pnl
    /\ is_nan (PositionMonitor.price_value price) = false
    /\ check p (PositionMonitor.price_value price) held = (true, Some reason)
    /\ In reason ["take_profit"; "stop_loss"; "timeout"]%string
    /\ model_available = true
    /\ model_says_exit p (PositionMonitor.price_value price) pnl held = Py.Return true
    /\ (exists tp sl, pos_take_profit p = Some tp /\ pos_stop_loss p = Some sl)
    /\ ea = PositionMonitor.mkExitAction (pos_id p) (pos_symbol p)
              (PositionMonitor.price_value price) pnl
              (reason ++ "_ai_confirmed")%string held
    /\ TradesTable.log_position_update db (pos_id p)
         (PositionMonitor.price_value price) pnl held = Some db'.
Proof.
  unfold PositionMonitor.monitor_position. intros H.
  destruct (price_and_candles p) as [[price held]|] eqn:Hpc; [|discriminate H].
  destruct (PositionMonitor.unrealized_pnl p price) as [pnl|] eqn:Hpnl;
    [|discriminate H].
  cbv zeta in H.
  destruct (TradesTable.log_position_update db (pos_id p)
              (PositionMonitor.price_value price) pnl held) as [db1|] eqn:Hlog;
    [|discriminate H].
  destruct (log_position_update_shape _ _ _ _ _ _ Hlog) as (Hnan & _ & _).
  destruct (check p (PositionMonitor.price_value price) held) as [[] [reason|]] eqn:Hc;
    try discriminate H.
  unfold PositionMonitor.AI_CONFIRMATION_REQUIRED in H.
  destruct (ask p (PositionMonitor.price_value price) pnl held) eqn:Hask;
    [|discriminate H].
  injection H as <- <-.
  destruct (ask_yes _ _ _ _ Hask) as (Hm & Hyes & Hlevels).
  exists price, held, pnl, reason. repeat (split; [assumption || reflexivity|]).
  split.
  { destruct (check_reasons _ _ _ _ Hc) as [[-> _]|[[-> _]|[-> _]]]; simpl; auto. }
  repeat (split; [assumption || reflexivity|]). exact Hlog.
Qed.

(** What one call of [monitor_position] can do to the database. *)
Lemma monitor_shape (db : TradesTable.Store) (p : Position) :
  TradesTable.trades (fst (monitor db p)) = TradesTable.trades db
  /\ (forall ea, snd (monitor db p) = Some ea ->
        PositionMonitor.x_trade_id ea = pos_id p /\ model_available = true)
  /\ (List.length (TradesTable.position_updates db)
      <= List.length (TradesTable.position_updates (fst (monitor db p)))
      <= S (List.length (TradesTable.position_updates db)))%nat.
Proof.
  unfold PositionMonitor.monitor_position.
  destruct (price_and_candles p) as [[price held]|];
    [|simpl; split; [reflexivity|]; split; [discriminate | lia]].
  destruct (PositionMonitor.unrealized_pnl p price) as [pnl|];
    [|simpl; split; [reflexivity|]; split; [discriminate | lia]].
  cbv zeta. unfold PositionMonitor.AI_CONFIRMATION_REQUIRED.
  destruct (TradesTable.log_position_update db (pos_id p)
              (PositionMonitor.price_value price) pnl held) as [db1|] eqn:Hlog;
    [|simpl; split; [reflexivity|]; split; [discriminate | lia]].
  destruct (log_position_update_shape _ _ _ _ _ _ Hlog) as (_ & Htr & Hup).
  destruct (check p (PositionMonitor.price_value price) held) as [[] [reason|]];
    try destruct (ask p (PositionMonitor.price_value price) pnl held) eqn:Hask;
    cbn [fst snd];
    (split; [exact Htr|]; split; [|lia]); try discriminate.
  intros ea H. injection H as <-. simpl. split; [reflexivity|].
  now destruct (ask_yes _ _ _ _ Hask).
Qed.

(** One turn of the loop of [run]: either the trades are as before, or the
    rows of the id of the position are closed and one more exit is counted. *)
Lemma step_shape (db : TradesTable.Store) (n : Z) (p : Position) :
  exists closed : bool,
    TradesTable.trades (fst (step (db, n) p))
    = (if closed then map (close_row (pos_id p)) (TradesTable.trades db)
       else TradesTable.trades db)
    /\ snd (step (db, n) p) = (if closed then n + 1 else n)%Z
    /\ (closed = true -> exists ea, model_available && close_position ea = true)
    /\ (List.length (TradesTable.position_updates db)
        <= List.length (TradesTable.position_updates (fst (step (db, n) p)))
        <= S (List.length (TradesTable.position_updates db)))%nat.
Proof.
  unfold PositionMonitor.run_step. cbn [fst snd].
  destruct (monitor_shape db p) as (Ht & Hea & Hup).
  destruct (monitor db p) as [db1 [ea|]]; cbn [fst snd] in *.
  - destruct (Hea ea eq_refl) as [Hid Hm].
    unfold PositionMonitor.execute_exit.
    destruct (close_position ea) eqn:Hclose; cbn [fst snd].
    + exists true. simpl. rewrite Hid, Ht.
      split; [reflexivity|]. split; [reflexivity|]. split; [|exact Hup].
      intros _. exists ea. now rewrite Hm, Hclose.
    + exists false. rewrite Ht.
      split; [reflexivity|]. split; [reflexivity|]. split; [discriminate | exact Hup].
  - exists false. rewrite Ht.
    split; [reflexivity|]. split; [reflexivity|]. split; [discriminate | exact Hup].
Qed.

Lemma fold_accounting (positions : list Position) (db : TradesTable.Store) (n : Z) :
  let r := fold_left step positions (db, n) in
  map pos_id (TradesTable.trades (fst r)) = map pos_id (TradesTable.trades db)
  /\ (n <= snd r <= n + Pandas.len positions)%Z
  /\ (forall q, In q (TradesTable.trades (fst r)) -> pos_status q = "open"%string ->
        In q (TradesTable.trades db))
  /\ (List.length (TradesTable.position_updates db)
      <= List.length (TradesTable.position_updates (fst r))
      <= List.length (TradesTable.position_updates db) + List.length positions)%nat
  /\ ((forall ea, model_available && close_position ea = false) ->
      TradesTable.trades (fst r) = TradesTable.trades db /\ snd r = n).
Proof.
  revert db n. induction positions as [|p positions IH]; intros db n; cbn zeta.
  - simpl. unfold Pandas.len. simpl. repeat split; auto; lia.
  - cbn [fold_left].
    destruct (step_shape db n p) as (closed & Ht & Hn & Hm & Hup).
    destruct (step (db, n) p) as [db1 n1]. cbn [fst snd] in *.
    specialize (IH db1 n1). cbn zeta in IH.
    destruct IH as (I1 & I2 & I3 & I4 & I5).
    assert (Hlen : Pandas.len (p :: positions) = (Pandas.len positions + 1)%Z).
    { unfold Pandas.len. simpl List.length. lia. }
    split.
    { rewrite I1, Ht. destruct closed; [apply closed_rows_ids | reflexivity]. }
    split.
    { rewrite Hlen. destruct closed; lia. }
    split.
    { intros q Hq Ho. specialize (I3 q Hq Ho). rewrite Ht in I3.
      destruct closed; [|exact I3].
      apply in_map_iff in I3. destruct I3 as (q0 & Hq0 & Hin).
      destruct (TradesTable.has_id (pos_id p) q0).
      - subst q. simpl in Ho. discriminate.
      - now subst q0. }
    split.
    { simpl List.length. lia. }
    intros Hoff. destruct (I5 Hoff) as [J1 J2].
    destruct closed; [destruct (Hm eq_refl) as [ea Hea]; rewrite Hoff in Hea;
                      discriminate|].
    split; congruence.
Qed.

(** What one call of [monitor_position] writes. *)
Lemma monitor_written (db : TradesTable.Store) (p : Position) :
  exists new,
    TradesTable.position_updates (fst (monitor db p))
    = TradesTable.position_updates db ++ new
    /\ (List.length new <= 1)%nat
    /\ forall i,
         exit_columns (TradesTable.written (fst (monitor db p)) i)
         = exit_columns (TradesTable.written db i)
         /\ TradesTable.w_candles_held (TradesTable.written (fst (monitor db p)) i)
            = candles_after (TradesTable.trades db) new i
                (TradesTable.w_candles_held (TradesTable.written db i))
         /\ (i <> pos_id p ->
             TradesTable.written (fst (monitor db p)) i = TradesTable.written db i).
Proof.
  assert (Hsame : exists new,
             TradesTable.position_updates db = TradesTable.position_updates db ++ new
             /\ (List.length new <= 1)%nat
             /\ forall i,
                  exit_columns (TradesTable.written db i)
                  = exit_columns (TradesTable.written db i)
                  /\ TradesTable.w_candles_held (TradesTable.written db i)
                     = candles_after (TradesTable.trades db) new i
                         (TradesTable.w_candles_held (TradesTable.written db i))
                  /\ (i <> pos_id p ->
                      TradesTable.written db i = TradesTable.written db i)).
  { exists []. rewrite app_nil_r. split; [reflexivity|]. split; [simpl; lia|].
    intros i. repeat split. }
  unfold PositionMonitor.monitor_position.
  destruct (price_and_candles p) as [[price held]|]; [|exact Hsame].
  destruct (PositionMonitor.unrealized_pnl p price) as [pnl|]; [|exact Hsame].
  cbv zeta.
  destruct (TradesTable.log_position_update db (pos_id p)
              (PositionMonitor.price_value price) pnl held) as [db1|] eqn:Hlog;
    [|exact Hsame].
  destruct (log_position_update_written _ _ _ _ _ _ Hlog) as (u & _ & Hup & Hw).
  assert (Hdone : exists new,
             TradesTable.position_updates db1 = TradesTable.position_updates db ++ new
             /\ (List.length new <= 1)%nat
             /\ forall i,
                  exit_columns (TradesTable.written db1 i)
                  = exit_columns (TradesTable.written db i)
                  /\ TradesTable.w_candles_held (TradesTable.written db1 i)
                     = candles_after (TradesTable.trades db) new i
                         (TradesTable.w_candles_held (TradesTable.written db i))
                  /\ (i <> pos_id p ->
                      TradesTable.written db1 i = TradesTable.written db i)).
  { exists [u]. split; [exact Hup|]. split; [simpl; lia | exact Hw]. }
  destruct (check p (PositionMonitor.price_value price) held) as [[] [reason|]];
    try exact Hdone.
  unfold PositionMonitor.AI_CONFIRMATION_REQUIRED.
  destruct (ask p (PositionMonitor.price_value price) pnl held); exact Hdone.
Qed.

(** What one turn of the loop of [run] writes: a close leaves the candle
    counts alone, and anything else leaves the exit columns alone. *)
Lemma step_written (db : TradesTable.Store) (n : Z) (p : Position) :
  exists (closed : bool) new,
    TradesTable.trades (fst (step (db, n) p))
    = (if closed then map (close_row (pos_id p)) (TradesTable.trades db)
       else TradesTable.trades db)
    /\ (closed = true -> model_available = true)
    /\ TradesTable.position_updates (fst (step (db, n) p))
       = TradesTable.position_updates db ++ new
    /\ (List.length new <= 1)%nat
    /\ forall i,
         TradesTable.w_candles_held (TradesTable.written (fst (step (db, n) p)) i)
         = candles_after (TradesTable.trades db) new i
             (TradesTable.w_candles_held (TradesTable.written db i))
         /\ (i <> pos_id p ->
             TradesTable.written (fst (step (db, n) p)) i = TradesTable.written db i)
         /\ (closed = false ->
             exit_columns (TradesTable.written (fst (step (db, n) p)) i)
             = exit_columns (TradesTable.written db i)).
Proof.
  unfold PositionMonitor.run_step. cbn [fst snd].
  destruct (monitor_shape db p) as (Ht & Hea & _).
  destruct (monitor_written db p) as (new & Hup & Hlen & Hw).
  destruct (monitor db p) as [db1 [ea|]]; cbn [fst snd] in *.
  - destruct (Hea ea eq_refl) as [Hid Hm].
    unfold PositionMonitor.execute_exit.
    destruct (close_position ea) eqn:Hclose; cbn [fst snd].
    + exists true, new. unfold TradesTable.update_trade. cbn. rewrite Hid, Ht.
      split; [reflexivity|]. split; [intros _; exact Hm|].
      split; [exact Hup|]. split; [exact Hlen|].
      intros i. destruct (Hw i) as (_ & Hc & Hother).
      destruct (Nat.eqb_spec i (pos_id p)) as [->|Hne]; simpl.
      * destruct (existsb _ (TradesTable.trades db)); simpl;
          (split; [exact Hc|]); (split; [tauto | discriminate]).
      * split; [exact Hc|]. split; [intros _; now apply Hother | discriminate].
    + exists false, new. split; [exact Ht|]. split; [discriminate|].
      split; [exact Hup|]. split; [exact Hlen|].
      intros i. destruct (Hw i) as (He & Hc & Hother). auto.
  - exists false, new. split; [exact Ht|]. split; [discriminate|].
    split; [exact Hup|]. split; [exact Hlen|].
    intros i. destruct (Hw i) as (He & Hc & Hother). auto.
Qed.

(** What a whole pass of the loop writes. *)
Lemma fold_written (positions : list Position) (db : TradesTable.Store) (n : Z) :
  let r := fold_left step positions (db, n) in
  (forall i, ~ In i (map pos_id positions) ->
     TradesTable.written (fst r) i = TradesTable.written db i)
  /\ (forall q, In q (TradesTable.trades (fst r)) -> pos_status q = "open"%string ->
        exit_columns (TradesTable.written (fst r) (pos_id q))
        = exit_columns (TradesTable.written db (pos_id q)))
  /\ (model_available = false ->
      forall i, exit_columns (TradesTable.written (fst r) i)
                = exit_columns (TradesTable.written db i))
  /\ exists new,
       TradesTable.position_updates (fst r) = TradesTable.position_updates db ++ new
       /\ (List.length new <= List.length positions)%nat
       /\ forall i,
            TradesTable.w_candles_held (TradesTable.written (fst r) i)
            = candles_after (TradesTable.trades db) new i
                (TradesTable.w_candles_held (TradesTable.written db i)).
Proof.
  revert db n. induction positions as [|p positions IH]; intros db n; cbn zeta.
  - simpl. repeat split; auto. exists []. rewrite app_nil_r.
    repeat split; auto.
  - cbn [fold_left].
    destruct (step_written db n p) as (closed & new1 & Ht & Hm & Hup & Hlen & Hw).
    pose proof (fold_accounting positions (fst (step (db, n) p))
                  (snd (step (db, n) p))) as Hacc.
    rewrite <- surjective_pairing in Hacc. cbn zeta in Hacc.
    destruct Hacc as (_ & _ & Hopen & _ & _).
    specialize (IH (fst (step (db, n) p)) (snd (step (db, n) p))).
    rewrite <- surjective_pairing in IH. cbn zeta in IH.
    destruct IH as (I1 & I2 & I3 & new2 & I4 & I5 & I6).
    split.
    { intros i Hi. simpl in Hi. rewrite I1 by tauto.
      apply (Hw i). intros E. apply Hi. left. now rewrite E. }
    split.
    { intros q Hq Ho. rewrite (I2 q Hq Ho). specialize (Hopen q Hq Ho).
      destruct closed.
      - rewrite Ht in Hopen. apply in_map_iff in Hopen.
        destruct Hopen as (q0 & Hq0 & _).
        destruct (TradesTable.has_id (pos_id p) q0) eqn:E.
        + subst q. simpl in Ho. discriminate.
        + subst q0. unfold TradesTable.has_id in E. apply Nat.eqb_neq in E.
          destruct (Hw (pos_id q)) as (_ & Hother & _). now rewrite Hother.
      - now apply (Hw (pos_id q)). }
    split.
    { intros Hoff i. rewrite (I3 Hoff i). apply (Hw i).
      destruct closed; [|reflexivity]. rewrite (Hm eq_refl) in Hoff. discriminate. }
    exists (new1 ++ new2). split; [now rewrite I4, Hup, <- app_assoc|].
    split; [rewrite length_app; simpl; lia|].
    intros i. rewrite I6, candles_after_app. destruct (Hw i) as (-> & _ & _).
    rewrite Ht. destruct closed; [apply candles_after_closed | reflexivity].
Qed.

(** X18. the books of a monitoring run.  [run] reports as monitored the number
    of rows it was given, and no more exits than that; it adds and removes no
    row of the trades table.  A row that is open afterwards was there before
    with the same columns read by the agents (nothing is reopened) and the
    same exit price, PnL and exit strategy.  What [run] rewrites of such a row
    is its [candles_held]: for every id, the count of the last position update
    filed for it when the table has a row of that id.  It files at most one
    position update per row given, and writes nothing for an id that is not
    among them. *)
Theorem monitor_run_accounting (db : TradesTable.Store) (positions : list Position) :
  let result := run_monitor db positions in
  PositionMonitor.positions_monitored (snd result) = Pandas.len positions
  /\ (0 <= PositionMonitor.exits_executed (snd result) <= Pandas.len positions)%Z
  /\ map pos_id (TradesTable.trades (fst result)) = map pos_id (TradesTable.trades db)
  /\ (forall q, In q (TradesTable.trades (fst result)) ->
                pos_status q = "open"%string ->
                In q (TradesTable.trades db)
                /\ exit_columns (TradesTable.written (fst result) (pos_id q))
                   = exit_columns (TradesTable.written db (pos_id q)))
  /\ (forall i, ~ In i (map pos_id positions) ->
                TradesTable.written (fst result) i = TradesTable.written db i)
  /\ exists new,
       TradesTable.position_updates (fst result)
       = TradesTable.position_updates db ++ new
       /\ (List.length new <= List.length positions)%nat
       /\ forall i,
            TradesTable.w_candles_held (TradesTable.written (fst result) i)
            = candles_after (TradesTable.trades db) new i
                (TradesTable.w_candles_held (TradesTable.written db i)).
Proof.
  cbn zeta. unfold PositionMonitor.run.
  destruct positions as [|p positions].
  - simpl. unfold Pandas.len. simpl. split; [reflexivity|]. split; [lia|].
    split; [reflexivity|]. split; [auto|]. split; [reflexivity|].
    exists []. rewrite app_nil_r. repeat split; auto.
  - pose proof (fold_accounting (p :: positions) db 0) as H.
    pose proof (fold_written (p :: positions) db 0) as W. cbn zeta in H, W.
    destruct (fold_left step (p :: positions) (db, 0%Z)) as [db1 n1].
    cbn [fst snd PositionMonitor.positions_monitored PositionMonitor.exits_executed]
      in *.
    destruct H as (H1 & H2 & H3 & _ & _). destruct W as (W1 & W2 & _ & W4).
    split; [reflexivity|]. split; [lia|]. split; [exact H1|].
    split; [intros q Hq Ho; split; [now apply H3 | now apply W2]|].
    split; [exact W1 | exact W4].
Qed.

Lemma fold_open_count (positions : list Position) (db : TradesTable.Store) (n : Z) :
  NoDup (map pos_id (TradesTable.trades db)) ->
  NoDup (map pos_id positions) ->
  (forall p, In p positions ->
             In p (TradesTable.trades db) /\ pos_status p = "open"%string) ->
  let r := fold_left step positions (db, n) in
  (Z.of_nat (List.length (filter is_open (TradesTable.trades (fst r))))
   = Z.of_nat (List.length (filter is_open (TradesTable.trades db))) - (snd r - n))%Z.
Proof.
  revert db n. induction positions as [|p positions IH]; intros db n Hdb Hps Hin;
    cbn zeta.
  - simpl. lia.
  - cbn [fold_left].
    destruct (step_shape db n p) as (closed & Ht & Hn & _ & _).
    destruct (step (db, n) p) as [db1 n1]. cbn [fst snd] in *.
    simpl in Hps. inversion Hps as [|x xs Hnot Hps']; subst x xs.
    destruct (Hin p ltac:(now left)) as [Hp Hopen].
    specialize (IH db1 n1). cbn zeta in IH. rewrite IH; clear IH.
    + rewrite Ht, Hn. destruct closed; [|lia].
      pose proof (close_row_count _ _ Hdb Hp Hopen). lia.
    + rewrite Ht. destruct closed; [now rewrite closed_rows_ids | exact Hdb].
    + exact Hps'.
    + intros q Hq. destruct (Hin q ltac:(now right)) as [Hq1 Hq2].
      split; [|exact Hq2]. rewrite Ht. destruct closed; [|exact Hq1].
      apply in_map_iff. exists q. split; [|exact Hq1].
      assert (E : TradesTable.has_id (pos_id p) q = false).
      { unfold TradesTable.has_id. apply Nat.eqb_neq. intros E. apply Hnot.
        rewrite <- E. now apply in_map. }
      now rewrite E.
Qed.

(** X19. every exit counted is a row closed.  On a table whose ids are
    distinct, monitoring distinct open rows of it leaves as many open rows as
    there were, less the exits that [run] reports. *)
Theorem exits_count_closed_rows (db : TradesTable.Store) (positions : list Position) :
  NoDup (map pos_id (TradesTable.trades db)) ->
  NoDup (map pos_id positions) ->
  (forall p, In p positions ->
             In p (TradingDatabase.get_open_positions (TradesTable.trades db))) ->
  let result := run_monitor db positions in
  (Z.of_nat (List.length
               (TradingDatabase.get_open_positions (TradesTable.trades (fst result))))
   = Z.of_nat (List.length
                 (TradingDatabase.get_open_positions (TradesTable.trades db)))
     - PositionMonitor.exits_executed (snd result))%Z.
Proof.
  intros Hdb Hps Hin. cbn zeta. unfold PositionMonitor.run.
  destruct positions as [|p positions]; [simpl; lia|].
  assert (Hin' : forall q, In q (p :: positions) ->
                           In q (TradesTable.trades db) /\ pos_status q = "open"%string).
  { intros q Hq. specialize (Hin q Hq).
    unfold TradingDatabase.get_open_positions in Hin.
    apply in_rev, filter_In in Hin.
    destruct Hin as [H1 H2]. split; [exact H1|]. now apply String.eqb_eq. }
  pose proof (fold_open_count (p :: positions) db 0 Hdb Hps Hin') as H.
  cbn zeta in H.
  destruct (fold_left step (p :: positions) (db, 0%Z)) as [db1 n1].
  cbn [fst snd PositionMonitor.exits_executed] in *.
  unfold TradingDatabase.get_open_positions. rewrite !length_rev, H. lia.
Qed.

(** The candle count of a timeframe other than 1m, 5m and 15m. *)
Lemma candles_of_other (timeframe : string) (seconds : float) :
  timeframe <> "1m"%string -> timeframe <> "5m"%string -> timeframe <> "15m"%string ->
  PositionMonitor.candles_of timeframe seconds = Py.Return 0%Z.
Proof.
  intros H1 H5 H15. unfold PositionMonitor.candles_of.
  apply String.eqb_neq in H1, H5, H15. now rewrite H1, H5, H15.
Qed.

(** X20. a position on a timeframe other than 1m, 5m and 15m holds no candle.
    Its candle count is always 0, so with a timeout that is not negative the
    timeout rule never fires for it: an exit, if any, is a take-profit or a
    stop-loss exit. *)
Theorem unknown_timeframe_never_times_out (db db' : TradesTable.Store) (p : Position)
    (ea : PositionMonitor.ExitAction) :
  pos_timeframe p <> "1m"%string ->
  pos_timeframe p <> "5m"%string ->
  pos_timeframe p <> "15m"%string ->
  (forall t, pos_timeout_candles p = Some t -> (0 <= t)%Z) ->
  monitor db p = (db', Some ea) ->
  PositionMonitor.x_candles_held ea = 0%Z
  /\ (PositionMonitor.x_exit_reason ea = "take_profit_ai_confirmed"%string
      \/ PositionMonitor.x_exit_reason ea = "stop_loss_ai_confirmed"%string).
Proof.
  intros H1 H5 H15 Ht H. unfold PositionMonitor.monitor_position in H.
  destruct (price_and_candles p) as [[price held]|] eqn:Hpc; [|discriminate H].
  assert (Hheld : held = 0%Z).
  { unfold PositionMonitor.get_current_price_and_candles in Hpc.
    destruct (PositionMonitor.current_price_of _ _ p) as [cp|]; [|discriminate Hpc].
    destruct (seconds_held p) as [seconds|e]; simpl in Hpc; [|discriminate Hpc].
    rewrite (candles_of_other _ seconds H1 H5 H15) in Hpc. simpl in Hpc.
    now injection Hpc as _ <-. }
  subst held.
  destruct (PositionMonitor.unrealized_pnl p price) as [pnl|]; [|discriminate H].
  cbv zeta in H.
  destruct (TradesTable.log_position_update db (pos_id p)
              (PositionMonitor.price_value price) pnl 0%Z) as [db1|];
    [|discriminate H].
  destruct (check p (PositionMonitor.price_value price) 0%Z) as [[] [reason|]] eqn:Hc;
    try discriminate H.
  unfold PositionMonitor.AI_CONFIRMATION_REQUIRED in H.
  destruct (ask p (PositionMonitor.price_value price) pnl 0%Z); [|discriminate H].
  injection H as _ <-. simpl. split; [reflexivity|].
  destruct (check_reasons _ _ _ _ Hc) as [[-> _]|[[-> _]|[_ Hto]]]; auto.
  exfalso. unfold PositionManager.timeout_hit in Hto.
  destruct (pos_timeout_candles p) as [t|]; [|discriminate Hto].
  specialize (Ht t eq_refl). unfold Py.truthy_int in Hto.
  apply andb_true_iff in Hto. destruct Hto as [Hnz Hle].
  apply negb_true_iff, Z.eqb_neq in Hnz. apply Z.leb_le in Hle. lia.
Qed.

End MonitorFacts.

Section WithoutModel.

Variable JSON : Type.
Variable json_loads : string -> Py.exc JSON.
Variable empty_object : JSON.
Variable executor_price : Position -> option float.
Variable ohlcv : Position -> option (list Candle).
Variable seconds_held : Position -> Py.exc float.
Variable model_says_exit : Position -> float -> float -> Z -> Py.exc bool.
Variable close_position : PositionMonitor.ExitAction -> bool.

(** X21. without a model nothing is ever closed.  When [self.model] is [None],
    [run] executes no exit, whatever the prices, the rules and the exchange
    say: a take-profit, stop-loss or timeout that fires is dropped.  Every row
    of the trades table keeps the columns the agents read, its status among
    them, and its exit price, PnL and exit strategy.  What such a run still
    writes is the position updates, at most one per row given, and the
    [candles_held] of the rows they are filed for. *)
Theorem monitor_without_model_closes_nothing (db : TradesTable.Store)
    (positions : list Position) :
  let result :=
    PositionMonitor.run JSON json_loads empty_object executor_price ohlcv
      seconds_held false model_says_exit close_position db positions in
  TradesTable.trades (fst result) = TradesTable.trades db
  /\ PositionMonitor.exits_executed (snd result) = 0
  /\ (forall p,
        snd (PositionMonitor.monitor_position JSON json_loads empty_object
               executor_price ohlcv seconds_held false model_says_exit db p)
        = None)
  /\ (forall i, exit_columns (TradesTable.written (fst result) i)
                = exit_columns (TradesTable.written db i))
  /\ exists new,
       TradesTable.position_updates (fst result)
       = TradesTable.position_updates db ++ new
       /\ (List.length new <= List.length positions)%nat
       /\ forall i,
            TradesTable.w_candles_held (TradesTable.written (fst result) i)
            = candles_after (TradesTable.trades db) new i
                (TradesTable.w_candles_held (TradesTable.written db i)).
Proof.
  cbn zeta.
  assert (Hrun : TradesTable.trades
                   (fst (PositionMonitor.run JSON json_loads empty_object
                           executor_price ohlcv seconds_held false model_says_exit
                           close_position db positions))
                 = TradesTable.trades db
                 /\ PositionMonitor.exits_executed
                      (snd (PositionMonitor.run JSON json_loads empty_object
                              executor_price ohlcv seconds_held false model_says_exit
                              close_position db positions)) = 0).
  { unfold PositionMonitor.run. destruct positions as [|p positions]; [now split|].
    pose proof (fold_accounting JSON json_loads empty_object executor_price ohlcv
                  seconds_held false model_says_exit close_position
                  (p :: positions) db 0) as H.
    cbn zeta in H. destruct (fold_left _ (p :: positions) (db, 0)) as [db1 n1].
    cbn [fst snd] in *. destruct H as (_ & _ & _ & _ & H).
    exact (H ltac:(reflexivity)). }
  split; [apply Hrun|]. split; [apply Hrun|]. clear Hrun. split.
  { intros p.
    destruct (monitor_shape JSON json_loads empty_object executor_price ohlcv
                seconds_held false model_says_exit db p) as (_ & H & _).
    destruct (snd _) as [ea|]; [|reflexivity].
    destruct (H ea eq_refl). discriminate. }
  unfold PositionMonitor.run. destruct positions as [|p positions].
  { simpl. split; [reflexivity|]. exists []. rewrite app_nil_r.
    repeat split; auto. }
  pose proof (fold_written JSON json_loads empty_object executor_price ohlcv
                seconds_held false model_says_exit close_position
                (p :: positions) db 0) as W.
  cbn zeta in W. destruct (fold_left _ (p :: positions) (db, 0)) as [db1 n1].
  cbn [fst snd] in *. destruct W as (_ & _ & W3 & W4).
  split; [exact (W3 eq_refl) | exact W4].
Qed.

End WithoutModel.

Section SnapshotFacts.

Lemma convert_json_data (obj : Snapshot.PyValue) :
  json_data (Snapshot.convert_to_serializable obj) = true.
Proof.
  revert obj. fix IH 1.
  intros [ | b | n | x | s | items | entries | b | n | x | text]; simpl;
    try reflexivity.
  - induction items as [|a items IHitems]; simpl; [reflexivity|].
    rewrite (IH a). exact IHitems.
  - induction entries as [|[k v] entries IHentries]; simpl; [reflexivity|].
    rewrite (IH v). exact IHentries.
Qed.

Lemma convert_fixes_json_data (obj : Snapshot.PyValue) :
  json_data obj = true -> Snapshot.convert_to_serializable obj = obj.
Proof.
  revert obj. fix IH 1.
  intros [ | b | n | x | s | items | entries | b | n | x | text]; simpl;
    try reflexivity; try discriminate.
  - intros H. f_equal.
    induction items as [|a items IHitems]; simpl in *; [reflexivity|].
    apply andb_true_iff in H. destruct H as [Ha Hi].
    rewrite (IH a Ha), (IHitems Hi). reflexivity.
  - intros H. f_equal.
    induction entries as [|[k v] entries IHentries]; simpl in *; [reflexivity|].
    apply andb_true_iff in H. destruct H as [Hv He].
    rewrite (IH v Hv), (IHentries He). reflexivity.
Qed.

(** X22. [convert_to_serializable] gives JSON data.  Whatever the snapshot
    holds (numpy scalars and objects without an [item] method at any depth,
    under string keys), the result holds only [None], booleans, ints, floats,
    strings, lists and dicts; a dict keeps its keys in their order and a list
    its length; converting JSON data changes nothing, so converting twice is
    converting once. *)
Theorem snapshot_conversion_gives_json_data (obj : Snapshot.PyValue) :
  json_data (Snapshot.convert_to_serializable obj) = true
  /\ Snapshot.convert_to_serializable (Snapshot.convert_to_serializable obj)
     = Snapshot.convert_to_serializable obj
  /\ (json_data obj = true -> Snapshot.convert_to_serializable obj = obj)
  /\ (forall entries,
        obj = Snapshot.VDict entries ->
        exists entries',
          Snapshot.convert_to_serializable obj = Snapshot.VDict entries'
          /\ map fst entries' = map fst entries)
  /\ (forall items,
        obj = Snapshot.VList items ->
        exists items',
          Snapshot.convert_to_serializable obj = Snapshot.VList items'
          /\ List.length items' = List.length items).
Proof.
  split; [apply convert_json_data|].
  split; [apply convert_fixes_json_data, convert_json_data|].
  split; [apply convert_fixes_json_data|].
  split.
  - intros entries ->. simpl. eexists. split; [reflexivity|].
    rewrite map_map. reflexivity.
  - intros items ->. simpl. eexists. split; [reflexivity|].
    apply length_map.
Qed.

End SnapshotFacts.

Section ExecutorFacts.

Local Open Scope float_scope.

Variable get_current_price : string -> option float.
Variable get_open_position : string -> option HyperliquidExecutor.Holding.

Lemma mainnet_order (symbol : string) (is_buy : bool) (size : float) (leverage : Z) :
  HyperliquidExecutor.market_order false get_current_price symbol is_buy size leverage
  = None.
Proof.
  unfold HyperliquidExecutor.market_order.
  destruct (HyperliquidExecutor.usable_price get_current_price symbol); reflexivity.
Qed.

Lemma mainnet_close (symbol : string) :
  HyperliquidExecutor.close_position false get_current_price get_open_position symbol
  = None.
Proof.
  unfold HyperliquidExecutor.close_position.
  destruct (get_open_position symbol); [|reflexivity].
  destruct (HyperliquidExecutor.usable_price get_current_price symbol); reflexivity.
Qed.

(** X23. off the testnet nothing is traded.  With [HYPERLIQUID_TESTNET] false,
    [market_order] and [close_position] always return [None]; so
    [TradingAgent.run] logs no trade whatever the model approves, and the
    monitoring run closes no row and counts no exit. *)
Theorem mainnet_never_trades :
  (forall symbol is_buy size leverage,
     HyperliquidExecutor.market_order false get_current_price symbol is_buy size
       leverage = None)
  /\ (forall symbol,
        HyperliquidExecutor.close_position false get_current_price get_open_position
          symbol = None)
  /\ (forall ai_confirms json_dumps db signals,
        TradingAgent.run ai_confirms (order_placed false get_current_price) json_dumps
          db signals = db)
  /\ (forall JSON json_loads empty_object executor_price ohlcv seconds_held
             model_available model_says_exit db positions,
        let result :=
          PositionMonitor.run JSON json_loads empty_object executor_price ohlcv
            seconds_held model_available model_says_exit
            (position_closed false get_current_price get_open_position) db positions in
        TradesTable.trades (fst result) = TradesTable.trades db
        /\ PositionMonitor.exits_executed (snd result) = 0%Z).
Proof.
  split; [exact mainnet_order|]. split; [exact mainnet_close|]. split.
  - intros ai json_dumps db signals.
    destruct (run_rows ai (order_placed false get_current_price) json_dumps signals db)
      as (rows & -> & Hlen & _ & _).
    assert (Hnone : filter (executed ai (order_placed false get_current_price)
                              json_dumps) signals
                    = []).
    { clear. induction signals as [|s signals IH]; simpl; [reflexivity|].
      assert (E : executed ai (order_placed false get_current_price) json_dumps s
                  = false).
      { unfold executed, TradingAgent.execute_trade.
        destruct (Py.int_truediv _ _); simpl; [|apply andb_false_r].
        unfold order_placed. rewrite mainnet_order. apply andb_false_r. }
      rewrite E. exact IH. }
    rewrite Hnone in Hlen. destruct rows; [apply app_nil_r | discriminate].
  - intros JSON json_loads empty_object executor_price ohlcv seconds_held
      model_available model_says_exit db positions. cbn zeta.
    unfold PositionMonitor.run. destruct positions as [|p positions]; [auto|].
    pose proof (fold_accounting JSON json_loads empty_object executor_price ohlcv
                  seconds_held model_available model_says_exit
                  (position_closed false get_current_price get_open_position)
                  (p :: positions) db 0%Z) as H.
    cbn zeta in H. destruct (fold_left _ (p :: positions) (db, 0%Z)) as [db1 n1].
    cbn [fst snd PositionMonitor.exits_executed] in *.
    destruct H as (_ & _ & _ & _ & H). apply H.
    intros ea. unfold position_closed. rewrite mainnet_close. apply andb_false_r.
Qed.

Lemma not_negative_not_below_zero (x : float) :
  not_negative (Prim2SF x) -> (x <? 0) = false.
Proof.
  intros H. rewrite FloatAxioms.ltb_spec. change (Prim2SF 0) with (S754_zero false).
  destruct (Prim2SF x) as [s|s| |s m e]; simpl in *; subst; reflexivity.
Qed.

(** A float above zero and below infinity is a positive finite number. *)
Lemma positive_finite_shape (x : float) :
  (0 <? x) = true -> (x <? infinity) = true ->
  exists m e, Prim2SF x = S754_finite false m e.
Proof.
  rewrite !FloatAxioms.ltb_spec. change (Prim2SF 0) with (S754_zero false).
  change (Prim2SF infinity) with (S754_infinity false).
  destruct (Prim2SF x) as [s|[]| |[] m e]; simpl; try discriminate; eauto.
Qed.

(** The difference of a number and a positive number not above it. *)
Lemma sub_positive_le (a b : float) :
  (0 <? a) = true -> (a <? infinity) = true -> (a <=? b) = true ->
  not_negative (Prim2SF (b - a)).
Proof.
  intros H0 Hinf Hle. destruct (positive_finite_shape a H0 Hinf) as (m & e & Ha).
  rewrite sub_spec, Ha. apply signed_like_not_negative, SFsub_nonneg.
  - apply Prim2SF_valid.
  - pose proof (Prim2SF_valid a) as Hv. rewrite Ha in Hv. exact Hv.
  - rewrite <- Ha. apply SFleb_not_ltb. now rewrite <- FloatAxioms.leb_spec.
Qed.

(** X24. closing in profit reports no loss.  On the testnet, when the exit
    price of a closed position is not below its entry price for a long
    holding (a positive size), or not above it for any other size, both
    prices being positive and finite, the realized PnL that [close_position]
    reports is not below zero. *)
Theorem closing_in_profit_reports_no_loss (symbol : string)
    (r : HyperliquidExecutor.Closed) :
  HyperliquidExecutor.close_position true get_current_price get_open_position symbol
  = Some r ->
  (0 <? HyperliquidExecutor.closed_entry_price r) = true ->
  (HyperliquidExecutor.closed_entry_price r <? infinity) = true ->
  (0 <? HyperliquidExecutor.closed_exit_price r) = true ->
  (HyperliquidExecutor.closed_exit_price r <? infinity) = true ->
  (if 0 <? HyperliquidExecutor.closed_size r
   then HyperliquidExecutor.closed_entry_price r
        <=? HyperliquidExecutor.closed_exit_price r
   else HyperliquidExecutor.closed_exit_price r
        <=? HyperliquidExecutor.closed_entry_price r) = true ->
  (HyperliquidExecutor.closed_pnl r <? 0) = false
  /\ get_current_price symbol = Some (HyperliquidExecutor.closed_exit_price r)
  /\ HyperliquidExecutor.closed_symbol r = symbol.
Proof.
  unfold HyperliquidExecutor.close_position, HyperliquidExecutor.usable_price.
  destruct (get_open_position symbol) as [position|]; [|discriminate].
  destruct (get_current_price symbol) as [exit_price|]; [|discriminate].
  destruct (Py.truthy_float exit_price); [|discriminate].
  intros H. injection H as <-. cbn.
  intros He0 Hei Hx0 Hxi Hside.
  split; [|split; reflexivity].
  apply not_negative_not_below_zero.
  destruct (0 <? HyperliquidExecutor.held_size position).
  - apply mul_not_negative; [|apply abs_not_negative].
    now apply sub_positive_le.
  - apply mul_not_negative; [|apply abs_not_negative].
    now apply sub_positive_le.
Qed.

End ExecutorFacts.

Section CycleFacts.

Local Open Scope float_scope.

Variable recent_poc_of : list Candle -> Py.exc float.
Variable skew_of : list float -> float.
Variable kurtosis_of : list float -> float.
Variable calculate_atr : list Candle -> float.
Variable strategies : string -> string -> Strategy.
Variable get_ohlcv_data : string -> string -> option (list Candle).
Variable ai_confirms : Signal -> TradingAgent.Confirmation.
Variable market_order : string -> bool -> float -> Z -> bool.
Variable json_dumps : float -> float -> Z -> string.

Local Notation "'market_scan'" :=
  (strategy_scan recent_poc_of skew_of kurtosis_of calculate_atr strategies
     get_ohlcv_data).

(** A scanned signal names the symbol it was scanned for, which is configured
    and has no open position. *)
Lemma scanned_signal_symbol (symbols timeframes : list string)
    (db : TradingDatabase.table) (signals : list Signal) (s : Signal) :
  (forall symbol timeframe, self_symbol (strategies symbol timeframe) = symbol) ->
  StrategyAgent.run symbols timeframes market_scan true db = Some signals ->
  In s signals ->
  In (symbol s) symbols
  /\ TradingDatabase.get_position_by_symbol db (symbol s) = None.
Proof.
  intros Hsym Hrun Hs.
  unfold StrategyAgent.run in Hrun. simpl in Hrun. injection Hrun as <-.
  apply scanned_signal_origin in Hs.
  destruct Hs as (sym & first & rest & Hin & Hpos & Hsig & Hbest).
  destruct (max_by_confidence_spec first rest) as [Hmem _].
  rewrite <- Hbest, <- Hsig in Hmem.
  apply symbol_signals_spec in Hmem. destruct Hmem as (tf & _ & Hscan & Hd).
  unfold strategy_scan in Hscan. injection Hscan as Hret.
  destruct (get_ohlcv_data sym tf) as [df|] eqn:Hdf; [|discriminate Hret].
  destruct (generate_returns_inv _ _ _ _ _ _ _ Hret)
    as [Hn|(best & last & prev & _ & _ & _ & _ & He)]; [contradiction|].
  assert (Hname : symbol s = sym).
  { destruct (entry_conditions_inv _ _ _ _ _ _ _ _ He)
      as [(_ & Hl)|[(_ & _ & Hsh)|(_ & _ & ->)]].
    - apply long_setup_levels in Hl. destruct Hl as (_ & H1 & _).
      rewrite H1. apply Hsym.
    - apply short_setup_levels in Hsh. destruct Hsh as (_ & H1 & _).
      rewrite H1. apply Hsym.
    - now elim Hd. }
  rewrite Hname. auto.
Qed.

Lemma no_row_of_symbol (name : string) (rows : list Position) :
  (forall p, In p rows -> pos_symbol p <> name) ->
  filter (TradingDatabase.is_open_for name) rows = [].
Proof.
  induction rows as [|p rows IH]; intros H; simpl; [reflexivity|].
  unfold TradingDatabase.is_open_for at 1.
  destruct (String.eqb_spec (pos_symbol p) name) as [E|_].
  - elim (H p ltac:(now left) E).
  - simpl. apply IH. intros q Hq. apply H. now right.
Qed.

(** X25. a cycle leaves held symbols alone.  With each strategy built for its
    own symbol, one scan-and-trade cycle of [main_v1.py] (signals with prices
    that are numbers) only appends open rows, each for a configured symbol
    that had no open position when the cycle began; a symbol that had one
    ends the cycle with as many open rows as before. *)
Theorem cycle_leaves_held_symbols_alone (symbols timeframes : list string)
    (db : TradingDatabase.table) :
  (forall symbol timeframe, self_symbol (strategies symbol timeframe) = symbol) ->
  (forall signals s,
     StrategyAgent.run symbols timeframes market_scan true db = Some signals ->
     In s signals -> storable s) ->
  exists rows,
    trading_cycle symbols timeframes market_scan ai_confirms market_order json_dumps db
    = db ++ rows
    /\ (forall p, In p rows ->
          pos_status p = "open"%string
          /\ In (pos_symbol p) symbols
          /\ TradingDatabase.get_position_by_symbol db (pos_symbol p) = None)
    /\ (forall name p,
          TradingDatabase.get_position_by_symbol db name = Some p ->
          TradingDatabase.open_count
            (trading_cycle symbols timeframes market_scan ai_confirms market_order
               json_dumps db)
            name
          = TradingDatabase.open_count db name).
Proof.
  intros Hsym _. unfold trading_cycle, Config.ENABLE_STRATEGIES.
  destruct (StrategyAgent.run symbols timeframes market_scan true db)
    as [signals|] eqn:Hrun.
  2:{ unfold StrategyAgent.run in Hrun. discriminate Hrun. }
  destruct (run_rows ai_confirms market_order json_dumps signals db)
    as (rows & Hrows & _ & _ & Hout).
  assert (Hfree : forall p, In p rows ->
            pos_status p = "open"%string
            /\ In (pos_symbol p) symbols
            /\ TradingDatabase.get_position_by_symbol db (pos_symbol p) = None).
  { intros p Hp. destruct (Hout p Hp) as (s & id & Hs & _ & ->).
    split; [reflexivity|].
    exact (scanned_signal_symbol symbols timeframes db signals s Hsym Hrun Hs). }
  exists rows. split; [exact Hrows|]. split; [exact Hfree|].
  intros name p Hheld. rewrite Hrows.
  unfold TradingDatabase.open_count. rewrite filter_app, length_app.
  rewrite (no_row_of_symbol name rows); [simpl; lia|].
  intros q Hq E. destruct (Hfree q Hq) as (_ & _ & Hnone).
  rewrite E in Hnone. congruence.
Qed.

End CycleFacts.

(** X25 on [dip_market], with a model that approves and an exchange that
    fills: the cycle over an empty table adds rows for BTC only. *)
Lemma cycle_leaves_held_symbols_alone_witness :
  exists rows,
    trading_cycle ["BTC"%string] ["1m"%string]
      (strategy_scan steady_poc no_skew normal_kurtosis atr_inside Config.strategy_for
         dip_market)
      approve_all fill_all dumps_nothing []
    = rows
    /\ forall p, In p rows -> pos_symbol p = "BTC"%string.
Proof.
  assert (Hrun : exists s0,
            StrategyAgent.run ["BTC"%string] ["1m"%string]
              (strategy_scan steady_poc no_skew normal_kurtosis atr_inside
                 Config.strategy_for dip_market) true []
            = Some [s0; s0]
            /\ storable s0).
  { eexists. split; [vm_compute; reflexivity|].
    unfold storable. repeat split; vm_compute; reflexivity. }
  destruct Hrun as (s0 & Hrun & Hst).
  destruct (cycle_leaves_held_symbols_alone steady_poc no_skew normal_kurtosis
              atr_inside Config.strategy_for dip_market approve_all fill_all
              dumps_nothing ["BTC"%string] ["1m"%string] [])
    as (rows & Hc & Hrows & _).
  - intros symbol timeframe. reflexivity.
  - intros signals s H Hin. rewrite Hrun in H. injection H as <-.
    destruct Hin as [<-|[<-|[]]]; exact Hst.
  - exists rows. split; [exact Hc|].
    intros p Hp. destruct (Hrows p Hp) as (_ & [H|[]] & _). now symmetry.
Defined.

(** X9 on the scan of BTC, 1m over [sample_scan] and an empty table. *)
Lemma scan_keeps_best_signal_witness :
  exists symbol timeframe,
    In symbol ["BTC"%string] /\ In timeframe ["1m"%string]
    /\ TradingDatabase.get_position_by_symbol [] symbol = None
    /\ sample_scan symbol timeframe = Py.Return (Some sample_signal)
    /\ direction sample_signal <> NEUTRAL
    /\ forall timeframe' s',
         In timeframe' ["1m"%string] ->
         sample_scan symbol timeframe' = Py.Return (Some s') ->
         direction s' <> NEUTRAL ->
         (confidence sample_signal <? confidence s')%float = false.
Proof.
  apply (scan_keeps_best_signal ["BTC"%string] ["1m"%string] sample_scan true []
           [sample_signal; sample_signal] sample_signal).
  - vm_compute. reflexivity.
  - now left.
Defined.

(** X10 for BTC over [sample_scan]: the signal of its one timeframe. *)
Lemma get_signals_of_one_symbol_witness :
  SignalQueries.get_signals ["BTC"%string] ["1m"%string] sample_scan true []
    (Some "BTC"%string)
  = Some [sample_signal].
Proof.
  destruct (get_signals_of_one_symbol ["BTC"%string] ["1m"%string] sample_scan true []
              "BTC"%string ltac:(discriminate)) as (_ & H & _).
  rewrite H.
  - reflexivity.
  - reflexivity.
  - now left.
  - intros tf _. eexists. reflexivity.
Defined.

(** X11 on [dip_market]: the scan of BTC, 1m returns a LONG signal with a
    leverage between 2 and 20 and a confidence of at least 70. *)
Lemma scanned_signals_are_tradeable_witness :
  exists s,
    StrategyAgent.run ["BTC"%string] ["1m"%string]
      (strategy_scan steady_poc no_skew normal_kurtosis atr_inside Config.strategy_for
         dip_market)
      true []
    = Some [s; s]
    /\ direction s = LONG
    /\ (2 <= leverage s <= 20)%Z
    /\ (70 <=? confidence s)%float = true.
Proof.
  eexists.
  match goal with
  | |- ?g = Some [?s; _] /\ _ =>
      assert (Hs : g = Some [s; s]) by (vm_compute; reflexivity);
      destruct (scanned_signals_are_tradeable steady_poc no_skew normal_kurtosis
                  atr_inside Config.strategy_for dip_market
                  ["BTC"%string] ["1m"%string] [] [s; s] s approve_all)
        as (_ & H2 & H3 & _)
  end.
  - intros symbol timeframe df H. injection H as <-. reflexivity.
  - exact Hs.
  - now left.
  - split; [exact Hs|]. split; [reflexivity|]. split; [exact H2 | exact H3].
Defined.

(** X14 on [sample_signal], approved, filled and logged on an empty table: BTC
    has an open row afterwards and a scan skips it. *)
Lemma executed_symbol_is_skipped_witness :
  (exists p,
     TradingDatabase.get_position_by_symbol
       (TradingAgent.run approve_all fill_all dumps_nothing [] [sample_signal])
       "BTC"%string = Some p)
  /\ forall timeframes scan all_signals,
       StrategyAgent.scan_symbol timeframes scan
         (TradingAgent.run approve_all fill_all dumps_nothing [] [sample_signal])
         all_signals "BTC"%string
       = all_signals.
Proof.
  apply (executed_symbol_is_skipped approve_all fill_all dumps_nothing []
           [sample_signal] sample_signal).
  - now left.
  - reflexivity.
  - vm_compute. reflexivity.
Defined.

(** X15 on [sample_signal] (target 45200): at 45250 the logged row exits on
    its take-profit. *)
Lemma logged_levels_drive_exit_witness :
  exists p,
    fst (TradingAgent.execute_trade fill_all dumps_nothing [] sample_signal
           (approve_all sample_signal)) = [p]
    /\ PositionManager.check_exit_conditions unit loads_unit tt p 45250 2
       = (true, Some "take_profit"%string).
Proof.
  destruct (logged_levels_drive_exit unit loads_unit tt fill_all dumps_nothing []
              sample_signal (approve_all sample_signal) 45250 2)
    as (p & Hp & Hc).
  - repeat split.
  - discriminate.
  - intros tp sl t. eexists. reflexivity.
  - vm_compute. reflexivity.
  - exists p. split; [exact Hp|]. rewrite Hc. vm_compute. reflexivity.
Defined.

(** X17 on [sample_long] quoted at 45250, above its target 45200, with a model
    that answers EXIT. *)
Lemma exit_needs_rule_and_model_witness :
  exists ea,
    snd (PositionMonitor.monitor_position unit loads_unit tt quote_45250 no_candles
           two_minutes true says_exit sample_store sample_long) = Some ea
    /\ PositionMonitor.x_exit_reason ea = "take_profit_ai_confirmed"%string
    /\ PositionMonitor.x_candles_held ea = 2.
Proof.
  set (r := PositionMonitor.monitor_position unit loads_unit tt quote_45250 no_candles
              two_minutes true says_exit sample_store sample_long).
  assert (H : exists ea, r = (fst r, Some ea)).
  { eexists. vm_compute. reflexivity. }
  destruct H as [ea H].
  destruct (exit_needs_rule_and_model unit loads_unit tt quote_45250 no_candles
              two_minutes true says_exit sample_store (fst r) sample_long ea H)
    as (price & held & pnl & reason & Hpc & _ & _ & Hc & _ & _ & _ & _ & Hea & _).
  exists ea. split; [rewrite H; reflexivity|].
  vm_compute in Hpc. injection Hpc as <- <-.
  vm_compute in Hc. injection Hc as <-.
  rewrite Hea. split; reflexivity.
Defined.

(** X19 on [sample_store] with its one open row monitored. *)
Lemma exits_count_closed_rows_witness :
  Z.of_nat (List.length
              (TradingDatabase.get_open_positions
                 (TradesTable.trades
                    (fst (PositionMonitor.run unit loads_unit tt quote_45250 no_candles
                            two_minutes true says_exit closes_all sample_store
                            [sample_long])))))
  = Z.of_nat (List.length
                (TradingDatabase.get_open_positions (TradesTable.trades sample_store)))
    - PositionMonitor.exits_executed
        (snd (PositionMonitor.run unit loads_unit tt quote_45250 no_candles
                two_minutes true says_exit closes_all sample_store [sample_long])).
Proof.
  apply (exits_count_closed_rows unit loads_unit tt quote_45250 no_candles two_minutes
           true says_exit closes_all sample_store [sample_long]).
  - constructor; [simpl; tauto | constructor].
  - constructor; [simpl; tauto | constructor].
  - intros p [<-|[]]. now left.
Defined.

(** X20 on [sample_hourly] quoted at 45250: no candle is counted and the exit
    is a take-profit exit. *)
Lemma unknown_timeframe_never_times_out_witness :
  exists ea,
    snd (PositionMonitor.monitor_position unit loads_unit tt quote_45250 no_candles
           two_minutes true says_exit sample_store sample_hourly) = Some ea
    /\ PositionMonitor.x_candles_held ea = 0
    /\ (PositionMonitor.x_exit_reason ea = "take_profit_ai_confirmed"%string
        \/ PositionMonitor.x_exit_reason ea = "stop_loss_ai_confirmed"%string).
Proof.
  set (r := PositionMonitor.monitor_position unit loads_unit tt quote_45250 no_candles
              two_minutes true says_exit sample_store sample_hourly).
  assert (H : exists ea, r = (fst r, Some ea)).
  { eexists. vm_compute. reflexivity. }
  destruct H as [ea H].
  exists ea. split; [rewrite H; reflexivity|].
  apply (unknown_timeframe_never_times_out unit loads_unit tt quote_45250 no_candles
           two_minutes true says_exit sample_store (fst r) sample_hourly ea);
    try discriminate.
  - intros t Ht. injection Ht as <-. lia.
  - exact H.
Defined.

(** X24 on a long holding entered at 45000 and closed at 45250. *)
Lemma closing_in_profit_reports_no_loss_witness :
  exists r,
    HyperliquidExecutor.close_position true quotes_45250 holds_long "BTC"%string
    = Some r
    /\ (HyperliquidExecutor.closed_pnl r <? 0)%float = false.
Proof.
  eexists.
  match goal with
  | |- ?g = Some ?r /\ _ =>
      assert (Hr : g = Some r) by (vm_compute; reflexivity);
      destruct (closing_in_profit_reports_no_loss quotes_45250 holds_long
                  "BTC"%string r Hr) as [H _]
  end.
  - reflexivity.
  - reflexivity.
  - reflexivity.
  - reflexivity.
  - reflexivity.
  - split; [exact Hr | exact H].
Defined.

(** X12 for a LONG trade of BTC logged on an empty table. *)
Lemma logged_trade_is_found_witness :
  TradingDatabase.log_trade [] "BTC" "LONG" 50 5 45000 44700 45200 "1m" 15 None
  = Some ([sample_long], 0%nat)
  /\ TradingDatabase.get_position_by_symbol [sample_long] "BTC"%string
     = Some sample_long.
Proof.
  assert (Hlog : TradingDatabase.log_trade [] "BTC" "LONG" 50 5 45000 44700 45200
                   "1m" 15 None
                 = Some ([sample_long], 0%nat)) by (vm_compute; reflexivity).
  split; [exact Hlog|].
  destruct (proj2 (logged_trade_is_found [] "BTC" "LONG" 50 5 45000 44700 45200
                     "1m" 15 None) [sample_long] 0%nat Hlog)
    as (_ & _ & _ & _ & H & _).
  rewrite (H eq_refl). vm_compute. reflexivity.
Defined.

(** X13 on [sample_signal], approved and filled on an empty table: one row. *)
Lemma trading_run_only_appends_witness :
  exists rows,
    TradingAgent.run approve_all fill_all dumps_nothing [] [sample_signal] = rows
    /\ List.length rows = 1%nat.
Proof.
  destruct (trading_run_only_appends approve_all fill_all dumps_nothing []
              [sample_signal]) as (rows & Hrun & Hlen & _).
  exists rows. split; [exact Hrun|]. rewrite Hlen. vm_compute. reflexivity.
Defined.

(** X18 on [sample_store] with its one open row monitored and closed: the row
    is still there, closed at the quoted price, and its [candles_held] went
    from 0 to the 2 of the one position update filed. *)
Lemma monitor_run_accounting_witness :
  let result :=
    PositionMonitor.run unit loads_unit tt quote_45250 no_candles two_minutes true
      says_exit closes_all sample_store [sample_long] in
  PositionMonitor.positions_monitored (snd result) = 1
  /\ PositionMonitor.exits_executed (snd result) = 1
  /\ map pos_id (TradesTable.trades (fst result)) = [0%nat]
  /\ TradingDatabase.get_open_positions (TradesTable.trades (fst result)) = []
  /\ TradesTable.w_exit_price (TradesTable.written (fst result) 0%nat)
     = Some 45250%float
  /\ TradesTable.w_candles_held (TradesTable.written sample_store 0%nat) = 0
  /\ TradesTable.w_candles_held (TradesTable.written (fst result) 0%nat) = 2
  /\ List.length (TradesTable.position_updates (fst result)) = 1%nat.
Proof.
  destruct (monitor_run_accounting unit loads_unit tt quote_45250 no_candles
              two_minutes true says_exit closes_all sample_store [sample_long])
    as (Hn & _ & Hids & _).
  cbn zeta. split; [exact Hn|]. split; [vm_compute; reflexivity|].
  split; [exact Hids|]. repeat split; vm_compute; reflexivity.
Defined.

(** X21 on [sample_store] monitored without a model, at a price above the
    target: the row stays open with its exit columns empty, and its
    [candles_held] went from 0 to 2. *)
Lemma monitor_without_model_closes_nothing_witness :
  let result :=
    PositionMonitor.run unit loads_unit tt quote_45250 no_candles two_minutes false
      says_exit closes_all sample_store [sample_long] in
  TradesTable.trades (fst result) = [sample_long]
  /\ PositionMonitor.exits_executed (snd result) = 0
  /\ exit_columns (TradesTable.written (fst result) 0%nat)
     = (None, Some 0%float, None)
  /\ TradesTable.w_candles_held (TradesTable.written sample_store 0%nat) = 0
  /\ TradesTable.w_candles_held (TradesTable.written (fst result) 0%nat) = 2.
Proof.
  destruct (monitor_without_model_closes_nothing unit loads_unit tt quote_45250
              no_candles two_minutes says_exit closes_all sample_store [sample_long])
    as (Ht & Hx & _ & He & _).
  cbn zeta. split; [exact Ht|]. split; [exact Hx|].
  split; [rewrite He; reflexivity|]. split; vm_compute; reflexivity.
Defined.
